(** * Snapshot and share lifecycle of the HNAS pre- and post-backup scripts

    A shallow embedding of [fixed_hnas_pre_backup.py] and
    [fixed_hnas_post_backup.py].  The two scripts are sequences of calls to
    the array's REST interface, glued together by string handling, JSON
    look-ups and a manifest file.  The embedding keeps that shape:

    - JSON documents are values of [pyval];
    - a Python [str] is a [string] whose characters are the code points
      below 256;
    - everything outside the process (the array behind the HTTP session,
      the clock, the file system) is a [world] of oracles that answer from
      the history of what the script has done so far;
    - a method is a computation in the monad [M]: it reads the [world],
      appends to the list of observable [event]s and either returns or
      raises a Python exception ([sys.exit] raises [SystemExit]). *)

From Stdlib Require Import ZArith QArith List String Ascii Bool Lia.
From stdpp Require Import gmap strings.
Import ListNotations.
Set Warnings "-register-all".
Local Open Scope string_scope.
Local Open Scope list_scope.
Local Open Scope Z_scope.

(** ** Python strings *)

Module PyStr.

Definition code (c : ascii) : Z := Z.of_N (N_of_ascii c).

(** [str.isspace] on the code points below 256: the set that
    [str.strip()] removes. *)
Definition isspace (c : ascii) : bool :=
  let n := code c in
  ((9 <=? n) && (n <=? 13)) || ((28 <=? n) && (n <=? 32))
  || (n =? 133) || (n =? 160).

(** The white space [int()] accepts around a literal: the C locale's
    white space, and the two code points above 127 that count as spaces. *)
Definition int_isspace (c : ascii) : bool :=
  let n := code c in
  ((9 <=? n) && (n <=? 13)) || (n =? 32) || (n =? 133) || (n =? 160).

Definition isdigit (c : ascii) : bool :=
  let n := code c in (48 <=? n) && (n <=? 57).

Definition digit_value (c : ascii) : Z := code c - 48.

Fixpoint lstrip (s : string) : string :=
  match s with
  | String c r => if isspace c then lstrip r else s
  | EmptyString => EmptyString
  end.

(** Drops the trailing white space: a character is kept when something
    that is kept follows it, or when it is not white space itself. *)
Fixpoint rstrip (s : string) : string :=
  match s with
  | EmptyString => EmptyString
  | String c r =>
      match rstrip r with
      | EmptyString => if isspace c then EmptyString else String c EmptyString
      | r' => String c r'
      end
  end.

(** [s.strip()] *)
Definition strip (s : string) : string := rstrip (lstrip s).

Fixpoint int_lstrip (s : string) : string :=
  match s with
  | String c r => if int_isspace c then int_lstrip r else s
  | EmptyString => EmptyString
  end.

Fixpoint int_rstrip (s : string) : string :=
  match s with
  | EmptyString => EmptyString
  | String c r =>
      match int_rstrip r with
      | EmptyString =>
          if int_isspace c then EmptyString else String c EmptyString
      | r' => String c r'
      end
  end.

(** [s.split(sep)] for a separator of one character: the pieces between
    the separators, in order; never an empty list. *)
Fixpoint split (sep : ascii) (s : string) : list string :=
  match s with
  | EmptyString => [EmptyString]
  | String c r =>
      if Ascii.eqb c sep then EmptyString :: split sep r
      else match split sep r with
           | p :: ps => String c p :: ps
           | [] => [String c EmptyString]
           end
  end.

Definition lower_char (c : ascii) : ascii :=
  let n := code c in
  if ((65 <=? n) && (n <=? 90))
     || ((192 <=? n) && (n <=? 222) && negb (n =? 215))
  then ascii_of_N (Z.to_N (n + 32)) else c.

(** [s.lower()] *)
Fixpoint lower (s : string) : string :=
  match s with
  | EmptyString => EmptyString
  | String c r => String (lower_char c) (lower r)
  end.

(** [s.startswith(p)] *)
Definition startswith (p s : string) : bool := String.prefix p s.

(** [len(s)] *)
Definition len (s : string) : Z := Z.of_nat (String.length s).

(** [all(c in chars for c in s)] *)
Fixpoint all_in (chars : string) (s : string) : bool :=
  match s with
  | EmptyString => true
  | String c r =>
      (existsb (Ascii.eqb c) (list_ascii_of_string chars)) && all_in chars r
  end.

(** The digits of an integer literal after the sign: one digit, then
    digits each preceded by at most one underscore.  [acc] is the value
    read so far, [n] the number of digits read, [us] tells that the
    previous character was an underscore. *)
Fixpoint int_digits (s : string) (acc : Z) (n : N) (us : bool)
  : option (Z * N) :=
  match s with
  | EmptyString => if us then None else Some (acc, n)
  | String c r =>
      if isdigit c then int_digits r (10 * acc + digit_value c) (n + 1)%N false
      else if Ascii.eqb c "_"%char then
             if us then None else int_digits r acc n true
           else None
  end.

Definition int_unsigned (s : string) : option (Z * N) :=
  match s with
  | String c r => if isdigit c then int_digits s 0 0%N false else None
  | EmptyString => None
  end.

(** [int(s)] in base 10; [None] stands for [ValueError].  [max_digits]
    is [sys.get_int_max_str_digits()]: zero switches the limit off. *)
Definition to_int (max_digits : N) (s : string) : option Z :=
  let t := int_rstrip (int_lstrip s) in
  let '(neg, body) :=
    match t with
    | String "-"%char r => (true, r)
    | String "+"%char r => (false, r)
    | _ => (false, t)
    end in
  match int_unsigned body with
  | Some (v, n) =>
      if (negb (max_digits =? 0)%N) && (max_digits <? n)%N then None
      else Some (if neg then - v else v)
  | None => None
  end.

End PyStr.

(** ** Naive date-times and [datetime.strptime] *)

Module PyTime.

Record datetime := mkdt {
  year : Z; month : Z; day : Z;
  hour : Z; minute : Z; second : Z; microsecond : Z }.

(** [a < b] on naive date-times: the fields compared in order. *)
Fixpoint lex_lt (a b : list Z) : bool :=
  match a, b with
  | x :: a', y :: b' => (x <? y) || ((x =? y) && lex_lt a' b')
  | _, _ => false
  end.

Definition fields (d : datetime) : list Z :=
  [year d; month d; day d; hour d; minute d; second d; microsecond d].

Definition lt (a b : datetime) : bool := lex_lt (fields a) (fields b).

Definition is_leap (y : Z) : bool :=
  ((y mod 4 =? 0) && negb (y mod 100 =? 0)) || (y mod 400 =? 0).

Definition days_in_month (y m : Z) : Z :=
  if m =? 2 then (if is_leap y then 29 else 28)
  else if (m =? 4) || (m =? 6) || (m =? 9) || (m =? 11) then 30
  else 31.

(** What one directive of the format can take from the front of the input:
    the alternatives of its regular expression, in the order the matcher
    tries them, each with the number read and the input left. *)
Definition parse := list (Z * string).

Definition digit_in (lo hi : Z) (c : ascii) : bool :=
  PyStr.isdigit c && (lo <=? PyStr.digit_value c) && (PyStr.digit_value c <=? hi).

(** One character in [lo]..[hi], read as a number. *)
Definition one (lo hi : Z) (s : string) : parse :=
  match s with
  | String c r => if digit_in lo hi c then [(PyStr.digit_value c, r)] else []
  | EmptyString => []
  end.

(** Two characters, the first in [a]..[b] and the second in [c]..[d]. *)
Definition two (a b c d : Z) (s : string) : parse :=
  match s with
  | String x (String y r) =>
      if digit_in a b x && digit_in c d y
      then [(10 * PyStr.digit_value x + PyStr.digit_value y, r)] else []
  | _ => []
  end.

(** A space and one character in 1..9: the last alternative of [%d]. *)
Definition space_one (s : string) : parse :=
  match s with
  | String " "%char r => one 1 9 r
  | _ => []
  end.

(** [%Y]: [\d\d\d\d] *)
Definition dir_Y (s : string) : parse :=
  match s with
  | String a (String b (String c (String d r))) =>
      if PyStr.isdigit a && PyStr.isdigit b && PyStr.isdigit c && PyStr.isdigit d
      then [(1000 * PyStr.digit_value a + 100 * PyStr.digit_value b
             + 10 * PyStr.digit_value c + PyStr.digit_value d, r)]
      else []
  | _ => []
  end.

(** [%m]: [1[0-2]|0[1-9]|[1-9]] *)
Definition dir_m (s : string) : parse :=
  two 1 1 0 2 s ++ two 0 0 1 9 s ++ one 1 9 s.

(** [%d]: [3[0-1]|[1-2]\d|0[1-9]|[1-9]| [1-9]] *)
Definition dir_d (s : string) : parse :=
  two 3 3 0 1 s ++ two 1 2 0 9 s ++ two 0 0 1 9 s ++ one 1 9 s ++ space_one s.

(** [%H]: [2[0-3]|[0-1]\d|\d] *)
Definition dir_H (s : string) : parse :=
  two 2 2 0 3 s ++ two 0 1 0 9 s ++ one 0 9 s.

(** [%M]: [[0-5]\d|\d] *)
Definition dir_M (s : string) : parse :=
  two 0 5 0 9 s ++ one 0 9 s.

(** [%S]: [6[0-1]|[0-5]\d|\d] *)
Definition dir_S (s : string) : parse :=
  two 6 6 0 1 s ++ two 0 5 0 9 s ++ one 0 9 s.

(** The literal underscore of the format. *)
Definition underscore (s : string) : list string :=
  match s with
  | String "_"%char r => [r]
  | _ => []
  end.

(** Every way the expression of ['%Y%m%d_%H%M%S'] matches a prefix of the
    input, in the order a backtracking matcher finds them; the matcher
    stops at the first. *)
Definition matches (s : string) : list (datetime * string) :=
  flat_map (fun '(yy, s1) =>
  flat_map (fun '(mo, s2) =>
  flat_map (fun '(dd, s3) =>
  flat_map (fun s4 =>
  flat_map (fun '(hh, s5) =>
  flat_map (fun '(mi, s6) =>
  List.map (fun '(ss, s7) => (mkdt yy mo dd hh mi ss 0, s7)) (dir_S s6))
    (dir_M s5)) (dir_H s4)) (underscore s3)) (dir_d s2)) (dir_m s1)) (dir_Y s).

(** The checks made when the date and the date-time are built from the
    numbers read. *)
Definition valid (t : datetime) : bool :=
  (1 <=? year t) && (year t <=? 9999)
  && (day t <=? days_in_month (year t) (month t))
  && (second t <=? 59).

(** [datetime.strptime(s, '%Y%m%d_%H%M%S')]; [None] stands for
    [ValueError]: no match, input left over after the match, or numbers
    that are no date or time of day. *)
Definition strptime (s : string) : option datetime :=
  match matches s with
  | (t, EmptyString) :: _ => if valid t then Some t else None
  | _ => None
  end.

End PyTime.

(** ** Values decoded from JSON *)

Inductive pyfloat : Type :=
| Finite (q : Q)
| Infinite (negative : bool)
| NaN.

Inductive pyval : Type :=
| PNone
| PBool (b : bool)
| PInt (n : Z)
| PFloat (f : pyfloat)
| PStr (s : string)
| PList (items : list pyval)
| PDict (entries : list (string * pyval)).

(** Python exceptions the scripts can meet.  [SystemExit] is what
    [sys.exit] raises; it is the only one [except Exception] lets through. *)
Inductive exn : Type :=
| ValueError
| TypeError
| AttributeError
| OverflowError
| OSError
| HTTPError (status : Z) (text : string)
| RequestException
| SystemExit (code : Z).

Inductive result (A : Type) : Type :=
| Ok (a : A)
| Raise (e : exn).
Arguments Ok {A} a.
Arguments Raise {A} e.

Module Py.

(** [bool(v)] *)
Definition truthy (v : pyval) : bool :=
  match v with
  | PNone => false
  | PBool b => b
  | PInt n => negb (n =? 0)
  | PFloat (Finite q) => negb (Qeq_bool q 0)
  | PFloat _ => true
  | PStr s => negb (String.eqb s "")
  | PList l => match l with [] => false | _ => true end
  | PDict d => match d with [] => false | _ => true end
  end.

(** The binding of a key in a decoded object; the entries are kept in
    the order of the document and the first binding of a key stands for
    the one the dictionary holds. *)
Fixpoint assoc (k : string) (d : list (string * pyval)) : option pyval :=
  match d with
  | [] => None
  | (k', v) :: r => if String.eqb k k' then Some v else assoc k r
  end.

(** [v.get(k, default)]: only a dictionary has the method. *)
Definition get (v : pyval) (k : string) (default : pyval) : result pyval :=
  match v with
  | PDict d => Ok (match assoc k d with Some x => x | None => default end)
  | _ => Raise AttributeError
  end.

Definition chars (s : string) : list pyval :=
  List.map (fun c => PStr (String c EmptyString)) (list_ascii_of_string s).

(** The items a [for] loop visits: the elements of a list, the keys of a
    dictionary, the characters of a string; nothing else is iterable. *)
Definition iterate (v : pyval) : result (list pyval) :=
  match v with
  | PList l => Ok l
  | PDict d => Ok (List.map (fun kv => PStr (fst kv)) d)
  | PStr s => Ok (chars s)
  | _ => Raise TypeError
  end.

(** [len(v)] *)
Definition len (v : pyval) : result Z :=
  match v with
  | PList l => Ok (Z.of_nat (List.length l))
  | PDict d => Ok (Z.of_nat (List.length d))
  | PStr s => Ok (PyStr.len s)
  | _ => Raise TypeError
  end.

(** [v == s] for a string [s]: only an equal string is equal to it. *)
Definition eq_str (v : pyval) (s : string) : bool :=
  match v with
  | PStr t => String.eqb t s
  | _ => false
  end.

Definition float_lt_int (f : pyfloat) (c : Z) : bool :=
  match f with
  | Finite q => negb (Qle_bool (inject_Z c) q)
  | Infinite negative => negative
  | NaN => false
  end.

(** [v < c] for an integer [c]: numbers compare by value, anything else
    raises [TypeError]. *)
Definition lt_int (v : pyval) (c : Z) : result bool :=
  match v with
  | PBool b => Ok ((if b then 1 else 0) <? c)
  | PInt n => Ok (n <? c)
  | PFloat f => Ok (float_lt_int f c)
  | _ => Raise TypeError
  end.

Definition number (v : pyval) : option pyfloat :=
  match v with
  | PBool b => Some (Finite (inject_Z (if b then 1 else 0)))
  | PInt n => Some (Finite (inject_Z n))
  | PFloat f => Some f
  | _ => None
  end.

Definition float_eq (a b : pyfloat) : bool :=
  match a, b with
  | Finite x, Finite y => Qeq_bool x y
  | Infinite s, Infinite t => Bool.eqb s t
  | _, _ => false
  end.

(** Equality of two hashable values, as a set decides membership: numbers
    by value across [bool], [int] and [float], strings by content; two
    NaNs decoded from a document are different objects. *)
Definition eq_hashable (a b : pyval) : bool :=
  match a, b with
  | PNone, PNone => true
  | PStr s, PStr t => String.eqb s t
  | _, _ =>
      match number a, number b with
      | Some x, Some y => float_eq x y
      | _, _ => false
      end
  end.

Definition hashable (v : pyval) : bool :=
  match v with
  | PList _ | PDict _ => false
  | _ => true
  end.

(** [s.add(v)] on a set kept as the list of its members in the order
    they came in; a list or dictionary cannot be a member.  Python does
    not say in which order a loop visits a set: the loops here visit it
    in this order, and what is proved about them is stated up to the
    order. *)
Definition set_add (s : list pyval) (v : pyval) : result (list pyval) :=
  if hashable v then
    Ok (if existsb (eq_hashable v) s then s else s ++ [v])
  else Raise TypeError.

End Py.

(** ** The world outside the process *)

(** How a request authenticates: the user name [apikey] selects the key
    header, any other name basic authentication. *)
Inductive credentials : Type :=
| ApiKey (secret : string)
| BasicAuth (user secret : string).

(** The endpoints under [https://{host}:8444/v9/storage] the scripts use.
    An identifier is the value that is formatted into the URL. *)
Inductive request : Type :=
| GetFileDevices
| GetFilesystems
| GetFilesystem (filesystem_id : pyval)
| DeleteCifsShare (share_object_id : pyval)
| DeleteSnapshot (snapshot_object_id : pyval)
| GetVirtualServerCifs (virtual_server_id : pyval)
| GetFilesystemSnapshots (filesystem_id : pyval) (app_search_id : string)
| PostSnapshot (payload : pyval)
| PostCifsShare (payload : pyval).

Record call : Type := mkcall {
  call_host : string;
  call_verify : bool;
  call_auth : credentials;
  call_timeout : Z;
  call_request : request }.

(** What comes back: nothing (the transport failed or timed out), or a
    response with its status, its text and the document [response.json()]
    decodes from it ([None] when decoding raises). *)
Inductive outcome : Type :=
| NoResponse
| Response (status : Z) (text : string) (json : option pyval).

Inductive level : Type := INFO | WARNING | ERROR.

(** A value formatted into a message: a Python value or an exception. *)
Inductive logarg : Type :=
| LVal (v : pyval)
| LExn (e : exn).

(** What a run does that can be observed from outside, in order.  A
    message is the text of its f-string with [{}] for each formatted
    value, and the values. *)
Inductive event : Type :=
| SetupLogging (script : string) (log_dir : string)
| Called (c : call)
| Logged (l : level) (template : string) (args : list logarg)
| Printed (template : string) (args : list logarg)
| Makedirs (dir : string)
| Wrote (path : string) (document : pyval)
| Removed (path : string).

(** The oracles.  Each answers from the events so far, so the array, the
    clock and the disk may change under the script. *)
Record world : Type := mkworld {
  (** the array's answer to a request *)
  respond : list event -> call -> outcome;
  (** [datetime.now().strftime('%Y%m%d_%H%M%S')] *)
  now_stamp : list event -> string;
  (** [datetime.now().isoformat()] *)
  now_iso : list event -> string;
  (** [int((datetime.now() - timedelta(days=d)).timestamp())], or the
      exception the date arithmetic raises *)
  cutoff_time : list event -> Z -> result Z;
  (** [datetime.now() - timedelta(days=d)], or the exception it raises *)
  cutoff_date : list event -> Z -> result PyTime.datetime;
  (** [str(v)] for a value that is not a string *)
  str_of : pyval -> string;
  (** [sys.get_int_max_str_digits()] *)
  max_str_digits : N;
  (** whether the log directory and the log file can be made *)
  log_setup_ok : list event -> string -> bool;
  (** [os.path.exists] *)
  fs_exists : list event -> string -> bool;
  (** the document [json.load] reads from a file, or the exception that
      opening or decoding raises *)
  fs_load : list event -> string -> result pyval;
  (** whether [os.remove] succeeds *)
  fs_remove_ok : list event -> string -> bool;
  (** [os.path.dirname] of the platform *)
  dirname : string -> string;
  (** whether [os.makedirs(d, exist_ok=True)] succeeds for a non-empty [d] *)
  fs_makedirs_ok : list event -> string -> bool;
  (** whether the file can be opened for writing and written *)
  fs_write_ok : list event -> string -> bool }.

(** ** Computations *)

Definition M (A : Type) : Type :=
  world -> list event -> result A * list event.

Definition ret {A} (a : A) : M A := fun _ tr => (Ok a, tr).

Definition raise {A} (e : exn) : M A := fun _ tr => (Raise e, tr).

Definition bind {A B} (m : M A) (k : A -> M B) : M B :=
  fun w tr =>
    match m w tr with
    | (Ok a, tr') => k a w tr'
    | (Raise e, tr') => (Raise e, tr')
    end.

Declare Scope py_scope.
Delimit Scope py_scope with py.
Notation "x <- m ;; k" := (bind m (fun x => k))
  (at level 100, m at next level, right associativity) : py_scope.
Notation "m ;;; k" := (bind m (fun _ => k))
  (at level 100, right associativity) : py_scope.
Local Open Scope py_scope.

Definition lift {A} (r : result A) : M A := fun _ tr => (r, tr).

Definition emit (e : event) : M unit := fun _ tr => (Ok tt, tr ++ [e]).

(** An answer of the world at the present history. *)
Definition ask {A} (f : world -> list event -> A) : M A :=
  fun w tr => (Ok (f w tr), tr).

Definition log (l : level) (template : string) (args : list logarg) : M unit :=
  emit (Logged l template args).

Definition print (template : string) (args : list logarg) : M unit :=
  emit (Printed template args).

(** [sys.exit(code)] *)
Definition sys_exit {A} (code : Z) : M A := raise (SystemExit code).

Definition is_exception (e : exn) : bool :=
  match e with
  | SystemExit _ => false
  | _ => true
  end.

(** [try: m  except Exception as e: handler e] *)
Definition try_except {A} (m : M A) (handler : exn -> M A) : M A :=
  fun w tr =>
    match m w tr with
    | (Ok a, tr') => (Ok a, tr')
    | (Raise e, tr') =>
        if is_exception e then handler e w tr' else (Raise e, tr')
    end.

(** [try: m  except ValueError: handler] *)
Definition try_value_error {A} (m : M A) (handler : M A) : M A :=
  fun w tr =>
    match m w tr with
    | (Raise ValueError, tr') => handler w tr'
    | r => r
    end.

(** A [for] loop that carries the local variables it updates. *)
Fixpoint for_fold {A S} (items : list A) (s : S) (body : S -> A -> M S)
  : M S :=
  match items with
  | [] => ret s
  | x :: rest => s' <- body s x ;; for_fold rest s' body
  end.

Definition for_each {A} (items : list A) (body : A -> M unit) : M unit :=
  for_fold items tt (fun _ x => body x).

(** [str(v)], as an f-string formats a value. *)
Definition format (v : pyval) : M string :=
  match v with
  | PStr s => ret s
  | _ => ask (fun w _ => str_of w v)
  end.

(** ** The storage client: [class HNASSnapshotManager]

    Both scripts define the class; [test_connection], [get_all_filesystems],
    [get_filesystem_by_name] and [get_filesystem_info] are the same in
    both, the other methods belong to one script each. *)

Module HNAS.

Record manager : Type := mkmanager {
  hnas_host : string;
  username : string;
  password : string;
  verify_ssl : bool }.

Record response : Type := mkresponse {
  status_code : Z;
  text : string;
  body : option pyval }.

(** The [headers] and [auth] every method builds before its request. *)
Definition auth (self : manager) : credentials :=
  if String.eqb (username self) "apikey" then ApiKey (password self)
  else BasicAuth (username self) (password self).

(** [self.session.get], [.post] and [.delete]: the request is recorded and
    the world answers; no answer is an exception of the transport. *)
Definition send (self : manager) (timeout : Z) (r : request) : M response :=
  fun w tr =>
    let c := mkcall (hnas_host self) (verify_ssl self) (auth self) timeout r in
    match respond w tr c with
    | NoResponse => (Raise RequestException, tr ++ [Called c])
    | Response st tx js => (Ok (mkresponse st tx js), tr ++ [Called c])
    end.

(** [response.raise_for_status()] *)
Definition raise_for_status (r : response) : M unit :=
  if (400 <=? status_code r) && (status_code r <? 600)
  then raise (HTTPError (status_code r) (text r))
  else ret tt.

(** [response.json()] *)
Definition json (r : response) : M pyval :=
  match body r with
  | Some v => ret v
  | None => raise ValueError
  end.

Definition test_connection (self : manager) : M bool :=
  try_except
    (r <- send self 30 GetFileDevices ;;
     raise_for_status r ;;;
     device_info <- json r ;;
     name <- lift (Py.get device_info "name" (PStr "Unknown")) ;;
     log INFO "Connected to HNAS: {}" [LVal name] ;;;
     ret true)
    (fun e =>
       log ERROR "Failed to connect to HNAS: {}" [LExn e] ;;;
       ret false).

Definition get_all_filesystems (self : manager) : M pyval :=
  try_except
    (r <- send self 30 GetFilesystems ;;
     raise_for_status r ;;;
     data <- json r ;;
     lift (Py.get data "filesystems" (PList [])))
    (fun e =>
       log ERROR "Failed to get filesystems list: {}" [LExn e] ;;;
       ret (PList [])).

(** The loop of [get_filesystem_by_name]: the first item whose label is
    the name, [None] when the items run out. *)
Fixpoint first_with_label (name : string) (items : list pyval)
  : result pyval :=
  match items with
  | [] => Ok PNone
  | fs :: rest =>
      match Py.get fs "label" PNone with
      | Ok l => if Py.eq_str l name then Ok fs else first_with_label name rest
      | Raise e => Raise e
      end
  end.

Definition get_filesystem_by_name (self : manager) (filesystem_name : string)
  : M pyval :=
  try_except
    (filesystems <- get_all_filesystems self ;;
     items <- lift (Py.iterate filesystems) ;;
     lift (first_with_label filesystem_name items))
    (fun e =>
       log ERROR "Failed to find filesystem by name: {}" [LExn e] ;;;
       ret PNone).

Definition get_filesystem_info (self : manager) (filesystem_id : pyval)
  : M pyval :=
  try_except
    (r <- send self 30 (GetFilesystem filesystem_id) ;;
     raise_for_status r ;;;
     json r)
    (fun e =>
       log ERROR "Failed to get filesystem info: {}" [LExn e] ;;;
       ret PNone).

(** *** Methods of the post-backup script *)

Definition delete_smb_share (self : manager) (share_object_id : pyval)
  : M bool :=
  try_except
    (log INFO "Deleting SMB share with object ID: {}" [LVal share_object_id] ;;;
     r <- send self 60 (DeleteCifsShare share_object_id) ;;
     raise_for_status r ;;;
     log INFO "Successfully deleted SMB share: {}" [LVal share_object_id] ;;;
     ret true)
    (fun e =>
       match e with
       | HTTPError st tx =>
           if st =? 404 then
             log WARNING "SMB share '{}' not found (may have been already deleted)"
               [LVal share_object_id] ;;;
             ret true
           else
             log ERROR "HTTP error deleting SMB share: {} - {}"
               [LVal (PInt st); LVal (PStr tx)] ;;;
             ret false
       | _ =>
           log ERROR "Failed to delete SMB share: {}" [LExn e] ;;;
           ret false
       end).

Definition delete_snapshot (self : manager) (snapshot_object_id : pyval)
  : M bool :=
  try_except
    (log INFO "Deleting snapshot with object ID: {}" [LVal snapshot_object_id] ;;;
     r <- send self 60 (DeleteSnapshot snapshot_object_id) ;;
     raise_for_status r ;;;
     log INFO "Successfully deleted snapshot: {}" [LVal snapshot_object_id] ;;;
     ret true)
    (fun e =>
       match e with
       | HTTPError st tx =>
           if st =? 404 then
             log WARNING "Snapshot '{}' not found (may have been already deleted)"
               [LVal snapshot_object_id] ;;;
             ret true
           else
             log ERROR "HTTP error deleting snapshot: {} - {}"
               [LVal (PInt st); LVal (PStr tx)] ;;;
             ret false
       | _ =>
           log ERROR "Failed to delete snapshot: {}" [LExn e] ;;;
           ret false
       end).

(** [share_name.startswith(prefix)]: only a string has the method. *)
Definition name_startswith (share_name : pyval) (prefix : string)
  : result bool :=
  match share_name with
  | PStr s => Ok (PyStr.startswith prefix s)
  | _ => Raise AttributeError
  end.

(** The filter of [get_virtual_server_smb_shares]. *)
Fixpoint matching_shares (prefix : string) (items : list pyval)
  : result (list pyval) :=
  match items with
  | [] => Ok []
  | share :: rest =>
      match Py.get share "name" (PStr "") with
      | Raise e => Raise e
      | Ok share_name =>
          match name_startswith share_name prefix with
          | Raise e => Raise e
          | Ok keep =>
              match matching_shares prefix rest with
              | Raise e => Raise e
              | Ok l => Ok (if keep then share :: l else l)
              end
          end
      end
  end.

Definition get_virtual_server_smb_shares (self : manager)
  (virtual_server_id : pyval) (share_name_prefix : string) : M (list pyval) :=
  try_except
    (r <- send self 30 (GetVirtualServerCifs virtual_server_id) ;;
     raise_for_status r ;;;
     shares_data <- json r ;;
     all <- lift (Py.get shares_data "filesystemShares" (PList [])) ;;
     items <- lift (Py.iterate all) ;;
     lift (matching_shares share_name_prefix items))
    (fun e =>
       log ERROR "Failed to get SMB shares: {}" [LExn e] ;;;
       ret []).

Definition get_filesystem_snapshots (self : manager) (filesystem_id : pyval)
  (app_search_id : string) : M pyval :=
  try_except
    (r <- send self 30 (GetFilesystemSnapshots filesystem_id app_search_id) ;;
     raise_for_status r ;;;
     snapshots_data <- json r ;;
     lift (Py.get snapshots_data "snapshots" (PList [])))
    (fun e =>
       log ERROR "Failed to list snapshots: {}" [LExn e] ;;;
       ret (PList [])).

End HNAS.

(** ** The process environment *)

(** [os.environ.get(k, d)] *)
Definition environ_get (env : gmap string string) (k d : string) : string :=
  default d (env !! k).

(** [os.environ.get(k, d).lower() == 'true'] *)
Definition environ_flag (env : gmap string string) (k d : string) : bool :=
  String.eqb (PyStr.lower (environ_get env k d)) "true".

(** [int(os.environ.get(k, d))] *)
Definition environ_int (env : gmap string string) (k d : string) : M Z :=
  limit <- ask (fun w _ => max_str_digits w) ;;
  match PyStr.to_int limit (environ_get env k d) with
  | Some n => ret n
  | None => raise ValueError
  end.

(** [HNASSnapshotManager(...)]: the constructor stores the parameters and
    sets the logging up, which makes the log directory and opens the log
    file of the day. *)
Definition new_manager (env : gmap string string) (script : string)
  (host user secret : string) (verify : bool) : M HNAS.manager :=
  let log_dir := environ_get env "VEEAM_LOG_DIR" "C:\VeeamScripts\Logs" in
  emit (SetupLogging script log_dir) ;;;
  ok <- ask (fun w tr => log_setup_ok w tr log_dir) ;;
  if ok then ret (HNAS.mkmanager host user secret verify) else raise OSError.

(** The test on a filesystem reference: 32 characters, all of them
    hexadecimal digits. *)
Definition looks_like_id (s : string) : bool :=
  (PyStr.len s =? 32) && PyStr.all_in "0123456789ABCDEFabcdef" s.

(** How a run ends for the process that started it: 0 when [main]
    returns, the code of [sys.exit], 1 when an exception is not caught. *)
Definition exit_status {A} (r : result A) : Z :=
  match r with
  | Ok _ => 0
  | Raise (SystemExit code) => code
  | Raise _ => 1
  end.

(** ** The post-backup script *)

Module Post.

Import HNAS.

(** The comparison and the deletion at the end of the loop body of
    [cleanup_old_snapshots], for a creation time that is no string. *)
Definition delete_if_older (self : manager) (cutoff_time : Z)
  (deleted_count : Z) (snapshot creation_time : pyval) : M Z :=
  older <- lift (Py.lt_int creation_time cutoff_time) ;;
  if older then
    snapshot_object_id <- lift (Py.get snapshot "objectId" PNone) ;;
    if Py.truthy snapshot_object_id then
      deleted <- delete_snapshot self snapshot_object_id ;;
      ret (if deleted then deleted_count + 1 else deleted_count)
    else ret deleted_count
  else ret deleted_count.

(** The body of the loop of [cleanup_old_snapshots]; it returns the new
    [deleted_count]. *)
Definition sweep_snapshot (self : manager) (cutoff_time : Z)
  (deleted_count : Z) (snapshot : pyval) : M Z :=
  creation_time <- lift (Py.get snapshot "creationTime" (PInt 0)) ;;
  match creation_time with
  | PStr s =>
      limit <- ask (fun w _ => max_str_digits w) ;;
      match PyStr.to_int limit s with
      | Some n => delete_if_older self cutoff_time deleted_count snapshot (PInt n)
      | None =>
          name <- lift (Py.get snapshot "displayName" (PStr "unknown")) ;;
          log WARNING "Invalid creation time format for snapshot: {}"
            [LVal name] ;;;
          ret deleted_count
      end
  | _ => delete_if_older self cutoff_time deleted_count snapshot creation_time
  end.

Definition cleanup_old_snapshots (self : manager) (filesystem_id : pyval)
  (app_search_id : string) (retention_days : Z) : M Z :=
  try_except
    (snapshots <- get_filesystem_snapshots self filesystem_id app_search_id ;;
     if negb (Py.truthy snapshots) then ret 0
     else
       cutoff <- ask (fun w tr => cutoff_time w tr retention_days) ;;
       cutoff_time <- lift cutoff ;;
       items <- lift (Py.iterate snapshots) ;;
       for_fold items 0 (sweep_snapshot self cutoff_time))
    (fun e =>
       log ERROR "Error during snapshot cleanup: {}" [LExn e] ;;;
       ret 0).

(** [share_name.split('_')]: only a string has the method. *)
Definition name_parts (share_name : pyval) : result (list string) :=
  match share_name with
  | PStr s => Ok (PyStr.split "_" s)
  | _ => Raise AttributeError
  end.

(** [f"{parts[-2]}_{parts[-1]}"] when [len(parts) >= 3]. *)
Definition timestamp_str (parts : list string) : option string :=
  match rev parts with
  | time_part :: date_part :: _ :: _ =>
      Some (date_part ++ "_" ++ time_part)%string
  | _ => None
  end.

(** The body of the loop of [cleanup_old_smb_shares]. *)
Definition sweep_share (self : manager) (cutoff_date : PyTime.datetime)
  (deleted_count : Z) (share : pyval) : M Z :=
  share_name <- lift (Py.get share "name" (PStr "")) ;;
  try_value_error
    (parts <- lift (name_parts share_name) ;;
     match timestamp_str parts with
     | Some stamp =>
         match PyTime.strptime stamp with
         | None => raise ValueError
         | Some share_date =>
             if PyTime.lt share_date cutoff_date then
               share_object_id <- lift (Py.get share "objectId" PNone) ;;
               if Py.truthy share_object_id then
                 deleted <- delete_smb_share self share_object_id ;;
                 ret (if deleted then deleted_count + 1 else deleted_count)
               else ret deleted_count
             else ret deleted_count
         end
     | None => ret deleted_count
     end)
    (log WARNING "Skipping SMB share with unexpected name format: {}"
       [LVal share_name] ;;;
     ret deleted_count).

Definition cleanup_old_smb_shares (self : manager) (virtual_server_id : pyval)
  (share_name_prefix : string) (retention_days : Z) : M Z :=
  try_except
    (shares <- get_virtual_server_smb_shares self virtual_server_id
                 share_name_prefix ;;
     match shares with
     | [] => ret 0
     | _ =>
         cutoff <- ask (fun w tr => cutoff_date w tr retention_days) ;;
         cutoff_date <- lift cutoff ;;
         for_fold shares 0 (sweep_share self cutoff_date)
     end)
    (fun e =>
       log ERROR "Error during SMB share cleanup: {}" [LExn e] ;;;
       ret 0).

(** [validate_backup_result]: the job result decides, the session result
    is read and not used. *)
Definition validate_backup_result (env : gmap string string) : bool * string :=
  let job_result := environ_get env "VEEAM_JOB_RESULT" "Unknown" in
  let session_result := environ_get env "VEEAM_SESSION_RESULT" "Unknown" in
  if String.eqb job_result "Success" || String.eqb job_result "Warning"
  then (true, job_result)
  else (false, job_result).

Record config : Type := mkconfig {
  cfg_hnas_host : string;
  cfg_username : string;
  cfg_password : string;
  cfg_verify_ssl : bool;
  cleanup_on_success : bool;
  cleanup_on_failure : bool;
  retention_days : Z;
  app_search_id : string;
  smb_share_name : string }.

(** The [config] dictionary of [main]. *)
Definition read_config (env : gmap string string) : M config :=
  days <- environ_int env "HNAS_RETENTION_DAYS" "7" ;;
  ret (mkconfig
         (environ_get env "HNAS_HOST" "")
         (environ_get env "HNAS_USERNAME" "")
         (environ_get env "HNAS_PASSWORD" "")
         (environ_flag env "HNAS_VERIFY_SSL" "false")
         (environ_flag env "HNAS_CLEANUP_ON_SUCCESS" "false")
         (environ_flag env "HNAS_CLEANUP_ON_FAILURE" "true")
         days
         (environ_get env "HNAS_APP_SEARCH_ID" "veeam")
         (environ_get env "HNAS_SMB_SHARE_NAME" "VeeamNASBackup")).

(** [all([host, username, password])] *)
Definition required_present (c : config) : bool :=
  negb (String.eqb (cfg_hnas_host c) "")
  && negb (String.eqb (cfg_username c) "")
  && negb (String.eqb (cfg_password c) "").

(** The decision of [main] whether to clean up what this session made. *)
Definition should_cleanup (backup_success : bool) (c : config) : bool :=
  (backup_success && cleanup_on_success c)
  || (negb backup_success && cleanup_on_failure c).

(** The part of [main] that loads the manifest; it returns
    [created_snapshots]. *)
Definition load_created_snapshots (snapshot_info_file : string) : M pyval :=
  exists_ <- ask (fun w tr => fs_exists w tr snapshot_info_file) ;;
  if exists_ then
    loaded <- ask (fun w tr => fs_load w tr snapshot_info_file) ;;
    match loaded with
    | Raise e =>
        log ERROR "Failed to load snapshot information: {}" [LExn e] ;;;
        ret (PList [])
    | Ok snapshot_data =>
        match Py.get snapshot_data "snapshots" (PList []) with
        | Raise e =>
            log ERROR "Failed to load snapshot information: {}" [LExn e] ;;;
            ret (PList [])
        | Ok created_snapshots =>
            match Py.len created_snapshots with
            | Ok n =>
                log INFO
                  "Loaded information for {} snapshots from pre-backup script"
                  [LVal (PInt n)]
            | Raise e =>
                log ERROR "Failed to load snapshot information: {}" [LExn e]
            end ;;;
            ret created_snapshots
        end
    end
  else
    log WARNING "Snapshot info file not found: {}"
      [LVal (PStr snapshot_info_file)] ;;;
    ret (PList []).

(** The body of the loop over the manifest entries: the share first, then
    the snapshot. *)
Definition cleanup_entry (self : manager) (deleted_count : Z)
  (snapshot_info : pyval) : M Z :=
  smb_share_object_id <- lift (Py.get snapshot_info "smb_share_object_id" PNone) ;;
  (if Py.truthy smb_share_object_id then
     name <- lift (Py.get snapshot_info "smb_share_name" (PStr "Unknown")) ;;
     log INFO "Deleting SMB share: {}" [LVal name] ;;;
     _ <- delete_smb_share self smb_share_object_id ;;
     ret tt
   else ret tt) ;;;
  snapshot_object_id <- lift (Py.get snapshot_info "snapshot_object_id" PNone) ;;
  if Py.truthy snapshot_object_id then
    deleted <- delete_snapshot self snapshot_object_id ;;
    ret (if deleted then deleted_count + 1 else deleted_count)
  else ret deleted_count.

(** The manifest-driven clean-up of [main]; it returns [deleted_count]. *)
Definition cleanup_session (self : manager) (cleanup : bool)
  (created_snapshots : pyval) : M Z :=
  if cleanup && Py.truthy created_snapshots then
    log INFO
      "Cleaning up snapshots and SMB shares created during this backup session..."
      [] ;;;
    items <- lift (Py.iterate created_snapshots) ;;
    for_fold items 0 (cleanup_entry self)
  else ret 0.

(** [fs_info.get('filesystem', {}).get('virtualServerId')] added to the
    set when it is truthy. *)
Definition add_virtual_server (fs_info : pyval) (virtual_servers : list pyval)
  : M (list pyval) :=
  fs <- lift (Py.get fs_info "filesystem" (PDict [])) ;;
  vs_id <- lift (Py.get fs "virtualServerId" PNone) ;;
  if Py.truthy vs_id then lift (Py.set_add virtual_servers vs_id)
  else ret virtual_servers.

(** [filesystems.update(snap.get('filesystem_id') for snap in
    created_snapshots if snap.get('filesystem_id'))] *)
Definition add_manifest_filesystem (filesystems : list pyval) (snap : pyval)
  : M (list pyval) :=
  filesystem_id <- lift (Py.get snap "filesystem_id" PNone) ;;
  if Py.truthy filesystem_id then lift (Py.set_add filesystems filesystem_id)
  else ret filesystems.

(** The targets when the manifest has entries. *)
Definition targets_from_manifest (self : manager) (created_snapshots : pyval)
  : M (list pyval * list pyval) :=
  items <- lift (Py.iterate created_snapshots) ;;
  filesystems <- for_fold items [] add_manifest_filesystem ;;
  virtual_servers <-
    for_fold filesystems []
      (fun virtual_servers filesystem_id =>
         fs_info <- get_filesystem_info self filesystem_id ;;
         if Py.truthy fs_info then add_virtual_server fs_info virtual_servers
         else ret virtual_servers) ;;
  ret (filesystems, virtual_servers).

(** The body of the loop over [HNAS_FILESYSTEMS]. *)
Definition add_env_filesystem (self : manager)
  (targets : list pyval * list pyval) (fs_input : string)
  : M (list pyval * list pyval) :=
  let '(filesystems, virtual_servers) := targets in
  let fs_input := PyStr.strip fs_input in
  if String.eqb fs_input "" then ret targets
  else if looks_like_id fs_input then
    filesystems <- lift (Py.set_add filesystems (PStr fs_input)) ;;
    fs_info <- get_filesystem_info self (PStr fs_input) ;;
    if Py.truthy fs_info then
      virtual_servers <- add_virtual_server fs_info virtual_servers ;;
      ret (filesystems, virtual_servers)
    else ret (filesystems, virtual_servers)
  else
    fs_info <- get_filesystem_by_name self fs_input ;;
    if Py.truthy fs_info then
      filesystem_id <- lift (Py.get fs_info "filesystemId" PNone) ;;
      vs_id <- lift (Py.get fs_info "virtualServerId" PNone) ;;
      filesystems <-
        (if Py.truthy filesystem_id
         then lift (Py.set_add filesystems filesystem_id)
         else ret filesystems) ;;
      virtual_servers <-
        (if Py.truthy vs_id then lift (Py.set_add virtual_servers vs_id)
         else ret virtual_servers) ;;
      ret (filesystems, virtual_servers)
    else ret targets.

(** The targets when the manifest gave nothing. *)
Definition targets_from_environment (self : manager)
  (env : gmap string string) : M (list pyval * list pyval) :=
  for_fold (PyStr.split "," (environ_get env "HNAS_FILESYSTEMS" ""))
    ([], []) (add_env_filesystem self).

(** The retention sweep of [main]. *)
Definition retention_sweep (self : manager) (env : gmap string string)
  (c : config) (created_snapshots : pyval) : M unit :=
  log INFO
    "Performing retention-based cleanup (keeping snapshots newer than {} days)..."
    [LVal (PInt (retention_days c))] ;;;
  targets <-
    (if Py.truthy created_snapshots
     then targets_from_manifest self created_snapshots
     else targets_from_environment self env) ;;
  let '(filesystems, virtual_servers) := targets in
  for_each filesystems
    (fun filesystem_id =>
       cleanup_count <-
         cleanup_old_snapshots self filesystem_id (app_search_id c)
           (retention_days c) ;;
       if 0 <? cleanup_count then
         log INFO "Cleaned up {} old snapshots from filesystem '{}'"
           [LVal (PInt cleanup_count); LVal filesystem_id]
       else ret tt) ;;;
  for_each virtual_servers
    (fun virtual_server_id =>
       cleanup_count <-
         cleanup_old_smb_shares self virtual_server_id (smb_share_name c)
           (retention_days c) ;;
       if 0 <? cleanup_count then
         log INFO "Cleaned up {} old SMB shares from virtual server '{}'"
           [LVal (PInt cleanup_count); LVal virtual_server_id]
       else ret tt).

(** The removal of the manifest at the end of [main]. *)
Definition remove_manifest (cleanup : bool) (snapshot_info_file : string)
  : M unit :=
  exists_ <- (if cleanup
              then ask (fun w tr => fs_exists w tr snapshot_info_file)
              else ret false) ;;
  if exists_ then
    ok <- ask (fun w tr => fs_remove_ok w tr snapshot_info_file) ;;
    if ok then
      emit (Removed snapshot_info_file) ;;;
      log INFO "Cleaned up snapshot information file" []
    else
      log WARNING "Failed to clean up snapshot info file: {}" [LExn OSError]
  else ret tt.

(** The head of [main]: the result of the job, the configuration, the
    client and the connectivity probe. *)
Definition startup (env : gmap string string)
  : M (bool * string * config * manager) :=
  let '(backup_success, result) := validate_backup_result env in
  c <- read_config env ;;
  (if required_present c then ret tt
   else
     print
       "ERROR: Missing required configuration. Set HNAS_HOST, HNAS_USERNAME, and HNAS_PASSWORD environment variables."
       [] ;;;
     sys_exit 1) ;;;
  hnas <- new_manager env "hnas_post_backup" (cfg_hnas_host c)
            (cfg_username c) (cfg_password c) (cfg_verify_ssl c) ;;
  connected <- test_connection hnas ;;
  (if connected then ret tt
   else
     print
       "ERROR: Failed to connect to HNAS. Check credentials and network connectivity."
       [] ;;;
     sys_exit 1) ;;;
  ret (backup_success, result, c, hnas).

(** The path of the manifest. *)
Definition snapshot_info_file (env : gmap string string) : string :=
  environ_get env "VEEAM_SNAPSHOT_INFO" "C:\VeeamScripts\hnas_snapshot_info.json".

(** The work of [main] once the array answers. *)
Definition session (env : gmap string string) (backup_success : bool)
  (result : string) (c : config) (hnas : manager) : M unit :=
  log INFO "Backup job result: {}" [LVal (PStr result)] ;;;
  created_snapshots <- load_created_snapshots (snapshot_info_file env) ;;
  let cleanup := should_cleanup backup_success c in
  deleted_count <- cleanup_session hnas cleanup created_snapshots ;;
  (if 0 <? retention_days c
   then retention_sweep hnas env c created_snapshots
   else ret tt) ;;;
  remove_manifest cleanup (snapshot_info_file env) ;;;
  processed <- lift (Py.len created_snapshots) ;;
  log INFO
    "Post-backup script completed. Processed {} snapshots from this session."
    [LVal (PInt processed)] ;;;
  if cleanup then
    print
      "SUCCESS: Cleaned up {} snapshots and associated SMB shares from current backup session."
      [LVal (PInt deleted_count)]
  else
    print
      "SUCCESS: Post-backup processing completed. Snapshots and SMB shares retained based on configuration."
      [].

Definition main (env : gmap string string) : M unit :=
  started <- startup env ;;
  let '(backup_success, result, c, hnas) := started in
  session env backup_success result c hnas.

End Post.

(** ** The pre-backup script *)

Module Pre.

Import HNAS.

(** The payload of [create_snapshot]: the two optional keys are present
    when their values are truthy. *)
Definition snapshot_data (filesystem_id : pyval) (snapshot_name : string)
  (app_search_id : string) (retention_interval : option Z) : pyval :=
  PDict
    ([("filesystemId", filesystem_id); ("displayName", PStr snapshot_name)]
     ++ (if String.eqb app_search_id "" then []
         else [("appSearchId", PStr app_search_id)])
     ++ (match retention_interval with
         | Some n => if n =? 0 then [] else [("retentionInterval", PInt n)]
         | None => []
         end)).

Definition create_snapshot (self : manager) (filesystem_id : pyval)
  (snapshot_name : string) (app_search_id : string)
  (retention_interval : option Z) : M pyval :=
  try_except
    (log INFO "Creating snapshot '{}' for filesystem '{}'"
       [LVal (PStr snapshot_name); LVal filesystem_id] ;;;
     r <- send self 60
            (PostSnapshot
               (snapshot_data filesystem_id snapshot_name app_search_id
                  retention_interval)) ;;
     raise_for_status r ;;;
     snapshot_info <- json r ;;
     snapshot <- lift (Py.get snapshot_info "snapshot" (PDict [])) ;;
     shown <- lift (Py.get snapshot "displayName" (PStr snapshot_name)) ;;
     log INFO "Successfully created snapshot: {}" [LVal shown] ;;;
     ret snapshot)
    (fun e =>
       match e with
       | HTTPError st tx =>
           log ERROR "HTTP error creating snapshot: {} - {}"
             [LVal (PInt st); LVal (PStr tx)] ;;;
           ret PNone
       | _ =>
           log ERROR "Failed to create snapshot: {}" [LExn e] ;;;
           ret PNone
       end).

(** The payload of [create_smb_share]. *)
Definition share_data (filesystem_id virtual_server_id : pyval)
  (unique_share_name snapshot_path comment : string) : pyval :=
  PDict
    [("filesystemId", filesystem_id);
     ("virtualServerId", virtual_server_id);
     ("name", PStr unique_share_name);
     ("filesystemPath", PStr snapshot_path);
     ("comment", PStr comment);
     ("ensurePathExists", PBool false);
     ("accessConfig", PStr "");
     ("cacheOption", PStr "MANUAL_CACHING_DOCS");
     ("continuouslyAvailable", PBool false);
     ("encryptedAccess", PBool false);
     ("isABEEnabled", PBool false);
     ("isFollowGlobalSymbolicLinks", PBool false);
     ("isFollowSymbolicLinks", PBool false);
     ("isForceFileNameToLowercase", PBool false);
     ("isScanForVirusesEnabled", PBool false);
     ("maxConcurrentUsers", PInt (-1));
     ("snapshotOption", PStr "SHOW_AND_ALLOW_ACCESS");
     ("transferToReplicationTargetSetting", PStr "USE_FS_DEFAULT");
     ("userHomeDirectoryMode", PStr "OFF");
     ("noDefaultSecurity", PBool false)].

Definition create_smb_share (self : manager) (filesystem_id : pyval)
  (snapshot_name : string) (share_name : string) : M pyval :=
  try_except
    (fs_info <- get_filesystem_info self filesystem_id ;;
     if negb (Py.truthy fs_info) then
       log ERROR "Cannot get filesystem info for share creation" [] ;;;
       ret PNone
     else
       fs <- lift (Py.get fs_info "filesystem" (PDict [])) ;;
       virtual_server_id <- lift (Py.get fs "virtualServerId" PNone) ;;
       if negb (Py.truthy virtual_server_id) then
         log ERROR "Cannot determine virtual server for filesystem {}"
           [LVal filesystem_id] ;;;
         ret PNone
       else
         timestamp <- ask now_stamp ;;
         let unique_share_name := (share_name ++ "_" ++ timestamp)%string in
         let snapshot_path := ("\.snapshot\" ++ snapshot_name)%string in
         created_at <- ask now_iso ;;
         let comment :=
           ("Veeam backup snapshot share created at " ++ created_at)%string in
         log INFO "Creating SMB share '{}' for snapshot '{}'"
           [LVal (PStr unique_share_name); LVal (PStr snapshot_name)] ;;;
         r <- send self 60
                (PostCifsShare
                   (share_data filesystem_id virtual_server_id
                      unique_share_name snapshot_path comment)) ;;
         raise_for_status r ;;;
         share_info <- json r ;;
         log INFO "Successfully created SMB share: {}"
           [LVal (PStr unique_share_name)] ;;;
         lift (Py.get share_info "filesystemShare" (PDict [])))
    (fun e =>
       match e with
       | HTTPError st tx =>
           log ERROR "HTTP error creating SMB share: {} - {}"
             [LVal (PInt st); LVal (PStr tx)] ;;;
           ret PNone
       | _ =>
           log ERROR "Failed to create SMB share: {}" [LExn e] ;;;
           ret PNone
       end).

(** [get_snapshots]: the whole document of the listing, or [None]. *)
Definition get_snapshots (self : manager) (filesystem_id : pyval)
  (app_search_id : string) : M pyval :=
  try_except
    (r <- send self 30 (GetFilesystemSnapshots filesystem_id app_search_id) ;;
     raise_for_status r ;;;
     json r)
    (fun e =>
       log ERROR "Failed to list snapshots: {}" [LExn e] ;;;
       ret PNone).

Record config : Type := mkconfig {
  cfg_hnas_host : string;
  cfg_username : string;
  cfg_password : string;
  filesystems : list string;
  app_search_id : string;
  retention_interval : Z;
  cfg_verify_ssl : bool;
  cfg_create_smb_share : bool;
  smb_share_name : string }.

(** The [config] dictionary of [main]. *)
Definition read_config (env : gmap string string) : M config :=
  interval <- environ_int env "HNAS_RETENTION_INTERVAL" "0" ;;
  ret (mkconfig
         (environ_get env "HNAS_HOST" "")
         (environ_get env "HNAS_USERNAME" "")
         (environ_get env "HNAS_PASSWORD" "")
         (PyStr.split "," (environ_get env "HNAS_FILESYSTEMS" ""))
         (environ_get env "HNAS_APP_SEARCH_ID" "veeam")
         interval
         (environ_flag env "HNAS_VERIFY_SSL" "false")
         (environ_flag env "HNAS_CREATE_SMB_SHARE" "true")
         (environ_get env "HNAS_SMB_SHARE_NAME" "VeeamNASBackup")).

(** [all([host, username, password])] *)
Definition required_present (c : config) : bool :=
  negb (String.eqb (cfg_hnas_host c) "")
  && negb (String.eqb (cfg_username c) "")
  && negb (String.eqb (cfg_password c) "").

(** [not config['filesystems'] or config['filesystems'] == ['']] *)
Definition no_filesystems (c : config) : bool :=
  match filesystems c with
  | [] => true
  | [s] => String.eqb s ""
  | _ => false
  end.

(** The resolution of a reference at the head of the loop body: the
    identifier and the label, or [None] when the loop goes on to the next
    reference. *)
Definition resolve (self : manager) (filesystem_input : string)
  : M (option (pyval * pyval)) :=
  if looks_like_id filesystem_input then
    let filesystem_id := PStr filesystem_input in
    fs_info <- get_filesystem_info self filesystem_id ;;
    if negb (Py.truthy fs_info) then
      log WARNING "Could not retrieve info for filesystem ID: {}"
        [LVal filesystem_id] ;;;
      ret None
    else
      fs <- lift (Py.get fs_info "filesystem" (PDict [])) ;;
      filesystem_name <- lift (Py.get fs "label" filesystem_id) ;;
      ret (Some (filesystem_id, filesystem_name))
  else
    fs_info <- get_filesystem_by_name self filesystem_input ;;
    if negb (Py.truthy fs_info) then
      log WARNING "Could not find filesystem with name: {}"
        [LVal (PStr filesystem_input)] ;;;
      ret None
    else
      filesystem_id <- lift (Py.get fs_info "filesystemId" PNone) ;;
      filesystem_name <- lift (Py.get fs_info "label" (PStr filesystem_input)) ;;
      if negb (Py.truthy filesystem_id) then
        log WARNING "Found filesystem '{}' but no ID available"
          [LVal (PStr filesystem_input)] ;;;
        ret None
      else ret (Some (filesystem_id, filesystem_name)).

(** The display name of the snapshot of one filesystem. *)
Definition snapshot_name_of (app_search_id label timestamp : string) : string :=
  if String.eqb app_search_id "" then
    ("veeam_" ++ label ++ "_" ++ timestamp)%string
  else (app_search_id ++ "_" ++ label ++ "_" ++ timestamp)%string.

(** The share made for a snapshot and the keys it adds to the entry. *)
Definition share_keys (self : manager) (c : config) (filesystem_id : pyval)
  (snapshot_name : string) : M (list (string * pyval)) :=
  if cfg_create_smb_share c then
    log INFO "Creating SMB share for snapshot access..." [] ;;;
    smb_share <- create_smb_share self filesystem_id snapshot_name
                   (smb_share_name c) ;;
    if Py.truthy smb_share then
      name <- lift (Py.get smb_share "name" (PStr "")) ;;
      object_id <- lift (Py.get smb_share "objectId" (PStr "")) ;;
      path <- lift (Py.get smb_share "path" (PStr "")) ;;
      log INFO "SMB share created: {} -> {}" [LVal name; LVal path] ;;;
      ret [("smb_share_name", name); ("smb_share_object_id", object_id);
           ("smb_share_path", path)]
    else
      log WARNING
        "Failed to create SMB share for snapshot, but snapshot was created successfully"
        [] ;;;
      ret []
  else ret [].

(** The body of the loop of [main] over the references; it returns the
    new [created_snapshots]. *)
Definition process_filesystem (self : manager) (c : config)
  (timestamp : string) (created_snapshots : list pyval)
  (filesystem_input : string) : M (list pyval) :=
  let filesystem_input := PyStr.strip filesystem_input in
  if String.eqb filesystem_input "" then ret created_snapshots
  else
    log INFO "Processing filesystem input: {}" [LVal (PStr filesystem_input)] ;;;
    resolved <- resolve self filesystem_input ;;
    match resolved with
    | None => ret created_snapshots
    | Some (filesystem_id, filesystem_name) =>
        label <- format filesystem_name ;;
        let snapshot_name := snapshot_name_of (app_search_id c) label timestamp in
        log INFO "Creating snapshot for filesystem '{}' (ID: {})"
          [LVal filesystem_name; LVal filesystem_id] ;;;
        snapshot <- create_snapshot self filesystem_id snapshot_name
                      (app_search_id c)
                      (if 0 <? retention_interval c
                       then Some (retention_interval c) else None) ;;
        if Py.truthy snapshot then
          object_id <- lift (Py.get snapshot "objectId" (PStr "")) ;;
          creation_time <- lift (Py.get snapshot "creationTime" (PStr "")) ;;
          shared <- share_keys self c filesystem_id snapshot_name ;;
          ret (created_snapshots ++
               [PDict
                  ([("filesystem_id", filesystem_id);
                    ("filesystem_name", filesystem_name);
                    ("snapshot_name", PStr snapshot_name);
                    ("snapshot_object_id", object_id);
                    ("creation_time", creation_time);
                    ("app_search_id", PStr (app_search_id c))]
                   ++ shared)])
        else
          log ERROR "Failed to create snapshot for filesystem: {} ({})"
            [LVal filesystem_name; LVal filesystem_id] ;;;
          ret created_snapshots
    end.

(** The document [json.dump] writes. *)
Definition manifest (c : config) (timestamp : string)
  (created_snapshots : list pyval) : pyval :=
  PDict
    [("timestamp", PStr timestamp);
     ("snapshots", PList created_snapshots);
     ("config",
      PDict [("hnas_host", PStr (cfg_hnas_host c));
             ("app_search_id", PStr (app_search_id c))])].

(** [os.makedirs(d, exist_ok=True)]: the empty path is never a directory
    that exists or can be made. *)
Definition makedirs (d : string) : M unit :=
  if String.eqb d "" then raise OSError
  else
    ok <- ask (fun w tr => fs_makedirs_ok w tr d) ;;
    if ok then emit (Makedirs d) else raise OSError.

(** The path of the manifest. *)
Definition snapshot_info_file (env : gmap string string) : string :=
  environ_get env "VEEAM_SNAPSHOT_INFO" "C:\VeeamScripts\hnas_snapshot_info.json".

(** The end of the work of [main]: the manifest is saved for the
    post-backup script. *)
Definition save_manifest (env : gmap string string) (c : config)
  (timestamp : string) (created_snapshots : list pyval) : M unit :=
  parent <- ask (fun w _ => dirname w (snapshot_info_file env)) ;;
  makedirs parent ;;;
  ok <- ask (fun w tr => fs_write_ok w tr (snapshot_info_file env)) ;;
  if ok then
    emit (Wrote (snapshot_info_file env)
            (manifest c timestamp created_snapshots))
  else raise OSError.

(** The head of [main]: the configuration, the client and the
    connectivity probe. *)
Definition startup (env : gmap string string) : M (config * manager) :=
  c <- read_config env ;;
  (if required_present c then ret tt
   else
     print
       "ERROR: Missing required configuration. Set HNAS_HOST, HNAS_USERNAME, and HNAS_PASSWORD environment variables."
       [] ;;;
     sys_exit 1) ;;;
  (if no_filesystems c then
     print
       "ERROR: No filesystems specified. Set HNAS_FILESYSTEMS environment variable (comma-separated filesystem names or IDs)."
       [] ;;;
     sys_exit 1
   else ret tt) ;;;
  hnas <- new_manager env "hnas_pre_backup" (cfg_hnas_host c)
            (cfg_username c) (cfg_password c) (cfg_verify_ssl c) ;;
  connected <- test_connection hnas ;;
  (if connected then ret tt
   else
     print
       "ERROR: Failed to connect to HNAS. Check credentials and network connectivity."
       [] ;;;
     sys_exit 1) ;;;
  ret (c, hnas).

(** The loop of [main] over the references. *)
Definition snapshot_all (self : manager) (c : config) (timestamp : string)
  : M (list pyval) :=
  for_fold (filesystems c) [] (process_filesystem self c timestamp).

(** The end of [main]: the manifest, the summary and the exit. *)
Definition finish (env : gmap string string) (c : config)
  (timestamp : string) (created_snapshots : list pyval) : M unit :=
  save_manifest env c timestamp created_snapshots ;;;
  log INFO "Pre-backup script completed. Created {} snapshots."
    [LVal (PInt (Z.of_nat (List.length created_snapshots)))] ;;;
  match created_snapshots with
  | [] =>
      print "WARNING: No snapshots were created successfully." [] ;;;
      sys_exit 1
  | _ =>
      print "SUCCESS: Created {} snapshots for Veeam backup."
        [LVal (PInt (Z.of_nat (List.length created_snapshots)))]
  end.

Definition main (env : gmap string string) : M unit :=
  started <- startup env ;;
  let '(c, hnas) := started in
  timestamp <- ask now_stamp ;;
  created_snapshots <- snapshot_all hnas c timestamp ;;
  finish env c timestamp created_snapshots.

End Pre.

(** ** What a trace shows *)

(** The requests of a trace, in order. *)
Fixpoint calls (tr : list event) : list request :=
  match tr with
  | [] => []
  | Called c :: rest => call_request c :: calls rest
  | _ :: rest => calls rest
  end.

(** The object identifiers of the snapshots a trace asks to delete. *)
Fixpoint snapshot_deletes (tr : list event) : list pyval :=
  match tr with
  | [] => []
  | Called c :: rest =>
      match call_request c with
      | DeleteSnapshot oid => oid :: snapshot_deletes rest
      | _ => snapshot_deletes rest
      end
  | _ :: rest => snapshot_deletes rest
  end.

(** The object identifiers of the shares a trace asks to delete. *)
Fixpoint share_deletes (tr : list event) : list pyval :=
  match tr with
  | [] => []
  | Called c :: rest =>
      match call_request c with
      | DeleteCifsShare oid => oid :: share_deletes rest
      | _ => share_deletes rest
      end
  | _ :: rest => share_deletes rest
  end.

(** The warnings of a trace. *)
Fixpoint warnings (tr : list event) : list (string * list logarg) :=
  match tr with
  | [] => []
  | Logged WARNING t a :: rest => (t, a) :: warnings rest
  | _ :: rest => warnings rest
  end.

(** The answer of the array to the request [delete_snapshot] sends: the
    request follows the line the method logs first. *)
Definition delete_snapshot_answer (self : HNAS.manager) (oid : pyval)
  (w : world) (tr : list event) : outcome :=
  respond w
    (tr ++ [Logged INFO "Deleting snapshot with object ID: {}" [LVal oid]])
    (mkcall (HNAS.hnas_host self) (HNAS.verify_ssl self) (HNAS.auth self) 60
       (DeleteSnapshot oid)).

Definition delete_smb_share_answer (self : HNAS.manager) (oid : pyval)
  (w : world) (tr : list event) : outcome :=
  respond w
    (tr ++ [Logged INFO "Deleting SMB share with object ID: {}" [LVal oid]])
    (mkcall (HNAS.hnas_host self) (HNAS.verify_ssl self) (HNAS.auth self) 60
       (DeleteCifsShare oid)).

(** What [delete_snapshot] and [delete_smb_share] return for an answer of
    the array. *)
Definition delete_result (o : outcome) : bool :=
  match o with
  | NoResponse => false
  | Response st _ _ => negb ((400 <=? st) && (st <? 600)) || (st =? 404)
  end.

(** ** Example worlds *)

Module Examples.

(** [posixpath.dirname]: the path up to its last slash, without the
    slashes at its end unless it has nothing else. *)
Fixpoint upto_last_slash (s : string) : option string :=
  match s with
  | EmptyString => None
  | String c r =>
      match upto_last_slash r with
      | Some h => Some (String c h)
      | None => if Ascii.eqb c "/" then Some (String c EmptyString) else None
      end
  end.

Fixpoint all_slashes (s : string) : bool :=
  match s with
  | EmptyString => true
  | String c r => Ascii.eqb c "/" && all_slashes r
  end.

Fixpoint rstrip_slashes (s : string) : string :=
  match s with
  | EmptyString => EmptyString
  | String c r =>
      match rstrip_slashes r with
      | EmptyString => if Ascii.eqb c "/" then EmptyString else String c EmptyString
      | r' => String c r'
      end
  end.

Definition posix_dirname (p : string) : string :=
  match upto_last_slash p with
  | None => EmptyString
  | Some h => if all_slashes h then h else rstrip_slashes h
  end.

(** A world whose array answers each request from the request alone, at
    03:00:00 on 15 January 2024, with a cut-off one week earlier, on a
    POSIX file system that holds no manifest and accepts every write. *)
Definition array (answer : request -> outcome) : world :=
  mkworld
    (fun _ c => answer (call_request c))
    (fun _ => "20240115_030000")
    (fun _ => "2024-01-15T03:00:00")
    (fun _ _ => Ok 1704682800)
    (fun _ _ => Ok (PyTime.mkdt 2024 1 8 3 0 0 0))
    (fun _ => "?")
    4300%N
    (fun _ _ => true)
    (fun _ _ => false)
    (fun _ _ => Raise OSError)
    (fun _ _ => true)
    posix_dirname
    (fun _ _ => true)
    (fun _ _ => true).

Definition client : HNAS.manager :=
  HNAS.mkmanager "hnas.example" "apikey" "secret" false.

(** An array that lists the given snapshots for every filesystem and the
    given shares for every virtual server, and deletes what it is asked
    to delete. *)
Definition listing (snapshots shares : list pyval) : world :=
  array (fun r =>
           match r with
           | GetFilesystemSnapshots _ _ =>
               Response 200 "" (Some (PDict [("snapshots", PList snapshots)]))
           | GetVirtualServerCifs _ =>
               Response 200 "" (Some (PDict [("filesystemShares", PList shares)]))
           | DeleteSnapshot _ | DeleteCifsShare _ => Response 204 "" None
           | _ => Response 404 "Not Found" None
           end).

(** A snapshot taken on 1 January 2023, listed with its creation time as
    a string. *)
Definition old_snapshot : pyval :=
  PDict [("displayName", PStr "veeam_fs-alpha_20230101_030000");
         ("objectId", PStr "snap-2023");
         ("creationTime", PStr "1672542000")].

(** The same snapshot listed without an identifier. *)
Definition old_snapshot_without_id : pyval :=
  PDict [("displayName", PStr "veeam_fs-alpha_20230101_030000");
         ("creationTime", PInt 1672542000)].

(** A snapshot taken at the very second of the cut-off of [array]. *)
Definition snapshot_at_cutoff : pyval :=
  PDict [("displayName", PStr "veeam_fs-alpha_20240108_030000");
         ("objectId", PStr "snap-cutoff");
         ("creationTime", PInt 1704682800)].

(** A snapshot whose creation time is no number. *)
Definition snapshot_unparsable : pyval :=
  PDict [("displayName", PStr "veeam_fs-alpha_x");
         ("objectId", PStr "snap-x");
         ("creationTime", PStr "yesterday")].

(** A snapshot listed without a creation time. *)
Definition snapshot_without_time : pyval :=
  PDict [("displayName", PStr "veeam_fs-alpha_y");
         ("objectId", PStr "snap-y")].

(** A share made by the pre-backup script on 1 January 2023. *)
Definition old_share : pyval :=
  PDict [("name", PStr "VeeamNASBackup_20230101_030000");
         ("objectId", PStr "share-2023")].

(** The same share listed without an identifier. *)
Definition old_share_without_id : pyval :=
  PDict [("name", PStr "VeeamNASBackup_20230101_030000")].

(** A share made after the cut-off of [array]. *)
Definition recent_share : pyval :=
  PDict [("name", PStr "VeeamNASBackup_20240115_030000");
         ("objectId", PStr "share-2024")].

(** A share whose name has two parts. *)
Definition share_bad : pyval :=
  PDict [("name", PStr "VeeamNASBackup_bad"); ("objectId", PStr "share-bad")].

(** A share whose name has three parts that are no time stamp. *)
Definition share_bad_stamp : pyval :=
  PDict [("name", PStr "VeeamNASBackup_bad_stamp");
         ("objectId", PStr "share-bad-stamp")].

Definition id_alpha : string := "0123456789abcdef0123456789ABCDEF".
Definition id_beta : string := "fedcba9876543210fedcba9876543210".

Definition filesystem (label id : string) : pyval :=
  PDict [("label", PStr label); ("filesystemId", PStr id);
         ("virtualServerId", PStr "vs-1")].

(** An array with the filesystems [fs-alpha] and [fs-beta] on the virtual
    server [vs-1]: it answers the probe, looks filesystems up, makes the
    snapshots and shares it is asked for and names them after the
    request, lists the given snapshots and shares, and deletes what it is
    asked to delete. *)
Definition site_answer (snapshots shares : list pyval) (r : request)
  : outcome :=
  match r with
  | GetFileDevices => Response 200 "" (Some (PDict [("name", PStr "hnas-1")]))
  | GetFilesystems =>
      Response 200 ""
        (Some (PDict [("filesystems",
                       PList [filesystem "fs-alpha" id_alpha;
                              filesystem "fs-beta" id_beta])]))
  | GetFilesystem (PStr id) =>
      if String.eqb id id_alpha then
        Response 200 ""
          (Some (PDict [("filesystem", filesystem "fs-alpha" id_alpha)]))
      else if String.eqb id id_beta then
        Response 200 ""
          (Some (PDict [("filesystem", filesystem "fs-beta" id_beta)]))
      else Response 404 "Not Found" None
  | GetFilesystem _ => Response 404 "Not Found" None
  | PostSnapshot payload =>
      match Py.get payload "displayName" PNone with
      | Ok name =>
          Response 201 ""
            (Some (PDict [("snapshot",
                           PDict [("objectId", name); ("displayName", name);
                                  ("creationTime", PInt 1705287600)])]))
      | Raise _ => Response 400 "Bad Request" None
      end
  | PostCifsShare payload =>
      match Py.get payload "name" PNone, Py.get payload "filesystemPath" PNone with
      | Ok name, Ok path =>
          Response 201 ""
            (Some (PDict [("filesystemShare",
                           PDict [("objectId", name); ("name", name);
                                  ("path", path)])]))
      | _, _ => Response 400 "Bad Request" None
      end
  | GetFilesystemSnapshots _ _ =>
      Response 200 "" (Some (PDict [("snapshots", PList snapshots)]))
  | GetVirtualServerCifs _ =>
      Response 200 "" (Some (PDict [("filesystemShares", PList shares)]))
  | DeleteSnapshot _ | DeleteCifsShare _ => Response 204 "" None
  end.

Definition site (snapshots shares : list pyval) : world :=
  array (site_answer snapshots shares).

(** The same site, on which no snapshot can be made. *)
Definition site_without_snapshots : world :=
  array (fun r =>
           match r with
           | PostSnapshot _ => Response 500 "Internal Server Error" None
           | _ => site_answer [] [] r
           end).

(** The same site, on which [fs-beta] cannot be snapshotted. *)
Definition site_beta_fails : world :=
  array (fun r =>
           match r with
           | PostSnapshot payload =>
               if Py.eq_str
                    (match Py.get payload "filesystemId" PNone with
                     | Ok v => v | Raise _ => PNone end) id_beta
               then Response 500 "Internal Server Error" None
               else site_answer [] [] r
           | _ => site_answer [] [] r
           end).

(** The settings of the client. *)
Definition credentials_env : list (string * string) :=
  [("HNAS_HOST", "hnas.example"); ("HNAS_USERNAME", "apikey");
   ("HNAS_PASSWORD", "secret")].

(** A pre-backup run for [fs-alpha] and [fs-beta] with the tag [veeam]. *)
Definition pre_env : gmap string string :=
  list_to_map
    (credentials_env ++
     [("HNAS_FILESYSTEMS", "fs-alpha,fs-beta");
      ("HNAS_APP_SEARCH_ID", "veeam");
      ("VEEAM_SNAPSHOT_INFO", "/var/veeam/hnas_snapshot_info.json")]).

(** The same run with the manifest in the working directory. *)
Definition pre_env_bare_path : gmap string string :=
  <["VEEAM_SNAPSHOT_INFO" := "hnas_snapshot_info.json"]> pre_env.

(** A post-backup run after a failed job, with nothing to clean up on
    failure, a retention of seven days, no manifest, and the filesystems
    given by identifier and by label. *)
Definition post_env : gmap string string :=
  list_to_map
    (credentials_env ++
     [("VEEAM_JOB_RESULT", "Failed");
      ("HNAS_CLEANUP_ON_FAILURE", "false");
      ("HNAS_RETENTION_DAYS", "7");
      ("HNAS_FILESYSTEMS", " 0123456789abcdef0123456789ABCDEF ,fs-beta");
      ("VEEAM_SNAPSHOT_INFO", "/var/veeam/hnas_snapshot_info.json")]).

(** A post-backup run after a successful job that cleans up on success,
    with a retention of seven days. *)
Definition post_env_cleanup : gmap string string :=
  list_to_map
    (credentials_env ++
     [("VEEAM_JOB_RESULT", "Success");
      ("HNAS_CLEANUP_ON_SUCCESS", "true");
      ("HNAS_RETENTION_DAYS", "7");
      ("HNAS_FILESYSTEMS", "fs-gamma");
      ("VEEAM_SNAPSHOT_INFO", "/var/veeam/hnas_snapshot_info.json")]).

(** The entry of the manifest for a snapshot of a filesystem. *)
Definition entry (label id : string) : pyval :=
  PDict [("filesystem_id", PStr id);
         ("filesystem_name", PStr label);
         ("snapshot_name", PStr ("veeam_" ++ label ++ "_20240115_030000"));
         ("snapshot_object_id", PStr ("veeam_" ++ label ++ "_20240115_030000"));
         ("creation_time", PInt 1705287600);
         ("app_search_id", PStr "veeam")].

(** The manifest of a pre-backup run for [fs-alpha] and [fs-beta]. *)
Definition manifest : pyval :=
  PDict [("timestamp", PStr "20240115_030000");
         ("snapshots", PList [entry "fs-alpha" id_alpha; entry "fs-beta" id_beta]);
         ("config", PDict [("hnas_host", PStr "hnas.example");
                           ("app_search_id", PStr "veeam")])].

(** The world [w] with a manifest on its disk. *)
Definition with_manifest (doc : pyval) (w : world) : world :=
  mkworld (respond w) (now_stamp w) (now_iso w) (cutoff_time w) (cutoff_date w)
    (str_of w) (max_str_digits w) (log_setup_ok w)
    (fun _ _ => true) (fun _ _ => Ok doc)
    (fs_remove_ok w) (dirname w) (fs_makedirs_ok w) (fs_write_ok w).

(** An array on which nothing is found. *)
Definition gone : world := array (fun _ => Response 404 "Not Found" None).

(** An array that fails on every request. *)
Definition failing : world :=
  array (fun _ => Response 500 "Internal Server Error" None).

(** An array that cannot be reached. *)
Definition unreachable : world := array (fun _ => NoResponse).

End Examples.

(** ** What a computation adds to the trace *)

(** A computation only ever appends to the trace; [adds P m] says that
    every event [m] appends satisfies [P]. *)
Definition adds {A} (P : event -> Prop) (m : M A) : Prop :=
  forall w tr, exists d, snd (m w tr) = tr ++ d /\ Forall P d.

(** ** The sweeps, item by item *)

(** The creation time of a listed snapshot as the sweep compares it with
    the cut-off: the integer of the field (0 when the field is absent), or
    the integer a string in the field holds. *)
Definition normalized_creation_time (limit : N) (snapshot : pyval) : option Z :=
  match Py.get snapshot "creationTime" (PInt 0) with
  | Ok (PInt t) => Some t
  | Ok (PStr s) => PyStr.to_int limit s
  | _ => None
  end.

(** [item.get('objectId')] of a listed snapshot or share. *)
Definition object_id (item : pyval) : pyval :=
  match Py.get item "objectId" PNone with
  | Ok v => v
  | Raise _ => PNone
  end.

(** A listed snapshot the loop of [cleanup_old_snapshots] gets past: a
    dictionary whose creation time can be compared with an integer. *)
Definition sweepable (snapshot : pyval) : bool :=
  match Py.get snapshot "creationTime" (PInt 0) with
  | Ok (PNone | PList _ | PDict _) => false
  | Ok _ => true
  | Raise _ => false
  end.

(** The time stamp in the name of a listed share: what [strptime] makes
    of the last two parts of the name, when the name is a string of at
    least three parts. *)
Definition share_stamp (share : pyval) : option string :=
  match Py.get share "name" (PStr "") with
  | Ok (PStr s) => Post.timestamp_str (PyStr.split "_" s)
  | _ => None
  end.

(** A share as [get_virtual_server_smb_shares] lists it: a dictionary
    whose name is a string that starts with the prefix. *)
Definition named_with (prefix : string) (share : pyval) : bool :=
  match Py.get share "name" (PStr "") with
  | Ok (PStr s) => PyStr.startswith prefix s
  | _ => false
  end.

(** The warning of the snapshot sweep for a creation time it cannot read. *)
Definition invalid_creation_time (e : event) : bool :=
  match e with
  | Logged WARNING t _ =>
      String.eqb t "Invalid creation time format for snapshot: {}"
  | _ => false
  end.

(** The warning of the share sweep for a name it cannot read. *)
Definition unexpected_name (e : event) : bool :=
  match e with
  | Logged WARNING t _ =>
      String.eqb t "Skipping SMB share with unexpected name format: {}"
  | _ => false
  end.

(** The array of the examples of the snapshot sweep. *)
Definition snapshots_world : world :=
  Examples.listing
    [Examples.snapshot_at_cutoff; Examples.old_snapshot;
     Examples.snapshot_unparsable] [].

(** An array that lists one old snapshot, without an identifier. *)
Definition anonymous_snapshot_world : world :=
  Examples.listing [Examples.old_snapshot_without_id] [].

(** An array that lists one snapshot, without a creation time. *)
Definition timeless_snapshot_world : world :=
  Examples.listing [Examples.snapshot_without_time] [].

(** The array of the examples of the share sweep. *)
Definition shares_world : world :=
  Examples.listing []
    [Examples.recent_share; Examples.share_bad; Examples.old_share;
     Examples.share_bad_stamp].

(** An array that lists only the share with a name of two parts. *)
Definition bad_share_world : world := Examples.listing [] [Examples.share_bad].

(** ** Snapshot names *)

(** The display names of the snapshots a trace asks the array to make. *)
Fixpoint snapshot_names (tr : list event) : list pyval :=
  match tr with
  | [] => []
  | Called c :: rest =>
      match call_request c with
      | PostSnapshot payload =>
          match Py.get payload "displayName" PNone with
          | Ok name => name :: snapshot_names rest
          | Raise _ => snapshot_names rest
          end
      | _ => snapshot_names rest
      end
  | _ :: rest => snapshot_names rest
  end.

(** The prefix of the snapshot names of a run: the configured tag, and
    [veeam] when none is configured. *)
Definition name_prefix (env : gmap string string) : string :=
  match env !! "HNAS_APP_SEARCH_ID" with
  | Some tag => if String.eqb tag "" then "veeam" else tag
  | None => "veeam"
  end.

(** [{prefix}_{label}_{timestamp}] *)
Definition display_name (prefix label timestamp : string) : string :=
  (prefix ++ "_" ++ label ++ "_" ++ timestamp)%string.

(** The text an f-string makes of the label of a filesystem. *)
Definition label_text (w : world) (label : pyval) : string :=
  match label with
  | PStr s => s
  | _ => str_of w label
  end.

(** A manifest entry whose snapshot is named after the prefix, the label
    of the entry and the time stamp. *)
Definition named_after (w : world) (prefix timestamp : string) (entry : pyval)
  : Prop :=
  exists label,
    Py.get entry "filesystem_name" PNone = Ok label
    /\ Py.get entry "snapshot_name" PNone
       = Ok (PStr (display_name prefix (label_text w label) timestamp)).

(** An event that is not the request for a snapshot under another name
    than [{prefix}_{label}_{timestamp}]. *)
Definition names_snapshots (prefix timestamp : string) (e : event) : Prop :=
  match e with
  | Called c =>
      match call_request c with
      | PostSnapshot payload =>
          exists label,
            Py.get payload "displayName" PNone
            = Ok (PStr (display_name prefix label timestamp))
      | _ => True
      end
  | _ => True
  end.

(** An event that is not the writing of the manifest. *)
Definition no_write (e : event) : Prop :=
  match e with
  | Wrote _ _ => False
  | _ => True
  end.

(** The documents a trace writes, with their paths. *)
Fixpoint written (tr : list event) : list (string * pyval) :=
  match tr with
  | [] => []
  | Wrote path doc :: rest => (path, doc) :: written rest
  | _ :: rest => written rest
  end.

(** A manifest with the time stamp of the run whose entries are all named
    after the prefix, their label and that time stamp. *)
Definition well_named_manifest (w : world) (prefix timestamp : string)
  (doc : pyval) : Prop :=
  Py.get doc "timestamp" PNone = Ok (PStr timestamp)
  /\ exists entries,
       Py.get doc "snapshots" PNone = Ok (PList entries)
       /\ Forall (named_after w prefix timestamp) entries.

(** The [snapshot_name] of each entry of a manifest. *)
Definition manifest_names (doc : pyval) : list pyval :=
  match Py.get doc "snapshots" PNone with
  | Ok (PList entries) =>
      List.map (fun entry =>
                  match Py.get entry "snapshot_name" PNone with
                  | Ok v => v
                  | Raise _ => PNone
                  end) entries
  | _ => []
  end.

(** ** Filesystem references *)

(** A hexadecimal digit, of either case. *)
Definition is_hex_digit (c : ascii) : bool :=
  let n := PyStr.code c in
  ((48 <=? n) && (n <=? 57)) || ((65 <=? n) && (n <=? 70))
  || ((97 <=? n) && (n <=? 102)).

(** An event that is no request. *)
Definition no_call (e : event) : Prop :=
  match e with
  | Called _ => False
  | _ => True
  end.

(** [sends l m]: whatever the world, [m] sends the requests [l], in this
    order, and no other. *)
Definition sends {A} (l : list request) (m : M A) : Prop :=
  forall w tr, calls (snd (m w tr)) = calls tr ++ l.

(** An item of the filesystem list whose label is not the name looked
    for: the scan passes it. *)
Definition other_label (name : string) (fs : pyval) : bool :=
  match Py.get fs "label" PNone with
  | Ok l => negb (Py.eq_str l name)
  | Raise _ => false
  end.

(** An item of the filesystem list whose label is the name looked for. *)
Definition has_label (name : string) (fs : pyval) : bool :=
  match Py.get fs "label" PNone with
  | Ok l => Py.eq_str l name
  | Raise _ => false
  end.

(** The answer of the array to the request for the filesystem list. *)
Definition filesystems_answer (self : HNAS.manager) (w : world)
  (tr : list event) : outcome :=
  respond w tr
    (mkcall (HNAS.hnas_host self) (HNAS.verify_ssl self) (HNAS.auth self) 30
       GetFilesystems).

(** ** What the retention sweep asks the array *)

(** The filesystem whose snapshots a request lists. *)
Definition swept_of (r : request) : list pyval :=
  match r with
  | GetFilesystemSnapshots filesystem_id _ => [filesystem_id]
  | _ => []
  end.

(** The filesystem a request looks up. *)
Definition looked_up_of (r : request) : list pyval :=
  match r with
  | GetFilesystem filesystem_id => [filesystem_id]
  | _ => []
  end.

(** A request for the list of all filesystems: the label scan. *)
Definition listing_of (r : request) : list unit :=
  match r with
  | GetFilesystems => [tt]
  | _ => []
  end.

(** What a trace shows under a view of its requests. *)
Definition viewed {X} (view : request -> list X) (tr : list event) : list X :=
  flat_map view (calls tr).

(** The filesystems whose snapshots a trace lists, in order. *)
Definition swept_filesystems (tr : list event) : list pyval :=
  viewed swept_of tr.

(** The filesystems a trace looks up, in order. *)
Definition looked_up (tr : list event) : list pyval := viewed looked_up_of tr.

(** The label scans of a trace. *)
Definition label_scans (tr : list event) : list unit := viewed listing_of tr.

(** The line the retention sweep logs when it starts. *)
Definition starts_sweep (e : event) : bool :=
  match e with
  | Logged INFO t _ =>
      String.eqb t
        "Performing retention-based cleanup (keeping snapshots newer than {} days)..."
  | _ => false
  end.

Definition sweep_started (tr : list event) : bool := existsb starts_sweep tr.

(** [emits view l m]: whatever the world, what [m] adds to the trace
    shows [l] under the view. *)
Definition emits {A X} (view : request -> list X) (l : list X) (m : M A)
  : Prop :=
  forall w tr, viewed view (snd (m w tr)) = viewed view tr ++ l.

(** An event that shows nothing under a view. *)
Definition hidden {X} (view : request -> list X) (e : event) : Prop :=
  match e with
  | Called c => view (call_request c) = []
  | _ => True
  end.

(** The filesystems of the entries of a manifest: the identifiers that
    are truthy, each once, in the order of the entries. *)
Definition manifest_ids (items : list pyval) : list pyval :=
  fold_left
    (fun ids entry =>
       match Py.get entry "filesystem_id" PNone with
       | Ok v =>
           if Py.truthy v && negb (existsb (Py.eq_hashable v) ids)
           then ids ++ [v] else ids
       | Raise _ => ids
       end)
    items [].

(** The entries the post-backup run takes from the manifest: what
    [created_snapshots] holds once the manifest has been loaded, after the
    start of the run and the line that logs the job result. *)
Definition manifest_entries (env : gmap string string) (w : world) : pyval :=
  match
    Post.load_created_snapshots (Post.snapshot_info_file env) w
      (snd (Post.startup env w [])
       ++ [Logged INFO "Backup job result: {}"
             [LVal (PStr (snd (Post.validate_backup_result env)))]])
  with
  | (Ok created_snapshots, _) => created_snapshots
  | (Raise _, _) => PList []
  end.

(** The request that resolves a reference. *)
Definition lookup_request (s : string) : request :=
  if looks_like_id s then GetFilesystem (PStr s) else GetFilesystems.

(** An event of the post-backup run outside its retention sweep: not the
    line that starts the sweep, and no request that lists snapshots, looks
    a filesystem up or lists the filesystems. *)
Definition outside_sweep (e : event) : Prop :=
  starts_sweep e = false
  /\ hidden swept_of e /\ hidden looked_up_of e /\ hidden listing_of e.

(** ** What the client makes of an answer *)

(** The answer of the array to a request of the client at the present
    history. *)
Definition answer (self : HNAS.manager) (timeout : Z) (r : request)
  (w : world) (tr : list event) : outcome :=
  respond w tr
    (mkcall (HNAS.hnas_host self) (HNAS.verify_ssl self) (HNAS.auth self)
       timeout r).

(** The document a query gets out of an answer: there is none when the
    transport fails, when the status is an error (400 to 599) and when the
    body does not decode. *)
Definition decoded (o : outcome) : option pyval :=
  match o with
  | Response st _ (Some v) =>
      if (400 <=? st) && (st <? 600) then None else Some v
  | _ => None
  end.

(** [query self r value m]: whatever the world, the method [m] sends the
    request [r] and no other, with a timeout of 30 seconds, and returns
    [value] of the document it gets; no exception leaves it. *)
Definition query {A} (self : HNAS.manager) (r : request)
  (value : option pyval -> A) (m : M A) : Prop :=
  forall w tr,
    fst (m w tr) = Ok (value (decoded (answer self 30 r w tr)))
    /\ calls (snd (m w tr)) = calls tr ++ [r].

(** The entry of a decoded object under a key, and the default when the
    document is no object or has no such key. *)
Definition field (k : string) (default : pyval) (d : option pyval) : pyval :=
  match d with
  | Some (PDict entries) =>
      match Py.assoc k entries with
      | Some v => v
      | None => default
      end
  | _ => default
  end.

(** What [get_filesystem_by_name] makes of the list of filesystems. *)
Definition labelled (name : string) (d : option pyval) : pyval :=
  match Py.iterate (field "filesystems" (PList []) d) with
  | Ok items =>
      match HNAS.first_with_label name items with
      | Ok v => v
      | Raise _ => PNone
      end
  | Raise _ => PNone
  end.

(** An exception [except Exception] catches. *)
Definition caught (e : exn) : Prop := is_exception e = true.

(** [raises w P m]: in the world [w], every exception that leaves [m]
    satisfies [P]. *)
Definition raises {A} (w : world) (P : exn -> Prop) (m : M A) : Prop :=
  forall tr e, fst (m w tr) = Raise e -> P e.

(** [returns w m]: in the world [w], no exception leaves [m]. *)
Definition returns {A} (w : world) (m : M A) : Prop :=
  forall tr, exists a, fst (m w tr) = Ok a.

(** ** The sweeps as a whole *)

(** Whether the snapshot sweep finds a listed snapshot older than the
    cut-off: the comparison of its creation time, read as the loop reads
    it, with the cut-off. *)
Definition older_than (limit : N) (cutoff_time : Z) (snapshot : pyval) : bool :=
  match Py.get snapshot "creationTime" (PInt 0) with
  | Ok (PStr s) =>
      match PyStr.to_int limit s with
      | Some n => n <? cutoff_time
      | None => false
      end
  | Ok v =>
      match Py.lt_int v cutoff_time with
      | Ok b => b
      | Raise _ => false
      end
  | Raise _ => false
  end.

(** A listed snapshot the sweep asks the array to delete: older than the
    cut-off, with an identifier. *)
Definition deletable (limit : N) (cutoff_time : Z) (snapshot : pyval) : bool :=
  older_than limit cutoff_time snapshot && Py.truthy (object_id snapshot).

(** The listed snapshots the loop gets to: those before the first one it
    cannot compare. *)
Fixpoint reached (items : list pyval) : list pyval :=
  match items with
  | [] => []
  | x :: rest => if sweepable x then x :: reached rest else []
  end.

(** A listed share the sweep asks the array to delete: its name ends in
    a time stamp before the cut-off, and it has an identifier. *)
Definition expired (cutoff_date : PyTime.datetime) (share : pyval) : bool :=
  match share_stamp share with
  | Some stamp =>
      match PyTime.strptime stamp with
      | Some share_date => PyTime.lt share_date cutoff_date
      | None => false
      end
  | None => false
  end
  && Py.truthy (object_id share).

(** An item of the list of shares the filter can read: a dictionary whose
    name, when it has one, is a string. *)
Definition share_like (item : pyval) : bool :=
  match Py.get item "name" (PStr "") with
  | Ok (PStr _) => true
  | _ => false
  end.

(** A world whose clock raises nothing but ordinary exceptions. *)
Definition sane_clock (w : world) : Prop :=
  (forall tr days e, cutoff_time w tr days = Raise e -> caught e)
  /\ (forall tr days e, cutoff_date w tr days = Raise e -> caught e).

(** What [get_virtual_server_smb_shares] makes of the document it gets:
    the listed shares whose name starts with the prefix, and nothing when
    an item of the list cannot be read. *)
Definition listed_shares (prefix : string) (d : option pyval) : list pyval :=
  match Py.iterate (field "filesystemShares" (PList []) d) with
  | Ok items =>
      if forallb share_like items
      then List.filter (named_with prefix) items
      else []
  | Raise _ => []
  end.

(** ** The start of a run *)

(** The client the scripts make from the environment. *)
Definition configured (env : gmap string string) : HNAS.manager :=
  HNAS.mkmanager (environ_get env "HNAS_HOST" "")
    (environ_get env "HNAS_USERNAME" "") (environ_get env "HNAS_PASSWORD" "")
    (environ_flag env "HNAS_VERIFY_SSL" "false").

(** The directory of the log files. *)
Definition log_dir (env : gmap string string) : string :=
  environ_get env "VEEAM_LOG_DIR" "C:\VeeamScripts\Logs".

(** One of the three settings the scripts cannot do without is unset or
    empty. *)
Definition missing_credentials (env : gmap string string) : Prop :=
  environ_get env "HNAS_HOST" "" = ""
  \/ environ_get env "HNAS_USERNAME" "" = ""
  \/ environ_get env "HNAS_PASSWORD" "" = "".

(** The configuration of the pre-backup script for a retention interval. *)
Definition pre_config (env : gmap string string) (interval : Z) : Pre.config :=
  Pre.mkconfig
    (environ_get env "HNAS_HOST" "")
    (environ_get env "HNAS_USERNAME" "")
    (environ_get env "HNAS_PASSWORD" "")
    (PyStr.split "," (environ_get env "HNAS_FILESYSTEMS" ""))
    (environ_get env "HNAS_APP_SEARCH_ID" "veeam")
    interval
    (environ_flag env "HNAS_VERIFY_SSL" "false")
    (environ_flag env "HNAS_CREATE_SMB_SHARE" "true")
    (environ_get env "HNAS_SMB_SHARE_NAME" "VeeamNASBackup").

(** The configuration of the post-backup script for a retention window. *)
Definition post_config (env : gmap string string) (days : Z) : Post.config :=
  Post.mkconfig
    (environ_get env "HNAS_HOST" "")
    (environ_get env "HNAS_USERNAME" "")
    (environ_get env "HNAS_PASSWORD" "")
    (environ_flag env "HNAS_VERIFY_SSL" "false")
    (environ_flag env "HNAS_CLEANUP_ON_SUCCESS" "false")
    (environ_flag env "HNAS_CLEANUP_ON_FAILURE" "true")
    days
    (environ_get env "HNAS_APP_SEARCH_ID" "veeam")
    (environ_get env "HNAS_SMB_SHARE_NAME" "VeeamNASBackup").

(** The probe of [test_connection], as the client of the environment
    sends it. *)
Definition probe (env : gmap string string) : call :=
  mkcall (environ_get env "HNAS_HOST" "")
    (environ_flag env "HNAS_VERIFY_SSL" "false")
    (HNAS.auth (configured env)) 30 GetFileDevices.

(** The probe found the array: it answered without an error status, with
    a JSON object. *)
Definition connected (o : outcome) : bool :=
  match decoded o with
  | Some (PDict _) => true
  | _ => false
  end.

(** The exception a probe that did not find the array ends with. *)
Definition probe_error (o : outcome) : exn :=
  match o with
  | NoResponse => RequestException
  | Response st tx js =>
      if (400 <=? st) && (st <? 600) then HTTPError st tx
      else match js with
           | None => ValueError
           | Some _ => AttributeError
           end
  end.

(** The name of the device in the answer to the probe. *)
Definition device_name (o : outcome) : pyval :=
  field "name" (PStr "Unknown") (decoded o).

(** ** What each script leaves alone *)

(** An event of a pre-backup run: it deletes nothing on the array, lists
    no snapshots and no shares, and removes no file. *)
Definition pre_event (e : event) : Prop :=
  match e with
  | Called c =>
      match call_request c with
      | DeleteSnapshot _ | DeleteCifsShare _
      | GetFilesystemSnapshots _ _ | GetVirtualServerCifs _ => False
      | _ => True
      end
  | Removed _ => False
  | _ => True
  end.

(** An event of a post-backup run: it makes no snapshot and no share, and
    makes no directory and writes no file; the set-up of the log, which
    makes the log directory and opens the log file, is an event of its own
    and is allowed. *)
Definition post_event (e : event) : Prop :=
  match e with
  | Called c =>
      match call_request c with
      | PostSnapshot _ | PostCifsShare _ => False
      | _ => True
      end
  | Wrote _ _ | Makedirs _ => False
  | _ => True
  end.

(** The timeout the client gives a request: 30 seconds to read, 60 to
    create or delete. *)
Definition expected_timeout (r : request) : Z :=
  match r with
  | PostSnapshot _ | PostCifsShare _ | DeleteSnapshot _ | DeleteCifsShare _ => 60
  | _ => 30
  end.

(** An event that is no request, or a request sent as the client [self]
    sends it: to its host, with its credentials and its setting for the
    verification of certificates, with the timeout of the request. *)
Definition by_client (self : HNAS.manager) (e : event) : Prop :=
  match e with
  | Called c =>
      c = mkcall (HNAS.hnas_host self) (HNAS.verify_ssl self) (HNAS.auth self)
            (expected_timeout (call_request c)) (call_request c)
  | _ => True
  end.

(** An event that does not remove a file. *)
Definition keeps_files (e : event) : Prop :=
  match e with
  | Removed _ => False
  | _ => True
  end.

(** ** The clean-up of a session *)

(** The requests the clean-up of the session makes for an entry of the
    manifest: the share first, then the snapshot, each when the entry has
    a truthy identifier for it. *)
Definition entry_requests (snapshot_info : pyval) : list request :=
  (match Py.get snapshot_info "smb_share_object_id" PNone with
   | Ok v => if Py.truthy v then [DeleteCifsShare v] else []
   | Raise _ => []
   end)
  ++ (match Py.get snapshot_info "snapshot_object_id" PNone with
      | Ok v => if Py.truthy v then [DeleteSnapshot v] else []
      | Raise _ => []
      end).

(** ** The name of a share *)

(** A string without an underscore. *)
Fixpoint no_underscore (s : string) : bool :=
  match s with
  | EmptyString => true
  | String c r => negb (Ascii.eqb c "_") && no_underscore r
  end.

(** ** The requests for snapshots and shares *)

(** The payload of a request for a snapshot in a run with the tag [tag]
    and the retention interval [interval]: the filesystem and the name,
    the tag when there is one, the interval when it is positive. *)
Definition snapshot_payload (tag : string) (interval : Z) (p : pyval) : Prop :=
  exists fid name,
    p = PDict
          ([("filesystemId", fid); ("displayName", PStr name)]
           ++ (if String.eqb tag "" then [] else [("appSearchId", PStr tag)])
           ++ (if 0 <? interval then [("retentionInterval", PInt interval)]
               else [])).

(** An event that is not a request for a snapshot with another payload. *)
Definition asks_snapshots (tag : string) (interval : Z) (e : event) : Prop :=
  match e with
  | Called c =>
      match call_request c with
      | PostSnapshot p => snapshot_payload tag interval p
      | _ => True
      end
  | _ => True
  end.

(** An event that is no request for a share. *)
Definition no_share_request (e : event) : Prop :=
  match e with
  | Called c =>
      match call_request c with
      | PostCifsShare _ => False
      | _ => True
      end
  | _ => True
  end.

(** The filesystem and the name of each snapshot a trace asks for. *)
Fixpoint requested (tr : list event) : list (pyval * pyval) :=
  match tr with
  | [] => []
  | Called c :: rest =>
      match call_request c with
      | PostSnapshot payload =>
          match Py.get payload "filesystemId" PNone,
                Py.get payload "displayName" PNone with
          | Ok fid, Ok name => (fid, name) :: requested rest
          | _, _ => requested rest
          end
      | _ => requested rest
      end
  | _ :: rest => requested rest
  end.

(** The entries of a manifest. *)
Definition manifest_snapshots (doc : pyval) : list pyval :=
  match Py.get doc "snapshots" PNone with
  | Ok (PList entries) => entries
  | _ => []
  end.

(** An entry of the manifest for a snapshot the trace asked for: the
    filesystem and the name of the entry are those of a request. *)
Definition recorded_from (tr : list event) (entry : pyval) : Prop :=
  exists fid name,
    Py.get entry "filesystem_id" PNone = Ok fid
    /\ Py.get entry "snapshot_name" PNone = Ok name
    /\ In (fid, name) (requested tr).

(** An entry of the manifest without a share. *)
Definition without_share (entry : pyval) : Prop :=
  Py.get entry "smb_share_object_id" PNone = Ok PNone
  /\ Py.get entry "smb_share_name" PNone = Ok PNone.

(** A trace that continues another. *)
Definition extends (tr tr' : list event) : Prop := exists d, tr' = tr ++ d.

(** ** The share of a snapshot *)

(** The virtual server [create_smb_share] finds in the document of the
    filesystem: the truthy [virtualServerId] of its [filesystem]. *)
Definition virtual_server_of (d : option pyval) : option pyval :=
  match d with
  | Some fs_info =>
      if Py.truthy fs_info then
        match Py.get fs_info "filesystem" (PDict []) with
        | Ok fs =>
            match Py.get fs "virtualServerId" PNone with
            | Ok v => if Py.truthy v then Some v else None
            | Raise _ => None
            end
        | Raise _ => None
        end
      else None
  | None => None
  end.

(** ** The snapshot of a filesystem *)

(** What [create_snapshot] returns for the document it gets: the object
    under [snapshot], the empty object when there is none, and [None]
    when there is no document, or the document or what it holds under
    [snapshot] is no object. *)
Definition snapshot_of (d : option pyval) : pyval :=
  match d with
  | Some (PDict entries) =>
      match Py.assoc "snapshot" entries with
      | Some (PDict snapshot) => PDict snapshot
      | Some _ => PNone
      | None => PDict []
      end
  | _ => PNone
  end.

(** What the look-up of a reference finds: the document of the
    filesystem for an identifier, the listed filesystem with the label
    for anything else; [None] when there is none. *)
Definition found (self : HNAS.manager) (s : string) (w : world)
  (tr : list event) : pyval :=
  if looks_like_id s then
    match decoded (answer self 30 (GetFilesystem (PStr s)) w tr) with
    | Some v => v
    | None => PNone
    end
  else labelled s (decoded (answer self 30 GetFilesystems w tr)).

(** ** The loops of the retention sweep *)

(** The virtual server whose shares a request lists. *)
Definition share_listing_of (r : request) : list pyval :=
  match r with
  | GetVirtualServerCifs virtual_server_id => [virtual_server_id]
  | _ => []
  end.

(** The targets of the retention sweep: those of the manifest when it
    gave entries, those of the environment otherwise. *)
Definition sweep_targets (self : HNAS.manager) (env : gmap string string)
  (created_snapshots : pyval) : M (list pyval * list pyval) :=
  if Py.truthy created_snapshots
  then Post.targets_from_manifest self created_snapshots
  else Post.targets_from_environment self env.

(** ** The manifest after a cleaning run *)

(** The example site with the manifest on its disk, on which no snapshot
    and no share can be deleted. *)
Definition site_refusing_deletes : world :=
  Examples.with_manifest Examples.manifest
    (Examples.array
       (fun r =>
          match r with
          | DeleteSnapshot _ | DeleteCifsShare _ =>
              Response 500 "Internal Server Error" None
          | _ => Examples.site_answer [] [] r
          end)).

(** The file an event removes. *)
Definition removed_files (e : event) : list string :=
  match e with
  | Removed file => [file]
  | _ => []
  end.

(** ** The entry of a snapshot and its share *)

(** [d.get(k, '')] on the entries of an object. *)
Definition or_empty (k : string) (d : list (string * pyval)) : pyval :=
  match Py.assoc k d with
  | Some v => v
  | None => PStr ""
  end.

(** The entry the pre-backup loop makes for a snapshot. *)
Definition snapshot_entry (filesystem_id filesystem_name : pyval)
  (snapshot_name app_search_id : string) (snapshot : list (string * pyval))
  : list (string * pyval) :=
  [("filesystem_id", filesystem_id);
   ("filesystem_name", filesystem_name);
   ("snapshot_name", PStr snapshot_name);
   ("snapshot_object_id", or_empty "objectId" snapshot);
   ("creation_time", or_empty "creationTime" snapshot);
   ("app_search_id", PStr app_search_id)].

(** The keys the loop adds to the entry for a share. *)
Definition share_entry (smb_share : list (string * pyval))
  : list (string * pyval) :=
  [("smb_share_name", or_empty "name" smb_share);
   ("smb_share_object_id", or_empty "objectId" smb_share);
   ("smb_share_path", or_empty "path" smb_share)].

(** The example site, on which no share can be made. *)
Definition site_without_shares : world :=
  Examples.array
    (fun r =>
       match r with
       | PostCifsShare _ => Response 500 "Internal Server Error" None
       | _ => Examples.site_answer [] [] r
       end).

(** The example site, answering a request for a share with a list where
    the object of the share is expected. *)
Definition site_with_listed_share : world :=
  Examples.array
    (fun r =>
       match r with
       | PostCifsShare _ =>
           Response 201 ""
             (Some (PDict [("filesystemShare", PList [PStr "share"])]))
       | _ => Examples.site_answer [] [] r
       end).

(** A snapshot listed with a creation time of [null]. *)
Definition snapshot_with_null_time : pyval :=
  PDict [("displayName", PStr "veeam_fs-alpha_x");
         ("objectId", PStr "snap-x");
         ("creationTime", PNone)].

(** An array that lists a snapshot with a creation time of [null] and,
    after it, one without a creation time. *)
Definition null_time_first_world : world :=
  Examples.listing
    [snapshot_with_null_time; Examples.snapshot_without_time] [].

(** The array of [timeless_snapshot_world] with a clock that subtracts the
    retention window from 03:00:00 on 15 January 2024: a window of 20000
    days puts the cut-off before the epoch. *)
Definition long_window_world : world :=
  let w := timeless_snapshot_world in
  mkworld (respond w) (now_stamp w) (now_iso w)
    (fun _ days => Ok (1705287600 - 86400 * days)) (cutoff_date w)
    (str_of w) (max_str_digits w) (log_setup_ok w) (fs_exists w) (fs_load w)
    (fs_remove_ok w) (dirname w) (fs_makedirs_ok w) (fs_write_ok w).

(** ** What a reference resolves to *)

(** A set with one more member: the value is added at the end unless the
    set has a member equal to it. *)
Definition with_member (s : list pyval) (v : pyval) : list pyval :=
  if existsb (Py.eq_hashable v) s then s else s ++ [v].

(** A set with the value as a member when the value is truthy. *)
Definition add_truthy (s : list pyval) (v : pyval) : list pyval :=
  if Py.truthy v then with_member s v else s.

(** The request of the client that looks a reference up. *)
Definition lookup_call (self : HNAS.manager) (s : string) : call :=
  mkcall (HNAS.hnas_host self) (HNAS.verify_ssl self) (HNAS.auth self) 30
    (lookup_request s).

(** [opens e m]: whatever the world, the first event [m] adds to the trace
    is [e], and no request follows it. *)
Definition opens {A} (e : event) (m : M A) : Prop :=
  forall w tr, exists d, snd (m w tr) = tr ++ e :: d /\ Forall no_call d.

(** [d.get(k, default)] on the entries of an object. *)
Definition value_of (k : string) (default : pyval)
  (entries : list (string * pyval)) : pyval :=
  match Py.assoc k entries with
  | Some v => v
  | None => default
  end.

(** ** The label in the name of a snapshot *)

(** The display name of the snapshot a request asks for. *)
Definition name_of (r : request) : list pyval :=
  match r with
  | PostSnapshot payload =>
      match Py.get payload "displayName" PNone with
      | Ok name => [name]
      | Raise _ => []
      end
  | _ => []
  end.

(** The prefix of the snapshot names under a configuration: its tag, and
    [veeam] when the tag is empty. *)
Definition prefix_of (c : Pre.config) : string :=
  if String.eqb (Pre.app_search_id c) "" then "veeam" else Pre.app_search_id c.

(** ** The targets of the retention sweep, from the answers of the array *)

(** A request that looks a filesystem up, by identifier or in the list of
    all filesystems. *)
Definition is_lookup (r : request) : bool :=
  match r with
  | GetFilesystem _ | GetFilesystems => true
  | _ => false
  end.

(** An event that is no look-up. *)
Definition no_lookup (e : event) : Prop :=
  match e with
  | Called c => is_lookup (call_request c) = false
  | _ => True
  end.

(** The answers the array gave to the look-ups of a trace, in the order
    of the look-ups: each request is answered at the history before it. *)
Fixpoint lookup_answers_from (w : world) (past rest : list event)
  : list outcome :=
  match rest with
  | [] => []
  | e :: rest' =>
      match e with
      | Called c =>
          if is_lookup (call_request c) then [respond w past c] else []
      | _ => []
      end ++ lookup_answers_from w (past ++ [e]) rest'
  end.

Definition lookup_answers (w : world) (tr : list event) : list outcome :=
  lookup_answers_from w [] tr.

(** The document of an answer, [None] when there is none. *)
Definition document (o : outcome) : pyval :=
  match decoded o with
  | Some v => v
  | None => PNone
  end.

(** What the look-up of a reference finds in the answer to its request. *)
Definition found_in (s : string) (o : outcome) : pyval :=
  if looks_like_id s then document o else labelled s (decoded o).

(** The virtual server in the document of a filesystem: what the object
    under [filesystem] holds under [virtualServerId]. *)
Definition virtual_server_in (doc : pyval) : pyval :=
  match doc with
  | PDict info =>
      match value_of "filesystem" (PDict []) info with
      | PDict fs => value_of "virtualServerId" PNone fs
      | _ => PNone
      end
  | _ => PNone
  end.

(** The virtual servers the look-ups of the manifest's filesystems
    resolve: the truthy virtual server of each answer, each once. *)
Definition resolved_virtual_servers (answers : list outcome) : list pyval :=
  fold_left (fun vss o => add_truthy vss (virtual_server_in (document o)))
    answers [].

(** What a reference of the fall-back adds to the targets, given what its
    look-up found: an identifier is swept at once, with the virtual server
    of the document; any other reference adds the identifier and the
    virtual server of the listed filesystem found. *)
Definition fallback_step (s : string) (doc : pyval)
  (targets : list pyval * list pyval) : list pyval * list pyval :=
  let '(fss, vss) := targets in
  if looks_like_id s then
    (with_member fss (PStr s), add_truthy vss (virtual_server_in doc))
  else
    match doc with
    | PDict hit =>
        (add_truthy fss (value_of "filesystemId" PNone hit),
         add_truthy vss (value_of "virtualServerId" PNone hit))
    | _ => (fss, vss)
    end.

(** The targets of the fall-back: every reference that is not blank takes
    the next answer. *)
Fixpoint fallback_targets (refs : list string) (answers : list outcome)
  (targets : list pyval * list pyval) : list pyval * list pyval :=
  match refs with
  | [] => targets
  | r :: refs' =>
      let s := PyStr.strip r in
      if String.eqb s "" then fallback_targets refs' answers targets
      else
        match answers with
        | [] => targets
        | o :: answers' =>
            fallback_targets refs' answers'
              (fallback_step s (found_in s o) targets)
        end
  end.

(** The start of a post-backup run passes: the required settings are
    there, the log is set up and the probe finds the array. *)
Definition post_starts (env : gmap string string) (w : world) (days : Z)
  : bool :=
  let started := [SetupLogging "hnas_post_backup" (log_dir env)] in
  Post.required_present (post_config env days)
  && log_setup_ok w started (log_dir env)
  && connected (respond w started (probe env)).

(** A manifest whose entries are strings. *)
Definition manifest_of_strings : pyval :=
  PDict [("snapshots", PList [PStr "x"])].

(** An event of the run around the sweep: outside the sweep, and no
    listing of shares. *)
Definition around_sweep_event (e : event) : Prop :=
  outside_sweep e /\ hidden share_listing_of e.

(** * Properties *)

(** ** The library functions, on examples

    The values are those CPython 3.11 gives. *)

Example strip_spaces : PyStr.strip "  fs-alpha " = "fs-alpha".
Proof. reflexivity. Qed.

Example split_commas : PyStr.split "," "a,,b" = ["a"; ""; "b"].
Proof. reflexivity. Qed.

Example split_nothing : PyStr.split "," "" = [""].
Proof. reflexivity. Qed.

Example split_share_name :
  PyStr.split "_" "VeeamNASBackup_bad" = ["VeeamNASBackup"; "bad"].
Proof. reflexivity. Qed.

Example lower_flag : PyStr.lower "TrUe" = "true".
Proof. reflexivity. Qed.

Example int_of_strings :
  PyStr.to_int 4300 " 12 " = Some 12
  /\ PyStr.to_int 4300 "1_000" = Some 1000
  /\ PyStr.to_int 4300 "+5" = Some 5
  /\ PyStr.to_int 4300 "-5" = Some (-5)
  /\ PyStr.to_int 4300 "007" = Some 7
  /\ PyStr.to_int 4300 "" = None
  /\ PyStr.to_int 4300 "1__0" = None
  /\ PyStr.to_int 4300 "_1" = None
  /\ PyStr.to_int 4300 "1_" = None
  /\ PyStr.to_int 4300 "0x10" = None
  /\ PyStr.to_int 4300 "12a" = None.
Proof. repeat split. Qed.

Example strptime_of_strings :
  PyTime.strptime "20240115_030000" = Some (PyTime.mkdt 2024 1 15 3 0 0 0)
  /\ PyTime.strptime "2024115_030000" = Some (PyTime.mkdt 2024 11 5 3 0 0 0)
  /\ PyTime.strptime "20240115_0300" = Some (PyTime.mkdt 2024 1 15 3 0 0 0)
  /\ PyTime.strptime "202411_111" = Some (PyTime.mkdt 2024 1 1 1 1 1 0)
  /\ PyTime.strptime "20240229_000000" = Some (PyTime.mkdt 2024 2 29 0 0 0 0)
  /\ PyTime.strptime "20240230_000000" = None
  /\ PyTime.strptime "20230229_000000" = None
  /\ PyTime.strptime "20240115_030060" = None
  /\ PyTime.strptime "00000101_000000" = None
  /\ PyTime.strptime "20240115_0300000" = None
  /\ PyTime.strptime "20240115_030000 " = None
  /\ PyTime.strptime " 20240115_030000" = None
  /\ PyTime.strptime "bad_stamp" = None.
Proof. repeat split. Qed.

Example reference_shapes :
  looks_like_id "0123456789abcdef0123456789ABCDEF" = true
  /\ looks_like_id "0123456789abcdef0123456789ABCDE" = false
  /\ looks_like_id "0123456789abcdef0123456789ABCDEG" = false
  /\ looks_like_id "fs-alpha" = false.
Proof. repeat split. Qed.

(** ** The monad *)

Lemma bind_ok {A B} (m : M A) (k : A -> M B) w tr a tr' :
  m w tr = (Ok a, tr') -> bind m k w tr = k a w tr'.
Proof. intros H. unfold bind. now rewrite H. Qed.

Lemma bind_raise {A B} (m : M A) (k : A -> M B) w tr e tr' :
  m w tr = (Raise e, tr') -> bind m k w tr = (Raise e, tr').
Proof. intros H. unfold bind. now rewrite H. Qed.

Lemma calls_app tr1 tr2 : calls (tr1 ++ tr2) = calls tr1 ++ calls tr2.
Proof.
  induction tr1 as [|e tr1 IH]; [reflexivity|].
  destruct e; simpl; rewrite ?IH; reflexivity.
Qed.

Lemma snapshot_deletes_app tr1 tr2 :
  snapshot_deletes (tr1 ++ tr2) = snapshot_deletes tr1 ++ snapshot_deletes tr2.
Proof.
  induction tr1 as [|e tr1 IH]; [reflexivity|].
  destruct e as [| c | | | | |]; simpl; rewrite ?IH; try reflexivity.
  destruct (call_request c); rewrite ?IH; reflexivity.
Qed.

Lemma share_deletes_app tr1 tr2 :
  share_deletes (tr1 ++ tr2) = share_deletes tr1 ++ share_deletes tr2.
Proof.
  induction tr1 as [|e tr1 IH]; [reflexivity|].
  destruct e as [| c | | | | |]; simpl; rewrite ?IH; try reflexivity.
  destruct (call_request c); rewrite ?IH; reflexivity.
Qed.

Lemma warnings_app tr1 tr2 : warnings (tr1 ++ tr2) = warnings tr1 ++ warnings tr2.
Proof.
  induction tr1 as [|e tr1 IH]; [reflexivity|].
  destruct e as [| | l t a | | | |]; simpl; rewrite ?IH; try reflexivity.
  destruct l; simpl; rewrite ?IH; reflexivity.
Qed.

(** ** The result of a delete *)

Lemma delete_snapshot_result self oid w tr :
  fst (HNAS.delete_snapshot self oid w tr)
  = Ok (delete_result (delete_snapshot_answer self oid w tr)).
Proof.
  unfold HNAS.delete_snapshot, delete_snapshot_answer, try_except, bind, log,
    emit, HNAS.send, HNAS.raise_for_status, raise, ret.
  simpl.
  destruct (respond w _ _) as [|st tx js]; simpl; [reflexivity|].
  destruct ((400 <=? st) && (st <? 600)) eqn:E; simpl.
  - destruct (st =? 404); reflexivity.
  - reflexivity.
Qed.

Lemma delete_smb_share_result self oid w tr :
  fst (HNAS.delete_smb_share self oid w tr)
  = Ok (delete_result (delete_smb_share_answer self oid w tr)).
Proof.
  unfold HNAS.delete_smb_share, delete_smb_share_answer, try_except, bind, log,
    emit, HNAS.send, HNAS.raise_for_status, raise, ret.
  simpl.
  destruct (respond w _ _) as [|st tx js]; simpl; [reflexivity|].
  destruct ((400 <=? st) && (st <? 600)) eqn:E; simpl.
  - destruct (st =? 404); reflexivity.
  - reflexivity.
Qed.

(** C4.  A delete of a snapshot or of a share returns success when the
    array answers 404, failure when it answers any other error status
    (400 to 599), and failure when the transport gives no answer at all;
    in each case the method returns, no exception leaves it. *)
Theorem C4_delete_not_found_is_success :
  forall (self : HNAS.manager) (oid : pyval) (w : world) (tr : list event),
    (forall tx js,
        delete_snapshot_answer self oid w tr = Response 404 tx js ->
        fst (HNAS.delete_snapshot self oid w tr) = Ok true)
    /\ (forall st tx js,
           delete_snapshot_answer self oid w tr = Response st tx js ->
           400 <= st < 600 -> st <> 404 ->
           fst (HNAS.delete_snapshot self oid w tr) = Ok false)
    /\ (delete_snapshot_answer self oid w tr = NoResponse ->
        fst (HNAS.delete_snapshot self oid w tr) = Ok false)
    /\ (forall tx js,
           delete_smb_share_answer self oid w tr = Response 404 tx js ->
           fst (HNAS.delete_smb_share self oid w tr) = Ok true)
    /\ (forall st tx js,
           delete_smb_share_answer self oid w tr = Response st tx js ->
           400 <= st < 600 -> st <> 404 ->
           fst (HNAS.delete_smb_share self oid w tr) = Ok false)
    /\ (delete_smb_share_answer self oid w tr = NoResponse ->
        fst (HNAS.delete_smb_share self oid w tr) = Ok false).
Proof.
  intros self oid w tr.
  rewrite delete_snapshot_result, delete_smb_share_result.
  assert (Herr : forall st tx js, 400 <= st < 600 -> st <> 404 ->
                   delete_result (Response st tx js) = false).
  { intros st tx js Hst Hne. unfold delete_result.
    replace ((400 <=? st) && (st <? 600)) with true
      by (symmetry; apply andb_true_intro; split;
          [apply Z.leb_le | apply Z.ltb_lt]; lia).
    simpl. apply Z.eqb_neq. exact Hne. }
  repeat split.
  - intros tx js H. rewrite H. reflexivity.
  - intros st tx js H Hst Hne. rewrite H. f_equal. now apply Herr.
  - intros H. rewrite H. reflexivity.
  - intros tx js H. rewrite H. reflexivity.
  - intros st tx js H Hst Hne. rewrite H. f_equal. now apply Herr.
  - intros H. rewrite H. reflexivity.
Qed.

Lemma C4_delete_not_found_is_success_witness :
  fst (HNAS.delete_snapshot Examples.client (PStr "snap-1") Examples.gone [])
  = Ok true
  /\ fst (HNAS.delete_snapshot Examples.client (PStr "snap-1") Examples.failing [])
     = Ok false
  /\ fst (HNAS.delete_snapshot Examples.client (PStr "snap-1")
            Examples.unreachable []) = Ok false
  /\ fst (HNAS.delete_smb_share Examples.client (PStr "share-1") Examples.gone [])
     = Ok true
  /\ fst (HNAS.delete_smb_share Examples.client (PStr "share-1")
            Examples.failing []) = Ok false
  /\ fst (HNAS.delete_smb_share Examples.client (PStr "share-1")
            Examples.unreachable []) = Ok false.
Proof.
  refine (conj _ (conj _ (conj _ (conj _ (conj _ _))))).
  - apply (proj1 (C4_delete_not_found_is_success Examples.client
                    (PStr "snap-1") Examples.gone []) "Not Found" None).
    reflexivity.
  - apply (proj1 (proj2 (C4_delete_not_found_is_success Examples.client
                    (PStr "snap-1") Examples.failing []))
             500 "Internal Server Error" None); [reflexivity | lia | lia].
  - apply (proj1 (proj2 (proj2 (C4_delete_not_found_is_success Examples.client
                    (PStr "snap-1") Examples.unreachable [])))).
    reflexivity.
  - apply (proj1 (proj2 (proj2 (proj2 (C4_delete_not_found_is_success
                    Examples.client (PStr "share-1") Examples.gone []))))
             "Not Found" None).
    reflexivity.
  - apply (proj1 (proj2 (proj2 (proj2 (proj2 (C4_delete_not_found_is_success
                    Examples.client (PStr "share-1") Examples.failing [])))))
             500 "Internal Server Error" None); [reflexivity | lia | lia].
  - apply (proj2 (proj2 (proj2 (proj2 (proj2 (C4_delete_not_found_is_success
                    Examples.client (PStr "share-1") Examples.unreachable [])))))).
    reflexivity.
Defined.

(** ** Computations only append *)

Section Adds.

Context (P : event -> Prop).

Lemma adds_ret {A} (a : A) : adds P (ret a).
Proof. intros w tr. exists []. rewrite app_nil_r. split; [reflexivity | constructor]. Qed.

Lemma adds_raise {A} (e : exn) : adds P (@raise A e).
Proof. intros w tr. exists []. rewrite app_nil_r. split; [reflexivity | constructor]. Qed.

Lemma adds_lift {A} (r : result A) : adds P (lift r).
Proof. intros w tr. exists []. rewrite app_nil_r. split; [reflexivity | constructor]. Qed.

Lemma adds_ask {A} (f : world -> list event -> A) : adds P (ask f).
Proof. intros w tr. exists []. rewrite app_nil_r. split; [reflexivity | constructor]. Qed.

Lemma adds_emit (e : event) : P e -> adds P (emit e).
Proof. intros H w tr. exists [e]. split; [reflexivity | repeat constructor; exact H]. Qed.

Lemma adds_bind {A B} (m : M A) (k : A -> M B) :
  adds P m -> (forall a, adds P (k a)) -> adds P (bind m k).
Proof.
  intros Hm Hk w tr. unfold bind.
  destruct (Hm w tr) as [d1 [E1 F1]].
  destruct (m w tr) as [[a|e] tr1]; simpl in E1; subst tr1.
  - destruct (Hk a w (tr ++ d1)) as [d2 [E2 F2]].
    exists (d1 ++ d2). rewrite E2, app_assoc. split; [reflexivity|].
    apply Forall_app; split; assumption.
  - exists d1. split; [reflexivity | assumption].
Qed.

Lemma adds_try_except {A} (m : M A) (h : exn -> M A) :
  adds P m -> (forall e, adds P (h e)) -> adds P (try_except m h).
Proof.
  intros Hm Hh w tr. unfold try_except.
  destruct (Hm w tr) as [d1 [E1 F1]].
  destruct (m w tr) as [[a|e] tr1]; simpl in E1; subst tr1.
  - exists d1. split; [reflexivity | assumption].
  - destruct (is_exception e).
    + destruct (Hh e w (tr ++ d1)) as [d2 [E2 F2]].
      exists (d1 ++ d2). rewrite E2, app_assoc. split; [reflexivity|].
      apply Forall_app; split; assumption.
    + exists d1. split; [reflexivity | assumption].
Qed.

Lemma adds_try_value_error {A} (m h : M A) :
  adds P m -> adds P h -> adds P (try_value_error m h).
Proof.
  intros Hm Hh w tr. unfold try_value_error.
  destruct (Hm w tr) as [d1 [E1 F1]].
  destruct (m w tr) as [[a|e] tr1]; simpl in E1; subst tr1.
  - exists d1. split; [reflexivity | assumption].
  - assert (Hd : exists d, snd (h w (tr ++ d1)) = tr ++ d /\ Forall P d).
    { destruct (Hh w (tr ++ d1)) as [d2 [E2 F2]].
      exists (d1 ++ d2). rewrite E2, app_assoc. split; [reflexivity|].
      apply Forall_app; split; assumption. }
    destruct e; try (exists d1; split; [reflexivity | assumption]).
    exact Hd.
Qed.

Lemma adds_for_fold {A S} (items : list A) (body : S -> A -> M S) :
  (forall s x, adds P (body s x)) -> forall s, adds P (for_fold items s body).
Proof.
  intros Hb. induction items as [|x items IH]; intros s; simpl.
  - apply adds_ret.
  - apply adds_bind; [apply Hb | intros s'; apply IH].
Qed.

Lemma adds_for_each {A} (items : list A) (body : A -> M unit) :
  (forall x, adds P (body x)) -> adds P (for_each items body).
Proof. intros Hb. apply adds_for_fold. intros _ x. apply Hb. Qed.

End Adds.

Lemma adds_weaken {A} (P Q : event -> Prop) (m : M A) :
  (forall e, P e -> Q e) -> adds P m -> adds Q m.
Proof.
  intros HPQ Hm w tr. destruct (Hm w tr) as [d [E F]].
  exists d. split; [exact E|]. eapply Forall_impl; eassumption.
Qed.

(** Breaks a computation into its parts; what is left are the events it
    emits and the requests it sends. *)
Ltac adds_step :=
  lazymatch goal with
  | |- adds _ (bind _ _) => apply adds_bind; [| intros ?]
  | |- adds _ (ret _) => apply adds_ret
  | |- adds _ (raise _) => apply adds_raise
  | |- adds _ (sys_exit _) => apply adds_raise
  | |- adds _ (lift _) => apply adds_lift
  | |- adds _ (ask _) => apply adds_ask
  | |- adds _ (format _) => unfold format
  | |- adds _ (log _ _ _) => apply adds_emit
  | |- adds _ (print _ _) => apply adds_emit
  | |- adds _ (emit _) => apply adds_emit
  | |- adds _ (try_except _ _) => apply adds_try_except; [| intros ?]
  | |- adds _ (try_value_error _ _) => apply adds_try_value_error
  | |- adds _ (for_fold _ _ _) => apply adds_for_fold; intros ? ?
  | |- adds _ (for_each _ _) => apply adds_for_each; intros ?
  | |- adds _ (match ?x with _ => _ end) => destruct x
  | |- adds _ (let '(_, _) := ?x in _) => destruct x
  end.

Ltac adds_steps := repeat adds_step.

Lemma adds_send (P : event -> Prop) self t r :
  (forall c, call_request c = r -> P (Called c)) -> adds P (HNAS.send self t r).
Proof.
  intros HP w tr. unfold HNAS.send.
  destruct (respond w tr _); eexists [Called _]; (split; [reflexivity|]);
    repeat constructor; apply HP; reflexivity.
Qed.

Lemma adds_raise_for_status (P : event -> Prop) r :
  adds P (HNAS.raise_for_status r).
Proof.
  unfold HNAS.raise_for_status.
  destruct (_ && _); [apply adds_raise | apply adds_ret].
Qed.

Lemma adds_json (P : event -> Prop) r : adds P (HNAS.json r).
Proof. unfold HNAS.json. destruct (HNAS.body r); [apply adds_ret | apply adds_raise]. Qed.

(** ** The snapshot sweep *)

Lemma delete_snapshot_total self oid w tr :
  exists b, fst (HNAS.delete_snapshot self oid w tr) = Ok b.
Proof. eexists. apply delete_snapshot_result. Qed.

Lemma delete_smb_share_total self oid w tr :
  exists b, fst (HNAS.delete_smb_share self oid w tr) = Ok b.
Proof. eexists. apply delete_smb_share_result. Qed.

Lemma delete_snapshot_deletes self oid w tr :
  snapshot_deletes (snd (HNAS.delete_snapshot self oid w tr))
  = snapshot_deletes tr ++ [oid].
Proof.
  unfold HNAS.delete_snapshot, try_except, bind, log, emit, HNAS.send,
    HNAS.raise_for_status, raise, ret.
  simpl.
  destruct (respond w _ _) as [|st tx js]; simpl.
  - rewrite !snapshot_deletes_app. simpl. now rewrite !app_nil_r.
  - destruct ((400 <=? st) && (st <? 600)); simpl;
      [destruct (st =? 404)|]; simpl;
      rewrite !snapshot_deletes_app; simpl; now rewrite !app_nil_r.
Qed.

Lemma delete_smb_share_deletes self oid w tr :
  share_deletes (snd (HNAS.delete_smb_share self oid w tr))
  = share_deletes tr ++ [oid].
Proof.
  unfold HNAS.delete_smb_share, try_except, bind, log, emit, HNAS.send,
    HNAS.raise_for_status, raise, ret.
  simpl.
  destruct (respond w _ _) as [|st tx js]; simpl.
  - rewrite !share_deletes_app. simpl. now rewrite !app_nil_r.
  - destruct ((400 <=? st) && (st <? 600)); simpl;
      [destruct (st =? 404)|]; simpl;
      rewrite !share_deletes_app; simpl; now rewrite !app_nil_r.
Qed.

Lemma adds_delete_snapshot (P : event -> Prop) self oid :
  (forall l t a, P (Logged l t a)) ->
  (forall c, call_request c = DeleteSnapshot oid -> P (Called c)) ->
  adds P (HNAS.delete_snapshot self oid).
Proof.
  intros HL HC. unfold HNAS.delete_snapshot.
  adds_steps; try apply HL; try apply adds_raise_for_status.
  apply adds_send. exact HC.
Qed.

Lemma adds_delete_smb_share (P : event -> Prop) self oid :
  (forall l t a, P (Logged l t a)) ->
  (forall c, call_request c = DeleteCifsShare oid -> P (Called c)) ->
  adds P (HNAS.delete_smb_share self oid).
Proof.
  intros HL HC. unfold HNAS.delete_smb_share.
  adds_steps; try apply HL; try apply adds_raise_for_status.
  apply adds_send. exact HC.
Qed.

(** The body of the loop on a snapshot that is older than the cut-off and
    has an identifier: one call of [delete_snapshot]. *)
Lemma sweep_snapshot_older self c n snap w tr t :
  normalized_creation_time (max_str_digits w) snap = Some t ->
  t < c ->
  Py.truthy (object_id snap) = true ->
  Post.sweep_snapshot self c n snap w tr
  = bind (HNAS.delete_snapshot self (object_id snap))
      (fun deleted => ret (if deleted then n + 1 else n)) w tr.
Proof.
  intros Hn Hlt Hid.
  unfold normalized_creation_time in Hn. unfold object_id in *.
  unfold Post.sweep_snapshot.
  destruct snap; try discriminate Hn. simpl in *.
  unfold bind at 1. simpl.
  assert (Hd : Post.delete_if_older self c n (PDict entries) (PInt t) w tr
               = bind (HNAS.delete_snapshot self
                         (match Py.assoc "objectId" entries with
                          | Some x => x | None => PNone end))
                   (fun deleted => ret (if deleted then n + 1 else n)) w tr).
  { unfold Post.delete_if_older. unfold bind at 1. simpl.
    replace (t <? c) with true by (symmetry; apply Z.ltb_lt; exact Hlt).
    unfold bind at 1. simpl. rewrite Hid. reflexivity. }
  destruct (Py.assoc "creationTime" entries) as [v|] eqn:Ev.
  - destruct v; try discriminate Hn.
    + injection Hn as ->. exact Hd.
    + unfold bind at 1. simpl. rewrite Hn. exact Hd.
  - injection Hn as <-. exact Hd.
Qed.

(** On a snapshot that is not older than the cut-off the body does
    nothing. *)
Lemma sweep_snapshot_not_older self c n snap w tr t :
  normalized_creation_time (max_str_digits w) snap = Some t ->
  c <= t ->
  Post.sweep_snapshot self c n snap w tr = (Ok n, tr).
Proof.
  intros Hn Hle.
  unfold normalized_creation_time in Hn.
  unfold Post.sweep_snapshot.
  destruct snap; try discriminate Hn. simpl in *.
  unfold bind at 1. simpl.
  assert (Hd : Post.delete_if_older self c n (PDict entries) (PInt t) w tr
               = (Ok n, tr)).
  { unfold Post.delete_if_older. unfold bind at 1. simpl.
    replace (t <? c) with false by (symmetry; apply Z.ltb_ge; exact Hle).
    reflexivity. }
  destruct (Py.assoc "creationTime" entries) as [v|] eqn:Ev.
  - destruct v; try discriminate Hn.
    + injection Hn as ->. exact Hd.
    + unfold bind at 1. simpl. rewrite Hn. exact Hd.
  - injection Hn as <-. exact Hd.
Qed.

(** On a snapshot whose creation time is a string that is no integer the
    body logs a warning and goes on. *)
Lemma sweep_snapshot_unparsable self c n snap w tr s :
  Py.get snap "creationTime" (PInt 0) = Ok (PStr s) ->
  PyStr.to_int (max_str_digits w) s = None ->
  exists name,
    Post.sweep_snapshot self c n snap w tr
    = (Ok n, tr ++ [Logged WARNING
                      "Invalid creation time format for snapshot: {}"
                      [LVal name]]).
Proof.
  intros Hg Hn. unfold Post.sweep_snapshot.
  destruct snap; try discriminate Hg.
  unfold bind at 1. unfold lift. rewrite Hg.
  unfold bind at 1. simpl. rewrite Hn.
  eexists. reflexivity.
Qed.

Lemma for_fold_app {A S} (l1 l2 : list A) (s : S) (body : S -> A -> M S) w tr :
  for_fold (l1 ++ l2) s body w tr
  = bind (for_fold l1 s body) (fun s' => for_fold l2 s' body) w tr.
Proof.
  revert s w tr. induction l1 as [|x l1 IH]; intros s w tr; simpl.
  - reflexivity.
  - unfold bind.
    destruct (body s x w tr) as [[s'|e] tr']; [|reflexivity].
    rewrite IH. reflexivity.
Qed.

Lemma adds_sweep_snapshot (P : event -> Prop) self c n snap :
  (forall l t a, P (Logged l t a)) ->
  (forall k, (exists oid, call_request k = DeleteSnapshot oid) -> P (Called k)) ->
  adds P (Post.sweep_snapshot self c n snap).
Proof.
  intros HL HC. unfold Post.sweep_snapshot, Post.delete_if_older.
  adds_steps; try apply HL;
    (apply adds_delete_snapshot; [exact HL | intros k Hk; apply HC; eauto]).
Qed.

Lemma sweep_snapshot_total self c n snap w tr :
  sweepable snap = true ->
  exists n', fst (Post.sweep_snapshot self c n snap w tr) = Ok n'.
Proof.
  intros Hs. unfold sweepable in Hs.
  destruct snap; try discriminate Hs. simpl in Hs.
  assert (Hd : forall v b, Py.lt_int v c = Ok b ->
            exists n', fst (Post.delete_if_older self c n (PDict entries) v w tr)
                       = Ok n').
  { intros v b Hv. unfold Post.delete_if_older. unfold bind at 1.
    unfold lift. rewrite Hv. destruct b; [|eexists; reflexivity].
    unfold bind at 1. simpl.
    destruct (Py.truthy _); [|eexists; reflexivity].
    unfold bind.
    destruct (delete_snapshot_total self
                (match Py.assoc "objectId" entries with
                 | Some x => x | None => PNone end) w tr) as [b Hb].
    destruct (HNAS.delete_snapshot _ _ w tr) as [r tr']. simpl in Hb. subst r.
    eexists; reflexivity. }
  unfold Post.sweep_snapshot. unfold bind at 1. simpl.
  destruct (match Py.assoc "creationTime" entries with
            | Some x => x | None => PInt 0 end) eqn:Ev; try discriminate Hs;
    try (eapply Hd; reflexivity).
  unfold bind at 1. simpl.
  destruct (PyStr.to_int _ s); [eapply Hd; reflexivity|].
  eexists; reflexivity.
Qed.

Lemma sweep_snapshots_total self c items : forall n w tr,
  forallb sweepable items = true ->
  exists n', fst (for_fold items n (Post.sweep_snapshot self c) w tr) = Ok n'.
Proof.
  induction items as [|x items IH]; intros n w tr H; simpl.
  - eexists; reflexivity.
  - apply andb_prop in H as [Hx Hr].
    destruct (sweep_snapshot_total self c n x w tr Hx) as [n1 H1].
    unfold bind. destruct (Post.sweep_snapshot self c n x w tr) as [r tr1].
    simpl in H1. subst r. apply IH. exact Hr.
Qed.

Lemma snapshot_deletes_grow {A} (m : M A) w tr oid :
  adds (fun _ => True) m ->
  In oid (snapshot_deletes tr) -> In oid (snapshot_deletes (snd (m w tr))).
Proof.
  intros Hm Hin. destruct (Hm w tr) as [d [E _]]. rewrite E.
  rewrite snapshot_deletes_app. apply in_or_app. now left.
Qed.

(** The loop gets to a snapshot behind snapshots it can compare, and
    deletes it when it is older than the cut-off and has an identifier. *)
Lemma sweep_snapshots_reach self c pre snap post n w tr t :
  forallb sweepable pre = true ->
  normalized_creation_time (max_str_digits w) snap = Some t ->
  t < c ->
  Py.truthy (object_id snap) = true ->
  In (object_id snap)
    (snapshot_deletes
       (snd (for_fold (pre ++ snap :: post) n (Post.sweep_snapshot self c) w tr))).
Proof.
  intros Hpre Hn Hlt Hid.
  rewrite for_fold_app. unfold bind at 1.
  destruct (sweep_snapshots_total self c pre n w tr Hpre) as [n1 H1].
  destruct (for_fold pre n _ w tr) as [r tr1]. simpl in H1. subst r.
  simpl for_fold. unfold bind at 1.
  rewrite (sweep_snapshot_older self c n1 snap w tr1 t Hn Hlt Hid).
  pose proof (delete_snapshot_deletes self (object_id snap) w tr1) as Hdel.
  destruct (delete_snapshot_total self (object_id snap) w tr1) as [b Hb].
  unfold bind at 1.
  destruct (HNAS.delete_snapshot self (object_id snap) w tr1) as [r tr2].
  simpl in Hb, Hdel. subst r. unfold ret at 1.
  apply snapshot_deletes_grow.
  - apply adds_for_fold. intros s x.
    apply adds_sweep_snapshot; intros; exact I.
  - rewrite Hdel. apply in_or_app. right. now left.
Qed.

(** The sweep of a filesystem runs the loop over what the array lists;
    afterwards it can only log that the loop raised. *)
Lemma cleanup_old_snapshots_loop self fs app days w tr x items tr1 c :
  HNAS.get_filesystem_snapshots self fs app w tr = (Ok (PList (x :: items)), tr1) ->
  cutoff_time w tr1 days = Ok c ->
  exists d,
    snd (Post.cleanup_old_snapshots self fs app days w tr)
    = snd (for_fold (x :: items) 0 (Post.sweep_snapshot self c) w tr1) ++ d
    /\ Forall (fun e => exists l t a, e = Logged l t a /\ l = ERROR) d.
Proof.
  intros Hl Hc. unfold Post.cleanup_old_snapshots, try_except.
  unfold bind at 1. rewrite Hl. cbn [Py.truthy negb].
  unfold bind at 1. unfold ask at 1. rewrite Hc.
  unfold bind at 1. unfold lift at 1.
  unfold bind at 1. unfold lift at 1. cbn [Py.iterate].
  destruct (for_fold (x :: items) 0 _ w tr1) as [[n|e] tr2]; cbn [snd].
  - exists []. rewrite app_nil_r. split; [reflexivity | constructor].
  - destruct (is_exception e).
    + eexists [_]. split; [reflexivity|]. repeat constructor. eauto.
    + exists []. rewrite app_nil_r. split; [reflexivity | constructor].
Qed.

(** The whole sweep of a filesystem asks for the deletion of a listed
    snapshot that is older than the cut-off and has an identifier, when
    the loop can compare every snapshot listed before it. *)
Lemma cleanup_old_snapshots_reach self w c snap fs app days pre post tr tr1 t :
  HNAS.get_filesystem_snapshots self fs app w tr
  = (Ok (PList (pre ++ snap :: post)), tr1) ->
  cutoff_time w tr1 days = Ok c ->
  forallb sweepable pre = true ->
  normalized_creation_time (max_str_digits w) snap = Some t ->
  t < c ->
  Py.truthy (object_id snap) = true ->
  In (object_id snap)
    (snapshot_deletes (snd (Post.cleanup_old_snapshots self fs app days w tr))).
Proof.
  intros Hl Hc Hpre Hn Hlt Hid.
  assert (Hne : exists x items, pre ++ snap :: post = x :: items).
  { destruct pre; simpl; eauto. }
  destruct Hne as [x [items Hxi]]. rewrite Hxi in Hl.
  destruct (cleanup_old_snapshots_loop self fs app days w tr x items tr1 c
              Hl Hc) as [d [E _]].
  rewrite E, snapshot_deletes_app. apply in_or_app. left.
  rewrite <- Hxi. eapply sweep_snapshots_reach; eassumption.
Qed.

(** C2 (amended).  In the snapshot retention sweep, with [c] the cut-off:
    a listed snapshot whose normalized creation time is strictly before
    [c] and that has a non-empty object identifier gets a delete request
    for that identifier from the loop body, and from the whole sweep when
    the loop can compare every snapshot listed before it; a snapshot whose
    creation time is [c] or later is left alone; a creation time that is a
    numeric string is compared as the integer it holds; a snapshot whose
    creation-time string is no integer gets a warning and no request. *)
Theorem C2_snapshot_retention_sweep :
  forall (self : HNAS.manager) (w : world) (c n : Z) (snap : pyval)
         (tr : list event),
    (forall t,
        normalized_creation_time (max_str_digits w) snap = Some t ->
        t < c ->
        Py.truthy (object_id snap) = true ->
        snapshot_deletes (snd (Post.sweep_snapshot self c n snap w tr))
        = snapshot_deletes tr ++ [object_id snap])
    /\ (forall t,
           normalized_creation_time (max_str_digits w) snap = Some t ->
           c <= t ->
           Post.sweep_snapshot self c n snap w tr = (Ok n, tr))
    /\ (forall s t,
           Py.get snap "creationTime" (PInt 0) = Ok (PStr s) ->
           PyStr.to_int (max_str_digits w) s = Some t ->
           Post.sweep_snapshot self c n snap w tr
           = Post.delete_if_older self c n snap (PInt t) w tr)
    /\ (forall s,
           Py.get snap "creationTime" (PInt 0) = Ok (PStr s) ->
           PyStr.to_int (max_str_digits w) s = None ->
           exists name,
             Post.sweep_snapshot self c n snap w tr
             = (Ok n, tr ++ [Logged WARNING
                               "Invalid creation time format for snapshot: {}"
                               [LVal name]]))
    /\ (forall fs app days pre post tr1 t,
           HNAS.get_filesystem_snapshots self fs app w tr
           = (Ok (PList (pre ++ snap :: post)), tr1) ->
           cutoff_time w tr1 days = Ok c ->
           forallb sweepable pre = true ->
           normalized_creation_time (max_str_digits w) snap = Some t ->
           t < c ->
           Py.truthy (object_id snap) = true ->
           In (object_id snap)
             (snapshot_deletes
                (snd (Post.cleanup_old_snapshots self fs app days w tr)))).
Proof.
  intros self w c n snap tr.
  refine (conj _ (conj _ (conj _ (conj _ _)))).
  - intros t Hn Hlt Hid.
    rewrite (sweep_snapshot_older self c n snap w tr t Hn Hlt Hid).
    pose proof (delete_snapshot_deletes self (object_id snap) w tr) as Hd.
    unfold bind.
    destruct (HNAS.delete_snapshot self (object_id snap) w tr) as [[b|e] tr'];
      exact Hd.
  - intros t Hn Hle. eapply sweep_snapshot_not_older; eassumption.
  - intros s t Hg Hs. unfold Post.sweep_snapshot.
    unfold bind at 1. unfold lift at 1. rewrite Hg.
    unfold bind at 1. unfold ask at 1. rewrite Hs. reflexivity.
  - intros s Hg Hs. eapply sweep_snapshot_unparsable; eassumption.
  - intros fs app days pre post tr1 t Hl Hc Hpre Hn Hlt Hid.
    eapply cleanup_old_snapshots_reach; eassumption.
Qed.

Lemma C2_snapshot_retention_sweep_witness :
  snapshot_deletes
    (snd (Post.sweep_snapshot Examples.client 1704682800 0
            Examples.old_snapshot snapshots_world []))
  = [PStr "snap-2023"]
  /\ Post.sweep_snapshot Examples.client 1704682800 0
       Examples.snapshot_at_cutoff snapshots_world [] = (Ok 0, [])
  /\ Post.sweep_snapshot Examples.client 1704682800 0
       Examples.old_snapshot snapshots_world []
     = Post.delete_if_older Examples.client 1704682800 0
         Examples.old_snapshot (PInt 1672542000) snapshots_world []
  /\ (exists name,
         Post.sweep_snapshot Examples.client 1704682800 0
           Examples.snapshot_unparsable snapshots_world []
         = (Ok 0, [Logged WARNING
                     "Invalid creation time format for snapshot: {}"
                     [LVal name]]))
  /\ In (PStr "snap-2023")
       (snapshot_deletes
          (snd (Post.cleanup_old_snapshots Examples.client (PStr "fs-1")
                  "veeam" 7 snapshots_world []))).
Proof.
  refine (conj _ (conj _ (conj _ (conj _ _)))).
  - apply (proj1 (C2_snapshot_retention_sweep Examples.client snapshots_world
                    1704682800 0 Examples.old_snapshot []) 1672542000);
      [reflexivity | lia | reflexivity].
  - apply (proj1 (proj2 (C2_snapshot_retention_sweep Examples.client
                    snapshots_world 1704682800 0 Examples.snapshot_at_cutoff []))
             1704682800); [reflexivity | lia].
  - apply (proj1 (proj2 (proj2 (C2_snapshot_retention_sweep Examples.client
                    snapshots_world 1704682800 0 Examples.old_snapshot [])))
             "1672542000" 1672542000); reflexivity.
  - apply (proj1 (proj2 (proj2 (proj2 (C2_snapshot_retention_sweep
                    Examples.client snapshots_world 1704682800 0
                    Examples.snapshot_unparsable []))))
             "yesterday"); reflexivity.
  - eapply (proj2 (proj2 (proj2 (proj2 (C2_snapshot_retention_sweep
                    Examples.client snapshots_world 1704682800 0
                    Examples.old_snapshot []))))
              (PStr "fs-1") "veeam" 7 [Examples.snapshot_at_cutoff]
              [Examples.snapshot_unparsable] _ 1672542000);
      [reflexivity | reflexivity | reflexivity | reflexivity | lia | reflexivity].
Defined.

(** C2 as stated fails on a listed snapshot that is older than the cut-off
    and has no object identifier: the sweep lists the snapshots and asks
    for no delete. *)
Lemma C2_counterexample :
  normalized_creation_time 4300 Examples.old_snapshot_without_id
  = Some 1672542000
  /\ cutoff_time anonymous_snapshot_world
       (snd (HNAS.get_filesystem_snapshots Examples.client (PStr "fs-1")
               "veeam" anonymous_snapshot_world [])) 7 = Ok 1704682800
  /\ 1672542000 < 1704682800
  /\ HNAS.get_filesystem_snapshots Examples.client (PStr "fs-1") "veeam"
       anonymous_snapshot_world []
     = (Ok (PList [Examples.old_snapshot_without_id]),
        [Called (mkcall "hnas.example" false (ApiKey "secret") 30
                   (GetFilesystemSnapshots (PStr "fs-1") "veeam"))])
  /\ Post.cleanup_old_snapshots Examples.client (PStr "fs-1") "veeam" 7
       anonymous_snapshot_world []
     = (Ok 0,
        [Called (mkcall "hnas.example" false (ApiKey "secret") 30
                   (GetFilesystemSnapshots (PStr "fs-1") "veeam"))])
  /\ snapshot_deletes
       (snd (Post.cleanup_old_snapshots Examples.client (PStr "fs-1") "veeam" 7
               anonymous_snapshot_world [])) = [].
Proof.
  refine (conj _ (conj _ (conj _ (conj _ (conj _ _))))); reflexivity.
Qed.

Lemma delete_snapshot_events self oid w tr :
  exists d,
    snd (HNAS.delete_snapshot self oid w tr) = tr ++ d
    /\ snapshot_deletes d = [oid]
    /\ existsb invalid_creation_time d = false.
Proof.
  unfold HNAS.delete_snapshot, try_except, bind, log, emit, HNAS.send,
    HNAS.raise_for_status, raise, ret.
  simpl.
  destruct (respond w _ _) as [|st tx js]; simpl.
  - eexists [_; _; _]. rewrite <- !app_assoc. simpl. repeat split.
  - destruct ((400 <=? st) && (st <? 600)); simpl;
      [destruct (st =? 404)|]; simpl;
      eexists [_; _; _]; rewrite <- !app_assoc; simpl; repeat split.
Qed.

(** C10.  A listed snapshot without a creation-time field is compared as
    if it had been taken at the epoch: with a positive cut-off and a
    non-empty object identifier the loop body asks for its deletion and
    logs no warning about the creation time, and so does the whole sweep
    when the loop can compare every snapshot listed before it; a snapshot
    whose creation-time string is no integer gets the warning and no
    request. *)
Theorem C10_absent_creation_time_is_epoch :
  forall (self : HNAS.manager) (w : world) (c n : Z)
         (entries : list (string * pyval)) (tr : list event),
    Py.assoc "creationTime" entries = None ->
    0 < c ->
    Py.truthy (object_id (PDict entries)) = true ->
    normalized_creation_time (max_str_digits w) (PDict entries) = Some 0
    /\ (exists d,
           snd (Post.sweep_snapshot self c n (PDict entries) w tr) = tr ++ d
           /\ snapshot_deletes d = [object_id (PDict entries)]
           /\ existsb invalid_creation_time d = false)
    /\ (forall fs app days pre post tr0 tr1,
           HNAS.get_filesystem_snapshots self fs app w tr0
           = (Ok (PList (pre ++ PDict entries :: post)), tr1) ->
           cutoff_time w tr1 days = Ok c ->
           forallb sweepable pre = true ->
           In (object_id (PDict entries))
             (snapshot_deletes
                (snd (Post.cleanup_old_snapshots self fs app days w tr0))))
    /\ (forall other s,
           Py.assoc "creationTime" other = Some (PStr s) ->
           PyStr.to_int (max_str_digits w) s = None ->
           exists d,
             snd (Post.sweep_snapshot self c n (PDict other) w tr) = tr ++ d
             /\ snapshot_deletes d = []
             /\ existsb invalid_creation_time d = true).
Proof.
  intros self w c n entries tr Habs Hc Hid.
  assert (Hn : normalized_creation_time (max_str_digits w) (PDict entries)
               = Some 0).
  { unfold normalized_creation_time. simpl. now rewrite Habs. }
  refine (conj Hn (conj _ (conj _ _))).
  - rewrite (sweep_snapshot_older self c n (PDict entries) w tr 0 Hn Hc Hid).
    destruct (delete_snapshot_events self (object_id (PDict entries)) w tr)
      as [d [E [Hd Hw]]].
    exists d. unfold bind.
    destruct (HNAS.delete_snapshot self (object_id (PDict entries)) w tr)
      as [[b|e] tr']; simpl in *; auto.
  - intros fs app days pre post tr0 tr1 Hl Hcut Hpre.
    eapply cleanup_old_snapshots_reach; eassumption.
  - intros other s Hg Hs.
    destruct (sweep_snapshot_unparsable self c n (PDict other) w tr s)
      as [name E]; [simpl; now rewrite Hg | exact Hs |].
    rewrite E. eexists [_]. repeat split.
Qed.

Lemma C10_absent_creation_time_is_epoch_witness :
  normalized_creation_time 4300 Examples.snapshot_without_time = Some 0
  /\ (exists d,
         snd (Post.sweep_snapshot Examples.client 1704682800 0
                Examples.snapshot_without_time timeless_snapshot_world [])
         = [] ++ d
         /\ snapshot_deletes d = [PStr "snap-y"]
         /\ existsb invalid_creation_time d = false)
  /\ In (PStr "snap-y")
       (snapshot_deletes
          (snd (Post.cleanup_old_snapshots Examples.client (PStr "fs-1")
                  "veeam" 7 timeless_snapshot_world []))).
Proof.
  destruct (C10_absent_creation_time_is_epoch Examples.client
              timeless_snapshot_world 1704682800 0
              [("displayName", PStr "veeam_fs-alpha_y");
               ("objectId", PStr "snap-y")] [])
    as [H1 [H2 [H3 _]]]; [reflexivity | lia | reflexivity |].
  refine (conj H1 (conj H2 _)).
  eapply (H3 (PStr "fs-1") "veeam" 7 [] []); reflexivity.
Defined.

(** C10 as stated fails in two ways.  A snapshot without a creation time
    that is listed after a snapshot whose creation time is [null] is not
    deleted, although the window of 7 days is positive and the snapshot
    has an identifier: the comparison of [null] with the cut-off raises
    [TypeError], which ends the sweep.  And with a window of 20000 days the
    cut-off lies before the epoch, so that the snapshot without a creation
    time, compared as 0, is not older than the cut-off and is kept. *)
Lemma C10_counterexample :
  (Py.assoc "creationTime"
     [("displayName", PStr "veeam_fs-alpha_y"); ("objectId", PStr "snap-y")]
   = None
   /\ Py.truthy (object_id Examples.snapshot_without_time) = true
   /\ HNAS.get_filesystem_snapshots Examples.client (PStr "fs-1") "veeam"
        null_time_first_world []
      = (Ok (PList [snapshot_with_null_time; Examples.snapshot_without_time]),
         [Called (mkcall "hnas.example" false (ApiKey "secret") 30
                    (GetFilesystemSnapshots (PStr "fs-1") "veeam"))])
   /\ Post.cleanup_old_snapshots Examples.client (PStr "fs-1") "veeam" 7
        null_time_first_world []
      = (Ok 0,
         [Called (mkcall "hnas.example" false (ApiKey "secret") 30
                    (GetFilesystemSnapshots (PStr "fs-1") "veeam"));
          Logged ERROR "Error during snapshot cleanup: {}" [LExn TypeError]])
   /\ snapshot_deletes
        (snd (Post.cleanup_old_snapshots Examples.client (PStr "fs-1") "veeam"
                7 null_time_first_world [])) = [])
  /\ (0 < 20000
      /\ cutoff_time long_window_world
           (snd (HNAS.get_filesystem_snapshots Examples.client (PStr "fs-1")
                   "veeam" long_window_world [])) 20000 = Ok (-22712400)
      /\ HNAS.get_filesystem_snapshots Examples.client (PStr "fs-1") "veeam"
           long_window_world []
         = (Ok (PList [Examples.snapshot_without_time]),
            [Called (mkcall "hnas.example" false (ApiKey "secret") 30
                       (GetFilesystemSnapshots (PStr "fs-1") "veeam"))])
      /\ Post.cleanup_old_snapshots Examples.client (PStr "fs-1") "veeam" 20000
           long_window_world []
         = (Ok 0,
            [Called (mkcall "hnas.example" false (ApiKey "secret") 30
                       (GetFilesystemSnapshots (PStr "fs-1") "veeam"))])
      /\ snapshot_deletes
           (snd (Post.cleanup_old_snapshots Examples.client (PStr "fs-1")
                   "veeam" 20000 long_window_world [])) = []).
Proof.
  split.
  - refine (conj _ (conj _ (conj _ (conj _ _)))); reflexivity.
  - refine (conj _ (conj _ (conj _ (conj _ _)))); [lia | reflexivity ..].
Qed.

(** ** The share sweep *)

Lemma share_stamp_named share stamp :
  share_stamp share = Some stamp -> named_with "" share = true.
Proof.
  unfold share_stamp, named_with.
  destruct (Py.get share "name" (PStr "")) as [[]|]; try discriminate.
  intros _. unfold PyStr.startswith. now destruct s.
Qed.

(** The body of the loop on a share whose name holds a time stamp before
    the cut-off and that has an identifier: one call of
    [delete_smb_share]. *)
Lemma sweep_share_older self cd n share w tr stamp d :
  share_stamp share = Some stamp ->
  PyTime.strptime stamp = Some d ->
  PyTime.lt d cd = true ->
  Py.truthy (object_id share) = true ->
  Post.sweep_share self cd n share w tr
  = bind (HNAS.delete_smb_share self (object_id share))
      (fun deleted => ret (if deleted then n + 1 else n)) w tr.
Proof.
  intros Hs Hp Hlt Hid. unfold share_stamp, object_id in *.
  unfold Post.sweep_share.
  destruct share; try discriminate Hs. simpl in *.
  unfold bind at 1. simpl.
  destruct (match Py.assoc "name" entries with
            | Some x => x | None => PStr "" end) eqn:En; try discriminate Hs.
  unfold try_value_error. unfold bind at 1. simpl. rewrite Hs, Hp, Hlt.
  unfold bind at 1. simpl. rewrite Hid.
  destruct (delete_smb_share_total self
              (match Py.assoc "objectId" entries with
               | Some x => x | None => PNone end) w tr) as [b Hb].
  unfold bind.
  destruct (HNAS.delete_smb_share self _ w tr) as [r tr'].
  simpl in Hb. subst r. reflexivity.
Qed.

Lemma sweep_share_not_older self cd n share w tr stamp d :
  share_stamp share = Some stamp ->
  PyTime.strptime stamp = Some d ->
  PyTime.lt d cd = false ->
  Post.sweep_share self cd n share w tr = (Ok n, tr).
Proof.
  intros Hs Hp Hlt. unfold share_stamp in *.
  unfold Post.sweep_share.
  destruct share; try discriminate Hs. simpl in *.
  unfold bind at 1. simpl.
  destruct (match Py.assoc "name" entries with
            | Some x => x | None => PStr "" end) eqn:En; try discriminate Hs.
  unfold try_value_error. unfold bind at 1. simpl. rewrite Hs, Hp, Hlt.
  reflexivity.
Qed.

(** A name of at least three parts whose last two are no time stamp: a
    warning and nothing else. *)
Lemma sweep_share_unparsable self cd n share w tr stamp :
  share_stamp share = Some stamp ->
  PyTime.strptime stamp = None ->
  exists name,
    Post.sweep_share self cd n share w tr
    = (Ok n, tr ++ [Logged WARNING
                      "Skipping SMB share with unexpected name format: {}"
                      [LVal name]]).
Proof.
  intros Hs Hp. unfold share_stamp in *.
  unfold Post.sweep_share.
  destruct share; try discriminate Hs. simpl in *.
  unfold bind at 1. simpl.
  destruct (match Py.assoc "name" entries with
            | Some x => x | None => PStr "" end) eqn:En; try discriminate Hs.
  unfold try_value_error. unfold bind at 1. simpl. rewrite Hs, Hp.
  eexists. reflexivity.
Qed.

(** A name of fewer than three parts: nothing at all. *)
Lemma sweep_share_short self cd n share w tr :
  named_with "" share = true ->
  share_stamp share = None ->
  Post.sweep_share self cd n share w tr = (Ok n, tr).
Proof.
  intros Hn Hs. unfold share_stamp, named_with in *.
  unfold Post.sweep_share.
  destruct share; try discriminate Hn. simpl in *.
  unfold bind at 1. simpl.
  destruct (match Py.assoc "name" entries with
            | Some x => x | None => PStr "" end) eqn:En; try discriminate Hn.
  unfold try_value_error. unfold bind at 1. simpl. rewrite Hs.
  reflexivity.
Qed.

Lemma sweep_share_total self cd n share w tr :
  named_with "" share = true ->
  exists n', fst (Post.sweep_share self cd n share w tr) = Ok n'.
Proof.
  intros Hn.
  destruct (share_stamp share) as [stamp|] eqn:Hs.
  - destruct (PyTime.strptime stamp) as [d|] eqn:Hp.
    + destruct (PyTime.lt d cd) eqn:Hlt.
      * destruct (Py.truthy (object_id share)) eqn:Hid.
        -- rewrite (sweep_share_older self cd n share w tr stamp d Hs Hp Hlt Hid).
           destruct (delete_smb_share_total self (object_id share) w tr)
             as [b Hb].
           unfold bind.
           destruct (HNAS.delete_smb_share self _ w tr) as [r tr'].
           simpl in Hb. subst r. eexists; reflexivity.
        -- unfold share_stamp, object_id in *. unfold Post.sweep_share.
           destruct share; try discriminate Hs. simpl in *.
           unfold bind at 1. simpl.
           destruct (match Py.assoc "name" entries with
                     | Some x => x | None => PStr "" end);
             try discriminate Hs.
           unfold try_value_error. unfold bind at 1. simpl.
           rewrite Hs, Hp, Hlt. unfold bind at 1. simpl. rewrite Hid.
           eexists; reflexivity.
      * rewrite (sweep_share_not_older self cd n share w tr stamp d Hs Hp Hlt).
        eexists; reflexivity.
    + destruct (sweep_share_unparsable self cd n share w tr stamp Hs Hp)
        as [name E].
      rewrite E. eexists; reflexivity.
  - rewrite (sweep_share_short self cd n share w tr Hn Hs).
    eexists; reflexivity.
Qed.

Lemma named_with_weaken prefix share :
  named_with prefix share = true -> named_with "" share = true.
Proof.
  unfold named_with.
  destruct (Py.get share "name" (PStr "")) as [[]|]; try discriminate.
  intros _. unfold PyStr.startswith. now destruct s.
Qed.

Lemma sweep_shares_total self cd items : forall n w tr,
  forallb (named_with "") items = true ->
  exists n', fst (for_fold items n (Post.sweep_share self cd) w tr) = Ok n'.
Proof.
  induction items as [|x items IH]; intros n w tr H; simpl.
  - eexists; reflexivity.
  - apply andb_prop in H as [Hx Hr].
    destruct (sweep_share_total self cd n x w tr Hx) as [n1 H1].
    unfold bind. destruct (Post.sweep_share self cd n x w tr) as [r tr1].
    simpl in H1. subst r. apply IH. exact Hr.
Qed.

Lemma adds_sweep_share (P : event -> Prop) self cd n share :
  (forall l t a, P (Logged l t a)) ->
  (forall k, (exists oid, call_request k = DeleteCifsShare oid) -> P (Called k)) ->
  adds P (Post.sweep_share self cd n share).
Proof.
  intros HL HC. unfold Post.sweep_share.
  adds_steps; try apply HL;
    (apply adds_delete_smb_share; [exact HL | intros k Hk; apply HC; eauto]).
Qed.

Lemma share_deletes_grow {A} (m : M A) w tr oid :
  adds (fun _ => True) m ->
  In oid (share_deletes tr) -> In oid (share_deletes (snd (m w tr))).
Proof.
  intros Hm Hin. destruct (Hm w tr) as [d [E _]]. rewrite E.
  rewrite share_deletes_app. apply in_or_app. now left.
Qed.

(** What [get_virtual_server_smb_shares] returns is a list of shares whose
    names are strings that start with the prefix. *)
Lemma matching_shares_named prefix items : forall l,
  HNAS.matching_shares prefix items = Ok l ->
  forallb (named_with prefix) l = true.
Proof.
  induction items as [|x items IH]; intros l H; simpl in H.
  - injection H as <-. reflexivity.
  - destruct (Py.get x "name" (PStr "")) as [v|] eqn:Ev; [|discriminate].
    destruct (HNAS.name_startswith v prefix) as [keep|] eqn:Ek; [|discriminate].
    destruct (HNAS.matching_shares prefix items) as [l'|]; [|discriminate].
    injection H as <-. specialize (IH l' eq_refl).
    destruct keep; [|exact IH]. simpl. rewrite IH, andb_true_r.
    unfold named_with. rewrite Ev.
    destruct v; try discriminate Ek. simpl in Ek. now injection Ek as ->.
Qed.

Lemma listed_shares_named self vs prefix w tr :
  forall l tr1,
    HNAS.get_virtual_server_smb_shares self vs prefix w tr = (Ok l, tr1) ->
    forallb (named_with prefix) l = true.
Proof.
  intros l tr1. unfold HNAS.get_virtual_server_smb_shares, try_except.
  destruct (bind (HNAS.send self 30 (GetVirtualServerCifs vs)) _ w tr)
    as [[l0|e] tr0] eqn:E.
  - intros H. injection H as <- <-.
    unfold bind in E.
    destruct (HNAS.send self 30 _ w tr) as [[r|] t1]; [|discriminate].
    destruct (HNAS.raise_for_status r w t1) as [[|] t2]; [|discriminate].
    destruct (HNAS.json r w t2) as [[data|] t3]; [|discriminate].
    destruct (lift (Py.get data "filesystemShares" (PList [])) w t3)
      as [[all|] t4]; [|discriminate].
    destruct (lift (Py.iterate all) w t4) as [[items|] t5]; [|discriminate].
    unfold lift in E. injection E as E _.
    eapply matching_shares_named; eassumption.
  - destruct (is_exception e).
    + unfold bind, log, emit, ret. intros H. injection H as <- _. reflexivity.
    + discriminate.
Qed.

Lemma forallb_named_weaken prefix l :
  forallb (named_with prefix) l = true -> forallb (named_with "") l = true.
Proof.
  induction l as [|x l IH]; [reflexivity|]. simpl.
  intros H. apply andb_prop in H as [Hx Hl].
  now rewrite (named_with_weaken prefix x Hx), IH.
Qed.

(** The whole sweep of a virtual server asks for the deletion of every
    listed share whose name holds a time stamp before the cut-off and
    that has an identifier. *)
Lemma cleanup_old_smb_shares_reach
  self w cd share vs prefix days pre post tr tr1 stamp d :
  HNAS.get_virtual_server_smb_shares self vs prefix w tr
  = (Ok (pre ++ share :: post), tr1) ->
  cutoff_date w tr1 days = Ok cd ->
  share_stamp share = Some stamp ->
  PyTime.strptime stamp = Some d ->
  PyTime.lt d cd = true ->
  Py.truthy (object_id share) = true ->
  In (object_id share)
    (share_deletes (snd (Post.cleanup_old_smb_shares self vs prefix days w tr))).
Proof.
  intros Hl Hc Hs Hp Hlt Hid.
  pose proof (listed_shares_named self vs prefix w tr _ _ Hl) as Hnamed.
  apply forallb_named_weaken in Hnamed.
  rewrite forallb_app in Hnamed. apply andb_prop in Hnamed as [Hpre _].
  unfold Post.cleanup_old_smb_shares, try_except.
  unfold bind at 1. rewrite Hl.
  assert (Hloop :
    In (object_id share)
      (share_deletes
         (snd (for_fold (pre ++ share :: post) 0 (Post.sweep_share self cd)
                 w tr1)))).
  { rewrite for_fold_app. unfold bind at 1.
    destruct (sweep_shares_total self cd pre 0 w tr1 Hpre) as [n1 H1].
    destruct (for_fold pre 0 _ w tr1) as [r tr2]. simpl in H1. subst r.
    simpl for_fold. unfold bind at 1.
    rewrite (sweep_share_older self cd n1 share w tr2 stamp d Hs Hp Hlt Hid).
    pose proof (delete_smb_share_deletes self (object_id share) w tr2) as Hdel.
    destruct (delete_smb_share_total self (object_id share) w tr2) as [b Hb].
    unfold bind at 1.
    destruct (HNAS.delete_smb_share self (object_id share) w tr2) as [r tr3].
    simpl in Hb, Hdel. subst r. unfold ret at 1.
    apply share_deletes_grow.
    - apply adds_for_fold. intros s x.
      apply adds_sweep_share; intros; exact I.
    - rewrite Hdel. apply in_or_app. right. now left. }
  destruct (pre ++ share :: post) as [|x items] eqn:Ex.
  { destruct pre; discriminate Ex. }
  unfold bind at 1. unfold ask at 1. rewrite Hc.
  unfold bind at 1. unfold lift at 1.
  destruct (for_fold (x :: items) 0 _ w tr1) as [[n|e] tr2]; cbn [snd] in *.
  - exact Hloop.
  - destruct (is_exception e); [|exact Hloop].
    unfold bind, log, emit, ret. simpl.
    rewrite share_deletes_app. apply in_or_app. now left.
Qed.

(** C3 (amended).  In the share retention sweep, with [cd] the cut-off: a
    listed share (its name starts with the prefix) whose name ends in a
    time stamp [_YYYYMMDD_HHMMSS] strictly before [cd] and that has a
    non-empty object identifier gets a delete request from the loop body
    and from the whole sweep; [VeeamNASBackup_20240115_030000] is read as
    2024-01-15 03:00:00; a share whose name has at least three parts of
    which the last two are no time stamp gets a warning and no request; a
    share whose name has fewer than three parts, as [VeeamNASBackup_bad],
    gets neither a request nor a warning. *)
Theorem C3_share_retention_sweep :
  forall (self : HNAS.manager) (w : world) (cd : PyTime.datetime) (n : Z)
         (share : pyval) (tr : list event),
    (forall stamp d,
        share_stamp share = Some stamp ->
        PyTime.strptime stamp = Some d ->
        PyTime.lt d cd = true ->
        Py.truthy (object_id share) = true ->
        share_deletes (snd (Post.sweep_share self cd n share w tr))
        = share_deletes tr ++ [object_id share])
    /\ (forall vs prefix days pre post tr1 stamp d,
           HNAS.get_virtual_server_smb_shares self vs prefix w tr
           = (Ok (pre ++ share :: post), tr1) ->
           cutoff_date w tr1 days = Ok cd ->
           share_stamp share = Some stamp ->
           PyTime.strptime stamp = Some d ->
           PyTime.lt d cd = true ->
           Py.truthy (object_id share) = true ->
           named_with prefix share = true
           /\ In (object_id share)
                (share_deletes
                   (snd (Post.cleanup_old_smb_shares self vs prefix days w tr))))
    /\ (share_stamp Examples.recent_share = Some "20240115_030000"
        /\ PyTime.strptime "20240115_030000"
           = Some (PyTime.mkdt 2024 1 15 3 0 0 0))
    /\ (forall stamp,
           share_stamp share = Some stamp ->
           PyTime.strptime stamp = None ->
           exists name,
             Post.sweep_share self cd n share w tr
             = (Ok n, tr ++ [Logged WARNING
                               "Skipping SMB share with unexpected name format: {}"
                               [LVal name]]))
    /\ (named_with "" share = true ->
        share_stamp share = None ->
        Post.sweep_share self cd n share w tr = (Ok n, tr))
    /\ (named_with "VeeamNASBackup" Examples.share_bad = true
        /\ share_stamp Examples.share_bad = None).
Proof.
  intros self w cd n share tr.
  refine (conj _ (conj _ (conj _ (conj _ (conj _ _))))).
  - intros stamp d Hs Hp Hlt Hid.
    rewrite (sweep_share_older self cd n share w tr stamp d Hs Hp Hlt Hid).
    pose proof (delete_smb_share_deletes self (object_id share) w tr) as Hd.
    unfold bind.
    destruct (HNAS.delete_smb_share self (object_id share) w tr)
      as [[b|e] tr']; exact Hd.
  - intros vs prefix days pre post tr1 stamp d Hl Hc Hs Hp Hlt Hid. split.
    + pose proof (listed_shares_named self vs prefix w tr _ _ Hl) as H.
      rewrite forallb_app in H. apply andb_prop in H as [_ H].
      simpl in H. now apply andb_prop in H as [H _].
    + eapply cleanup_old_smb_shares_reach; eassumption.
  - split; reflexivity.
  - intros stamp Hs Hp. eapply sweep_share_unparsable; eassumption.
  - intros Hn Hs. now apply sweep_share_short.
  - split; reflexivity.
Qed.

Lemma C3_share_retention_sweep_witness :
  share_deletes
    (snd (Post.sweep_share Examples.client (PyTime.mkdt 2024 1 8 3 0 0 0) 0
            Examples.old_share shares_world []))
  = [PStr "share-2023"]
  /\ (named_with "VeeamNASBackup" Examples.old_share = true
      /\ In (PStr "share-2023")
           (share_deletes
              (snd (Post.cleanup_old_smb_shares Examples.client (PStr "vs-1")
                      "VeeamNASBackup" 7 shares_world []))))
  /\ (exists name,
         Post.sweep_share Examples.client (PyTime.mkdt 2024 1 8 3 0 0 0) 0
           Examples.share_bad_stamp shares_world []
         = (Ok 0, [Logged WARNING
                     "Skipping SMB share with unexpected name format: {}"
                     [LVal name]]))
  /\ Post.sweep_share Examples.client (PyTime.mkdt 2024 1 8 3 0 0 0) 0
       Examples.share_bad shares_world [] = (Ok 0, []).
Proof.
  refine (conj _ (conj _ (conj _ _))).
  - apply (proj1 (C3_share_retention_sweep Examples.client shares_world
                    (PyTime.mkdt 2024 1 8 3 0 0 0) 0 Examples.old_share [])
             "20230101_030000" (PyTime.mkdt 2023 1 1 3 0 0 0)); reflexivity.
  - eapply (proj1 (proj2 (C3_share_retention_sweep Examples.client shares_world
                     (PyTime.mkdt 2024 1 8 3 0 0 0) 0 Examples.old_share []))
              (PStr "vs-1") "VeeamNASBackup" 7
              [Examples.recent_share; Examples.share_bad]
              [Examples.share_bad_stamp] _
              "20230101_030000" (PyTime.mkdt 2023 1 1 3 0 0 0)); reflexivity.
  - apply (proj1 (proj2 (proj2 (proj2 (C3_share_retention_sweep Examples.client
                    shares_world (PyTime.mkdt 2024 1 8 3 0 0 0) 0
                    Examples.share_bad_stamp []))))
             "bad_stamp"); reflexivity.
  - apply (proj1 (proj2 (proj2 (proj2 (proj2 (C3_share_retention_sweep
                    Examples.client shares_world
                    (PyTime.mkdt 2024 1 8 3 0 0 0) 0 Examples.share_bad []))))));
      reflexivity.
Defined.

(** C3 as stated fails on [VeeamNASBackup_bad]: the share is listed, the
    sweep leaves it alone, and nothing is logged about it. *)
Lemma C3_counterexample :
  HNAS.get_virtual_server_smb_shares Examples.client (PStr "vs-1")
    "VeeamNASBackup" bad_share_world []
  = (Ok [Examples.share_bad],
     [Called (mkcall "hnas.example" false (ApiKey "secret") 30
                (GetVirtualServerCifs (PStr "vs-1")))])
  /\ PyStr.split "_" "VeeamNASBackup_bad" = ["VeeamNASBackup"; "bad"]
  /\ Post.cleanup_old_smb_shares Examples.client (PStr "vs-1")
       "VeeamNASBackup" 7 bad_share_world []
     = (Ok 0,
        [Called (mkcall "hnas.example" false (ApiKey "secret") 30
                   (GetVirtualServerCifs (PStr "vs-1")))])
  /\ existsb unexpected_name
       (snd (Post.cleanup_old_smb_shares Examples.client (PStr "vs-1")
               "VeeamNASBackup" 7 bad_share_world [])) = false.
Proof.
  refine (conj _ (conj _ (conj _ _))); reflexivity.
Qed.

(** ** The decision to clean up *)

(** C1.  The post-backup script counts the backup as succeeded exactly
    when the job result is [Success] or [Warning], and decides to clean up
    as (succeeded and cleanup-on-success) or (not succeeded and
    cleanup-on-failure): succeeded with cleanup-on-success gives true,
    succeeded without it false, failed with cleanup-on-failure true,
    failed without it false. *)
Theorem C1_should_cleanup_truth_table :
  forall (env : gmap string string) (c : Post.config),
    let job_result := environ_get env "VEEAM_JOB_RESULT" "Unknown" in
    let succeeded := fst (Post.validate_backup_result env) in
    (succeeded = true <-> job_result = "Success" \/ job_result = "Warning")
    /\ Post.should_cleanup succeeded c
       = (succeeded && Post.cleanup_on_success c)
         || (negb succeeded && Post.cleanup_on_failure c)
    /\ (forall h u p v on_failure d a s,
           Post.should_cleanup true
             (Post.mkconfig h u p v true on_failure d a s) = true)
    /\ (forall h u p v on_failure d a s,
           Post.should_cleanup true
             (Post.mkconfig h u p v false on_failure d a s) = false)
    /\ (forall h u p v on_success d a s,
           Post.should_cleanup false
             (Post.mkconfig h u p v on_success true d a s) = true)
    /\ (forall h u p v on_success d a s,
           Post.should_cleanup false
             (Post.mkconfig h u p v on_success false d a s) = false).
Proof.
  intros env c job_result succeeded.
  refine (conj _ (conj _ (conj _ (conj _ (conj _ _))))).
  - subst succeeded. unfold Post.validate_backup_result. fold job_result.
    destruct (String.eqb job_result "Success") eqn:E1; simpl.
    + apply String.eqb_eq in E1. tauto.
    + destruct (String.eqb job_result "Warning") eqn:E2; simpl.
      * apply String.eqb_eq in E2. tauto.
      * apply String.eqb_neq in E1. apply String.eqb_neq in E2.
        split; [discriminate | tauto].
  - reflexivity.
  - reflexivity.
  - reflexivity.
  - reflexivity.
  - reflexivity.
Qed.

(** ** The session result *)

Lemma environ_get_agree (env1 env2 : gmap string string) (skip k d : string) :
  delete skip env1 = delete skip env2 ->
  k <> skip ->
  environ_get env1 k d = environ_get env2 k d.
Proof.
  intros H Hk. unfold environ_get.
  rewrite <- (lookup_delete_ne env1 skip k) by congruence.
  rewrite <- (lookup_delete_ne env2 skip k) by congruence.
  now rewrite H.
Qed.

(** C9.  Two post-backup runs whose environments differ at most in
    [VEEAM_SESSION_RESULT] classify the backup alike and behave alike in
    every world: the same events in the same order and the same end. *)
Theorem C9_session_result_is_ignored :
  forall (env1 env2 : gmap string string) (w : world) (tr : list event),
    delete "VEEAM_SESSION_RESULT" env1 = delete "VEEAM_SESSION_RESULT" env2 ->
    Post.validate_backup_result env1 = Post.validate_backup_result env2
    /\ Post.main env1 w tr = Post.main env2 w tr.
Proof.
  intros env1 env2 w tr H.
  assert (E : forall k d, k <> "VEEAM_SESSION_RESULT" ->
                environ_get env1 k d = environ_get env2 k d).
  { intros k d Hk. now apply environ_get_agree with (skip := "VEEAM_SESSION_RESULT"). }
  split.
  - unfold Post.validate_backup_result. cbv zeta.
    rewrite (E "VEEAM_JOB_RESULT") by discriminate. reflexivity.
  - unfold Post.main, Post.session, Post.startup, Post.validate_backup_result,
      Post.read_config, Post.snapshot_info_file, Post.retention_sweep,
      Post.targets_from_environment, new_manager, environ_int, environ_flag.
    cbv zeta.
    rewrite (E "VEEAM_JOB_RESULT") by discriminate.
    rewrite (E "HNAS_RETENTION_DAYS") by discriminate.
    rewrite (E "HNAS_HOST") by discriminate.
    rewrite (E "HNAS_USERNAME") by discriminate.
    rewrite (E "HNAS_PASSWORD") by discriminate.
    rewrite (E "HNAS_VERIFY_SSL") by discriminate.
    rewrite (E "HNAS_CLEANUP_ON_SUCCESS") by discriminate.
    rewrite (E "HNAS_CLEANUP_ON_FAILURE") by discriminate.
    rewrite (E "HNAS_APP_SEARCH_ID") by discriminate.
    rewrite (E "HNAS_SMB_SHARE_NAME") by discriminate.
    rewrite (E "VEEAM_LOG_DIR") by discriminate.
    rewrite (E "VEEAM_SNAPSHOT_INFO") by discriminate.
    rewrite (E "HNAS_FILESYSTEMS") by discriminate.
    reflexivity.
Qed.

Lemma C9_session_result_is_ignored_witness :
  Post.validate_backup_result
    (<["VEEAM_SESSION_RESULT" := "Failed"]> Examples.post_env)
  = Post.validate_backup_result
      (<["VEEAM_SESSION_RESULT" := "Success"]> Examples.post_env)
  /\ Post.main (<["VEEAM_SESSION_RESULT" := "Failed"]> Examples.post_env)
       (Examples.site [Examples.old_snapshot] [Examples.old_share]) []
     = Post.main (<["VEEAM_SESSION_RESULT" := "Success"]> Examples.post_env)
         (Examples.site [Examples.old_snapshot] [Examples.old_share]) [].
Proof.
  apply (C9_session_result_is_ignored
           (<["VEEAM_SESSION_RESULT" := "Failed"]> Examples.post_env)
           (<["VEEAM_SESSION_RESULT" := "Success"]> Examples.post_env)).
  vm_compute. reflexivity.
Defined.

(** ** Whole methods, event by event *)

Ltac head_of t :=
  lazymatch t with
  | ?f _ => head_of f
  | _ => t
  end.

(** Like [adds_step], and opens the methods a computation calls. *)
Ltac adds_open :=
  lazymatch goal with
  | |- adds _ (HNAS.send _ _ _) => apply adds_send; intros ? ?
  | |- adds _ (HNAS.raise_for_status _) => apply adds_raise_for_status
  | |- adds _ (HNAS.json _) => apply adds_json
  | |- adds _ (let _ := _ in _) => cbv zeta
  | |- _ => first [ adds_step
                  | lazymatch goal with
                    | |- adds _ ?m => let h := head_of m in unfold h
                    end ]
  end.

Ltac adds_all := repeat adds_open.

(** ** The names of the snapshots *)

Lemma snapshot_names_app tr1 tr2 :
  snapshot_names (tr1 ++ tr2) = snapshot_names tr1 ++ snapshot_names tr2.
Proof.
  induction tr1 as [|e tr1 IH]; [reflexivity|].
  destruct e as [| c | | | | |]; simpl; rewrite ?IH; try reflexivity.
  destruct (call_request c); rewrite ?IH; try reflexivity.
  destruct (Py.get payload "displayName" PNone); rewrite ?IH; reflexivity.
Qed.

Lemma snapshot_name_display tag label ts :
  Pre.snapshot_name_of tag label ts
  = display_name (if String.eqb tag "" then "veeam" else tag) label ts.
Proof.
  unfold Pre.snapshot_name_of, display_name.
  destruct (String.eqb tag ""); reflexivity.
Qed.

Lemma name_prefix_tag env :
  (if String.eqb (environ_get env "HNAS_APP_SEARCH_ID" "veeam") ""
   then "veeam" else environ_get env "HNAS_APP_SEARCH_ID" "veeam")
  = name_prefix env.
Proof.
  unfold name_prefix, environ_get.
  destruct (env !! "HNAS_APP_SEARCH_ID"); reflexivity.
Qed.

Ltac names_leaf :=
  lazymatch goal with
  | H : call_request ?c = _ |- names_snapshots _ _ (Called ?c) =>
      unfold names_snapshots; rewrite H;
      try exact I;
      try (rewrite snapshot_name_display; eexists; reflexivity)
  | |- names_snapshots _ _ _ => exact I
  end.

Lemma startup_names env prefix ts :
  adds (names_snapshots prefix ts) (Pre.startup env).
Proof. adds_all; names_leaf. Qed.

Lemma process_filesystem_names self c ts created r :
  adds (names_snapshots (if String.eqb (Pre.app_search_id c) "" then "veeam"
                         else Pre.app_search_id c) ts)
    (Pre.process_filesystem self c ts created r).
Proof. adds_all; names_leaf. Qed.

Lemma no_write_names env :
  adds no_write (Pre.startup env)
  /\ forall self c ts created r,
       adds no_write (Pre.process_filesystem self c ts created r).
Proof. split; [|intros]; adds_all; exact I. Qed.

Lemma adds_run {A} (P : event -> Prop) (m : M A) w tr :
  adds P m -> Forall P tr -> Forall P (snd (m w tr)).
Proof.
  intros Hm Htr. destruct (Hm w tr) as [d [E F]]. rewrite E.
  apply Forall_app; split; assumption.
Qed.

Lemma bind_ok_inv {A B} (m : M A) (k : A -> M B) w tr b tr' :
  bind m k w tr = (Ok b, tr') ->
  exists a tr1, m w tr = (Ok a, tr1) /\ k a w tr1 = (Ok b, tr').
Proof.
  unfold bind. destruct (m w tr) as [[a|e] tr1]; [eauto | discriminate].
Qed.

Lemma ret_ok_inv {A} (a b : A) w tr tr' :
  ret a w tr = (Ok b, tr') -> a = b /\ tr = tr'.
Proof. unfold ret. intros H. injection H as -> ->. auto. Qed.

Lemma lift_ok_inv {A} (r : result A) (b : A) w tr tr' :
  lift r w tr = (Ok b, tr') -> r = Ok b /\ tr = tr'.
Proof. unfold lift. intros H. injection H as -> ->. auto. Qed.

Lemma ask_ok_inv {A} (f : world -> list event -> A) (b : A) w tr tr' :
  ask f w tr = (Ok b, tr') -> f w tr = b /\ tr = tr'.
Proof. unfold ask. intros H. injection H as -> ->. auto. Qed.

(** Follows a run that returned through the computation it ran. *)
Ltac ok_step :=
  match goal with
  | H : bind _ _ _ _ = (Ok _, _) |- _ =>
      apply bind_ok_inv in H; destruct H as (? & ? & ? & H)
  | H : ret _ _ _ = (Ok _, _) |- _ =>
      apply ret_ok_inv in H; destruct H as [? ?]; subst
  | H : lift _ _ _ = (Ok _, _) |- _ =>
      apply lift_ok_inv in H; destruct H as [? ?]; subst
  | H : ask _ _ _ = (Ok _, _) |- _ =>
      apply ask_ok_inv in H; destruct H as [? ?]; subst
  | H : raise _ _ _ = (Ok _, _) |- _ => discriminate H
  | H : sys_exit _ _ _ = (Ok _, _) |- _ => discriminate H
  | H : (if ?b then _ else _) _ _ = (Ok _, _) |- _ => destruct b eqn:?
  | H : (match ?x with _ => _ end) _ _ = (Ok _, _) |- _ => destruct x eqn:?
  end.

Ltac ok_steps := repeat ok_step.

Lemma for_fold_invariant {A S} (I : S -> Prop) (items : list A)
  (body : S -> A -> M S) (w : world) :
  (forall s x tr s' tr', I s -> body s x w tr = (Ok s', tr') -> I s') ->
  forall s tr s' tr',
    I s -> for_fold items s body w tr = (Ok s', tr') -> I s'.
Proof.
  intros Hb. induction items as [|x items IH]; intros s tr s' tr' Hs H;
    simpl in H.
  - apply ret_ok_inv in H as [<- _]. exact Hs.
  - apply bind_ok_inv in H as (s1 & tr1 & H1 & H2).
    eapply IH; [|exact H2]. eapply Hb; eassumption.
Qed.

Lemma format_ok_inv v w tr label tr' :
  format v w tr = (Ok label, tr') -> label = label_text w v /\ tr = tr'.
Proof.
  unfold format, label_text, ret, ask.
  destruct v; intros H; injection H as <- <-; auto.
Qed.

(** The loop of the pre-backup script keeps every recorded snapshot named
    after its label and the time stamp of the run. *)
Lemma process_filesystem_named self c ts created r w tr created' tr' :
  Forall (named_after w (if String.eqb (Pre.app_search_id c) "" then "veeam"
                         else Pre.app_search_id c) ts) created ->
  Pre.process_filesystem self c ts created r w tr = (Ok created', tr') ->
  Forall (named_after w (if String.eqb (Pre.app_search_id c) "" then "veeam"
                         else Pre.app_search_id c) ts) created'.
Proof.
  intros Hc H. unfold Pre.process_filesystem in H. cbv zeta in H.
  ok_steps; try assumption.
  apply Forall_app. split; [assumption|]. constructor; [|constructor].
  match goal with
  | Hf : format _ _ _ = (Ok _, _) |- _ =>
      apply format_ok_inv in Hf; destruct Hf as [-> _]
  end.
  eexists. split; [reflexivity|].
  simpl. rewrite snapshot_name_display. reflexivity.
Qed.

Lemma pre_read_config_tag env w tr c tr' :
  Pre.read_config env w tr = (Ok c, tr') ->
  Pre.app_search_id c = environ_get env "HNAS_APP_SEARCH_ID" "veeam".
Proof.
  unfold Pre.read_config, environ_int. intros H. ok_steps. reflexivity.
Qed.

Lemma pre_startup_tag env w tr c hnas tr' :
  Pre.startup env w tr = (Ok (c, hnas), tr') ->
  Pre.app_search_id c = environ_get env "HNAS_APP_SEARCH_ID" "veeam".
Proof.
  unfold Pre.startup. intros H.
  apply bind_ok_inv in H as (c0 & tr1 & Hc & H).
  apply pre_read_config_tag in Hc.
  ok_steps; congruence.
Qed.

Lemma written_app tr1 tr2 : written (tr1 ++ tr2) = written tr1 ++ written tr2.
Proof.
  induction tr1 as [|e tr1 IH]; [reflexivity|].
  destruct e; simpl; rewrite ?IH; reflexivity.
Qed.

Lemma no_write_written tr : Forall no_write tr -> written tr = [].
Proof.
  induction 1 as [|e tr He _ IH]; [reflexivity|].
  destruct e; simpl; try exact IH. destruct He.
Qed.

Lemma names_of_trace prefix ts tr :
  Forall (names_snapshots prefix ts) tr ->
  Forall (fun name => exists label,
              name = PStr (display_name prefix label ts))
    (snapshot_names tr).
Proof.
  induction 1 as [|e tr He _ IH]; [constructor|].
  destruct e as [| c | | | | |]; simpl; try exact IH.
  unfold names_snapshots in He.
  destruct (call_request c); try exact IH.
  destruct He as [label He]. rewrite He. constructor; [eauto | exact IH].
Qed.

Lemma finish_names env c ts created prefix :
  adds (names_snapshots prefix ts) (Pre.finish env c ts created).
Proof. adds_all; names_leaf. Qed.

(** What the end of the pre-backup script writes is the manifest of the
    snapshots the loop recorded. *)
Lemma finish_written env c ts created :
  adds (fun e => match e with
                 | Wrote path doc =>
                     path = Pre.snapshot_info_file env
                     /\ doc = Pre.manifest c ts created
                 | _ => True
                 end)
    (Pre.finish env c ts created).
Proof. adds_all; simpl; auto. Qed.

Lemma written_forall (Q : string * pyval -> Prop) tr :
  Forall (fun e => match e with
                   | Wrote path doc => Q (path, doc)
                   | _ => True
                   end) tr ->
  Forall Q (written tr).
Proof.
  induction 1 as [|e tr He _ IH]; [constructor|].
  destruct e; simpl; try exact IH. constructor; assumption.
Qed.

Lemma pre_main_run env w tr :
  Pre.main env w tr
  = match Pre.startup env w tr with
    | (Ok (c, hnas), tr0) =>
        bind (Pre.snapshot_all hnas c (now_stamp w tr0))
          (Pre.finish env c (now_stamp w tr0)) w tr0
    | (Raise e, tr0) => (Raise e, tr0)
    end.
Proof.
  unfold Pre.main. unfold bind at 1.
  destruct (Pre.startup env w tr) as [[[c hnas]|e] tr0]; reflexivity.
Qed.

(** ** The resolution of a filesystem reference *)

Lemma hex_digit_in c :
  existsb (Ascii.eqb c) (list_ascii_of_string "0123456789ABCDEFabcdef")
  = is_hex_digit c.
Proof.
  destruct c as [b0 b1 b2 b3 b4 b5 b6 b7].
  destruct b0, b1, b2, b3, b4, b5, b6, b7; vm_compute; reflexivity.
Qed.

Lemma all_in_hex s :
  PyStr.all_in "0123456789ABCDEFabcdef" s
  = forallb is_hex_digit (list_ascii_of_string s).
Proof.
  induction s as [|c s IH]; [reflexivity|].
  cbn [PyStr.all_in list_ascii_of_string forallb].
  now rewrite hex_digit_in, IH.
Qed.

Lemma looks_like_id_spec s :
  looks_like_id s
  = (Nat.eqb (String.length s) 32
     && forallb is_hex_digit (list_ascii_of_string s)).
Proof.
  unfold looks_like_id, PyStr.len. rewrite all_in_hex. f_equal.
  destruct (Nat.eqb_spec (String.length s) 32) as [E|E].
  - rewrite E. reflexivity.
  - apply Z.eqb_neq. lia.
Qed.

Lemma calls_no_call d : Forall no_call d -> calls d = [].
Proof.
  induction 1 as [|e d He _ IH]; [reflexivity|].
  destruct e; simpl; try exact IH. destruct He.
Qed.

Lemma sends_quiet {A} (m : M A) : adds no_call m -> sends [] m.
Proof.
  intros Hm w tr. destruct (Hm w tr) as [d [E F]].
  rewrite E, calls_app, (calls_no_call d F). reflexivity.
Qed.

Lemma sends_bind_quiet {A B} l (m : M A) (k : A -> M B) :
  sends l m -> (forall a, adds no_call (k a)) -> sends l (bind m k).
Proof.
  intros Hm Hk w tr. unfold bind. specialize (Hm w tr).
  destruct (m w tr) as [[a|e] tr1]; [|exact Hm].
  destruct (Hk a w tr1) as [d [E F]]. rewrite E, calls_app.
  simpl in Hm. rewrite Hm, (calls_no_call d F), app_nil_r. reflexivity.
Qed.

Lemma sends_try_except_quiet {A} l (m : M A) (h : exn -> M A) :
  sends l m -> (forall e, adds no_call (h e)) -> sends l (try_except m h).
Proof.
  intros Hm Hh w tr. unfold try_except. specialize (Hm w tr).
  destruct (m w tr) as [[a|e] tr1]; [exact Hm|].
  destruct (is_exception e); [|exact Hm].
  destruct (Hh e w tr1) as [d [E F]]. rewrite E, calls_app.
  simpl in Hm. rewrite Hm, (calls_no_call d F), app_nil_r. reflexivity.
Qed.

Lemma send_sends self t r : sends [r] (HNAS.send self t r).
Proof.
  intros w tr. unfold HNAS.send.
  destruct (respond w tr _); simpl; rewrite calls_app; reflexivity.
Qed.

Lemma get_filesystem_info_sends self fid :
  sends [GetFilesystem fid] (HNAS.get_filesystem_info self fid).
Proof.
  unfold HNAS.get_filesystem_info.
  apply sends_try_except_quiet; [|intros; adds_all; exact I].
  apply sends_bind_quiet; [apply send_sends | intros; adds_all; exact I].
Qed.

Lemma get_all_filesystems_sends self :
  sends [GetFilesystems] (HNAS.get_all_filesystems self).
Proof.
  unfold HNAS.get_all_filesystems.
  apply sends_try_except_quiet; [|intros; adds_all; exact I].
  apply sends_bind_quiet; [apply send_sends | intros; adds_all; exact I].
Qed.

Lemma get_filesystem_by_name_sends self name :
  sends [GetFilesystems] (HNAS.get_filesystem_by_name self name).
Proof.
  unfold HNAS.get_filesystem_by_name.
  apply sends_try_except_quiet; [|intros; adds_all; exact I].
  apply sends_bind_quiet;
    [apply get_all_filesystems_sends | intros; adds_all; exact I].
Qed.

Lemma pre_resolve_sends self s :
  sends [if looks_like_id s then GetFilesystem (PStr s) else GetFilesystems]
    (Pre.resolve self s).
Proof.
  unfold Pre.resolve. destruct (looks_like_id s).
  - apply sends_bind_quiet;
      [apply get_filesystem_info_sends | intros; adds_all; exact I].
  - apply sends_bind_quiet;
      [apply get_filesystem_by_name_sends | intros; adds_all; exact I].
Qed.

Lemma post_add_env_filesystem_sends self targets r :
  PyStr.strip r <> "" ->
  sends [if looks_like_id (PyStr.strip r)
         then GetFilesystem (PStr (PyStr.strip r)) else GetFilesystems]
    (Post.add_env_filesystem self targets r).
Proof.
  intros Hne. unfold Post.add_env_filesystem. destruct targets as [fss vss].
  cbv zeta.
  destruct (String.eqb_spec (PyStr.strip r) "") as [E|_]; [contradiction|].
  destruct (looks_like_id (PyStr.strip r)).
  - intros w tr. unfold bind at 1. unfold lift at 1. cbn [Py.set_add Py.hashable].
    revert w tr.
    apply sends_bind_quiet;
      [apply get_filesystem_info_sends | intros; adds_all; exact I].
  - apply sends_bind_quiet;
      [apply get_filesystem_by_name_sends | intros; adds_all; exact I].
Qed.

Lemma first_with_label_hit name pre fs post :
  forallb (other_label name) pre = true ->
  has_label name fs = true ->
  HNAS.first_with_label name (pre ++ fs :: post) = Ok fs.
Proof.
  intros Hpre Hfs. induction pre as [|x pre IH]; simpl.
  - unfold has_label in Hfs.
    destruct (Py.get fs "label" PNone); [|discriminate]. now rewrite Hfs.
  - simpl in Hpre. apply andb_prop in Hpre as [Hx Hpre].
    unfold other_label in Hx.
    destruct (Py.get x "label" PNone); [|discriminate].
    apply negb_true_iff in Hx. rewrite Hx. now apply IH.
Qed.

Lemma first_with_label_miss name items :
  forallb (other_label name) items = true ->
  HNAS.first_with_label name items = Ok PNone.
Proof.
  induction items as [|x items IH]; simpl; [reflexivity|].
  intros H. apply andb_prop in H as [Hx H].
  unfold other_label in Hx.
  destruct (Py.get x "label" PNone); [|discriminate].
  apply negb_true_iff in Hx. rewrite Hx. now apply IH.
Qed.

Lemma first_with_label_raise name items e :
  HNAS.first_with_label name items = Raise e -> e = AttributeError.
Proof.
  induction items as [|x items IH]; simpl; intros H; [discriminate|].
  destruct x; simpl in H; try (injection H as <-; reflexivity).
  destruct (Py.eq_str _ name); [discriminate | now apply IH].
Qed.

(** What the look-up by name returns when the array lists filesystems:
    the first item the scan stops at, and [None] when the scan finds
    nothing or breaks on an item that is no dictionary. *)
Lemma get_filesystem_by_name_result self name w tr st tx data items :
  filesystems_answer self w tr = Response st tx (Some data) ->
  (400 <=? st) && (st <? 600) = false ->
  Py.get data "filesystems" (PList []) = Ok (PList items) ->
  fst (HNAS.get_filesystem_by_name self name w tr)
  = Ok (match HNAS.first_with_label name items with
        | Ok v => v
        | Raise _ => PNone
        end).
Proof.
  unfold filesystems_answer. intros Ha Hst Hd.
  unfold HNAS.get_filesystem_by_name, HNAS.get_all_filesystems, try_except.
  unfold bind at 1. unfold bind at 1. unfold HNAS.send. rewrite Ha.
  unfold HNAS.raise_for_status. cbn [HNAS.status_code HNAS.text].
  rewrite Hst. unfold bind at 1. unfold ret at 1.
  unfold bind at 1. unfold HNAS.json. cbn [HNAS.body]. unfold ret at 1.
  unfold lift at 1. rewrite Hd.
  unfold bind at 1. unfold lift at 1. cbn [Py.iterate].
  unfold lift at 1.
  destruct (HNAS.first_with_label name items) as [v|e] eqn:E; [reflexivity|].
  apply first_with_label_raise in E. subst e. reflexivity.
Qed.

(** The body of the pre-backup loop starts the work on a reference with
    the request that resolves it. *)
Lemma process_filesystem_first_request self c ts created r w tr :
  PyStr.strip r <> "" ->
  exists rest,
    calls (snd (Pre.process_filesystem self c ts created r w tr))
    = calls tr ++ lookup_request (PyStr.strip r) :: rest.
Proof.
  intros Hne. unfold Pre.process_filesystem. cbv zeta.
  destruct (String.eqb_spec (PyStr.strip r) "") as [E|_]; [contradiction|].
  unfold bind at 1. unfold log, emit at 1.
  unfold bind at 1.
  pose proof (pre_resolve_sends self (PyStr.strip r) w
                (tr ++ [Logged INFO "Processing filesystem input: {}"
                          [LVal (PStr (PyStr.strip r))]])) as Hs.
  rewrite calls_app in Hs. simpl in Hs. rewrite app_nil_r in Hs.
  fold (lookup_request (PyStr.strip r)) in Hs.
  destruct (Pre.resolve self (PyStr.strip r) w _) as [[resolved|e] tr1];
    simpl in Hs.
  - match goal with
    | |- context [snd (?k w tr1)] =>
        assert (A : adds (fun _ => True) k)
          by (destruct resolved as [[fid fname]|]; adds_all; exact I);
        destruct (A w tr1) as [d [Ed _]]
    end.
    rewrite Ed, calls_app, Hs, <- app_assoc. simpl. eauto.
  - exists []. exact Hs.
Qed.

(** ** Views of the requests of a computation *)

Section Views.

Context {X : Type} (view : request -> list X).

Lemma viewed_app tr1 tr2 :
  viewed view (tr1 ++ tr2) = viewed view tr1 ++ viewed view tr2.
Proof. unfold viewed. now rewrite calls_app, flat_map_app. Qed.

Lemma viewed_hidden d : Forall (hidden view) d -> viewed view d = [].
Proof.
  induction 1 as [|e d He _ IH]; [reflexivity|].
  destruct e; try exact IH.
  unfold viewed in *. simpl in *. now rewrite He, IH.
Qed.

Lemma emits_quiet {A} (m : M A) : adds (hidden view) m -> emits view [] m.
Proof.
  intros Hm w tr. destruct (Hm w tr) as [d [E F]].
  rewrite E, viewed_app, (viewed_hidden d F). reflexivity.
Qed.

Lemma emits_bind_quiet {A B} l (m : M A) (k : A -> M B) :
  emits view l m -> (forall a, adds (hidden view) (k a)) ->
  emits view l (bind m k).
Proof.
  intros Hm Hk w tr. unfold bind. specialize (Hm w tr).
  destruct (m w tr) as [[a|e] tr1]; [|exact Hm].
  destruct (Hk a w tr1) as [d [E F]]. rewrite E, viewed_app.
  simpl in Hm. rewrite Hm, (viewed_hidden d F), app_nil_r. reflexivity.
Qed.

Lemma emits_try_except_quiet {A} l (m : M A) (h : exn -> M A) :
  emits view l m -> (forall e, adds (hidden view) (h e)) ->
  emits view l (try_except m h).
Proof.
  intros Hm Hh w tr. unfold try_except. specialize (Hm w tr).
  destruct (m w tr) as [[a|e] tr1]; [exact Hm|].
  destruct (is_exception e); [|exact Hm].
  destruct (Hh e w tr1) as [d [E F]]. rewrite E, viewed_app.
  simpl in Hm. rewrite Hm, (viewed_hidden d F), app_nil_r. reflexivity.
Qed.

Lemma send_emits self t r : emits view (view r) (HNAS.send self t r).
Proof.
  intros w tr. unfold HNAS.send.
  destruct (respond w tr _); simpl; rewrite viewed_app; unfold viewed; simpl;
    now rewrite app_nil_r.
Qed.

(** A loop that returns has run its body on every item. *)
Lemma for_fold_emits {A S} (f : A -> list X) (items : list A)
  (body : S -> A -> M S) :
  (forall s x, emits view (f x) (body s x)) ->
  forall s w tr s' tr',
    for_fold items s body w tr = (Ok s', tr') ->
    viewed view tr' = viewed view tr ++ flat_map f items.
Proof.
  intros Hb. induction items as [|x items IH]; intros s w tr s' tr' H;
    simpl in H.
  - apply ret_ok_inv in H as [_ <-]. now rewrite app_nil_r.
  - apply bind_ok_inv in H as (s1 & tr1 & H1 & H2).
    apply IH in H2. rewrite H2.
    pose proof (Hb s x w tr) as Hx. rewrite H1 in Hx. simpl in Hx.
    rewrite Hx. simpl. now rewrite app_assoc.
Qed.

Lemma quiet_run {A} (m : M A) w tr :
  adds (hidden view) m -> viewed view (snd (m w tr)) = viewed view tr.
Proof.
  intros Hm. rewrite (emits_quiet m Hm w tr). apply app_nil_r.
Qed.

End Views.

Ltac hidden_leaf :=
  lazymatch goal with
  | H : call_request ?c = _ |- hidden _ (Called ?c) =>
      unfold hidden; rewrite H; reflexivity
  | |- hidden _ _ => exact I
  end.

(** Shows that a computation sends nothing a view shows. *)
Ltac quiet := adds_all; hidden_leaf.

Lemma get_filesystem_info_emits {X} (view : request -> list X) self fid :
  emits view (view (GetFilesystem fid)) (HNAS.get_filesystem_info self fid).
Proof.
  unfold HNAS.get_filesystem_info.
  apply emits_try_except_quiet; [|intros; quiet].
  apply emits_bind_quiet; [apply send_emits | intros; quiet].
Qed.

Lemma cleanup_old_snapshots_swept self fid app days :
  emits swept_of [fid] (Post.cleanup_old_snapshots self fid app days).
Proof.
  unfold Post.cleanup_old_snapshots.
  apply emits_try_except_quiet; [|intros; quiet].
  apply emits_bind_quiet; [|intros; quiet].
  unfold HNAS.get_filesystem_snapshots.
  apply emits_try_except_quiet; [|intros; quiet].
  apply emits_bind_quiet; [apply (send_emits swept_of) | intros; quiet].
Qed.

Lemma cleanup_old_snapshots_quiet {X} (view : request -> list X) self fid app days :
  (forall f a, view (GetFilesystemSnapshots f a) = []) ->
  (forall oid, view (DeleteSnapshot oid) = []) ->
  adds (hidden view) (Post.cleanup_old_snapshots self fid app days).
Proof.
  intros H1 H2. adds_all;
    lazymatch goal with
    | H : call_request ?c = _ |- hidden _ (Called ?c) =>
        unfold hidden; rewrite H; auto
    | |- hidden _ _ => exact I
    end.
Qed.

Lemma cleanup_old_smb_shares_quiet {X} (view : request -> list X)
  self vs prefix days :
  (forall v, view (GetVirtualServerCifs v) = []) ->
  (forall oid, view (DeleteCifsShare oid) = []) ->
  adds (hidden view) (Post.cleanup_old_smb_shares self vs prefix days).
Proof.
  intros H1 H2. adds_all;
    lazymatch goal with
    | H : call_request ?c = _ |- hidden _ (Called ?c) =>
        unfold hidden; rewrite H; auto
    | |- hidden _ _ => exact I
    end.
Qed.

(** ** The targets of the retention sweep *)

Lemma set_add_ok_inv s v s' :
  Py.set_add s v = Ok s' ->
  s' = (if existsb (Py.eq_hashable v) s then s else s ++ [v]).
Proof.
  unfold Py.set_add. destruct (Py.hashable v); [|discriminate].
  now injection 1 as <-.
Qed.

Lemma set_add_keeps s v s' x : Py.set_add s v = Ok s' -> In x s -> In x s'.
Proof.
  intros H Hx. apply set_add_ok_inv in H. subst s'.
  destruct (existsb _ s); [exact Hx | apply in_or_app; now left].
Qed.

Lemma eq_hashable_str t b : Py.eq_hashable (PStr t) b = true -> b = PStr t.
Proof.
  destruct b; simpl; try discriminate.
  intros H. apply String.eqb_eq in H. now subst.
Qed.

Lemma set_add_str s t s' : Py.set_add s (PStr t) = Ok s' -> In (PStr t) s'.
Proof.
  intros H. apply set_add_ok_inv in H. subst s'.
  destruct (existsb _ s) eqn:E.
  - apply existsb_exists in E as [b [Hb E]].
    apply eq_hashable_str in E. now subst b.
  - apply in_or_app. right. now left.
Qed.

Lemma add_manifest_filesystem_ok ids snap w tr ids' tr' :
  Post.add_manifest_filesystem ids snap w tr = (Ok ids', tr') ->
  tr' = tr
  /\ ids' = match Py.get snap "filesystem_id" PNone with
            | Ok v =>
                if Py.truthy v && negb (existsb (Py.eq_hashable v) ids)
                then ids ++ [v] else ids
            | Raise _ => ids
            end.
Proof.
  unfold Post.add_manifest_filesystem. intros H.
  apply bind_ok_inv in H as (v & tr1 & Hv & H).
  apply lift_ok_inv in Hv as [Hv <-]. rewrite Hv.
  destruct (Py.truthy v); simpl.
  - apply lift_ok_inv in H as [H <-]. apply set_add_ok_inv in H.
    split; [reflexivity|]. subst ids'. now destruct (existsb _ ids).
  - apply ret_ok_inv in H as [<- <-]. auto.
Qed.

Lemma manifest_filesystems_ok items : forall ids w tr ids' tr',
  for_fold items ids Post.add_manifest_filesystem w tr = (Ok ids', tr') ->
  tr' = tr
  /\ ids' = fold_left
              (fun ids entry =>
                 match Py.get entry "filesystem_id" PNone with
                 | Ok v =>
                     if Py.truthy v && negb (existsb (Py.eq_hashable v) ids)
                     then ids ++ [v] else ids
                 | Raise _ => ids
                 end) items ids.
Proof.
  induction items as [|x items IH]; intros ids w tr ids' tr' H; simpl in H.
  - apply ret_ok_inv in H as [<- <-]. auto.
  - apply bind_ok_inv in H as (ids1 & tr1 & H1 & H2).
    apply add_manifest_filesystem_ok in H1 as [-> ->].
    apply IH in H2 as [-> ->]. auto.
Qed.

Lemma add_virtual_server_quiet {X} (view : request -> list X) fs_info vss :
  adds (hidden view) (Post.add_virtual_server fs_info vss).
Proof. quiet. Qed.

(** The targets taken from the manifest: the filesystems of its entries,
    each looked up once for its virtual server. *)
Lemma targets_from_manifest_ok self created w tr fss vss tr' :
  Post.targets_from_manifest self created w tr = (Ok (fss, vss), tr') ->
  (exists items,
      Py.iterate created = Ok items /\ fss = manifest_ids items)
  /\ (forall X (view : request -> list X),
         viewed view tr'
         = viewed view tr ++ flat_map (fun fid => view (GetFilesystem fid)) fss).
Proof.
  unfold Post.targets_from_manifest. intros H.
  apply bind_ok_inv in H as (items & tr1 & Hi & H).
  apply lift_ok_inv in Hi as [Hi <-].
  apply bind_ok_inv in H as (fss0 & tr2 & Hf & H).
  apply manifest_filesystems_ok in Hf as [-> ->].
  apply bind_ok_inv in H as (vss0 & tr3 & Hv & H).
  apply ret_ok_inv in H as [H <-]. injection H as <- <-.
  split; [exists items; auto|].
  intros X view.
  eapply (for_fold_emits view (fun fid => view (GetFilesystem fid)));
    [|exact Hv].
  intros s x. apply emits_bind_quiet.
  - apply get_filesystem_info_emits.
  - intros a. destruct (Py.truthy a).
    + apply add_virtual_server_quiet.
    + apply adds_ret.
Qed.

Lemma get_filesystem_by_name_emits {X} (view : request -> list X) self name :
  emits view (view GetFilesystems) (HNAS.get_filesystem_by_name self name).
Proof.
  unfold HNAS.get_filesystem_by_name.
  apply emits_try_except_quiet; [|intros; quiet].
  apply emits_bind_quiet; [|intros; quiet].
  unfold HNAS.get_all_filesystems.
  apply emits_try_except_quiet; [|intros; quiet].
  apply emits_bind_quiet; [apply send_emits | intros; quiet].
Qed.

(** One step of the fall-back: the reference is looked up with the
    request its shape asks for, an identifier is a target at once, and no
    target is lost. *)
Lemma add_env_filesystem_ok self targets r w tr targets' tr' :
  Post.add_env_filesystem self targets r w tr = (Ok targets', tr') ->
  (forall x, In x (fst targets) -> In x (fst targets'))
  /\ (forall X (view : request -> list X),
         viewed view tr'
         = viewed view tr
           ++ (if String.eqb (PyStr.strip r) "" then []
               else view (lookup_request (PyStr.strip r))))
  /\ (PyStr.strip r <> "" -> looks_like_id (PyStr.strip r) = true ->
      In (PStr (PyStr.strip r)) (fst targets')).
Proof.
  unfold Post.add_env_filesystem, lookup_request.
  destruct targets as [fss vss]. cbv zeta.
  destruct (String.eqb_spec (PyStr.strip r) "") as [E|E].
  { intros H. apply ret_ok_inv in H as [<- <-].
    refine (conj _ (conj _ _)); [auto | | contradiction].
    intros X view. now rewrite app_nil_r. }
  destruct (looks_like_id (PyStr.strip r)).
  - intros H.
    apply bind_ok_inv in H as (fss1 & tr1 & Hs & H).
    apply lift_ok_inv in Hs as [Hs <-].
    apply bind_ok_inv in H as (fs_info & tr2 & Hg & H).
    assert (Hfst : fst targets' = fss1 /\
                   forall X (view : request -> list X),
                     viewed view tr' = viewed view tr2).
    { destruct (Py.truthy fs_info).
      - apply bind_ok_inv in H as (vss1 & tr3 & Hv & H).
        apply ret_ok_inv in H as [<- <-]. split; [reflexivity|].
        intros X view.
        pose proof (quiet_run view _ w tr2
                      (add_virtual_server_quiet view fs_info vss)) as Hq.
        now rewrite Hv in Hq.
      - apply ret_ok_inv in H as [<- <-]. auto. }
    destruct Hfst as [Hfst Hview]. rewrite Hfst.
    refine (conj _ (conj _ _)).
    + intros x Hx. eapply set_add_keeps; eassumption.
    + intros X view. rewrite Hview.
      pose proof (get_filesystem_info_emits view self (PStr (PyStr.strip r))
                    w tr) as Hq.
      now rewrite Hg in Hq.
    + intros _ _. eapply set_add_str; eassumption.
  - intros H.
    apply bind_ok_inv in H as (fs_info & tr1 & Hg & H).
    pose proof (get_filesystem_by_name_emits (fun r => [r]) self
                  (PyStr.strip r) w tr) as Hcalls.
    assert (Hrest : (forall x, In x fss -> In x (fst targets'))
                    /\ tr' = tr1).
    { destruct (Py.truthy fs_info).
      - ok_steps; simpl; split; auto;
          intros y Hy; try (eapply set_add_keeps; eassumption); auto.
      - apply ret_ok_inv in H as [<- <-]. auto. }
    destruct Hrest as [Hkeep ->].
    refine (conj Hkeep (conj _ _)).
    + intros X view.
      pose proof (get_filesystem_by_name_emits view self (PyStr.strip r) w tr)
        as Hq.
      now rewrite Hg in Hq.
    + discriminate.
Qed.

Lemma viewed_calls tr : viewed (fun r => [r]) tr = calls tr.
Proof.
  unfold viewed. induction (calls tr) as [|r l IH]; [reflexivity|].
  simpl. now rewrite IH.
Qed.

(** The targets taken from the environment: every reference is looked
    up, every identifier among them is a target, and the only requests
    are look-ups. *)
Lemma targets_from_environment_ok self refs : forall targets w tr targets' tr',
  for_fold refs targets (Post.add_env_filesystem self) w tr = (Ok targets', tr') ->
  (forall x, In x (fst targets) -> In x (fst targets'))
  /\ (forall q, In q (calls tr) -> In q (calls tr'))
  /\ viewed swept_of tr' = viewed swept_of tr
  /\ (forall r, In r refs -> PyStr.strip r <> "" ->
      In (lookup_request (PyStr.strip r)) (calls tr')
      /\ (looks_like_id (PyStr.strip r) = true ->
          In (PStr (PyStr.strip r)) (fst targets'))).
Proof.
  induction refs as [|r0 refs IH]; intros targets w tr targets' tr' H;
    simpl in H.
  - apply ret_ok_inv in H as [<- <-].
    refine (conj _ (conj _ (conj _ _))); auto. intros r [].
  - apply bind_ok_inv in H as (t1 & tr1 & H1 & H2).
    apply add_env_filesystem_ok in H1 as (K1 & V1 & I1).
    apply IH in H2 as (K2 & C2 & S2 & R2).
    assert (C1 : forall q, In q (calls tr) -> In q (calls tr1)).
    { intros q Hq. rewrite <- !viewed_calls in *.
      rewrite (V1 _ (fun r => [r])). apply in_or_app. now left. }
    refine (conj _ (conj _ (conj _ _))).
    + auto.
    + auto.
    + rewrite S2, (V1 _ swept_of).
      destruct (String.eqb (PyStr.strip r0) ""); [apply app_nil_r|].
      unfold lookup_request.
      destruct (looks_like_id (PyStr.strip r0)); apply app_nil_r.
    + intros r [<-|Hr] Hne.
      * split.
        -- apply C2. rewrite <- viewed_calls, (V1 _ (fun r => [r])).
           destruct (String.eqb_spec (PyStr.strip r0) ""); [contradiction|].
           apply in_or_app. right. now left.
        -- intros Hid. apply K2. now apply I1.
      * now apply R2.
Qed.

Lemma sweep_loops_ok self c fss vss w tr tr1 tr' :
  for_each fss
    (fun filesystem_id =>
       bind (Post.cleanup_old_snapshots self filesystem_id
               (Post.app_search_id c) (Post.retention_days c))
         (fun cleanup_count =>
            if 0 <? cleanup_count
            then log INFO "Cleaned up {} old snapshots from filesystem '{}'"
                   [LVal (PInt cleanup_count); LVal filesystem_id]
            else ret tt)) w tr = (Ok tt, tr1) ->
  for_each vss
    (fun virtual_server_id =>
       bind (Post.cleanup_old_smb_shares self virtual_server_id
               (Post.smb_share_name c) (Post.retention_days c))
         (fun cleanup_count =>
            if 0 <? cleanup_count
            then log INFO "Cleaned up {} old SMB shares from virtual server '{}'"
                   [LVal (PInt cleanup_count); LVal virtual_server_id]
            else ret tt)) w tr1 = (Ok tt, tr') ->
  viewed swept_of tr' = viewed swept_of tr ++ fss
  /\ viewed looked_up_of tr' = viewed looked_up_of tr
  /\ viewed listing_of tr' = viewed listing_of tr
  /\ (forall q, In q (calls tr) -> In q (calls tr')).
Proof.
  intros H1 H2.
  assert (Q2 : forall X (view : request -> list X),
             (forall v, view (GetVirtualServerCifs v) = []) ->
             (forall oid, view (DeleteCifsShare oid) = []) ->
             viewed view tr' = viewed view tr1).
  { intros X view Ha Hb.
    pose proof (quiet_run view
                  (for_each vss
                     (fun virtual_server_id =>
                        bind (Post.cleanup_old_smb_shares self virtual_server_id
                                (Post.smb_share_name c) (Post.retention_days c))
                          (fun cleanup_count =>
                             if 0 <? cleanup_count
                             then log INFO
                                    "Cleaned up {} old SMB shares from virtual server '{}'"
                                    [LVal (PInt cleanup_count);
                                     LVal virtual_server_id]
                             else ret tt))) w tr1) as Hq.
    rewrite H2 in Hq. apply Hq.
    apply adds_for_each. intros x. apply adds_bind.
    - now apply cleanup_old_smb_shares_quiet.
    - intros a. destruct (0 <? a); [apply adds_emit; exact I | apply adds_ret]. }
  assert (Q1 : forall X (view : request -> list X),
             (forall f a, view (GetFilesystemSnapshots f a) = []) ->
             (forall oid, view (DeleteSnapshot oid) = []) ->
             viewed view tr1 = viewed view tr).
  { intros X view Ha Hb.
    pose proof (quiet_run view
                  (for_each fss
                     (fun filesystem_id =>
                        bind (Post.cleanup_old_snapshots self filesystem_id
                                (Post.app_search_id c) (Post.retention_days c))
                          (fun cleanup_count =>
                             if 0 <? cleanup_count
                             then log INFO
                                    "Cleaned up {} old snapshots from filesystem '{}'"
                                    [LVal (PInt cleanup_count);
                                     LVal filesystem_id]
                             else ret tt))) w tr) as Hq.
    rewrite H1 in Hq. apply Hq.
    apply adds_for_each. intros x. apply adds_bind.
    - now apply cleanup_old_snapshots_quiet.
    - intros a. destruct (0 <? a); [apply adds_emit; exact I | apply adds_ret]. }
  refine (conj _ (conj _ (conj _ _))).
  - rewrite (Q2 _ swept_of) by reflexivity.
    unfold for_each in H1.
    eapply (for_fold_emits swept_of (fun fid => [fid])) in H1.
    + rewrite H1. f_equal. clear. induction fss as [|x l IH]; [reflexivity|].
      simpl. now rewrite IH.
    + intros s x. apply emits_bind_quiet.
      * apply cleanup_old_snapshots_swept.
      * intros a. destruct (0 <? a); [apply adds_emit; exact I | apply adds_ret].
  - rewrite (Q2 _ looked_up_of), (Q1 _ looked_up_of) by reflexivity.
    reflexivity.
  - rewrite (Q2 _ listing_of), (Q1 _ listing_of) by reflexivity.
    reflexivity.
  - intros q Hq.
    assert (E2 : exists d, tr' = tr1 ++ d).
    { match type of H2 with
      | ?m w tr1 = _ =>
          assert (A : adds (fun _ => True) m) by (adds_all; exact I)
      end.
      destruct (A w tr1) as [d [E _]]. rewrite H2 in E. eauto. }
    assert (E1 : exists d, tr1 = tr ++ d).
    { match type of H1 with
      | ?m w tr = _ =>
          assert (A : adds (fun _ => True) m) by (adds_all; exact I)
      end.
      destruct (A w tr) as [d [E _]]. rewrite H1 in E. eauto. }
    destruct E2 as [d2 ->]. destruct E1 as [d1 ->].
    rewrite !calls_app. apply in_or_app. left.
    apply in_or_app. now left.
Qed.

Lemma flat_map_single {A} (l : list A) : flat_map (fun x => [x]) l = l.
Proof. induction l as [|x l IH]; [reflexivity|]. simpl. now rewrite IH. Qed.

Lemma flat_map_none {A B} (l : list A) : flat_map (fun _ => @nil B) l = [].
Proof. induction l as [|x l IH]; [reflexivity|]. exact IH. Qed.

(** A retention sweep that returns has logged its start; with entries
    from the manifest it has looked up and swept the filesystems of the
    entries and scanned no labels; without, it has looked up every
    reference of the environment and swept every identifier among
    them. *)
Lemma retention_sweep_ok self env c created w tr tr' :
  Post.retention_sweep self env c created w tr = (Ok tt, tr') ->
  sweep_started tr' = true
  /\ (forall q, In q (calls tr) -> In q (calls tr'))
  /\ (Py.truthy created = true ->
      exists items,
        Py.iterate created = Ok items
        /\ viewed swept_of tr' = viewed swept_of tr ++ manifest_ids items
        /\ viewed looked_up_of tr' = viewed looked_up_of tr ++ manifest_ids items
        /\ viewed listing_of tr' = viewed listing_of tr)
  /\ (Py.truthy created = false ->
      forall r,
        In r (PyStr.split "," (environ_get env "HNAS_FILESYSTEMS" "")) ->
        PyStr.strip r <> "" ->
        In (lookup_request (PyStr.strip r)) (calls tr')
        /\ (looks_like_id (PyStr.strip r) = true ->
            In (PStr (PyStr.strip r)) (skipn (List.length (viewed swept_of tr))
                                         (viewed swept_of tr')))).
Proof.
  unfold Post.retention_sweep. intros H.
  apply bind_ok_inv in H as (u & tr1 & Hlog & H).
  unfold log, emit in Hlog. injection Hlog as _ <-.
  apply bind_ok_inv in H as ([fss vss] & tr2 & Ht & H).
  apply bind_ok_inv in H as ([] & tr3 & H1 & H2).
  destruct (sweep_loops_ok self c fss vss w tr2 tr3 tr' H1 H2)
    as (S & L & G & C).
  assert (Hgrow : exists d, tr' = (tr ++ [Logged INFO
            "Performing retention-based cleanup (keeping snapshots newer than {} days)..."
            [LVal (PInt (Post.retention_days c))]]) ++ d).
  { assert (E3 : exists d, tr' = tr2 ++ d).
    { match type of H1 with
      | ?m1 w tr2 = _ =>
          match type of H2 with
          | ?m2 w tr3 = _ =>
              assert (A : adds (fun _ => True) (bind m1 (fun _ => m2)))
                by (adds_all; exact I);
              destruct (A w tr2) as [d [E _]];
              unfold bind at 1 in E; rewrite H1, H2 in E; eauto
          end
      end. }
    assert (E2 : exists d, tr2 = (tr ++ [Logged INFO
            "Performing retention-based cleanup (keeping snapshots newer than {} days)..."
            [LVal (PInt (Post.retention_days c))]]) ++ d).
    { match type of Ht with
      | ?m w ?t = _ =>
          assert (A : adds (fun _ => True) m) by (adds_all; exact I);
          destruct (A w t) as [d [E _]]; rewrite Ht in E; eauto
      end. }
    destruct E3 as [d3 ->]. destruct E2 as [d2 ->].
    exists (d2 ++ d3). now rewrite app_assoc. }
  refine (conj _ (conj _ (conj _ _))).
  - destruct Hgrow as [d ->]. unfold sweep_started.
    rewrite !existsb_app. simpl. now rewrite orb_true_r.
  - intros q Hq. apply C.
    match type of Ht with
    | ?m w ?t = _ =>
        assert (A : adds (fun _ => True) m) by (adds_all; exact I);
        destruct (A w t) as [d [E _]]; rewrite Ht in E; simpl in E
    end.
    rewrite E, !calls_app. apply in_or_app. left. apply in_or_app. now left.
  - intros Htruthy. rewrite Htruthy in Ht.
    apply targets_from_manifest_ok in Ht as ((items & Hi & ->) & V).
    exists items. split; [exact Hi|].
    rewrite S, L, G, !V, !viewed_app.
    unfold viewed at 2 5 8. simpl. rewrite !app_nil_r.
    cbn [looked_up_of swept_of listing_of].
    rewrite flat_map_single, !flat_map_none, !app_nil_r. auto.
  - intros Hfalsy r Hr Hne. rewrite Hfalsy in Ht.
    unfold Post.targets_from_environment in Ht.
    apply targets_from_environment_ok in Ht as (_ & _ & S2 & R).
    destruct (R r Hr Hne) as [R1 R2]. split; [now apply C|].
    intros Hid. rewrite S, S2, viewed_app.
    unfold viewed at 2. simpl. rewrite app_nil_r.
    rewrite skipn_app, skipn_all, Nat.sub_diag. simpl. now apply R2.
Qed.

Ltac outside_leaf :=
  lazymatch goal with
  | H : call_request ?c = _ |- outside_sweep (Called ?c) =>
      unfold outside_sweep, hidden; rewrite H; repeat split
  | |- outside_sweep _ => repeat split
  end.

Lemma outside_sweep_trace tr :
  Forall outside_sweep tr ->
  sweep_started tr = false
  /\ viewed swept_of tr = [] /\ viewed looked_up_of tr = []
  /\ viewed listing_of tr = [].
Proof.
  intros H. refine (conj _ (conj _ (conj _ _))).
  - unfold sweep_started. induction H as [|e tr He _ IH]; [reflexivity|].
    simpl. destruct He as [-> _]. exact IH.
  - apply viewed_hidden. eapply Forall_impl; [exact H|]. intros e He. apply He.
  - apply viewed_hidden. eapply Forall_impl; [exact H|]. intros e He. apply He.
  - apply viewed_hidden. eapply Forall_impl; [exact H|]. intros e He. apply He.
Qed.

Lemma post_startup_outside env : adds outside_sweep (Post.startup env).
Proof. adds_all; outside_leaf. Qed.

Lemma load_created_snapshots_outside file :
  adds outside_sweep (Post.load_created_snapshots file).
Proof. adds_all; outside_leaf. Qed.

Lemma cleanup_session_outside self cleanup created :
  adds outside_sweep (Post.cleanup_session self cleanup created).
Proof. adds_all; outside_leaf. Qed.

Lemma remove_manifest_outside cleanup file :
  adds outside_sweep (Post.remove_manifest cleanup file).
Proof. adds_all; outside_leaf. Qed.

Lemma post_main_run env w tr :
  Post.main env w tr
  = match Post.startup env w tr with
    | (Ok (b, result, c, hnas), tr0) => Post.session env b result c hnas w tr0
    | (Raise e, tr0) => (Raise e, tr0)
    end.
Proof.
  unfold Post.main. unfold bind at 1.
  destruct (Post.startup env w tr) as [[[[[b result] c] hnas]|e] tr0];
    reflexivity.
Qed.

Lemma post_startup_ok env w tr b result c hnas tr0 :
  Post.startup env w tr = (Ok (b, result, c, hnas), tr0) ->
  b = fst (Post.validate_backup_result env)
  /\ result = snd (Post.validate_backup_result env)
  /\ PyStr.to_int (max_str_digits w)
       (environ_get env "HNAS_RETENTION_DAYS" "7")
     = Some (Post.retention_days c).
Proof.
  unfold Post.startup.
  destruct (Post.validate_backup_result env) as [b0 r0]. intros H.
  apply bind_ok_inv in H as (c0 & tr1 & Hc & H).
  assert (Hdays : PyStr.to_int (max_str_digits w)
                    (environ_get env "HNAS_RETENTION_DAYS" "7")
                  = Some (Post.retention_days c0)).
  { unfold Post.read_config, environ_int in Hc. ok_steps. reflexivity. }
  ok_steps;
    match goal with
    | E : (_, _, _, _) = (_, _, _, _) |- _ => injection E as <- <- <- <-
    end; auto.
Qed.

(** A session of the post-backup script that returns: the manifest is
    loaded, the session is cleaned up, the sweep runs or not, and what
    follows is outside the sweep. *)
Lemma session_ok env b result c hnas w tr0 trF :
  Post.session env b result c hnas w tr0 = (Ok tt, trF) ->
  exists created tr2 n tr3 tr4 d,
    Post.load_created_snapshots (Post.snapshot_info_file env) w
      (tr0 ++ [Logged INFO "Backup job result: {}" [LVal (PStr result)]])
    = (Ok created, tr2)
    /\ Post.cleanup_session hnas (Post.should_cleanup b c) created w tr2
       = (Ok n, tr3)
    /\ (if 0 <? Post.retention_days c
        then Post.retention_sweep hnas env c created
        else ret tt) w tr3 = (Ok tt, tr4)
    /\ trF = tr4 ++ d
    /\ Forall outside_sweep d.
Proof.
  unfold Post.session. intros H.
  apply bind_ok_inv in H as (u & tr1 & Hlog & H).
  unfold log, emit in Hlog. injection Hlog as _ <-.
  apply bind_ok_inv in H as (created & tr2 & Hload & H).
  cbv zeta in H.
  apply bind_ok_inv in H as (n & tr3 & Hclean & H).
  apply bind_ok_inv in H as ([] & tr4 & Hsweep & H).
  exists created, tr2, n, tr3, tr4.
  match type of H with
  | ?m w tr4 = _ =>
      assert (A : adds outside_sweep m)
        by (apply adds_bind; [apply remove_manifest_outside|];
            intros ?; adds_all; outside_leaf);
      destruct (A w tr4) as [d [E F]]; rewrite H in E; simpl in E
  end.
  exists d. auto.
Qed.

(** ** The manifest of the pre-backup script *)

(** C6, at a manifest path without a directory part.  With
    [VEEAM_SNAPSHOT_INFO=hnas_snapshot_info.json] the parent directory is
    the empty path, [os.makedirs] raises on it, and the run ends with an
    uncaught exception after both snapshots have been made: no manifest
    is written and the exit status is 1 although snapshots were
    created. *)
Theorem C6_bare_manifest_path_aborts :
  Pre.snapshot_info_file Examples.pre_env_bare_path = "hnas_snapshot_info.json"
  /\ dirname (Examples.site [] []) "hnas_snapshot_info.json" = ""
  /\ snapshot_names
       (snd (Pre.main Examples.pre_env_bare_path (Examples.site [] []) []))
     = [PStr "veeam_fs-alpha_20240115_030000";
        PStr "veeam_fs-beta_20240115_030000"]
  /\ fst (Pre.main Examples.pre_env_bare_path (Examples.site [] []) [])
     = Raise OSError
  /\ exit_status
       (fst (Pre.main Examples.pre_env_bare_path (Examples.site [] []) [])) = 1
  /\ written
       (snd (Pre.main Examples.pre_env_bare_path (Examples.site [] []) []))
     = [].
Proof.
  refine (conj _ (conj _ (conj _ (conj _ (conj _ _)))));
    vm_compute; reflexivity.
Qed.

(** Whatever the array answers, [create_snapshot] returns. *)
Lemma create_snapshot_total self fid name tag interval w tr :
  exists v, fst (Pre.create_snapshot self fid name tag interval w tr) = Ok v.
Proof.
  unfold Pre.create_snapshot, try_except.
  match goal with
  | |- context [match ?m w tr with _ => _ end] =>
      destruct (m w tr) as [[v|e] tr1] eqn:E
  end.
  - eauto.
  - assert (He : is_exception e = true).
    { unfold bind, log, emit, HNAS.send, HNAS.raise_for_status, HNAS.json,
        raise, ret, lift in E.
      simpl in E.
      destruct (respond w _ _) as [|st tx js]; simpl in E.
      - injection E as <- _. reflexivity.
      - destruct ((400 <=? st) && (st <? 600)); simpl in E.
        + injection E as <- _. reflexivity.
        + destruct js as [data|]; simpl in E.
          * destruct (Py.get data "snapshot" (PDict [])) as [sn|e1] eqn:E1;
              simpl in E.
            -- destruct (Py.get sn "displayName" (PStr name)) as [d|e2] eqn:E2;
                 simpl in E; [discriminate|].
               injection E as <- _. destruct sn; simpl in E2;
                 try (injection E2 as <-; reflexivity); discriminate.
            -- injection E as <- _. destruct data; simpl in E1;
                 try (injection E1 as <-; reflexivity); discriminate.
          * injection E as <- _. reflexivity. }
    rewrite He. destruct e; unfold bind, log, emit, ret; simpl; eauto.
Qed.

(** A run of the pre-backup script that gets through its start and its
    loop, and can make the parent directory and write the file, writes
    the manifest of the snapshots the loop recorded, also when there are
    none, and ends with a status other than 0 exactly when there are
    none. *)
Lemma pre_main_persists_manifest env w c hnas tr0 created tr1 :
  Pre.startup env w [] = (Ok (c, hnas), tr0) ->
  Pre.snapshot_all hnas c (now_stamp w tr0) w tr0 = (Ok created, tr1) ->
  dirname w (Pre.snapshot_info_file env) <> "" ->
  fs_makedirs_ok w tr1 (dirname w (Pre.snapshot_info_file env)) = true ->
  fs_write_ok w (tr1 ++ [Makedirs (dirname w (Pre.snapshot_info_file env))])
    (Pre.snapshot_info_file env) = true ->
  written (snd (Pre.main env w []))
  = [(Pre.snapshot_info_file env, Pre.manifest c (now_stamp w tr0) created)]
  /\ In (Makedirs (dirname w (Pre.snapshot_info_file env)))
       (snd (Pre.main env w []))
  /\ (exit_status (fst (Pre.main env w [])) <> 0 <-> created = []).
Proof.
  intros Es El Hdir Hmk Hwr.
  assert (Hw1 : Forall no_write tr1).
  { pose proof (adds_run _ _ w [] (proj1 (no_write_names env))
                  ltac:(constructor)) as H0.
    rewrite Es in H0.
    pose proof (adds_run no_write
                  (Pre.snapshot_all hnas c (now_stamp w tr0)) w tr0) as H1.
    rewrite El in H1. apply H1; [|exact H0].
    unfold Pre.snapshot_all. apply adds_for_fold. intros s x.
    apply (proj2 (no_write_names env)). }
  assert (Hrun : exists r t a,
             Pre.main env w []
             = (r, tr1 ++ [Makedirs (dirname w (Pre.snapshot_info_file env));
                           Wrote (Pre.snapshot_info_file env)
                             (Pre.manifest c (now_stamp w tr0) created);
                           Logged INFO
                             "Pre-backup script completed. Created {} snapshots."
                             [LVal (PInt (Z.of_nat (List.length created)))];
                           Printed t a])
             /\ (exit_status r <> 0 <-> created = [])).
  { rewrite pre_main_run, Es. unfold bind at 1. rewrite El.
    unfold Pre.finish, Pre.save_manifest, Pre.makedirs.
    unfold bind at 1. unfold bind at 1. unfold ask at 1.
    unfold bind at 1.
    destruct (String.eqb_spec (dirname w (Pre.snapshot_info_file env)) "")
      as [E|_]; [contradiction|].
    unfold bind at 1. unfold ask at 1. rewrite Hmk.
    unfold emit at 1. unfold bind at 1. unfold ask at 1. rewrite Hwr.
    unfold emit at 1. unfold bind at 1. unfold log, emit at 1.
    destruct created as [|x created].
    - unfold bind, print, emit, sys_exit, raise.
      rewrite <- !app_assoc. simpl. do 3 eexists. split; [reflexivity|].
      simpl. split; [reflexivity | lia].
    - unfold print, emit.
      rewrite <- !app_assoc. simpl. do 3 eexists. split; [reflexivity|].
      simpl. split; [contradiction | discriminate]. }
  destruct Hrun as (r & t & a & -> & Hexit). cbn [fst snd].
  refine (conj _ (conj _ Hexit)).
  - rewrite written_app, (no_write_written tr1 Hw1). reflexivity.
  - apply in_or_app. right. now left.
Qed.


(** The same run with a manifest path that has no directory part: the
    parent is the empty path, [os.makedirs] raises, and the run ends there
    with nothing written, whatever the loop recorded. *)
Lemma pre_main_bare_path_aborts env w c hnas tr0 created tr1 :
  Pre.startup env w [] = (Ok (c, hnas), tr0) ->
  Pre.snapshot_all hnas c (now_stamp w tr0) w tr0 = (Ok created, tr1) ->
  dirname w (Pre.snapshot_info_file env) = "" ->
  Pre.main env w [] = (Raise OSError, tr1)
  /\ written (snd (Pre.main env w [])) = []
  /\ exit_status (fst (Pre.main env w [])) = 1.
Proof.
  intros Es El Hdir.
  assert (Hw1 : Forall no_write tr1).
  { pose proof (adds_run _ _ w [] (proj1 (no_write_names env))
                  ltac:(constructor)) as H0.
    rewrite Es in H0.
    pose proof (adds_run no_write
                  (Pre.snapshot_all hnas c (now_stamp w tr0)) w tr0) as H1.
    rewrite El in H1. apply H1; [|exact H0].
    unfold Pre.snapshot_all. apply adds_for_fold. intros s x.
    apply (proj2 (no_write_names env)). }
  assert (Hrun : Pre.main env w [] = (Raise OSError, tr1)).
  { rewrite pre_main_run, Es. unfold bind at 1. rewrite El.
    unfold Pre.finish, Pre.save_manifest, Pre.makedirs.
    unfold bind at 1. unfold bind at 1. unfold ask at 1.
    unfold bind at 1. rewrite Hdir. reflexivity. }
  rewrite Hrun. cbn [fst snd].
  refine (conj eq_refl (conj (no_write_written tr1 Hw1) eq_refl)).
Qed.

(** Three runs with a manifest path under [/var/veeam].  When [fs-beta]
    cannot be snapshotted, or a reference names no filesystem of the
    array, the loop goes on: the manifest lists the snapshot of
    [fs-alpha] and the status is 0.  When no snapshot can be made, the
    manifest is written with no entry and the status is 1. *)
Example pre_main_partial_failures :
  (let run := Pre.main Examples.pre_env Examples.site_beta_fails [] in
   exit_status (fst run) = 0
   /\ List.map (fun d => (fst d, manifest_names (snd d))) (written (snd run))
      = [("/var/veeam/hnas_snapshot_info.json",
          [PStr "veeam_fs-alpha_20240115_030000"])])
  /\ (let run :=
        Pre.main (<["HNAS_FILESYSTEMS" := "fs-gamma, fs-alpha"]> Examples.pre_env)
          (Examples.site [] []) [] in
      exit_status (fst run) = 0
      /\ List.map (fun d => (fst d, manifest_names (snd d))) (written (snd run))
         = [("/var/veeam/hnas_snapshot_info.json",
             [PStr "veeam_fs-alpha_20240115_030000"])])
  /\ (let run := Pre.main Examples.pre_env Examples.site_without_snapshots [] in
      exit_status (fst run) = 1
      /\ fst run = Raise (SystemExit 1)
      /\ List.map (fun d => (fst d, manifest_names (snd d))) (written (snd run))
         = [("/var/veeam/hnas_snapshot_info.json", [])]).
Proof.
  refine (conj (conj _ _) (conj (conj _ _) (conj _ (conj _ _))));
    vm_compute; reflexivity.
Qed.

(** ** The queries of the client *)

Ltac query_run :=
  intros w tr; unfold answer, decoded;
  unfold HNAS.test_connection, HNAS.get_all_filesystems,
    HNAS.get_filesystem_info, HNAS.get_filesystem_snapshots,
    Pre.get_snapshots, HNAS.get_filesystem_by_name, HNAS.get_all_filesystems,
    try_except, bind, HNAS.send, HNAS.raise_for_status, HNAS.json, log, emit,
    lift, raise, ret;
  cbn [HNAS.status_code HNAS.text HNAS.body];
  destruct (respond w tr _) as [|st tx [v|]]; cbn;
  rewrite ?calls_app; cbn; rewrite ?app_nil_r; auto;
  destruct ((400 <=? st) && (st <? 600)); cbn;
  rewrite ?calls_app; cbn; rewrite ?app_nil_r; auto.

(** X1.  Each query of the client sends its one request and returns what it
    reads from the document of the answer; when the transport fails, the
    status is an error or the body does not decode, it returns its
    fall-back instead ([False] for the probe, the empty list for the two
    listings, [None] for the look-ups) and no exception leaves it.  The
    look-up by name returns the first listed filesystem with the label,
    and [None] when there is none or when the scan meets an item that is
    no dictionary. *)
Theorem X1_queries_fall_back :
  forall (self : HNAS.manager),
    query self GetFileDevices
      (fun d => match d with Some (PDict _) => true | _ => false end)
      (HNAS.test_connection self)
    /\ query self GetFilesystems (field "filesystems" (PList []))
         (HNAS.get_all_filesystems self)
    /\ (forall name,
           query self GetFilesystems (labelled name)
             (HNAS.get_filesystem_by_name self name))
    /\ (forall fid,
           query self (GetFilesystem fid)
             (fun d => match d with Some v => v | None => PNone end)
             (HNAS.get_filesystem_info self fid))
    /\ (forall fid app,
           query self (GetFilesystemSnapshots fid app)
             (field "snapshots" (PList []))
             (HNAS.get_filesystem_snapshots self fid app))
    /\ (forall fid app,
           query self (GetFilesystemSnapshots fid app)
             (fun d => match d with Some v => v | None => PNone end)
             (Pre.get_snapshots self fid app)).
Proof.
  intros self. refine (conj _ (conj _ (conj _ (conj _ (conj _ _))))).
  - query_run. destruct v; cbn; rewrite ?calls_app; cbn; rewrite ?app_nil_r; auto.
  - query_run. destruct v; cbn; rewrite ?calls_app; cbn; rewrite ?app_nil_r; auto.
  - intros name. query_run.
    destruct v; cbn; rewrite ?calls_app; cbn; rewrite ?app_nil_r; auto.
    unfold labelled, field. cbn.
    destruct (match Py.assoc "filesystems" entries with Some x => x | None => PList [] end) eqn:E; cbn.
    all: rewrite ?calls_app; cbn; rewrite ?app_nil_r; auto.
    all: match goal with
         | |- context [HNAS.first_with_label ?n ?l] =>
             destruct (HNAS.first_with_label n l) as [a|e] eqn:F;
             [|apply first_with_label_raise in F; subst e]
         end; cbn; rewrite ?calls_app; cbn; rewrite ?app_nil_r; auto.
  - intros fid. query_run.
  - intros fid app. query_run.
    destruct v; cbn; rewrite ?calls_app; cbn; rewrite ?app_nil_r; auto.
  - intros fid app. query_run.
Qed.

(** ** The sweeps as a whole *)

Lemma delete_snapshot_run self oid w tr :
  exists b d,
    HNAS.delete_snapshot self oid w tr = (Ok b, tr ++ d)
    /\ calls d = [DeleteSnapshot oid]
    /\ snapshot_deletes d = [oid].
Proof.
  unfold HNAS.delete_snapshot, try_except, bind, log, emit, HNAS.send,
    HNAS.raise_for_status, raise, ret.
  cbn.
  destruct (respond w _ _) as [|st tx js]; cbn.
  - do 2 eexists. rewrite <- !app_assoc. cbn. repeat split.
  - destruct ((400 <=? st) && (st <? 600)); cbn; [destruct (st =? 404)|]; cbn;
      do 2 eexists; rewrite <- !app_assoc; cbn; repeat split.
Qed.

Lemma delete_smb_share_run self oid w tr :
  exists b d,
    HNAS.delete_smb_share self oid w tr = (Ok b, tr ++ d)
    /\ calls d = [DeleteCifsShare oid]
    /\ share_deletes d = [oid].
Proof.
  unfold HNAS.delete_smb_share, try_except, bind, log, emit, HNAS.send,
    HNAS.raise_for_status, raise, ret.
  cbn.
  destruct (respond w _ _) as [|st tx js]; cbn.
  - do 2 eexists. rewrite <- !app_assoc. cbn. repeat split.
  - destruct ((400 <=? st) && (st <? 600)); cbn; [destruct (st =? 404)|]; cbn;
      do 2 eexists; rewrite <- !app_assoc; cbn; repeat split.
Qed.

Lemma delete_if_older_run self c n entries v b w tr :
  Py.lt_int v c = Ok b ->
  let oid := object_id (PDict entries) in
  exists n' d,
    Post.delete_if_older self c n (PDict entries) v w tr = (Ok n', tr ++ d)
    /\ snapshot_deletes d = (if b && Py.truthy oid then [oid] else [])
    /\ n <= n' <= n + (if b && Py.truthy oid then 1 else 0).
Proof.
  intros Hv oid. subst oid. unfold object_id. cbn [Py.get].
  set (oid := match Py.assoc "objectId" entries with
              | Some x => x | None => PNone end).
  unfold Post.delete_if_older.
  unfold bind at 1. unfold lift at 1. rewrite Hv.
  destruct b; cbn [andb].
  - unfold bind at 1. unfold lift at 1. cbn [Py.get]. fold oid.
    destruct (Py.truthy oid).
    + destruct (delete_snapshot_run self oid w tr) as (b & d & E & _ & D).
      unfold bind. rewrite E. exists (if b then n + 1 else n), d.
      unfold ret. repeat split; auto; destruct b; lia.
    + exists n, []. rewrite app_nil_r. unfold ret. repeat split; auto; lia.
  - exists n, []. rewrite app_nil_r. unfold ret. repeat split; auto; lia.
Qed.

Lemma sweep_snapshot_step self c n snap w tr :
  sweepable snap = true ->
  let go := deletable (max_str_digits w) c snap in
  exists n' d,
    Post.sweep_snapshot self c n snap w tr = (Ok n', tr ++ d)
    /\ snapshot_deletes d = (if go then [object_id snap] else [])
    /\ n <= n' <= n + (if go then 1 else 0).
Proof.
  intros Hs. unfold sweepable in Hs. cbv zeta.
  unfold deletable, older_than.
  destruct snap; try discriminate Hs. cbn [Py.get] in *.
  unfold Post.sweep_snapshot. unfold bind at 1. unfold lift at 1. cbn [Py.get].
  destruct (match Py.assoc "creationTime" entries with
            | Some x => x | None => PInt 0 end) as [| b | t | f | s | |] eqn:Ev;
    try discriminate Hs.
  - apply (delete_if_older_run self c n entries (PBool b) _ w tr). reflexivity.
  - apply (delete_if_older_run self c n entries (PInt t) _ w tr). reflexivity.
  - apply (delete_if_older_run self c n entries (PFloat f) _ w tr). reflexivity.
  - unfold bind at 1. unfold ask at 1.
    destruct (PyStr.to_int (max_str_digits w) s) as [t|].
    + apply (delete_if_older_run self c n entries (PInt t) _ w tr). reflexivity.
    + cbn [andb]. unfold bind, lift, log, emit, ret. cbn [Py.get].
      exists n, [Logged WARNING "Invalid creation time format for snapshot: {}"
                   [LVal (match Py.assoc "displayName" entries with
                          | Some x => x | None => PStr "unknown" end)]].
      split; [reflexivity|]. split; [reflexivity | lia].
Qed.

Lemma sweep_snapshot_stop self c n snap w tr :
  sweepable snap = false ->
  exists e,
    Post.sweep_snapshot self c n snap w tr = (Raise e, tr) /\ caught e.
Proof.
  intros Hs. unfold sweepable in Hs. unfold Post.sweep_snapshot.
  unfold bind at 1. unfold lift at 1.
  destruct snap; cbn [Py.get] in *;
    try (exists AttributeError; split; reflexivity).
  destruct (match Py.assoc "creationTime" entries with
            | Some x => x | None => PInt 0 end); try discriminate Hs;
    unfold Post.delete_if_older, bind, lift; cbn;
    exists TypeError; split; reflexivity.
Qed.

Lemma sweep_snapshots_run self c items : forall n w tr,
  let go := List.filter (deletable (max_str_digits w) c) (reached items) in
  exists r d,
    for_fold items n (Post.sweep_snapshot self c) w tr = (r, tr ++ d)
    /\ snapshot_deletes d = List.map object_id go
    /\ match r with
       | Ok n' => n <= n' <= n + Z.of_nat (List.length go)
       | Raise e => caught e
       end.
Proof.
  induction items as [|x items IH]; intros n w tr; cbv zeta.
  - exists (Ok n), []. rewrite app_nil_r. cbn. repeat split; lia.
  - cbn [for_fold reached]. destruct (sweepable x) eqn:Hx.
    + destruct (sweep_snapshot_step self c n x w tr Hx) as (n1 & d1 & E1 & D1 & B1).
      unfold bind at 1. rewrite E1.
      destruct (IH n1 w (tr ++ d1)) as (r & d2 & E2 & D2 & B2).
      exists r, (d1 ++ d2). rewrite E2, app_assoc.
      split; [reflexivity|]. rewrite snapshot_deletes_app, D1, D2.
      cbn [List.filter]. destruct (deletable _ c x); cbn [List.map List.length app].
      * split; [reflexivity|]. destruct r; [lia | exact B2].
      * split; [reflexivity|]. destruct r; [lia | exact B2].
    + destruct (sweep_snapshot_stop self c n x w tr Hx) as (e & E & He).
      unfold bind at 1. rewrite E. exists (Raise e), [].
      rewrite app_nil_r. cbn. auto.
Qed.

(** X3.  The snapshot sweep of a filesystem asks the array to delete exactly
    the listed snapshots it finds older than the cut-off and that have an
    identifier, in the order of the listing, up to the first snapshot it
    cannot compare; it returns a count that is at most the number of
    these requests. *)
Theorem X3_snapshot_sweep_deletes :
  forall (self : HNAS.manager) (fs : pyval) (app : string) (days : Z)
         (w : world) (tr tr1 : list event) (snapshots : pyval)
         (items : list pyval) (c : Z),
    HNAS.get_filesystem_snapshots self fs app w tr = (Ok snapshots, tr1) ->
    Py.truthy snapshots = true ->
    Py.iterate snapshots = Ok items ->
    cutoff_time w tr1 days = Ok c ->
    let go := List.filter (deletable (max_str_digits w) c) (reached items) in
    snapshot_deletes (snd (Post.cleanup_old_snapshots self fs app days w tr))
    = snapshot_deletes tr ++ List.map object_id go
    /\ exists n,
         fst (Post.cleanup_old_snapshots self fs app days w tr) = Ok n
         /\ 0 <= n <= Z.of_nat (List.length go).
Proof.
  intros self fs app days w tr tr1 snapshots items c Hl Ht Hi Hc go.
  assert (Hq : snapshot_deletes tr1 = snapshot_deletes tr).
  { assert (A : adds (fun e => match e with
                               | Called k =>
                                   match call_request k with
                                   | DeleteSnapshot _ => False
                                   | _ => True
                                   end
                               | _ => True
                               end)
                  (HNAS.get_filesystem_snapshots self fs app)).
    { adds_all;
        lazymatch goal with
        | H : call_request ?k = _ |- _ => rewrite H; exact I
        | |- _ => exact I
        end. }
    destruct (A w tr) as [d [E F]]. rewrite Hl in E. cbn in E. subst tr1.
    rewrite snapshot_deletes_app.
    replace (snapshot_deletes d) with (@nil pyval); [apply app_nil_r|].
    clear -F. induction F as [|e d He _ IH]; [reflexivity|].
    destruct e as [| k | | | | |]; cbn; auto.
    destruct (call_request k); auto. destruct He. }
  destruct (sweep_snapshots_run self c items 0 w tr1) as (r & d & E & D & B).
  fold go in D, B.
  assert (Hrun : Post.cleanup_old_snapshots self fs app days w tr
                 = match r with
                   | Ok n => (Ok n, tr1 ++ d)
                   | Raise e =>
                       (Ok 0, (tr1 ++ d)
                              ++ [Logged ERROR "Error during snapshot cleanup: {}"
                                    [LExn e]])
                   end).
  { unfold Post.cleanup_old_snapshots, try_except.
    unfold bind at 1. rewrite Hl, Ht. cbn [negb].
    unfold bind at 1. unfold ask at 1. rewrite Hc.
    unfold bind at 1. unfold lift at 1.
    unfold bind at 1. unfold lift at 1. rewrite Hi, E.
    destruct r as [n|e]; [reflexivity|]. rewrite B. reflexivity. }
  rewrite Hrun. destruct r as [n|e]; cbn [fst snd].
  - rewrite snapshot_deletes_app, Hq, D.
    split; [reflexivity|]. exists n. split; [reflexivity | lia].
  - rewrite !snapshot_deletes_app, Hq, D. cbn. rewrite app_nil_r.
    split; [reflexivity|]. exists 0. split; [reflexivity | lia].
Qed.

Lemma X3_snapshot_sweep_deletes_witness :
  snapshot_deletes
    (snd (Post.cleanup_old_snapshots Examples.client (PStr "fs-1") "veeam" 7
            snapshots_world []))
  = [PStr "snap-2023"]
  /\ exists n,
       fst (Post.cleanup_old_snapshots Examples.client (PStr "fs-1") "veeam" 7
              snapshots_world []) = Ok n
       /\ 0 <= n <= 1.
Proof.
  eapply (X3_snapshot_sweep_deletes Examples.client (PStr "fs-1") "veeam" 7
            snapshots_world [] _ _
            [Examples.snapshot_at_cutoff; Examples.old_snapshot;
             Examples.snapshot_unparsable] 1704682800);
    [reflexivity | reflexivity | reflexivity | reflexivity].
Defined.

(** ** The shares of a virtual server *)

Lemma matching_shares_spec prefix items :
  HNAS.matching_shares prefix items
  = if forallb share_like items
    then Ok (List.filter (named_with prefix) items)
    else Raise AttributeError.
Proof.
  induction items as [|x items IH]; [reflexivity|].
  cbn [HNAS.matching_shares forallb List.filter].
  unfold share_like at 1, named_with at 1.
  destruct (Py.get x "name" (PStr "")) as [name|e] eqn:E.
  - destruct name; cbn [HNAS.name_startswith andb]; try reflexivity.
    rewrite IH. destruct (forallb share_like items); reflexivity.
  - destruct x; cbn in E; try discriminate E; injection E as <-; reflexivity.
Qed.

Lemma get_virtual_server_smb_shares_query self vs prefix :
  query self (GetVirtualServerCifs vs) (listed_shares prefix)
    (HNAS.get_virtual_server_smb_shares self vs prefix).
Proof.
  intros w tr. unfold answer, decoded, listed_shares, field.
  unfold HNAS.get_virtual_server_smb_shares, try_except, bind, HNAS.send,
    HNAS.raise_for_status, HNAS.json, log, emit, lift, raise, ret.
  cbn [HNAS.status_code HNAS.text HNAS.body].
  destruct (respond w tr _) as [|st tx [v|]]; cbn;
    rewrite ?calls_app; cbn; rewrite ?app_nil_r; auto;
    destruct ((400 <=? st) && (st <? 600)); cbn;
    rewrite ?calls_app; cbn; rewrite ?app_nil_r; auto.
  destruct v; cbn; rewrite ?calls_app; cbn; rewrite ?app_nil_r; auto.
  destruct (match Py.assoc "filesystemShares" entries with
            | Some x => x | None => PList [] end) eqn:E; cbn;
    rewrite ?calls_app; cbn; rewrite ?app_nil_r; auto;
    rewrite matching_shares_spec;
    match goal with
    | |- context [forallb share_like ?l] => destruct (forallb share_like l)
    end; cbn; rewrite ?calls_app; cbn; rewrite ?app_nil_r; auto.
Qed.

(** X4.  [get_virtual_server_smb_shares] sends one request and returns the
    listed shares whose name starts with the prefix, in the order of the
    listing; it returns no share at all when the request fails, and also
    when one item of the list is no dictionary or has a name that is no
    string. *)
Theorem X4_shares_filter :
  forall (self : HNAS.manager) (vs : pyval) (prefix : string),
    query self (GetVirtualServerCifs vs) (listed_shares prefix)
      (HNAS.get_virtual_server_smb_shares self vs prefix)
    /\ (forall items,
           listed_shares prefix
             (Some (PDict [("filesystemShares", PList items)]))
           = if forallb share_like items
             then List.filter (named_with prefix) items
             else []).
Proof.
  intros self vs prefix.
  refine (conj (get_virtual_server_smb_shares_query self vs prefix) _).
  intros items. reflexivity.
Qed.

Lemma listed_shares_like prefix d :
  forallb share_like (listed_shares prefix d) = true.
Proof.
  unfold listed_shares.
  destruct (Py.iterate _) as [items|]; [|reflexivity].
  destruct (forallb share_like items) eqn:E; [|reflexivity].
  apply forallb_forall. intros x Hx. apply filter_In in Hx as [Hx _].
  rewrite forallb_forall in E. now apply E.
Qed.

Lemma sweep_share_step self cd n share w tr :
  share_like share = true ->
  let go := expired cd share in
  exists n' d,
    Post.sweep_share self cd n share w tr = (Ok n', tr ++ d)
    /\ share_deletes d = (if go then [object_id share] else [])
    /\ n <= n' <= n + (if go then 1 else 0).
Proof.
  intros Hs. unfold share_like in Hs. cbv zeta.
  unfold expired, share_stamp, object_id.
  destruct share; try discriminate Hs. cbn [Py.get] in *.
  unfold Post.sweep_share. unfold bind at 1. unfold lift at 1. cbn [Py.get].
  destruct (match Py.assoc "name" entries with
            | Some x => x | None => PStr "" end) as [| | | | s | |] eqn:Ev;
    try discriminate Hs.
  unfold try_value_error. unfold bind at 1. unfold lift at 1.
  cbn [Post.name_parts].
  destruct (Post.timestamp_str (PyStr.split "_" s)) as [stamp|].
  - destruct (PyTime.strptime stamp) as [share_date|].
    + destruct (PyTime.lt share_date cd); cbn [andb].
      * unfold bind at 1. unfold lift at 1. cbn [Py.get].
        set (oid := match Py.assoc "objectId" entries with
                    | Some x => x | None => PNone end).
        destruct (Py.truthy oid).
        -- destruct (delete_smb_share_run self oid w tr) as (b & d & E & _ & D).
           unfold bind. rewrite E. exists (if b then n + 1 else n), d.
           unfold ret. repeat split; auto; destruct b; lia.
        -- exists n, []. rewrite app_nil_r. unfold ret.
           repeat split; auto; lia.
      * exists n, []. rewrite app_nil_r. unfold ret. repeat split; auto; lia.
    + cbn [andb]. unfold raise, bind, log, emit, ret.
      exists n, [Logged WARNING
                   "Skipping SMB share with unexpected name format: {}"
                   [LVal (PStr s)]].
      split; [reflexivity|]. split; [reflexivity | lia].
  - cbn [andb]. exists n, []. rewrite app_nil_r. unfold ret.
    repeat split; auto; lia.
Qed.

Lemma sweep_shares_run self cd shares : forall n w tr,
  forallb share_like shares = true ->
  let go := List.filter (expired cd) shares in
  exists n' d,
    for_fold shares n (Post.sweep_share self cd) w tr = (Ok n', tr ++ d)
    /\ share_deletes d = List.map object_id go
    /\ n <= n' <= n + Z.of_nat (List.length go).
Proof.
  induction shares as [|x shares IH]; intros n w tr H; cbv zeta.
  - exists n, []. rewrite app_nil_r. cbn. repeat split; lia.
  - cbn [forallb] in H. apply andb_prop in H as [Hx H].
    cbn [for_fold].
    destruct (sweep_share_step self cd n x w tr Hx) as (n1 & d1 & E1 & D1 & B1).
    unfold bind at 1. rewrite E1.
    destruct (IH n1 w (tr ++ d1) H) as (n2 & d2 & E2 & D2 & B2).
    exists n2, (d1 ++ d2). rewrite E2, app_assoc.
    split; [reflexivity|]. rewrite share_deletes_app, D1, D2.
    cbn [List.filter]. destruct (expired cd x); cbn [List.map List.length app].
    + split; [reflexivity | lia].
    + split; [reflexivity | lia].
Qed.

(** X5.  The share sweep of a virtual server asks the array to delete exactly
    the shares [get_virtual_server_smb_shares] returned whose name ends in
    a time stamp before the cut-off and that have an identifier, in order;
    it returns a count that is at most the number of these requests. *)
Theorem X5_share_sweep_deletes :
  forall (self : HNAS.manager) (vs : pyval) (prefix : string) (days : Z)
         (w : world) (tr tr1 : list event) (shares : list pyval)
         (cd : PyTime.datetime),
    HNAS.get_virtual_server_smb_shares self vs prefix w tr = (Ok shares, tr1) ->
    cutoff_date w tr1 days = Ok cd ->
    let go := List.filter (expired cd) shares in
    share_deletes (snd (Post.cleanup_old_smb_shares self vs prefix days w tr))
    = share_deletes tr ++ List.map object_id go
    /\ exists n,
         fst (Post.cleanup_old_smb_shares self vs prefix days w tr) = Ok n
         /\ 0 <= n <= Z.of_nat (List.length go).
Proof.
  intros self vs prefix days w tr tr1 shares cd Hl Hc go.
  assert (Hlike : forallb share_like shares = true).
  { destruct (get_virtual_server_smb_shares_query self vs prefix w tr) as [Hv _].
    rewrite Hl in Hv. cbn in Hv. injection Hv as ->. apply listed_shares_like. }
  assert (Hq : share_deletes tr1 = share_deletes tr).
  { assert (A : adds (fun e => match e with
                               | Called k =>
                                   match call_request k with
                                   | DeleteCifsShare _ => False
                                   | _ => True
                                   end
                               | _ => True
                               end)
                  (HNAS.get_virtual_server_smb_shares self vs prefix)).
    { adds_all;
        lazymatch goal with
        | H : call_request ?k = _ |- _ => rewrite H; exact I
        | |- _ => exact I
        end. }
    destruct (A w tr) as [d [E F]]. rewrite Hl in E. cbn in E. subst tr1.
    rewrite share_deletes_app.
    replace (share_deletes d) with (@nil pyval); [apply app_nil_r|].
    clear -F. induction F as [|e d He _ IH]; [reflexivity|].
    destruct e as [| k | | | | |]; cbn; auto.
    destruct (call_request k); auto. destruct He. }
  destruct (sweep_shares_run self cd shares 0 w tr1 Hlike) as (n & d & E & D & B).
  fold go in D, B.
  assert (Hrun : Post.cleanup_old_smb_shares self vs prefix days w tr
                 = (Ok (match shares with [] => 0 | _ => n end),
                    match shares with [] => tr1 | _ => tr1 ++ d end)).
  { unfold Post.cleanup_old_smb_shares, try_except.
    unfold bind at 1. rewrite Hl.
    destruct shares as [|x shares]; [reflexivity|].
    unfold bind at 1. unfold ask at 1. rewrite Hc.
    unfold bind at 1. unfold lift at 1. rewrite E. reflexivity. }
  rewrite Hrun. cbn [fst snd].
  destruct shares as [|x shares].
  - subst go. cbn. rewrite Hq, app_nil_r. split; [reflexivity|].
    exists 0. split; [reflexivity | lia].
  - rewrite share_deletes_app, Hq, D. split; [reflexivity|].
    exists n. split; [reflexivity | lia].
Qed.

Lemma X5_share_sweep_deletes_witness :
  share_deletes
    (snd (Post.cleanup_old_smb_shares Examples.client (PStr "vs-1")
            "VeeamNASBackup" 7 shares_world []))
  = [PStr "share-2023"]
  /\ exists n,
       fst (Post.cleanup_old_smb_shares Examples.client (PStr "vs-1")
              "VeeamNASBackup" 7 shares_world []) = Ok n
       /\ 0 <= n <= 1.
Proof.
  eapply (X5_share_sweep_deletes Examples.client (PStr "vs-1") "VeeamNASBackup" 7
            shares_world [] _
            [Examples.recent_share; Examples.share_bad; Examples.old_share;
             Examples.share_bad_stamp] (PyTime.mkdt 2024 1 8 3 0 0 0));
    [reflexivity | reflexivity].
Defined.

(** ** Exceptions that leave a computation *)

Section Raises.

Context (w : world) (P : exn -> Prop).

Lemma raises_ret {A} (a : A) : raises w P (ret a).
Proof. intros tr e H. discriminate H. Qed.

Lemma raises_raise {A} (e : exn) : P e -> raises w P (@raise A e).
Proof. intros He tr e' H. injection H as <-. exact He. Qed.

Lemma raises_lift {A} (r : result A) :
  (forall e, r = Raise e -> P e) -> raises w P (lift r).
Proof. intros Hr tr e H. apply Hr. exact H. Qed.

Lemma raises_ask {A} (f : world -> list event -> A) : raises w P (ask f).
Proof. intros tr e H. discriminate H. Qed.

Lemma raises_emit (ev : event) : raises w P (emit ev).
Proof. intros tr e H. discriminate H. Qed.

Lemma raises_bind {A B} (m : M A) (k : A -> M B) :
  raises w P m -> (forall a, raises w P (k a)) -> raises w P (bind m k).
Proof.
  intros Hm Hk tr e H. unfold bind in H.
  destruct (m w tr) as [[a|e'] tr1] eqn:E.
  - eapply Hk. exact H.
  - injection H as <-. apply (Hm tr). now rewrite E.
Qed.

(** What follows an answer of the world is judged at that answer. *)
Lemma raises_bind_ask {A B} (f : world -> list event -> A) (k : A -> M B) :
  (forall tr, raises w P (k (f w tr))) -> raises w P (bind (ask f) k).
Proof. intros Hk tr e H. unfold bind, ask in H. eapply Hk. exact H. Qed.

Lemma raises_try_except {A} (m : M A) (h : exn -> M A) :
  raises w caught m -> (forall e, raises w P (h e)) ->
  raises w P (try_except m h).
Proof.
  intros Hm Hh tr e H. unfold try_except in H.
  destruct (m w tr) as [[a|e'] tr1] eqn:E; [discriminate H|].
  assert (He : caught e') by (apply (Hm tr); now rewrite E).
  unfold caught in He. rewrite He in H. eapply Hh. exact H.
Qed.

Lemma raises_try_value_error {A} (m h : M A) :
  raises w P m -> raises w P h -> raises w P (try_value_error m h).
Proof.
  intros Hm Hh tr e H. unfold try_value_error in H.
  destruct (m w tr) as [[a|e'] tr1] eqn:E; [discriminate H|].
  assert (He : P e') by (apply (Hm tr); now rewrite E).
  destruct e'; try (injection H as <-; exact He).
  eapply Hh. exact H.
Qed.

Lemma raises_for_fold {A S} (items : list A) (body : S -> A -> M S) :
  (forall s x, raises w P (body s x)) ->
  forall s, raises w P (for_fold items s body).
Proof.
  intros Hb. induction items as [|x items IH]; intros s; cbn [for_fold].
  - apply raises_ret.
  - apply raises_bind; [apply Hb | intros s'; apply IH].
Qed.

End Raises.

Lemma raises_send w self t r : raises w caught (HNAS.send self t r).
Proof.
  intros tr e H. unfold HNAS.send in H.
  destruct (respond w tr _); [|discriminate H].
  injection H as <-. reflexivity.
Qed.

Lemma raises_raise_for_status w r : raises w caught (HNAS.raise_for_status r).
Proof.
  unfold HNAS.raise_for_status.
  destruct (_ && _); [apply raises_raise; reflexivity | apply raises_ret].
Qed.

Lemma raises_json w r : raises w caught (HNAS.json r).
Proof.
  unfold HNAS.json.
  destruct (HNAS.body r); [apply raises_ret | apply raises_raise; reflexivity].
Qed.

Section Returns.

Context (w : world).

Lemma returns_ret {A} (a : A) : returns w (ret a).
Proof. intros tr. eexists. reflexivity. Qed.

Lemma returns_emit (ev : event) : returns w (emit ev).
Proof. intros tr. eexists. reflexivity. Qed.

Lemma returns_bind {A B} (m : M A) (k : A -> M B) :
  returns w m -> (forall a, returns w (k a)) -> returns w (bind m k).
Proof.
  intros Hm Hk tr. unfold bind. destruct (Hm tr) as [a Ha].
  destruct (m w tr) as [r tr1]. cbn in Ha. subst r. apply Hk.
Qed.

Lemma returns_try_except {A} (m : M A) (h : exn -> M A) :
  raises w caught m -> (forall e, returns w (h e)) ->
  returns w (try_except m h).
Proof.
  intros Hm Hh tr. unfold try_except.
  destruct (m w tr) as [[a|e] tr1] eqn:E; [eexists; reflexivity|].
  assert (He : caught e) by (apply (Hm tr); now rewrite E).
  unfold caught in He. rewrite He. apply Hh.
Qed.

End Returns.

Lemma get_raises v k d e : Py.get v k d = Raise e -> caught e.
Proof. destruct v; cbn; intros H; inversion H; reflexivity. Qed.

Lemma iterate_raises v e : Py.iterate v = Raise e -> caught e.
Proof. destruct v; cbn; intros H; inversion H; reflexivity. Qed.

Lemma lt_int_raises v c e : Py.lt_int v c = Raise e -> caught e.
Proof. destruct v; cbn; intros H; inversion H; reflexivity. Qed.

Lemma name_parts_raises v e : Post.name_parts v = Raise e -> caught e.
Proof. destruct v; cbn; intros H; inversion H; reflexivity. Qed.

Lemma matching_shares_raises prefix items e :
  HNAS.matching_shares prefix items = Raise e -> caught e.
Proof.
  rewrite matching_shares_spec. destruct (forallb _ _); intros H; inversion H.
  reflexivity.
Qed.

Lemma first_with_label_raises name items e :
  HNAS.first_with_label name items = Raise e -> caught e.
Proof. intros H. apply first_with_label_raise in H. now subst. Qed.

(** Shows that only exceptions [except Exception] catches leave a
    computation. *)
Ltac caught_leaf :=
  lazymatch goal with
  | H : Py.get _ _ _ = Raise ?e |- caught ?e => exact (get_raises _ _ _ _ H)
  | H : Py.iterate _ = Raise ?e |- caught ?e => exact (iterate_raises _ _ H)
  | H : Py.lt_int _ _ = Raise ?e |- caught ?e => exact (lt_int_raises _ _ _ H)
  | H : Post.name_parts _ = Raise ?e |- caught ?e =>
      exact (name_parts_raises _ _ H)
  | H : HNAS.matching_shares _ _ = Raise ?e |- caught ?e =>
      exact (matching_shares_raises _ _ _ H)
  | H : HNAS.first_with_label _ _ = Raise ?e |- caught ?e =>
      exact (first_with_label_raises _ _ _ H)
  | C : sane_clock ?w, H : cutoff_time ?w _ _ = Raise ?e |- caught ?e =>
      exact (proj1 C _ _ _ H)
  | C : sane_clock ?w, H : cutoff_date ?w _ _ = Raise ?e |- caught ?e =>
      exact (proj2 C _ _ _ H)
  | |- caught _ => reflexivity
  end.

Ltac raises_open :=
  lazymatch goal with
  | |- raises _ _ (bind (ask _) _) => apply raises_bind_ask; intros ?
  | |- raises _ _ (bind _ _) => apply raises_bind; [| intros ?]
  | |- raises _ _ (ret _) => apply raises_ret
  | |- raises _ _ (raise _) => apply raises_raise
  | |- raises _ _ (lift _) => apply raises_lift; intros ? ?
  | |- raises _ _ (ask _) => apply raises_ask
  | |- raises _ _ (log _ _ _) => apply raises_emit
  | |- raises _ _ (print _ _) => apply raises_emit
  | |- raises _ _ (emit _) => apply raises_emit
  | |- raises _ _ (try_except _ _) => apply raises_try_except; [| intros ?]
  | |- raises _ _ (try_value_error _ _) => apply raises_try_value_error
  | |- raises _ _ (for_fold _ _ _) => apply raises_for_fold; intros ? ?
  | |- raises _ _ (HNAS.send _ _ _) => apply raises_send
  | |- raises _ _ (HNAS.raise_for_status _) => apply raises_raise_for_status
  | |- raises _ _ (HNAS.json _) => apply raises_json
  | |- raises _ _ (let _ := _ in _) => cbv zeta
  | |- raises _ _ (match ?x with _ => _ end) => destruct x
  | |- raises _ _ ?m => let h := head_of m in unfold h
  end.

Ltac raises_all := repeat raises_open; try caught_leaf.

Ltac returns_open :=
  lazymatch goal with
  | |- returns _ (bind _ _) => apply returns_bind; [| intros ?]
  | |- returns _ (ret _) => apply returns_ret
  | |- returns _ (log _ _ _) => apply returns_emit
  | |- returns _ (match ?x with _ => _ end) => destruct x
  end.

Ltac method_returns :=
  lazymatch goal with
  | |- returns _ ?m => let h := head_of m in unfold h
  end;
  apply returns_try_except; [raises_all | intros ?; repeat returns_open].

(** X2.  No exception leaves the methods that change the array, nor the two
    sweeps when the clock raises only ordinary exceptions: whatever the
    array answers, each of them returns. *)
Theorem X2_methods_return :
  forall (self : HNAS.manager) (w : world),
    (forall fid name tag interval,
        returns w (Pre.create_snapshot self fid name tag interval))
    /\ (forall fid name share,
           returns w (Pre.create_smb_share self fid name share))
    /\ (forall oid, returns w (HNAS.delete_snapshot self oid))
    /\ (forall oid, returns w (HNAS.delete_smb_share self oid))
    /\ (sane_clock w ->
        (forall fid app days,
            returns w (Post.cleanup_old_snapshots self fid app days))
        /\ (forall vs prefix days,
               returns w (Post.cleanup_old_smb_shares self vs prefix days))).
Proof.
  intros self w. refine (conj _ (conj _ (conj _ (conj _ _)))).
  - intros. method_returns.
  - intros. method_returns.
  - intros. method_returns.
  - intros. method_returns.
  - intros C. split; intros; method_returns.
Qed.

Lemma X2_methods_return_witness :
  (exists v,
      fst (Pre.create_snapshot Examples.client (PStr "fs-1") "veeam_fs_x"
             "veeam" None Examples.failing []) = Ok v)
  /\ (exists v,
         fst (Pre.create_smb_share Examples.client (PStr "fs-1") "veeam_fs_x"
                "VeeamNASBackup" Examples.unreachable []) = Ok v)
  /\ (exists n,
         fst (Post.cleanup_old_snapshots Examples.client (PStr "fs-1") "veeam" 7
                Examples.failing []) = Ok n)
  /\ (exists n,
         fst (Post.cleanup_old_smb_shares Examples.client (PStr "vs-1")
                "VeeamNASBackup" 7 Examples.unreachable []) = Ok n).
Proof.
  assert (C1 : sane_clock Examples.failing)
    by (split; intros tr days e H; cbn in H; discriminate H).
  assert (C2 : sane_clock Examples.unreachable)
    by (split; intros tr days e H; cbn in H; discriminate H).
  refine (conj _ (conj _ (conj _ _))).
  - apply (proj1 (X2_methods_return Examples.client Examples.failing)).
  - apply (proj1 (proj2 (X2_methods_return Examples.client Examples.unreachable))).
  - apply (proj1 (proj2 (proj2 (proj2 (proj2
             (X2_methods_return Examples.client Examples.failing)))) C1)).
  - apply (proj2 (proj2 (proj2 (proj2 (proj2
             (X2_methods_return Examples.client Examples.unreachable)))) C2)).
Defined.

(** ** The start of a run *)

Lemma split_not_nil sep s : PyStr.split sep s <> [].
Proof.
  destruct s as [|c r]; cbn; [discriminate|].
  destruct (Ascii.eqb c sep); [discriminate|].
  destruct (PyStr.split sep r); discriminate.
Qed.

Lemma split_single_empty sep s : PyStr.split sep s = [""] -> s = "".
Proof.
  destruct s as [|c r]; cbn; [reflexivity|].
  destruct (Ascii.eqb c sep).
  - intros H. injection H as H. now apply split_not_nil in H.
  - destruct (PyStr.split sep r); discriminate.
Qed.

Lemma pre_no_filesystems env n :
  Pre.no_filesystems (pre_config env n)
  = String.eqb (environ_get env "HNAS_FILESYSTEMS" "") "".
Proof.
  unfold Pre.no_filesystems, pre_config. cbn [Pre.filesystems].
  destruct (String.eqb_spec (environ_get env "HNAS_FILESYSTEMS" "") "") as [E|E].
  - rewrite E. reflexivity.
  - destruct (PyStr.split "," _) as [|p [|q l]] eqn:Es.
    + now apply split_not_nil in Es.
    + destruct (String.eqb_spec p "") as [->|]; [|reflexivity].
      apply split_single_empty in Es. contradiction.
    + reflexivity.
Qed.

Lemma required_present_spec h u p :
  negb (String.eqb h "") && negb (String.eqb u "") && negb (String.eqb p "")
  = false
  <-> h = "" \/ u = "" \/ p = "".
Proof.
  destruct (String.eqb_spec h ""), (String.eqb_spec u ""),
    (String.eqb_spec p ""); cbn; intuition congruence.
Qed.

Lemma pre_required_present env n :
  Pre.required_present (pre_config env n) = false <-> missing_credentials env.
Proof. apply required_present_spec. Qed.

Lemma post_required_present env n :
  Post.required_present (post_config env n) = false <-> missing_credentials env.
Proof. apply required_present_spec. Qed.

(** The start of the pre-backup script, case by case. *)
Lemma pre_startup_run env w :
  Pre.startup env w []
  = match PyStr.to_int (max_str_digits w)
            (environ_get env "HNAS_RETENTION_INTERVAL" "0") with
    | None => (Raise ValueError, [])
    | Some n =>
        if negb (Pre.required_present (pre_config env n)) then
          (Raise (SystemExit 1),
           [Printed
              "ERROR: Missing required configuration. Set HNAS_HOST, HNAS_USERNAME, and HNAS_PASSWORD environment variables."
              []])
        else if Pre.no_filesystems (pre_config env n) then
          (Raise (SystemExit 1),
           [Printed
              "ERROR: No filesystems specified. Set HNAS_FILESYSTEMS environment variable (comma-separated filesystem names or IDs)."
              []])
        else
          let started := [SetupLogging "hnas_pre_backup" (log_dir env)] in
          if negb (log_setup_ok w started (log_dir env)) then
            (Raise OSError, started)
          else
            let o := respond w started (probe env) in
            if connected o then
              (Ok (pre_config env n, configured env),
               started ++ [Called (probe env);
                           Logged INFO "Connected to HNAS: {}"
                             [LVal (device_name o)]])
            else
              (Raise (SystemExit 1),
               started ++ [Called (probe env);
                           Logged ERROR "Failed to connect to HNAS: {}"
                             [LExn (probe_error o)];
                           Printed
                             "ERROR: Failed to connect to HNAS. Check credentials and network connectivity."
                             []])
    end.
Proof.
  unfold Pre.startup, Pre.read_config, environ_int, new_manager,
    HNAS.test_connection, try_except, HNAS.send, HNAS.raise_for_status,
    HNAS.json, bind, ask, ret, raise, emit, print, sys_exit, raise, lift, log.
  destruct (PyStr.to_int _ _) as [n|]; [|reflexivity].
  fold (pre_config env n).
  destruct (Pre.required_present (pre_config env n)); [|reflexivity].
  destruct (Pre.no_filesystems (pre_config env n)); [reflexivity|].
  fold (log_dir env).
  cbn [negb app Pre.cfg_hnas_host Pre.cfg_username Pre.cfg_password
       Pre.cfg_verify_ssl pre_config HNAS.hnas_host HNAS.verify_ssl].
  destruct (log_setup_ok w _ _); [|reflexivity].
  fold (configured env).
  unfold connected, decoded, device_name, decoded, field, probe_error, probe.
  cbn [negb HNAS.hnas_host HNAS.verify_ssl configured HNAS.status_code
       HNAS.text HNAS.body].
  destruct (respond w _ _) as [|st tx [v|]]; cbn; try reflexivity;
    destruct ((400 <=? st) && (st <? 600)); cbn; try reflexivity.
  destruct v; cbn; try reflexivity.
Qed.

(** The start of the post-backup script, case by case. *)
Lemma post_startup_run env w :
  Post.startup env w []
  = match PyStr.to_int (max_str_digits w)
            (environ_get env "HNAS_RETENTION_DAYS" "7") with
    | None => (Raise ValueError, [])
    | Some n =>
        if negb (Post.required_present (post_config env n)) then
          (Raise (SystemExit 1),
           [Printed
              "ERROR: Missing required configuration. Set HNAS_HOST, HNAS_USERNAME, and HNAS_PASSWORD environment variables."
              []])
        else
          let started := [SetupLogging "hnas_post_backup" (log_dir env)] in
          if negb (log_setup_ok w started (log_dir env)) then
            (Raise OSError, started)
          else
            let o := respond w started (probe env) in
            if connected o then
              (Ok (fst (Post.validate_backup_result env),
                   snd (Post.validate_backup_result env),
                   post_config env n, configured env),
               started ++ [Called (probe env);
                           Logged INFO "Connected to HNAS: {}"
                             [LVal (device_name o)]])
            else
              (Raise (SystemExit 1),
               started ++ [Called (probe env);
                           Logged ERROR "Failed to connect to HNAS: {}"
                             [LExn (probe_error o)];
                           Printed
                             "ERROR: Failed to connect to HNAS. Check credentials and network connectivity."
                             []])
    end.
Proof.
  unfold Post.startup.
  destruct (Post.validate_backup_result env) as [b result]. cbn [fst snd].
  unfold Post.read_config, environ_int, new_manager,
    HNAS.test_connection, try_except, HNAS.send, HNAS.raise_for_status,
    HNAS.json, bind, ask, ret, raise, emit, print, sys_exit, raise, lift, log.
  destruct (PyStr.to_int _ _) as [n|]; [|reflexivity].
  fold (post_config env n).
  destruct (Post.required_present (post_config env n)); [|reflexivity].
  fold (log_dir env).
  cbn [negb app Post.cfg_hnas_host Post.cfg_username Post.cfg_password
       Post.cfg_verify_ssl post_config HNAS.hnas_host HNAS.verify_ssl].
  destruct (log_setup_ok w _ _); [|reflexivity].
  fold (configured env).
  unfold connected, decoded, device_name, decoded, field, probe_error, probe.
  cbn [negb HNAS.hnas_host HNAS.verify_ssl configured HNAS.status_code
       HNAS.text HNAS.body].
  destruct (respond w _ _) as [|st tx [v|]]; cbn; try reflexivity;
    destruct ((400 <=? st) && (st <? 600)); cbn; try reflexivity.
  destruct v; cbn; try reflexivity.
Qed.

(** ** Runs that stop at the start *)

Lemma pre_main_stops env w e tr :
  Pre.startup env w [] = (Raise e, tr) -> Pre.main env w [] = (Raise e, tr).
Proof. intros H. rewrite pre_main_run, H. reflexivity. Qed.

Lemma post_main_stops env w e tr :
  Post.startup env w [] = (Raise e, tr) -> Post.main env w [] = (Raise e, tr).
Proof. intros H. rewrite post_main_run, H. reflexivity. Qed.

(** X6.  The pre-backup script reads its whole configuration before it checks
    it: a retention interval that is no integer ends the run with
    [ValueError] before anything is printed; with the three required
    settings incomplete, and then with no filesystem reference at all, the
    run prints its message and exits with status 1 before the log is set up
    and before any request is sent. *)
Theorem X6_pre_configuration_errors :
  forall (env : gmap string string) (w : world),
    let interval :=
      PyStr.to_int (max_str_digits w)
        (environ_get env "HNAS_RETENTION_INTERVAL" "0") in
    (interval = None -> Pre.main env w [] = (Raise ValueError, []))
    /\ (interval <> None -> missing_credentials env ->
        Pre.main env w []
        = (Raise (SystemExit 1),
           [Printed
              "ERROR: Missing required configuration. Set HNAS_HOST, HNAS_USERNAME, and HNAS_PASSWORD environment variables."
              []]))
    /\ (interval <> None -> ~ missing_credentials env ->
        environ_get env "HNAS_FILESYSTEMS" "" = "" ->
        Pre.main env w []
        = (Raise (SystemExit 1),
           [Printed
              "ERROR: No filesystems specified. Set HNAS_FILESYSTEMS environment variable (comma-separated filesystem names or IDs)."
              []])).
Proof.
  intros env w interval. subst interval.
  pose proof (pre_startup_run env w) as Hrun.
  destruct (PyStr.to_int _ _) as [n|].
  - refine (conj _ (conj _ _)).
    + discriminate.
    + intros _ Hm. apply pre_main_stops. rewrite Hrun.
      apply pre_required_present with (n := n) in Hm. now rewrite Hm.
    + intros _ Hm Hf. apply pre_main_stops. rewrite Hrun.
      destruct (Pre.required_present (pre_config env n)) eqn:E;
        [|apply pre_required_present in E; contradiction].
      cbn [negb]. rewrite pre_no_filesystems, Hf. reflexivity.
  - refine (conj _ (conj _ _)); [|contradiction|contradiction].
    intros _. now apply pre_main_stops.
Qed.

Lemma X6_pre_configuration_errors_witness :
  Pre.main (<["HNAS_RETENTION_INTERVAL" := "soon"]> Examples.pre_env)
    (Examples.site [] []) []
  = (Raise ValueError, [])
  /\ Pre.main (delete "HNAS_PASSWORD" Examples.pre_env) (Examples.site [] []) []
     = (Raise (SystemExit 1),
        [Printed
           "ERROR: Missing required configuration. Set HNAS_HOST, HNAS_USERNAME, and HNAS_PASSWORD environment variables."
           []])
  /\ Pre.main (delete "HNAS_FILESYSTEMS" Examples.pre_env)
       (Examples.site [] []) []
     = (Raise (SystemExit 1),
        [Printed
           "ERROR: No filesystems specified. Set HNAS_FILESYSTEMS environment variable (comma-separated filesystem names or IDs)."
           []]).
Proof.
  refine (conj _ (conj _ _)).
  - apply (proj1 (X6_pre_configuration_errors
                    (<["HNAS_RETENTION_INTERVAL" := "soon"]> Examples.pre_env)
                    (Examples.site [] []))).
    vm_compute. reflexivity.
  - apply (proj1 (proj2 (X6_pre_configuration_errors
                           (delete "HNAS_PASSWORD" Examples.pre_env)
                           (Examples.site [] [])))).
    + vm_compute. discriminate.
    + right. right. vm_compute. reflexivity.
  - apply (proj2 (proj2 (X6_pre_configuration_errors
                           (delete "HNAS_FILESYSTEMS" Examples.pre_env)
                           (Examples.site [] [])))).
    + vm_compute. discriminate.
    + intros [H|[H|H]]; vm_compute in H; discriminate H.
    + vm_compute. reflexivity.
Defined.

(** X7.  The post-backup script reads its whole configuration before it
    checks it: a retention window that is no integer ends the run with
    [ValueError] before anything is printed; with the three required
    settings incomplete the run prints its message and exits with status 1
    before the log is set up and before any request is sent. *)
Theorem X7_post_configuration_errors :
  forall (env : gmap string string) (w : world),
    let days :=
      PyStr.to_int (max_str_digits w)
        (environ_get env "HNAS_RETENTION_DAYS" "7") in
    (days = None -> Post.main env w [] = (Raise ValueError, []))
    /\ (days <> None -> missing_credentials env ->
        Post.main env w []
        = (Raise (SystemExit 1),
           [Printed
              "ERROR: Missing required configuration. Set HNAS_HOST, HNAS_USERNAME, and HNAS_PASSWORD environment variables."
              []])).
Proof.
  intros env w days. subst days.
  pose proof (post_startup_run env w) as Hrun.
  destruct (PyStr.to_int _ _) as [n|].
  - split; [discriminate|].
    intros _ Hm. apply post_main_stops. rewrite Hrun.
    apply post_required_present with (n := n) in Hm. now rewrite Hm.
  - split; [|contradiction]. intros _. now apply post_main_stops.
Qed.

Lemma X7_post_configuration_errors_witness :
  Post.main (<["HNAS_RETENTION_DAYS" := "a week"]> Examples.post_env)
    (Examples.site [] []) []
  = (Raise ValueError, [])
  /\ Post.main (<["HNAS_HOST" := ""]> Examples.post_env) (Examples.site [] []) []
     = (Raise (SystemExit 1),
        [Printed
           "ERROR: Missing required configuration. Set HNAS_HOST, HNAS_USERNAME, and HNAS_PASSWORD environment variables."
           []]).
Proof.
  split.
  - apply (proj1 (X7_post_configuration_errors
                    (<["HNAS_RETENTION_DAYS" := "a week"]> Examples.post_env)
                    (Examples.site [] []))).
    vm_compute. reflexivity.
  - apply (proj2 (X7_post_configuration_errors
                    (<["HNAS_HOST" := ""]> Examples.post_env)
                    (Examples.site [] []))).
    + vm_compute. discriminate.
    + left. vm_compute. reflexivity.
Defined.

(** X8.  Both scripts stop when the probe does not find the array (no answer,
    an error status, a body that is no JSON object): the probe is the only
    request of the run, the failure is logged, the message is printed and
    the process exits with status 1; nothing is created, deleted or
    written. *)
Theorem X8_probe_failure_stops :
  forall (env : gmap string string) (w : world),
    ~ missing_credentials env ->
    (PyStr.to_int (max_str_digits w)
       (environ_get env "HNAS_RETENTION_INTERVAL" "0") <> None ->
     environ_get env "HNAS_FILESYSTEMS" "" <> "" ->
     let started := [SetupLogging "hnas_pre_backup" (log_dir env)] in
     log_setup_ok w started (log_dir env) = true ->
     connected (respond w started (probe env)) = false ->
     Pre.main env w []
     = (Raise (SystemExit 1),
        started ++ [Called (probe env);
                    Logged ERROR "Failed to connect to HNAS: {}"
                      [LExn (probe_error (respond w started (probe env)))];
                    Printed
                      "ERROR: Failed to connect to HNAS. Check credentials and network connectivity."
                      []]))
    /\ (PyStr.to_int (max_str_digits w)
          (environ_get env "HNAS_RETENTION_DAYS" "7") <> None ->
        let started := [SetupLogging "hnas_post_backup" (log_dir env)] in
        log_setup_ok w started (log_dir env) = true ->
        connected (respond w started (probe env)) = false ->
        Post.main env w []
        = (Raise (SystemExit 1),
           started ++ [Called (probe env);
                       Logged ERROR "Failed to connect to HNAS: {}"
                         [LExn (probe_error (respond w started (probe env)))];
                       Printed
                         "ERROR: Failed to connect to HNAS. Check credentials and network connectivity."
                         []])).
Proof.
  intros env w Hm. split.
  - intros Hn Hf started Hlog Hc. apply pre_main_stops.
    rewrite pre_startup_run.
    destruct (PyStr.to_int _ _) as [n|]; [|contradiction].
    destruct (Pre.required_present (pre_config env n)) eqn:E;
      [|apply pre_required_present in E; contradiction].
    cbn [negb]. rewrite pre_no_filesystems.
    destruct (String.eqb_spec (environ_get env "HNAS_FILESYSTEMS" "") "");
      [contradiction|].
    cbv zeta. fold started. rewrite Hlog, Hc. reflexivity.
  - intros Hn started Hlog Hc. apply post_main_stops.
    rewrite post_startup_run.
    destruct (PyStr.to_int _ _) as [n|]; [|contradiction].
    destruct (Post.required_present (post_config env n)) eqn:E;
      [|apply post_required_present in E; contradiction].
    cbn [negb]. cbv zeta. fold started. rewrite Hlog, Hc. reflexivity.
Qed.

Lemma X8_probe_failure_stops_witness :
  Pre.main Examples.pre_env Examples.unreachable []
  = (Raise (SystemExit 1),
     [SetupLogging "hnas_pre_backup" "C:\VeeamScripts\Logs";
      Called (mkcall "hnas.example" false (ApiKey "secret") 30 GetFileDevices);
      Logged ERROR "Failed to connect to HNAS: {}" [LExn RequestException];
      Printed
        "ERROR: Failed to connect to HNAS. Check credentials and network connectivity."
        []])
  /\ Post.main Examples.post_env Examples.failing []
     = (Raise (SystemExit 1),
        [SetupLogging "hnas_post_backup" "C:\VeeamScripts\Logs";
         Called (mkcall "hnas.example" false (ApiKey "secret") 30 GetFileDevices);
         Logged ERROR "Failed to connect to HNAS: {}"
           [LExn (HTTPError 500 "Internal Server Error")];
         Printed
           "ERROR: Failed to connect to HNAS. Check credentials and network connectivity."
           []]).
Proof.
  split.
  - apply (proj1 (X8_probe_failure_stops Examples.pre_env Examples.unreachable
                    ltac:(intros [H|[H|H]]; vm_compute in H; discriminate H))).
    + vm_compute. discriminate.
    + vm_compute. discriminate.
    + vm_compute. reflexivity.
    + vm_compute. reflexivity.
  - apply (proj2 (X8_probe_failure_stops Examples.post_env Examples.failing
                    ltac:(intros [H|[H|H]]; vm_compute in H; discriminate H))).
    + vm_compute. discriminate.
    + vm_compute. reflexivity.
    + vm_compute. reflexivity.
Defined.

(** ** What each script leaves alone *)

Ltac kind_leaf P :=
  lazymatch goal with
  | H : call_request ?c = _ |- _ (Called ?c) => unfold P; rewrite H; exact I
  | |- _ => exact I
  end.

Lemma pre_main_events env : adds pre_event (Pre.main env).
Proof. adds_all; kind_leaf pre_event. Qed.

Lemma post_main_events env : adds post_event (Post.main env).
Proof. adds_all; kind_leaf post_event. Qed.

(** X9.  A pre-backup run never asks the array to delete or to list snapshots
    or shares and never removes a file; a post-backup run never asks the
    array to make a snapshot or a share, never makes the directory of the
    manifest and never writes the manifest: the set-up of its log, which
    makes the log directory, is all it creates on disk. *)
Theorem X9_scripts_keep_to_their_side :
  forall (env : gmap string string) (w : world),
    Forall pre_event (snd (Pre.main env w []))
    /\ Forall post_event (snd (Post.main env w [])).
Proof.
  intros env w. split.
  - apply adds_run; [apply pre_main_events | constructor].
  - apply adds_run; [apply post_main_events | constructor].
Qed.

Lemma adds_send_exact (P : event -> Prop) self t r :
  P (Called (mkcall (HNAS.hnas_host self) (HNAS.verify_ssl self)
               (HNAS.auth self) t r)) ->
  adds P (HNAS.send self t r).
Proof.
  intros HP w tr. unfold HNAS.send.
  destruct (respond w tr _); eexists [Called _]; (split; [reflexivity|]);
    repeat constructor; exact HP.
Qed.

Ltac client_open :=
  lazymatch goal with
  | |- adds _ (HNAS.send _ _ _) => apply adds_send_exact
  | |- _ => adds_open
  end.

Ltac client_all := repeat client_open; try (exact I); try reflexivity.

Lemma pre_work_by_client env self c ts :
  adds (by_client self)
    (bind (Pre.snapshot_all self c ts) (Pre.finish env c ts)).
Proof. client_all. Qed.

Lemma post_session_by_client env b result c self :
  adds (by_client self) (Post.session env b result c self).
Proof. client_all. Qed.

(** X10.  Every request of a run is sent by the client the environment
    configures: to [HNAS_HOST], with the API key when the user name is
    [apikey] and with basic authentication otherwise, verifying
    certificates only when [HNAS_VERIFY_SSL] is [true] in any case of the
    letters, with a timeout of 30 seconds for a query and of 60 seconds
    for a creation or a deletion. *)
Theorem X10_requests_by_configured_client :
  forall (env : gmap string string) (w : world),
    Forall (by_client (configured env)) (snd (Pre.main env w []))
    /\ Forall (by_client (configured env)) (snd (Post.main env w [])).
Proof.
  intros env w. split.
  - rewrite pre_main_run, pre_startup_run.
    destruct (PyStr.to_int _ _) as [n|]; [|constructor].
    destruct (Pre.required_present _); cbn [negb]; [|repeat constructor].
    destruct (Pre.no_filesystems _); [repeat constructor|].
    cbv zeta. destruct (log_setup_ok w _ _); cbn [negb]; [|repeat constructor].
    destruct (connected _); [|repeat constructor].
    apply adds_run; [apply pre_work_by_client | repeat constructor].
  - rewrite post_main_run, post_startup_run.
    destruct (PyStr.to_int _ _) as [n|]; [|constructor].
    destruct (Post.required_present _); cbn [negb]; [|repeat constructor].
    cbv zeta. destruct (log_setup_ok w _ _); cbn [negb]; [|repeat constructor].
    destruct (connected _); [|repeat constructor].
    apply adds_run; [apply post_session_by_client | repeat constructor].
Qed.

(** ** Runs that retain *)

Lemma load_created_snapshots_quiet file :
  adds no_call (Post.load_created_snapshots file).
Proof. adds_all; exact I. Qed.

Lemma session_retains env b result c hnas :
  Post.should_cleanup b c = false ->
  adds keeps_files (Post.session env b result c hnas).
Proof.
  intros H. unfold Post.session. cbv zeta. rewrite H.
  change (Post.remove_manifest false (Post.snapshot_info_file env))
    with (@ret unit tt).
  unfold Post.cleanup_session. cbn [andb].
  adds_all; exact I.
Qed.

(** A session that cleans nothing up and sweeps nothing sends no
    request. *)
Lemma session_passive env b result c hnas w tr0 :
  (forall created tr2,
      Post.load_created_snapshots (Post.snapshot_info_file env) w
        (tr0 ++ [Logged INFO "Backup job result: {}" [LVal (PStr result)]])
      = (Ok created, tr2) ->
      Post.should_cleanup b c && Py.truthy created = false) ->
  (0 <? Post.retention_days c) = false ->
  calls (snd (Post.session env b result c hnas w tr0)) = calls tr0.
Proof.
  intros Hc Hd. unfold Post.session.
  unfold bind at 1. unfold log, emit at 1.
  set (tr1 := tr0 ++ [Logged INFO "Backup job result: {}" [LVal (PStr result)]]).
  assert (H1 : calls tr1 = calls tr0).
  { unfold tr1. rewrite calls_app. apply app_nil_r. }
  unfold bind at 1.
  pose proof (sends_quiet _ (load_created_snapshots_quiet
                               (Post.snapshot_info_file env)) w tr1) as Hl.
  rewrite app_nil_r in Hl. fold tr1 in Hc.
  destruct (Post.load_created_snapshots (Post.snapshot_info_file env) w tr1)
    as [[created|e] tr2] eqn:El; cbn [snd] in Hl |- *; [|congruence].
  cbv zeta. unfold Post.cleanup_session. rewrite (Hc created tr2 eq_refl).
  unfold bind at 1. unfold ret at 1. rewrite Hd.
  unfold bind at 1. unfold ret at 1.
  match goal with
  | |- calls (snd (?m w tr2)) = _ =>
      assert (A : adds no_call m) by (adds_all; exact I);
      rewrite (sends_quiet m A w tr2)
  end.
  rewrite app_nil_r. congruence.
Qed.

(** X11.  A post-backup run whose policy is to retain what the session
    made never removes the manifest.  When the retention window is not
    positive and either the policy is to retain or the manifest gave no
    entries, the probe is the only request of the run: nothing is
    deleted. *)
Theorem X11_retaining_run_is_passive :
  forall (env : gmap string string) (w : world) (days : Z),
    PyStr.to_int (max_str_digits w) (environ_get env "HNAS_RETENTION_DAYS" "7")
    = Some days ->
    let cleanup :=
      Post.should_cleanup (fst (Post.validate_backup_result env))
        (post_config env days) in
    (cleanup = false -> Forall keeps_files (snd (Post.main env w [])))
    /\ (days <= 0 ->
        cleanup = false \/ Py.truthy (manifest_entries env w) = false ->
        forall r, In r (calls (snd (Post.main env w []))) -> r = GetFileDevices).
Proof.
  intros env w days Hdays cleanup. subst cleanup.
  unfold manifest_entries.
  rewrite post_main_run, post_startup_run, Hdays.
  destruct (Post.required_present _); cbn [negb].
  2:{ split; [intros; repeat constructor | intros _ _ r []]. }
  cbv zeta. destruct (log_setup_ok w _ _); cbn [negb].
  2:{ split; [intros; repeat constructor | intros _ _ r []]. }
  destruct (connected _).
  2:{ split; [intros; repeat constructor|].
      intros _ _ r [<-|[]]. reflexivity. }
  cbn [snd]. split.
  - intros Hc. apply adds_run; [now apply session_retains | repeat constructor].
  - intros Hd Hc r Hr. rewrite session_passive in Hr.
    + destruct Hr as [<-|[]]. reflexivity.
    + intros created tr2 El. destruct Hc as [Hc|Hc].
      * now rewrite Hc.
      * rewrite El in Hc. rewrite Hc. apply andb_false_r.
    + apply Z.ltb_ge. exact Hd.
Qed.

Lemma X11_retaining_run_is_passive_witness :
  Forall keeps_files
    (snd (Post.main (<["HNAS_RETENTION_DAYS" := "0"]> Examples.post_env)
            (Examples.with_manifest Examples.manifest (Examples.site [] [])) []))
  /\ forall r,
       In r (calls (snd (Post.main
                           (<["HNAS_RETENTION_DAYS" := "0"]> Examples.post_env)
                           (Examples.with_manifest Examples.manifest
                              (Examples.site [] [])) []))) ->
       r = GetFileDevices.
Proof.
  destruct (X11_retaining_run_is_passive
              (<["HNAS_RETENTION_DAYS" := "0"]> Examples.post_env)
              (Examples.with_manifest Examples.manifest (Examples.site [] []))
              0) as [H1 H2]; [vm_compute; reflexivity|].
  split.
  - apply H1. vm_compute. reflexivity.
  - apply H2; [lia | left; vm_compute; reflexivity].
Defined.

(** ** The clean-up of a session *)

Lemma cleanup_entry_run self n entries w tr :
  exists n' d,
    Post.cleanup_entry self n (PDict entries) w tr = (Ok n', tr ++ d)
    /\ calls d = entry_requests (PDict entries)
    /\ n <= n' <= n + 1.
Proof.
  unfold Post.cleanup_entry, entry_requests. cbn [Py.get].
  set (sid := match Py.assoc "smb_share_object_id" entries with
              | Some x => x | None => PNone end).
  set (oid := match Py.assoc "snapshot_object_id" entries with
              | Some x => x | None => PNone end).
  rewrite (bind_ok _ _ w tr sid tr eq_refl).
  match goal with
  | |- exists n' d, bind ?m ?k w tr = _ /\ _ =>
      assert (Hshare : exists d1,
                 m w tr = (Ok tt, tr ++ d1)
                 /\ calls d1
                    = (if Py.truthy sid then [DeleteCifsShare sid] else []));
        [| destruct Hshare as (d1 & E1 & C1);
           rewrite (bind_ok m k w tr tt _ E1)]
  end.
  { destruct (Py.truthy sid).
    - match goal with
      | |- exists d1, bind ?m ?k w tr = _ /\ _ =>
          rewrite (bind_ok m k w tr _ tr eq_refl)
      end.
      match goal with
      | |- exists d1, bind (log ?l ?t ?a) ?k w tr = _ /\ _ =>
          rewrite (bind_ok (log l t a) k w tr tt (tr ++ [Logged l t a]) eq_refl);
          destruct (delete_smb_share_run self sid w (tr ++ [Logged l t a]))
            as (b & d & E & C & _)
      end.
      rewrite (bind_ok _ _ w _ b _ E). unfold ret.
      eexists. rewrite <- app_assoc. split; [reflexivity|].
      rewrite calls_app. exact C.
    - exists []. rewrite app_nil_r. split; reflexivity. }
  rewrite (bind_ok _ _ w (tr ++ d1) oid (tr ++ d1) eq_refl).
  destruct (Py.truthy oid).
  - destruct (delete_snapshot_run self oid w (tr ++ d1)) as (b & d & E & C & _).
    unfold bind. rewrite E. unfold ret.
    exists (if b then n + 1 else n), (d1 ++ d). rewrite app_assoc.
    split; [reflexivity|]. rewrite calls_app, C1, C.
    split; [reflexivity | destruct b; lia].
  - exists n, d1. unfold ret. rewrite C1, app_nil_r.
    split; [reflexivity|]. split; [reflexivity | lia].
Qed.

Lemma cleanup_entries_run self items : forall n w tr,
  exists n' d,
    for_fold (List.map PDict items) n (Post.cleanup_entry self) w tr
    = (Ok n', tr ++ d)
    /\ calls d = flat_map entry_requests (List.map PDict items)
    /\ n <= n' <= n + Z.of_nat (List.length items).
Proof.
  induction items as [|x items IH]; intros n w tr.
  - exists n, []. rewrite app_nil_r. cbn. repeat split; lia.
  - cbn [List.map for_fold flat_map].
    destruct (cleanup_entry_run self n x w tr) as (n1 & d1 & E1 & C1 & B1).
    rewrite (bind_ok _ _ w tr n1 _ E1).
    destruct (IH n1 w (tr ++ d1)) as (n2 & d2 & E2 & C2 & B2).
    exists n2, (d1 ++ d2). rewrite E2, app_assoc, calls_app, C1, C2.
    split; [reflexivity|]. split; [reflexivity|].
    cbn [List.length]. lia.
Qed.

(** X12.  The clean-up of a session whose manifest holds dictionaries
    sends, for each entry in order, the delete of its share (when the
    entry has a share identifier) and then the delete of its snapshot
    (when it has a snapshot identifier), whatever the array answers to the
    deletes before: a share that cannot be deleted does not keep its
    snapshot from being deleted.  The count it returns is at most the
    number of entries.  Without the decision to clean up it does
    nothing. *)
Theorem X12_session_cleanup_requests :
  forall (self : HNAS.manager) (items : list (list (string * pyval)))
         (w : world) (tr : list event),
    calls (snd (Post.cleanup_session self true (PList (List.map PDict items))
                  w tr))
    = calls tr ++ flat_map entry_requests (List.map PDict items)
    /\ (exists n,
           fst (Post.cleanup_session self true (PList (List.map PDict items))
                  w tr) = Ok n
           /\ 0 <= n <= Z.of_nat (List.length items))
    /\ (forall created,
           Post.cleanup_session self false created w tr = (Ok 0, tr)).
Proof.
  intros self items w tr. refine (conj _ (conj _ _)).
  - unfold Post.cleanup_session. destruct items as [|x items].
    + cbn. now rewrite app_nil_r.
    + cbn [andb Py.truthy List.map].
      unfold bind at 1. unfold log, emit at 1.
      unfold bind at 1. unfold lift at 1. cbn [Py.iterate].
      match goal with
      | |- context [for_fold _ 0 _ w ?t] =>
          destruct (cleanup_entries_run self (x :: items) 0 w t)
            as (n & d & E & C & B)
      end.
      cbn [List.map] in E, C. rewrite E. cbn [snd].
      rewrite !calls_app, C. cbn [calls]. now rewrite app_nil_r.
  - unfold Post.cleanup_session. destruct items as [|x items].
    + exists 0. cbn. split; [reflexivity | lia].
    + cbn [andb Py.truthy List.map].
      unfold bind at 1. unfold log, emit at 1.
      unfold bind at 1. unfold lift at 1. cbn [Py.iterate].
      match goal with
      | |- context [for_fold _ 0 _ w ?t] =>
          destruct (cleanup_entries_run self (x :: items) 0 w t)
            as (n & d & E & C & B)
      end.
      cbn [List.map] in E. rewrite E. exists n. split; [reflexivity | lia].
  - intros created. reflexivity.
Qed.

(** ** The name of a share *)

Lemma split_app_sep sep a b :
  PyStr.split sep (a ++ String sep b)%string
  = PyStr.split sep a ++ PyStr.split sep b.
Proof.
  induction a as [|c a IH].
  - change (PyStr.split sep (String sep b) = [""] ++ PyStr.split sep b).
    cbn [PyStr.split app]. now rewrite Ascii.eqb_refl.
  - change (PyStr.split sep (String c (a ++ String sep b)%string)
            = PyStr.split sep (String c a) ++ PyStr.split sep b).
    cbn [PyStr.split]. destruct (Ascii.eqb c sep); [now rewrite IH|].
    rewrite IH. destruct (PyStr.split sep a) as [|p ps] eqn:E; [|reflexivity].
    now apply split_not_nil in E.
Qed.

Lemma split_no_underscore s :
  no_underscore s = true -> PyStr.split "_" s = [s].
Proof.
  induction s as [|c s IH]; [reflexivity|].
  cbn [no_underscore PyStr.split]. intros H. apply andb_prop in H as [Hc Hs].
  apply negb_true_iff in Hc. rewrite Hc, (IH Hs). reflexivity.
Qed.

Lemma timestamp_str_of_name prefix d t :
  no_underscore d = true -> no_underscore t = true ->
  Post.timestamp_str (PyStr.split "_" (prefix ++ "_" ++ d ++ "_" ++ t)%string)
  = Some (d ++ "_" ++ t)%string.
Proof.
  intros Hd Ht.
  change (prefix ++ "_" ++ d ++ "_" ++ t)%string
    with (prefix ++ String "_" (d ++ String "_" t))%string.
  rewrite !split_app_sep, (split_no_underscore d Hd), (split_no_underscore t Ht).
  unfold Post.timestamp_str. rewrite !rev_app_distr. cbn [rev app].
  destruct (rev (PyStr.split "_" prefix)) as [|p ps] eqn:E; [|reflexivity].
  apply (f_equal (@rev string)) in E. rewrite rev_involutive in E.
  now apply split_not_nil in E.
Qed.

Lemma startswith_append p s : PyStr.startswith p (p ++ s)%string = true.
Proof.
  unfold PyStr.startswith.
  induction p as [|c p IH].
  - now destruct s.
  - change (String.prefix (String c p) (String c (p ++ s)%string) = true).
    cbn [String.prefix]. destruct (ascii_dec c c); [exact IH | contradiction].
Qed.

(** X13.  The name the pre-backup script gives a share, the prefix and the
    time stamp [{date}_{time}] joined by an underscore, is read back by
    the share sweep of the post-backup script: the share passes the filter
    for the prefix, whatever underscores the prefix has, and the time
    stamp the sweep takes from the last two parts of the name is the one
    the name was made with. *)
Theorem X13_share_name_round_trip :
  forall (share_name d t : string) (fid vs : pyval) (path comment : string),
    no_underscore d = true ->
    no_underscore t = true ->
    let share :=
      Pre.share_data fid vs (share_name ++ "_" ++ d ++ "_" ++ t)%string
        path comment in
    named_with share_name share = true
    /\ share_stamp share = Some (d ++ "_" ++ t)%string.
Proof.
  intros share_name d t fid vs path comment Hd Ht share. subst share.
  unfold named_with, share_stamp, Pre.share_data. cbn [Py.get Py.assoc String.eqb Ascii.eqb Bool.eqb].
  split.
  - apply startswith_append.
  - now apply timestamp_str_of_name.
Qed.

Lemma X13_share_name_round_trip_witness :
  named_with "VeeamNASBackup"
    (Pre.share_data (PStr "fs-1") (PStr "vs-1")
       "VeeamNASBackup_20240115_030000" "\.snapshot\veeam_fs-alpha_20240115_030000"
       "Veeam backup snapshot share created at 2024-01-15T03:00:00") = true
  /\ share_stamp
       (Pre.share_data (PStr "fs-1") (PStr "vs-1")
          "VeeamNASBackup_20240115_030000"
          "\.snapshot\veeam_fs-alpha_20240115_030000"
          "Veeam backup snapshot share created at 2024-01-15T03:00:00")
     = Some "20240115_030000".
Proof.
  apply (X13_share_name_round_trip "VeeamNASBackup" "20240115" "030000"
           (PStr "fs-1") (PStr "vs-1")); reflexivity.
Defined.

(** ** The requests for snapshots *)

Lemma pre_work_asks_snapshots env self c ts :
  adds (asks_snapshots (Pre.app_search_id c) (Pre.retention_interval c))
    (bind (Pre.snapshot_all self c ts) (Pre.finish env c ts)).
Proof.
  adds_all;
    lazymatch goal with
    | H : call_request ?k = _ |- asks_snapshots _ _ (Called ?k) =>
        unfold asks_snapshots; rewrite H; try exact I
    | |- _ => exact I
    end.
  unfold snapshot_payload, Pre.snapshot_data. do 2 eexists.
  destruct (0 <? Pre.retention_interval c) eqn:E; [|reflexivity].
  apply Z.ltb_lt in E.
  destruct (Z.eqb_spec (Pre.retention_interval c) 0); [lia | reflexivity].
Qed.

(** X14.  Every request for a snapshot of a pre-backup run carries the
    filesystem and the display name; it carries [appSearchId] exactly
    when the tag is not empty, and [retentionInterval] exactly when
    [HNAS_RETENTION_INTERVAL] is positive, with its value: a zero or
    negative interval is never sent. *)
Theorem X14_snapshot_request_payload :
  forall (env : gmap string string) (w : world) (interval : Z),
    PyStr.to_int (max_str_digits w)
      (environ_get env "HNAS_RETENTION_INTERVAL" "0") = Some interval ->
    Forall (asks_snapshots (environ_get env "HNAS_APP_SEARCH_ID" "veeam")
              interval)
      (snd (Pre.main env w [])).
Proof.
  intros env w n Hn.
  rewrite pre_main_run, pre_startup_run, Hn.
  destruct (Pre.required_present _); cbn [negb]; [|repeat constructor].
  destruct (Pre.no_filesystems _); [repeat constructor|].
  cbv zeta. destruct (log_setup_ok w _ _); cbn [negb]; [|repeat constructor].
  destruct (connected _); [|repeat constructor].
  apply adds_run; [|repeat constructor].
  apply (pre_work_asks_snapshots env (configured env) (pre_config env n)).
Qed.

Lemma X14_snapshot_request_payload_witness :
  Forall (asks_snapshots "veeam" 30)
    (snd (Pre.main (<["HNAS_RETENTION_INTERVAL" := "30"]> Examples.pre_env)
            (Examples.site [] []) [])).
Proof.
  assert (E : environ_get
                (<["HNAS_RETENTION_INTERVAL" := "30"]> Examples.pre_env)
                "HNAS_APP_SEARCH_ID" "veeam" = "veeam")
    by (vm_compute; reflexivity).
  rewrite <- E.
  apply (X14_snapshot_request_payload
           (<["HNAS_RETENTION_INTERVAL" := "30"]> Examples.pre_env)
           (Examples.site [] []) 30).
  vm_compute. reflexivity.
Defined.

(** ** The entries of the manifest *)

Lemma extends_refl tr : extends tr tr.
Proof. exists []. now rewrite app_nil_r. Qed.

Lemma extends_trans a b c : extends a b -> extends b c -> extends a c.
Proof. intros [d1 ->] [d2 ->]. exists (d1 ++ d2). now rewrite app_assoc. Qed.

Lemma run_extends {A} (m : M A) w tr r tr' :
  adds (fun _ => True) m -> m w tr = (r, tr') -> extends tr tr'.
Proof.
  intros Hm H. destruct (Hm w tr) as [d [E _]]. rewrite H in E. now exists d.
Qed.

Lemma requested_app tr1 tr2 :
  requested (tr1 ++ tr2) = requested tr1 ++ requested tr2.
Proof.
  induction tr1 as [|e tr1 IH]; [reflexivity|].
  destruct e as [| c | | | | |]; cbn; rewrite ?IH; try reflexivity.
  destruct (call_request c); rewrite ?IH; try reflexivity.
  destruct (Py.get payload "filesystemId" PNone),
    (Py.get payload "displayName" PNone); rewrite ?IH; reflexivity.
Qed.

Lemma requested_extends tr tr' x :
  extends tr tr' -> In x (requested tr) -> In x (requested tr').
Proof.
  intros [d ->] H. rewrite requested_app. apply in_or_app. now left.
Qed.

Lemma requested_length_extends tr tr' :
  extends tr tr' ->
  (List.length (requested tr) <= List.length (requested tr'))%nat.
Proof.
  intros [d ->]. rewrite requested_app, length_app. lia.
Qed.

(** [create_snapshot] asks for one snapshot, of the filesystem and under
    the name it is given. *)
Lemma create_snapshot_requested self fid name tag interval w tr :
  requested (snd (Pre.create_snapshot self fid name tag interval w tr))
  = requested tr ++ [(fid, PStr name)].
Proof.
  assert (Hq : forall (m : M pyval),
             adds (fun e => match e with Called _ => False | _ => True end) m ->
             forall t, requested (snd (m w t)) = requested t).
  { intros m Hm t. destruct (Hm w t) as [d [E F]]. rewrite E, requested_app.
    replace (requested d) with (@nil (pyval * pyval)); [apply app_nil_r|].
    clear -F. induction F as [|e d He _ IH]; [reflexivity|].
    destruct e; cbn; auto. destruct He. }
  unfold Pre.create_snapshot, try_except.
  unfold bind at 1. unfold log, emit at 1.
  set (t1 := tr ++ [Logged INFO "Creating snapshot '{}' for filesystem '{}'" _]).
  assert (H1 : requested t1 = requested tr)
    by (unfold t1; rewrite requested_app; apply app_nil_r).
  unfold bind at 1. unfold HNAS.send at 1.
  set (k := mkcall _ _ _ 60 _).
  assert (H2 : requested (t1 ++ [Called k]) = requested tr ++ [(fid, PStr name)]).
  { rewrite requested_app, H1. reflexivity. }
  destruct (respond w t1 k) as [|st tx js].
  - cbn [is_exception]. rewrite Hq; [exact H2|]. adds_all; exact I.
  - match goal with
    | |- requested (snd (let (r, tr') := ?m w ?t in _)) = _ =>
        assert (A : adds (fun e => match e with
                                   | Called _ => False | _ => True end) m)
          by (adds_all; exact I);
        pose proof (Hq _ A t) as Hm;
        destruct (m w t) as [[v|e] t2]
    end.
    + cbn [snd] in *. congruence.
    + cbn [snd] in Hm. destruct (is_exception e); cbn [snd]; [|congruence].
      rewrite Hq; [congruence|]. destruct e; adds_all; exact I.
Qed.

Lemma extends_all {A} (m : M A) w tr r tr' :
  m w tr = (r, tr') -> adds (fun _ => True) m -> extends tr tr'.
Proof. intros H Hm. eapply run_extends; eassumption. Qed.

(** What a step of the pre-backup loop that returns has done: nothing to
    the list of snapshots, or one snapshot asked for and recorded. *)
Lemma process_filesystem_inv self c ts created r w tr created' tr' :
  Pre.process_filesystem self c ts created r w tr = (Ok created', tr') ->
  extends tr tr'
  /\ (created' = created
      \/ exists fid fname name ta snapshot tb object_id creation_time shared,
           extends tr ta
           /\ Pre.create_snapshot self fid name (Pre.app_search_id c)
                (if 0 <? Pre.retention_interval c
                 then Some (Pre.retention_interval c) else None) w ta
              = (Ok snapshot, tb)
           /\ Py.truthy snapshot = true
           /\ Py.get snapshot "objectId" (PStr "") = Ok object_id
           /\ Py.get snapshot "creationTime" (PStr "") = Ok creation_time
           /\ Pre.share_keys self c fid name w tb = (Ok shared, tr')
           /\ created'
              = created
                ++ [PDict
                      ([("filesystem_id", fid);
                        ("filesystem_name", fname);
                        ("snapshot_name", PStr name);
                        ("snapshot_object_id", object_id);
                        ("creation_time", creation_time);
                        ("app_search_id", PStr (Pre.app_search_id c))]
                       ++ shared)]).
Proof.
  intros H.
  assert (Hext : extends tr tr').
  { eapply run_extends; [|exact H]. adds_all; exact I. }
  split; [exact Hext|].
  unfold Pre.process_filesystem in H. cbv zeta in H.
  destruct (String.eqb (PyStr.strip r) "").
  { apply ret_ok_inv in H as [<- _]. now left. }
  apply bind_ok_inv in H as (u & t1 & Hlog & H).
  apply bind_ok_inv in H as (resolved & t2 & Hres & H).
  destruct resolved as [[fid fname]|].
  2:{ apply ret_ok_inv in H as [<- _]. now left. }
  apply bind_ok_inv in H as (label & t3 & Hfmt & H).
  apply bind_ok_inv in H as (u' & t4 & Hlog' & H).
  apply bind_ok_inv in H as (snapshot & t5 & Hcs & H).
  destruct (Py.truthy snapshot) eqn:Ht.
  2:{ apply bind_ok_inv in H as (u'' & t6 & _ & H).
      apply ret_ok_inv in H as [<- _]. now left. }
  apply bind_ok_inv in H as (object_id & t6 & Ho & H).
  apply lift_ok_inv in Ho as [Ho <-].
  apply bind_ok_inv in H as (creation_time & t7 & Hc & H).
  apply lift_ok_inv in Hc as [Hc <-].
  apply bind_ok_inv in H as (shared & t8 & Hs & H).
  apply ret_ok_inv in H as [<- <-].
  right. exists fid, fname, (Pre.snapshot_name_of (Pre.app_search_id c) label ts),
    t4, snapshot, t5, object_id, creation_time, shared.
  refine (conj _ (conj Hcs (conj Ht (conj Ho (conj Hc (conj Hs eq_refl)))))).
  eapply extends_trans; [eapply extends_all; [exact Hlog | adds_all; exact I]|].
  eapply extends_trans; [eapply extends_all; [exact Hres | adds_all; exact I]|].
  eapply extends_trans; [eapply extends_all; [exact Hfmt | adds_all; exact I]|].
  eapply extends_all; [exact Hlog' | adds_all; exact I].
Qed.

Lemma for_fold_invariant_trace {A S} (I : S -> list event -> Prop)
  (items : list A) (body : S -> A -> M S) (w : world) :
  (forall s x tr s' tr', I s tr -> body s x w tr = (Ok s', tr') -> I s' tr') ->
  forall s tr s' tr',
    I s tr -> for_fold items s body w tr = (Ok s', tr') -> I s' tr'.
Proof.
  intros Hb. induction items as [|x items IH]; intros s tr s' tr' Hs H;
    cbn [for_fold] in H.
  - apply ret_ok_inv in H as [<- <-]. exact Hs.
  - apply bind_ok_inv in H as (s1 & tr1 & H1 & H2).
    eapply IH; [|exact H2]. eapply Hb; eassumption.
Qed.

Lemma recorded_from_extends tr tr' entry :
  extends tr tr' -> recorded_from tr entry -> recorded_from tr' entry.
Proof.
  intros He (fid & name & H1 & H2 & H3). exists fid, name.
  repeat split; auto. eapply requested_extends; eassumption.
Qed.

Lemma share_keys_extends self c fid name w tr r tr' :
  Pre.share_keys self c fid name w tr = (r, tr') -> extends tr tr'.
Proof. intros H. eapply run_extends; [|exact H]. adds_all; exact I. Qed.

(** The loop of the pre-backup script records only snapshots it has
    asked for, and no more of them than it has asked for. *)
Lemma snapshot_all_recorded self c ts w tr created tr' :
  Pre.snapshot_all self c ts w tr = (Ok created, tr') ->
  Forall (recorded_from tr') created
  /\ (List.length created <= List.length (requested tr')
      - List.length (requested tr))%nat
  /\ extends tr tr'.
Proof.
  unfold Pre.snapshot_all. intros H.
  apply (for_fold_invariant_trace
           (fun created t =>
              Forall (recorded_from t) created
              /\ (List.length created + List.length (requested tr)
                  <= List.length (requested t))%nat
              /\ extends tr t)
           _ _ w) with (s := []) (tr := tr) in H.
  - destruct H as (H1 & H2 & H3). repeat split; auto. lia.
  - clear. intros s x t s' t' (I1 & I2 & I3) H.
    apply process_filesystem_inv in H as [He [->|H]].
    + refine (conj _ (conj _ _)).
      * eapply Forall_impl; [exact I1|]. intros e. now apply recorded_from_extends.
      * pose proof (requested_length_extends t t' He). lia.
      * eapply extends_trans; eassumption.
    + destruct H as (fid & fname & name & ta & snapshot & tb & oid & ct & shared
                     & Ea & Hcs & _ & _ & _ & Hs & ->).
      pose proof (create_snapshot_requested self fid name (Pre.app_search_id c)
                    (if 0 <? Pre.retention_interval c
                     then Some (Pre.retention_interval c) else None) w ta) as Hr.
      rewrite Hcs in Hr. cbn [snd] in Hr.
      apply share_keys_extends in Hs.
      refine (conj _ (conj _ _)).
      * apply Forall_app. split.
        -- eapply Forall_impl; [exact I1|]. intros e.
           now apply recorded_from_extends.
        -- constructor; [|constructor]. exists fid, (PStr name).
           refine (conj eq_refl (conj eq_refl _)).
           eapply requested_extends; [exact Hs|]. rewrite Hr.
           apply in_or_app. right. now left.
      * rewrite length_app. cbn [List.length].
        pose proof (requested_length_extends t ta Ea).
        pose proof (requested_length_extends tb t' Hs).
        rewrite Hr, length_app in *. cbn [List.length] in *. lia.
      * eapply extends_trans; eassumption.
  - refine (conj _ (conj _ _)); [constructor | cbn; lia | apply extends_refl].
Qed.

(** What a pre-backup run writes is the manifest of the snapshots its
    loop recorded, after the loop. *)
Lemma pre_main_written env w path doc :
  In (path, doc) (written (snd (Pre.main env w []))) ->
  exists c hnas tr0 created tr1,
    Pre.startup env w [] = (Ok (c, hnas), tr0)
    /\ Pre.snapshot_all hnas c (now_stamp w tr0) w tr0 = (Ok created, tr1)
    /\ extends tr1 (snd (Pre.main env w []))
    /\ path = Pre.snapshot_info_file env
    /\ doc = Pre.manifest c (now_stamp w tr0) created.
Proof.
  intros Hin. rewrite pre_main_run in *.
  pose proof (adds_run _ _ w [] (proj1 (no_write_names env))
                ltac:(constructor)) as H0.
  destruct (Pre.startup env w []) as [[[c hnas]|e] tr0] eqn:Es; cbn [snd] in H0.
  2:{ cbn [snd] in Hin. rewrite (no_write_written tr0 H0) in Hin. destruct Hin. }
  assert (H1 : Forall no_write
                 (snd (Pre.snapshot_all hnas c (now_stamp w tr0) w tr0))).
  { apply adds_run; [|exact H0]. unfold Pre.snapshot_all.
    apply adds_for_fold. intros s x. apply (proj2 (no_write_names env)). }
  unfold bind at 1 in Hin. unfold bind at 1.
  destruct (Pre.snapshot_all hnas c (now_stamp w tr0) w tr0)
    as [[created|e] tr1] eqn:El; cbn [snd] in H1.
  2:{ cbn [snd] in Hin. rewrite (no_write_written tr1 H1) in Hin. destruct Hin. }
  exists c, hnas, tr0, created, tr1.
  destruct (finish_written env c (now_stamp w tr0) created w tr1) as [d [E F]].
  rewrite E in Hin |- *.
  rewrite written_app, (no_write_written tr1 H1) in Hin. cbn [app] in Hin.
  apply written_forall with (Q := fun pd =>
            fst pd = Pre.snapshot_info_file env
            /\ snd pd = Pre.manifest c (now_stamp w tr0) created) in F.
  rewrite List.Forall_forall in F. destruct (F _ Hin) as [Hp Hd]. cbn in Hp, Hd.
  repeat split; auto. now exists d.
Qed.

(** X16.  The manifest a pre-backup run writes lists only snapshots the
    run asked the array to make: every entry carries the filesystem and
    the name of a request for a snapshot sent in the run, and there are at
    most as many entries as such requests.  The manifest is written to
    the configured path. *)
Theorem X16_manifest_records_requests :
  forall (env : gmap string string) (w : world) (path : string) (doc : pyval),
    In (path, doc) (written (snd (Pre.main env w []))) ->
    path = Pre.snapshot_info_file env
    /\ Forall (recorded_from (snd (Pre.main env w []))) (manifest_snapshots doc)
    /\ (List.length (manifest_snapshots doc)
        <= List.length (requested (snd (Pre.main env w []))))%nat.
Proof.
  intros env w path doc Hin.
  destruct (pre_main_written env w path doc Hin)
    as (c & hnas & tr0 & created & tr1 & Es & El & He & Hp & ->).
  split; [exact Hp|].
  assert (Hm : manifest_snapshots (Pre.manifest c (now_stamp w tr0) created)
               = created) by reflexivity.
  rewrite Hm.
  apply snapshot_all_recorded in El as (R & L & _).
  split.
  - eapply Forall_impl; [exact R|]. intros e. now apply recorded_from_extends.
  - pose proof (requested_length_extends _ _ He). lia.
Qed.

Lemma X16_manifest_records_requests_witness :
  "/var/veeam/hnas_snapshot_info.json"
  = Pre.snapshot_info_file Examples.pre_env
  /\ Forall (recorded_from (snd (Pre.main Examples.pre_env
                                   Examples.site_beta_fails [])))
       (manifest_snapshots
          (Pre.manifest (pre_config Examples.pre_env 0) "20240115_030000"
             [PDict [("filesystem_id", PStr Examples.id_alpha);
                     ("filesystem_name", PStr "fs-alpha");
                     ("snapshot_name", PStr "veeam_fs-alpha_20240115_030000");
                     ("snapshot_object_id",
                      PStr "veeam_fs-alpha_20240115_030000");
                     ("creation_time", PInt 1705287600);
                     ("app_search_id", PStr "veeam");
                     ("smb_share_name", PStr "VeeamNASBackup_20240115_030000");
                     ("smb_share_object_id",
                      PStr "VeeamNASBackup_20240115_030000");
                     ("smb_share_path",
                      PStr "\.snapshot\veeam_fs-alpha_20240115_030000")]]))
  /\ (List.length
        (manifest_snapshots
           (Pre.manifest (pre_config Examples.pre_env 0) "20240115_030000"
              [PDict [("filesystem_id", PStr Examples.id_alpha);
                      ("filesystem_name", PStr "fs-alpha");
                      ("snapshot_name", PStr "veeam_fs-alpha_20240115_030000");
                      ("snapshot_object_id",
                       PStr "veeam_fs-alpha_20240115_030000");
                      ("creation_time", PInt 1705287600);
                      ("app_search_id", PStr "veeam");
                      ("smb_share_name", PStr "VeeamNASBackup_20240115_030000");
                      ("smb_share_object_id",
                       PStr "VeeamNASBackup_20240115_030000");
                      ("smb_share_path",
                       PStr "\.snapshot\veeam_fs-alpha_20240115_030000")]]))
      <= List.length
           (requested (snd (Pre.main Examples.pre_env
                              Examples.site_beta_fails []))))%nat.
Proof.
  apply (X16_manifest_records_requests Examples.pre_env
           Examples.site_beta_fails).
  vm_compute. left. reflexivity.
Defined.

(** ** Runs without shares *)

Lemma share_keys_off self c fid name :
  Pre.cfg_create_smb_share c = false ->
  Pre.share_keys self c fid name = ret [].
Proof. intros H. unfold Pre.share_keys. now rewrite H. Qed.

Lemma pre_work_without_shares env self c ts :
  Pre.cfg_create_smb_share c = false ->
  adds no_share_request
    (bind (Pre.snapshot_all self c ts) (Pre.finish env c ts)).
Proof.
  intros Hoff.
  repeat lazymatch goal with
         | |- adds _ (Pre.share_keys _ _ _ _) =>
             rewrite (share_keys_off _ _ _ _ Hoff); apply adds_ret
         | |- _ => adds_open
         end;
    lazymatch goal with
    | H : call_request ?k = _ |- no_share_request (Called ?k) =>
        unfold no_share_request; rewrite H; exact I
    | |- _ => exact I
    end.
Qed.

Lemma pre_startup_ok env w c hnas tr0 :
  Pre.startup env w [] = (Ok (c, hnas), tr0) ->
  exists n,
    PyStr.to_int (max_str_digits w)
      (environ_get env "HNAS_RETENTION_INTERVAL" "0") = Some n
    /\ c = pre_config env n
    /\ hnas = configured env.
Proof.
  rewrite pre_startup_run.
  destruct (PyStr.to_int _ _) as [n|]; [|discriminate].
  destruct (Pre.required_present _); cbn [negb]; [|discriminate].
  destruct (Pre.no_filesystems _); [discriminate|].
  cbv zeta. destruct (log_setup_ok w _ _); cbn [negb]; [|discriminate].
  destruct (connected _); [|discriminate].
  intros H. injection H as <- <- _. eauto.
Qed.

Lemma snapshot_all_without_shares self c ts w tr created tr' :
  Pre.cfg_create_smb_share c = false ->
  Pre.snapshot_all self c ts w tr = (Ok created, tr') ->
  Forall without_share created.
Proof.
  intros Hoff. unfold Pre.snapshot_all.
  apply (for_fold_invariant (Forall without_share)); [|constructor].
  intros s x t s' t' Hs H.
  apply process_filesystem_inv in H as [_ [->|H]]; [exact Hs|].
  destruct H as (fid & fname & name & ta & snapshot & tb & oid & ct & shared
                 & _ & _ & _ & _ & _ & Hk & ->).
  rewrite (share_keys_off _ _ _ _ Hoff) in Hk.
  apply ret_ok_inv in Hk as [<- _].
  apply Forall_app. split; [exact Hs|].
  constructor; [|constructor]. split; reflexivity.
Qed.

(** X15.  With [HNAS_CREATE_SMB_SHARE] set to anything but [true] (in
    any case of the letters), a pre-backup run never asks the array for a
    share, and no entry of the manifest it writes names a share: the
    post-backup script will find no share to delete in it. *)
Theorem X15_no_shares_when_disabled :
  forall (env : gmap string string) (w : world),
    environ_flag env "HNAS_CREATE_SMB_SHARE" "true" = false ->
    Forall no_share_request (snd (Pre.main env w []))
    /\ forall path doc,
         In (path, doc) (written (snd (Pre.main env w []))) ->
         Forall without_share (manifest_snapshots doc).
Proof.
  intros env w Hoff. split.
  - rewrite pre_main_run, pre_startup_run.
    destruct (PyStr.to_int _ _) as [n|]; [|constructor].
    destruct (Pre.required_present _); cbn [negb]; [|repeat constructor].
    destruct (Pre.no_filesystems _); [repeat constructor|].
    cbv zeta. destruct (log_setup_ok w _ _); cbn [negb]; [|repeat constructor].
    destruct (connected _); [|repeat constructor].
    apply adds_run; [|repeat constructor].
    apply pre_work_without_shares. exact Hoff.
  - intros path doc Hin.
    destruct (pre_main_written env w path doc Hin)
      as (c & hnas & tr0 & created & tr1 & Es & El & _ & _ & ->).
    destruct (pre_startup_ok env w c hnas tr0 Es) as (n & _ & -> & ->).
    eapply snapshot_all_without_shares; [|exact El]. exact Hoff.
Qed.

Lemma X15_no_shares_when_disabled_witness :
  Forall no_share_request
    (snd (Pre.main (<["HNAS_CREATE_SMB_SHARE" := "False"]> Examples.pre_env)
            (Examples.site [] []) []))
  /\ forall path doc,
       In (path, doc)
         (written
            (snd (Pre.main
                    (<["HNAS_CREATE_SMB_SHARE" := "False"]> Examples.pre_env)
                    (Examples.site [] []) []))) ->
       Forall without_share (manifest_snapshots doc).
Proof.
  apply (X15_no_shares_when_disabled
           (<["HNAS_CREATE_SMB_SHARE" := "False"]> Examples.pre_env)
           (Examples.site [] [])).
  vm_compute. reflexivity.
Defined.

(** ** The share of a snapshot *)

Lemma get_raises_attribute_error v k d e :
  Py.get v k d = Raise e -> e = AttributeError.
Proof. destruct v; cbn; intros H; inversion H; reflexivity. Qed.

Ltac share_simp :=
  cbn [HNAS.status_code HNAS.text HNAS.body is_exception fst snd negb
       Py.truthy];
  rewrite ?calls_app; cbn [calls call_request app];
  rewrite ?app_nil_r, <- ?app_assoc; cbn [app].

(** X17.  [create_smb_share] first looks the filesystem up.  When the
    answer gives no virtual server (the request fails, or the document has
    no truthy [virtualServerId] under [filesystem]), it returns [None] and
    asks for no share.  Otherwise its second and last request asks for a
    share of that filesystem on that virtual server, named with the prefix
    and the time stamp of that moment, on the path [\.snapshot\] followed
    by the name of the snapshot. *)
Theorem X17_share_needs_virtual_server :
  forall (self : HNAS.manager) (fid : pyval) (name share : string)
         (w : world) (tr : list event),
    let looked :=
      tr ++ [Called (mkcall (HNAS.hnas_host self) (HNAS.verify_ssl self)
                       (HNAS.auth self) 30 (GetFilesystem fid))] in
    match virtual_server_of (decoded (answer self 30 (GetFilesystem fid) w tr))
    with
    | None =>
        fst (Pre.create_smb_share self fid name share w tr) = Ok PNone
        /\ calls (snd (Pre.create_smb_share self fid name share w tr))
           = calls tr ++ [GetFilesystem fid]
    | Some vs =>
        calls (snd (Pre.create_smb_share self fid name share w tr))
        = calls tr
          ++ [GetFilesystem fid;
              PostCifsShare
                (Pre.share_data fid vs
                   (share ++ "_" ++ now_stamp w looked)%string
                   ("\.snapshot\" ++ name)%string
                   ("Veeam backup snapshot share created at "
                    ++ now_iso w looked)%string)]
    end.
Proof.
  intros self fid name share w tr looked. subst looked.
  unfold answer, decoded, virtual_server_of.
  unfold Pre.create_smb_share, HNAS.get_filesystem_info, try_except, bind,
    HNAS.send, HNAS.raise_for_status, HNAS.json, ask, lift, log, emit, raise,
    ret.
  destruct (respond w tr _) as [|st tx [v|]]; share_simp;
    try (split; reflexivity);
    destruct ((400 <=? st) && (st <? 600)); share_simp;
    try (split; reflexivity).
  destruct (Py.truthy v) eqn:Tv; share_simp; try (split; reflexivity).
  destruct (Py.get v "filesystem" (PDict [])) as [fs|e] eqn:Ef.
  2:{ apply get_raises_attribute_error in Ef. subst e.
      share_simp. split; reflexivity. }
  destruct (Py.get fs "virtualServerId" PNone) as [vs|e] eqn:Ev.
  2:{ apply get_raises_attribute_error in Ev. subst e.
      share_simp. split; reflexivity. }
  destruct (Py.truthy vs); share_simp; [|split; reflexivity].
  match goal with
  | |- context [respond w ?t ?k] =>
      destruct (respond w t k) as [|st2 tx2 [v2|]]
  end; share_simp; try reflexivity;
    destruct ((400 <=? st2) && (st2 <? 600)); share_simp; try reflexivity.
  destruct (Py.get v2 "filesystemShare" (PDict [])) as [sh|e] eqn:Es.
  - share_simp. reflexivity.
  - apply get_raises_attribute_error in Es. subst e.
    share_simp. reflexivity.
Qed.

(** ** The end of a pre-backup run *)

Lemma pre_loop_writes_nothing env w c hnas tr0 created tr1 :
  Pre.startup env w [] = (Ok (c, hnas), tr0) ->
  Pre.snapshot_all hnas c (now_stamp w tr0) w tr0 = (Ok created, tr1) ->
  written tr1 = [].
Proof.
  intros Es El. apply no_write_written.
  pose proof (adds_run _ _ w [] (proj1 (no_write_names env))
                ltac:(constructor)) as H0.
  rewrite Es in H0.
  pose proof (adds_run no_write
                (Pre.snapshot_all hnas c (now_stamp w tr0)) w tr0) as H1.
  rewrite El in H1. apply H1; [|exact H0].
  unfold Pre.snapshot_all. apply adds_for_fold. intros s x.
  apply (proj2 (no_write_names env)).
Qed.

Lemma pre_main_finish env w c hnas tr0 created tr1 :
  Pre.startup env w [] = (Ok (c, hnas), tr0) ->
  Pre.snapshot_all hnas c (now_stamp w tr0) w tr0 = (Ok created, tr1) ->
  Pre.main env w [] = Pre.finish env c (now_stamp w tr0) created w tr1.
Proof.
  intros Es El. rewrite pre_main_run, Es. unfold bind at 1. now rewrite El.
Qed.

(** The end of the pre-backup script, case by case. *)
Lemma finish_run env c ts created w tr :
  Pre.finish env c ts created w tr
  = let file := Pre.snapshot_info_file env in
    let parent := dirname w file in
    if String.eqb parent "" then (Raise OSError, tr)
    else if negb (fs_makedirs_ok w tr parent) then (Raise OSError, tr)
    else if negb (fs_write_ok w (tr ++ [Makedirs parent]) file)
         then (Raise OSError, tr ++ [Makedirs parent])
         else
           let done :=
             tr ++ [Makedirs parent;
                    Wrote file (Pre.manifest c ts created);
                    Logged INFO
                      "Pre-backup script completed. Created {} snapshots."
                      [LVal (PInt (Z.of_nat (List.length created)))]] in
           match created with
           | [] =>
               (Raise (SystemExit 1),
                done ++ [Printed
                           "WARNING: No snapshots were created successfully."
                           []])
           | _ =>
               (Ok tt,
                done ++ [Printed
                           "SUCCESS: Created {} snapshots for Veeam backup."
                           [LVal (PInt (Z.of_nat (List.length created)))]])
           end.
Proof.
  unfold Pre.finish, Pre.save_manifest, Pre.makedirs, bind, ask, log, print,
    sys_exit, raise, ret, emit.
  cbv zeta.
  destruct (String.eqb _ ""); [reflexivity|].
  destruct (fs_makedirs_ok w tr _); [|reflexivity].
  destruct (fs_write_ok w _ _); [|reflexivity].
  cbn [negb]. destruct created; rewrite <- !app_assoc; reflexivity.
Qed.

(** X18.  The end of a pre-backup run that got through its loop.  When
    the manifest path has no directory part, or its directory cannot be
    made, the run ends there with [OSError]: nothing is written, whatever
    snapshots were made.  When the directory is made and the file cannot
    be written, the run ends with [OSError] as well.  Otherwise the run
    writes one document, to the manifest path, with the time stamp of the
    run, the snapshots the loop recorded (also when there are none) and
    the host and the tag of the configuration; it then returns when a
    snapshot was recorded and exits with status 1 when none was. *)
Theorem X18_manifest_persistence :
  forall (env : gmap string string) (w : world) (c : Pre.config)
         (hnas : HNAS.manager) (tr0 tr1 : list event) (created : list pyval),
    Pre.startup env w [] = (Ok (c, hnas), tr0) ->
    Pre.snapshot_all hnas c (now_stamp w tr0) w tr0 = (Ok created, tr1) ->
    let file := Pre.snapshot_info_file env in
    let parent := dirname w file in
    let doc :=
      PDict [("timestamp", PStr (now_stamp w tr0));
             ("snapshots", PList created);
             ("config",
              PDict [("hnas_host", PStr (environ_get env "HNAS_HOST" ""));
                     ("app_search_id",
                      PStr (environ_get env "HNAS_APP_SEARCH_ID" "veeam"))])] in
    (parent = "" \/ fs_makedirs_ok w tr1 parent = false ->
     Pre.main env w [] = (Raise OSError, tr1) /\ written tr1 = [])
    /\ (parent <> "" ->
        fs_makedirs_ok w tr1 parent = true ->
        fs_write_ok w (tr1 ++ [Makedirs parent]) file = false ->
        Pre.main env w [] = (Raise OSError, tr1 ++ [Makedirs parent]))
    /\ (parent <> "" ->
        fs_makedirs_ok w tr1 parent = true ->
        fs_write_ok w (tr1 ++ [Makedirs parent]) file = true ->
        written (snd (Pre.main env w [])) = [(file, doc)]
        /\ fst (Pre.main env w [])
           = match created with
             | [] => Raise (SystemExit 1)
             | _ => Ok tt
             end).
Proof.
  intros env w c hnas tr0 tr1 created Es El file parent doc.
  pose proof (pre_loop_writes_nothing env w c hnas tr0 created tr1 Es El) as Hw.
  rewrite (pre_main_finish env w c hnas tr0 created tr1 Es El).
  destruct (pre_startup_ok env w c hnas tr0 Es) as (n & _ & Hc & _).
  assert (Hdoc : Pre.manifest c (now_stamp w tr0) created = doc).
  { subst c. reflexivity. }
  rewrite finish_run. cbv zeta. fold file. fold parent. rewrite Hdoc.
  refine (conj _ (conj _ _)).
  - intros [Hp|Hm].
    + apply String.eqb_eq in Hp. rewrite Hp. split; [reflexivity | exact Hw].
    + destruct (String.eqb parent ""); [split; [reflexivity | exact Hw]|].
      rewrite Hm. split; [reflexivity | exact Hw].
  - intros Hp Hm Hf. apply String.eqb_neq in Hp. rewrite Hp, Hm, Hf.
    reflexivity.
  - intros Hp Hm Hf. apply String.eqb_neq in Hp. rewrite Hp, Hm, Hf.
    cbn [negb]. destruct created as [|x created]; cbn [fst snd];
      rewrite !written_app, Hw; split; reflexivity.
Qed.

Lemma X18_manifest_persistence_witness :
  (exists tr1,
      Pre.main Examples.pre_env_bare_path (Examples.site [] []) []
      = (Raise OSError, tr1)
      /\ written tr1 = [])
  /\ written (snd (Pre.main Examples.pre_env Examples.site_without_snapshots []))
     = [("/var/veeam/hnas_snapshot_info.json",
         PDict [("timestamp", PStr "20240115_030000");
                ("snapshots", PList []);
                ("config", PDict [("hnas_host", PStr "hnas.example");
                                  ("app_search_id", PStr "veeam")])])]
  /\ fst (Pre.main Examples.pre_env Examples.site_without_snapshots [])
     = Raise (SystemExit 1).
Proof.
  split.
  - eexists.
    eapply (proj1 (X18_manifest_persistence Examples.pre_env_bare_path
                     (Examples.site [] []) _ _ _ _ _ _ _)).
    left. vm_compute. reflexivity.
  - eapply (proj2 (proj2 (X18_manifest_persistence Examples.pre_env
                            Examples.site_without_snapshots _ _ _ _ [] _ _))).
    + vm_compute. discriminate.
    + vm_compute. reflexivity.
    + vm_compute. reflexivity.
  Unshelve.
  all: try (vm_compute; reflexivity).
Defined.

(** ** References that are blank *)

Lemma blank_references_loop self c ts refs : forall created w tr,
  Forall (fun r => PyStr.strip r = "") refs ->
  for_fold refs created (Pre.process_filesystem self c ts) w tr
  = (Ok created, tr).
Proof.
  induction refs as [|r refs IH]; intros created w tr H; [reflexivity|].
  inversion H as [|? ? Hr Hrest]; subst.
  cbn [for_fold]. unfold bind at 1.
  unfold Pre.process_filesystem at 1. cbv zeta. rewrite Hr.
  cbn [String.eqb]. unfold ret at 1. now apply IH.
Qed.

(** X19.  A list of references that holds only blank items (commas and
    white space) passes the check of the configuration, but the loop skips
    every item: the run asks the array for nothing but the probe, no
    snapshot is made, and the process ends with status 1 however far the
    run gets. *)
Theorem X19_blank_references :
  forall (env : gmap string string) (w : world),
    Forall (fun r => PyStr.strip r = "")
      (PyStr.split "," (environ_get env "HNAS_FILESYSTEMS" "")) ->
    (forall r, In r (calls (snd (Pre.main env w []))) -> r = GetFileDevices)
    /\ exit_status (fst (Pre.main env w [])) = 1.
Proof.
  intros env w Hblank.
  rewrite pre_main_run, pre_startup_run.
  destruct (PyStr.to_int _ _) as [n|]; [|split; [intros r []|reflexivity]].
  destruct (Pre.required_present _); cbn [negb];
    [|split; [intros r []|reflexivity]].
  destruct (Pre.no_filesystems _); [split; [intros r []|reflexivity]|].
  cbv zeta. destruct (log_setup_ok w _ _); cbn [negb];
    [|split; [intros r []|reflexivity]].
  destruct (connected _);
    [|split; [intros r [<-|[]]; reflexivity | reflexivity]].
  unfold bind at 1. unfold bind at 1. unfold Pre.snapshot_all.
  rewrite blank_references_loop by exact Hblank.
  rewrite finish_run. cbv zeta.
  destruct (String.eqb _ "");
    [split; [intros r [<-|[]]; reflexivity | reflexivity]|].
  destruct (fs_makedirs_ok w _ _); cbn [negb];
    [|split; [intros r [<-|[]]; reflexivity | reflexivity]].
  destruct (fs_write_ok w _ _); cbn [negb];
    split; try reflexivity; intros r [<-|[]]; reflexivity.
Qed.

Lemma X19_blank_references_witness :
  (forall r,
      In r (calls (snd (Pre.main (<["HNAS_FILESYSTEMS" := " , ,"]> Examples.pre_env)
                          (Examples.site [] []) []))) ->
      r = GetFileDevices)
  /\ exit_status
       (fst (Pre.main (<["HNAS_FILESYSTEMS" := " , ,"]> Examples.pre_env)
               (Examples.site [] []) [])) = 1.
Proof.
  apply (X19_blank_references (<["HNAS_FILESYSTEMS" := " , ,"]> Examples.pre_env)
           (Examples.site [] [])).
  vm_compute. repeat constructor.
Defined.

(** ** Filesystems that fail *)

Lemma create_snapshot_run self fid name tag interval w tr :
  let asked :=
    tr ++ [Logged INFO "Creating snapshot '{}' for filesystem '{}'"
             [LVal (PStr name); LVal fid]] in
  let payload := Pre.snapshot_data fid name tag interval in
  fst (Pre.create_snapshot self fid name tag interval w tr)
  = Ok (snapshot_of (decoded (answer self 60 (PostSnapshot payload) w asked)))
  /\ calls (snd (Pre.create_snapshot self fid name tag interval w tr))
     = calls tr ++ [PostSnapshot payload].
Proof.
  cbv zeta. unfold answer, decoded, snapshot_of.
  unfold Pre.create_snapshot, try_except, bind, HNAS.send,
    HNAS.raise_for_status, HNAS.json, lift, log, raise, ret, emit.
  destruct (respond w _ _) as [|st tx [v|]]; share_simp;
    try (split; reflexivity);
    destruct ((400 <=? st) && (st <? 600)); share_simp;
    try (split; reflexivity).
  destruct v; cbn [Py.get]; share_simp; try (split; reflexivity).
  destruct (Py.assoc "snapshot" entries) as [sn|];
    cbn [Py.get Py.assoc]; share_simp; [|split; reflexivity].
  destruct sn; cbn [Py.get Py.assoc]; share_simp; split; reflexivity.
Qed.

(** X21.  [create_snapshot] sends one request, for a snapshot with the
    payload made of its arguments, and returns the object the answer
    holds under [snapshot] (the empty object when the answer is an object
    without it) and [None] in every other case: what it returns is [None]
    or an object. *)
Theorem X21_create_snapshot_result :
  forall (self : HNAS.manager) (fid : pyval) (name tag : string)
         (interval : option Z) (w : world) (tr : list event),
    let asked :=
      tr ++ [Logged INFO "Creating snapshot '{}' for filesystem '{}'"
               [LVal (PStr name); LVal fid]] in
    let payload := Pre.snapshot_data fid name tag interval in
    fst (Pre.create_snapshot self fid name tag interval w tr)
    = Ok (snapshot_of (decoded (answer self 60 (PostSnapshot payload) w asked)))
    /\ calls (snd (Pre.create_snapshot self fid name tag interval w tr))
       = calls tr ++ [PostSnapshot payload]
    /\ match fst (Pre.create_snapshot self fid name tag interval w tr) with
       | Ok (PNone | PDict _) => True
       | _ => False
       end.
Proof.
  intros self fid name tag interval w tr asked payload.
  destruct (create_snapshot_run self fid name tag interval w tr) as [Hv Hc].
  refine (conj Hv (conj Hc _)). rewrite Hv.
  unfold snapshot_of.
  destruct (decoded _) as [[| | | | | |entries]|]; try exact I.
  destruct (Py.assoc "snapshot" entries) as [[| | | | | |]|]; exact I.
Qed.

Lemma get_filesystem_info_query self fid :
  query self (GetFilesystem fid)
    (fun d => match d with Some v => v | None => PNone end)
    (HNAS.get_filesystem_info self fid).
Proof. query_run. Qed.

Lemma get_filesystem_by_name_query self name :
  query self GetFilesystems (labelled name)
    (HNAS.get_filesystem_by_name self name).
Proof.
  query_run.
  destruct v; cbn; rewrite ?calls_app; cbn; rewrite ?app_nil_r; auto.
  unfold labelled, field. cbn.
  destruct (match Py.assoc "filesystems" entries with
            | Some x => x | None => PList [] end) eqn:E; cbn.
  all: rewrite ?calls_app; cbn; rewrite ?app_nil_r; auto.
  all: match goal with
       | |- context [HNAS.first_with_label ?n ?l] =>
           destruct (HNAS.first_with_label n l) as [a|e] eqn:F;
           [|apply first_with_label_raise in F; subst e]
       end; cbn; rewrite ?calls_app; cbn; rewrite ?app_nil_r; auto.
Qed.

(** A reference the array does not know is not resolved. *)
Lemma resolve_not_found self s w tr :
  Py.truthy (found self s w tr) = false ->
  fst (Pre.resolve self s w tr) = Ok None
  /\ calls (snd (Pre.resolve self s w tr)) = calls tr ++ [lookup_request s].
Proof.
  unfold found, lookup_request, Pre.resolve. intros Hf.
  destruct (looks_like_id s).
  - destruct (get_filesystem_info_query self (PStr s) w tr) as [Hv Hc].
    unfold bind.
    destruct (HNAS.get_filesystem_info self (PStr s) w tr) as [r t1].
    cbn [fst snd] in Hv, Hc. subst r. rewrite Hf. cbn [negb].
    unfold log, emit, ret. cbn [fst snd]. rewrite calls_app, Hc.
    split; [reflexivity | apply app_nil_r].
  - destruct (get_filesystem_by_name_query self s w tr) as [Hv Hc].
    unfold bind.
    destruct (HNAS.get_filesystem_by_name self s w tr) as [r t1].
    cbn [fst snd] in Hv, Hc. subst r. rewrite Hf. cbn [negb].
    unfold log, emit, ret. cbn [fst snd]. rewrite calls_app, Hc.
    split; [reflexivity | apply app_nil_r].
Qed.

(** X20.  A filesystem that fails does not end the loop of the pre-backup
    script.  A reference the array does not know (the look-up by
    identifier fails or gives a falsy document, or no listed filesystem
    has the label) costs the one request of its look-up and leaves the
    list of snapshots as it was; so does a filesystem for which
    [create_snapshot] returns nothing truthy, after the request for the
    snapshot and without any request for a share. *)
Theorem X20_failed_filesystem_is_skipped :
  forall (self : HNAS.manager) (c : Pre.config) (ts : string)
         (created : list pyval) (r : string) (w : world) (tr : list event),
    let s := PyStr.strip r in
    let started :=
      tr ++ [Logged INFO "Processing filesystem input: {}" [LVal (PStr s)]] in
    s <> "" ->
    (Py.truthy (found self s w started) = false ->
     fst (Pre.process_filesystem self c ts created r w tr) = Ok created
     /\ calls (snd (Pre.process_filesystem self c ts created r w tr))
        = calls tr ++ [lookup_request s])
    /\ (forall fid fname resolved snapshot made,
           Pre.resolve self s w started = (Ok (Some (fid, fname)), resolved) ->
           let name :=
             Pre.snapshot_name_of (Pre.app_search_id c) (label_text w fname) ts
           in
           let payload :=
             Pre.snapshot_data fid name (Pre.app_search_id c)
               (if 0 <? Pre.retention_interval c
                then Some (Pre.retention_interval c) else None) in
           Pre.create_snapshot self fid name (Pre.app_search_id c)
             (if 0 <? Pre.retention_interval c
              then Some (Pre.retention_interval c) else None) w
             (resolved
              ++ [Logged INFO "Creating snapshot for filesystem '{}' (ID: {})"
                    [LVal fname; LVal fid]])
           = (Ok snapshot, made) ->
           Py.truthy snapshot = false ->
           fst (Pre.process_filesystem self c ts created r w tr) = Ok created
           /\ calls (snd (Pre.process_filesystem self c ts created r w tr))
              = calls resolved ++ [PostSnapshot payload]).
Proof.
  intros self c ts created r w tr s started Hne.
  assert (Hrun : Pre.process_filesystem self c ts created r w tr
                 = bind (Pre.resolve self s)
                     (fun resolved =>
                        match resolved with
                        | None => ret created
                        | Some (filesystem_id, filesystem_name) =>
                            bind (format filesystem_name)
                              (fun label =>
                                 let snapshot_name :=
                                   Pre.snapshot_name_of (Pre.app_search_id c)
                                     label ts in
                                 bind
                                   (log INFO
                                      "Creating snapshot for filesystem '{}' (ID: {})"
                                      [LVal filesystem_name; LVal filesystem_id])
                                   (fun _ =>
                                      bind
                                        (Pre.create_snapshot self filesystem_id
                                           snapshot_name (Pre.app_search_id c)
                                           (if 0 <? Pre.retention_interval c
                                            then Some (Pre.retention_interval c)
                                            else None))
                                        (fun snapshot =>
                                           if Py.truthy snapshot then
                                             bind (lift (Py.get snapshot "objectId" (PStr "")))
                                               (fun object_id =>
                                                  bind (lift (Py.get snapshot "creationTime" (PStr "")))
                                                    (fun creation_time =>
                                                       bind (Pre.share_keys self c filesystem_id snapshot_name)
                                                         (fun shared =>
                                                            ret (created ++
                                                                 [PDict
                                                                    ([("filesystem_id", filesystem_id);
                                                                      ("filesystem_name", filesystem_name);
                                                                      ("snapshot_name", PStr snapshot_name);
                                                                      ("snapshot_object_id", object_id);
                                                                      ("creation_time", creation_time);
                                                                      ("app_search_id", PStr (Pre.app_search_id c))]
                                                                     ++ shared)]))))
                                           else
                                             bind
                                               (log ERROR
                                                  "Failed to create snapshot for filesystem: {} ({})"
                                                  [LVal filesystem_name; LVal filesystem_id])
                                               (fun _ => ret created))))
                        end) w started).
  { unfold Pre.process_filesystem. cbv zeta. fold s.
    destruct (String.eqb_spec s ""); [contradiction|]. reflexivity. }
  rewrite Hrun. clear Hrun. split.
  - intros Hf. destruct (resolve_not_found self s w started Hf) as [Hv Hc].
    destruct (Pre.resolve self s w started) as [res t1] eqn:E.
    cbn [fst snd] in Hv, Hc. subst res.
    rewrite (bind_ok _ _ w started None t1 E). unfold ret. cbn [fst snd].
    rewrite Hc. unfold started. rewrite calls_app. cbn [calls].
    now rewrite app_nil_r.
  - intros fid fname resolved snapshot made Hres name payload Hcs Hfalsy.
    rewrite (bind_ok _ _ w started _ _ Hres).
    assert (Hfmt : format fname w resolved = (Ok (label_text w fname), resolved))
      by (destruct fname; reflexivity).
    rewrite (bind_ok _ _ w resolved _ _ Hfmt). cbv zeta. fold name.
    rewrite (bind_ok _ _ w resolved tt _ eq_refl).
    rewrite (bind_ok _ _ w _ _ _ Hcs). rewrite Hfalsy.
    unfold bind, log, emit, ret. cbn [fst snd].
    destruct (create_snapshot_run self fid name (Pre.app_search_id c)
                (if 0 <? Pre.retention_interval c
                 then Some (Pre.retention_interval c) else None) w
                (resolved
                 ++ [Logged INFO "Creating snapshot for filesystem '{}' (ID: {})"
                       [LVal fname; LVal fid]])) as [_ Hc].
    rewrite Hcs in Hc. cbn [snd] in Hc. fold payload in Hc.
    rewrite calls_app, Hc, calls_app. cbn [calls].
    now rewrite !app_nil_r.
Qed.

Lemma X20_failed_filesystem_is_skipped_witness :
  (fst (Pre.process_filesystem Examples.client (pre_config Examples.pre_env 0)
          "20240115_030000" [] " fs-gamma" (Examples.site [] []) []) = Ok []
   /\ calls (snd (Pre.process_filesystem Examples.client
                    (pre_config Examples.pre_env 0) "20240115_030000" []
                    " fs-gamma" (Examples.site [] []) []))
      = [] ++ [GetFilesystems])
  /\ fst (Pre.process_filesystem Examples.client (pre_config Examples.pre_env 0)
            "20240115_030000" [] "fs-beta" Examples.site_beta_fails []) = Ok []
  /\ calls (snd (Pre.process_filesystem Examples.client
                   (pre_config Examples.pre_env 0) "20240115_030000" []
                   "fs-beta" Examples.site_beta_fails []))
     = [GetFilesystems;
        PostSnapshot
          (PDict [("filesystemId", PStr Examples.id_beta);
                  ("displayName", PStr "veeam_fs-beta_20240115_030000");
                  ("appSearchId", PStr "veeam")])].
Proof.
  split.
  - apply (proj1 (X20_failed_filesystem_is_skipped Examples.client
                    (pre_config Examples.pre_env 0) "20240115_030000" []
                    " fs-gamma" (Examples.site [] []) []
                    ltac:(vm_compute; discriminate))).
    vm_compute. reflexivity.
  - pose proof (proj2 (X20_failed_filesystem_is_skipped Examples.client
                         (pre_config Examples.pre_env 0) "20240115_030000" []
                         "fs-beta" Examples.site_beta_fails []
                         ltac:(vm_compute; discriminate))
                  (PStr Examples.id_beta) (PStr "fs-beta")
                  [Logged INFO "Processing filesystem input: {}"
                     [LVal (PStr "fs-beta")];
                   Called (mkcall "hnas.example" false (ApiKey "secret") 30
                             GetFilesystems)]
                  PNone) as H.
    cbv zeta in H. eapply H.
    + vm_compute. reflexivity.
    + vm_compute. reflexivity.
    + reflexivity.
Defined.


(** ** The loops of the retention sweep *)

Lemma returns_for_fold {A S} w (items : list A) (body : S -> A -> M S) :
  (forall s x, returns w (body s x)) ->
  forall s, returns w (for_fold items s body).
Proof.
  intros Hb. induction items as [|x items IH]; intros s; cbn [for_fold].
  - apply returns_ret.
  - apply returns_bind; [apply Hb | intros s'; apply IH].
Qed.

Lemma cleanup_old_snapshots_returns w self fid app days :
  sane_clock w -> returns w (Post.cleanup_old_snapshots self fid app days).
Proof. intros C. method_returns. Qed.

Lemma cleanup_old_smb_shares_returns w self vs prefix days :
  sane_clock w -> returns w (Post.cleanup_old_smb_shares self vs prefix days).
Proof. intros C. method_returns. Qed.

Lemma get_virtual_server_smb_shares_listing self vs prefix :
  emits share_listing_of [vs]
    (HNAS.get_virtual_server_smb_shares self vs prefix).
Proof.
  unfold HNAS.get_virtual_server_smb_shares.
  apply emits_try_except_quiet; [|intros; quiet].
  apply emits_bind_quiet; [apply (send_emits share_listing_of) | intros; quiet].
Qed.

Lemma cleanup_old_smb_shares_listing self vs prefix days :
  emits share_listing_of [vs] (Post.cleanup_old_smb_shares self vs prefix days).
Proof.
  unfold Post.cleanup_old_smb_shares.
  apply emits_try_except_quiet; [|intros; quiet].
  apply emits_bind_quiet; [|intros; quiet].
  apply get_virtual_server_smb_shares_listing.
Qed.

(** X22.  Once the targets of the retention sweep are determined, the
    sweep visits every one of them and returns, whatever the array
    answers: beyond what the trace held when the targets were known, it
    lists the snapshots of each target filesystem once and the shares of
    each target virtual server once (the order within a set of targets is
    not fixed); a filesystem or a virtual server whose sweep fails does
    not keep the others from being swept. *)
Theorem X22_sweep_visits_every_target :
  forall (self : HNAS.manager) (env : gmap string string) (c : Post.config)
         (created : pyval) (w : world) (tr tr2 : list event)
         (fss vss : list pyval),
    sane_clock w ->
    sweep_targets self env created w
      (tr ++ [Logged INFO
                "Performing retention-based cleanup (keeping snapshots newer than {} days)..."
                [LVal (PInt (Post.retention_days c))]])
    = (Ok (fss, vss), tr2) ->
    fst (Post.retention_sweep self env c created w tr) = Ok tt
    /\ exists swept listed,
         viewed swept_of (snd (Post.retention_sweep self env c created w tr))
         = viewed swept_of tr2 ++ swept
         /\ Permutation swept fss
         /\ viewed share_listing_of
              (snd (Post.retention_sweep self env c created w tr))
            = viewed share_listing_of tr2 ++ listed
         /\ Permutation listed vss.
Proof.
  intros self env c created w tr tr2 fss vss C Ht.
  unfold sweep_targets in Ht. unfold Post.retention_sweep.
  rewrite (bind_ok _ _ w tr tt _ eq_refl).
  rewrite (bind_ok _ _ w _ _ _ Ht).
  set (loop1 := for_each fss _). set (loop2 := for_each vss _).
  assert (R1 : returns w loop1).
  { apply returns_for_fold. intros [] x. apply returns_bind.
    - now apply cleanup_old_snapshots_returns.
    - intros a. destruct (0 <? a); [apply returns_emit | apply returns_ret]. }
  assert (R2 : returns w loop2).
  { apply returns_for_fold. intros [] x. apply returns_bind.
    - now apply cleanup_old_smb_shares_returns.
    - intros a. destruct (0 <? a); [apply returns_emit | apply returns_ret]. }
  destruct (R1 tr2) as [[] H1].
  destruct (loop1 w tr2) as [r1 tr3] eqn:E1. cbn [fst] in H1. subst r1.
  destruct (R2 tr3) as [[] H2].
  destruct (loop2 w tr3) as [r2 tr4] eqn:E2. cbn [fst] in H2. subst r2.
  rewrite (bind_ok _ _ w tr2 tt tr3 E1), E2. cbn [fst snd].
  split; [reflexivity|].
  destruct (sweep_loops_ok self c fss vss w tr2 tr3 tr4 E1 E2) as (S & _).
  exists fss, vss. split; [exact S|]. split; [reflexivity|].
  split; [|reflexivity].
  assert (Q1 : viewed share_listing_of tr3 = viewed share_listing_of tr2).
  { pose proof (quiet_run share_listing_of loop1 w tr2) as Hq.
    rewrite E1 in Hq. apply Hq.
    apply adds_for_each. intros x. apply adds_bind.
    - now apply cleanup_old_snapshots_quiet.
    - intros a. destruct (0 <? a); [apply adds_emit; exact I | apply adds_ret]. }
  unfold loop2, for_each in E2.
  eapply (for_fold_emits share_listing_of (fun vs => [vs])) in E2.
  - rewrite E2, Q1, flat_map_single. reflexivity.
  - intros s x. apply emits_bind_quiet.
    + apply cleanup_old_smb_shares_listing.
    + intros a. destruct (0 <? a); [apply adds_emit; exact I | apply adds_ret].
Qed.


Lemma X22_sweep_visits_every_target_witness :
  let started :=
    [Logged INFO
       "Performing retention-based cleanup (keeping snapshots newer than {} days)..."
       [LVal (PInt 7)]] in
  let tr2 :=
    snd (sweep_targets Examples.client Examples.post_env (PList [])
           Examples.failing started) in
  let run :=
    Post.retention_sweep Examples.client Examples.post_env
      (post_config Examples.post_env 7) (PList []) Examples.failing [] in
  fst run = Ok tt
  /\ exists swept listed,
       viewed swept_of (snd run) = viewed swept_of tr2 ++ swept
       /\ Permutation swept [PStr Examples.id_alpha]
       /\ viewed share_listing_of (snd run)
          = viewed share_listing_of tr2 ++ listed
       /\ Permutation listed [].
Proof.
  intros started tr2 run.
  apply (X22_sweep_visits_every_target Examples.client Examples.post_env
           (post_config Examples.post_env 7) (PList []) Examples.failing []
           tr2 [PStr Examples.id_alpha] []).
  - split; intros tr days e H; cbn in H; discriminate H.
  - vm_compute. reflexivity.
Defined.

(** ** The manifest after a cleaning run *)

Lemma remove_manifest_run file w tr :
  Post.remove_manifest true file w tr
  = if fs_exists w tr file then
      if fs_remove_ok w tr file then
        (Ok tt, tr ++ [Removed file;
                       Logged INFO "Cleaned up snapshot information file" []])
      else
        (Ok tt, tr ++ [Logged WARNING "Failed to clean up snapshot info file: {}"
                         [LExn OSError]])
    else (Ok tt, tr).
Proof.
  unfold Post.remove_manifest, bind, ask, log, emit.
  destruct (fs_exists w tr file); [|reflexivity].
  destruct (fs_remove_ok w tr file); [|reflexivity].
  rewrite <- app_assoc. reflexivity.
Qed.

Lemma keeps_run {A} (m : M A) w tr r tr' :
  adds keeps_files m -> m w tr = (r, tr') ->
  flat_map removed_files tr' = flat_map removed_files tr.
Proof.
  intros Hm H. destruct (Hm w tr) as [d [E F]]. rewrite H in E. cbn in E.
  subst tr'. rewrite flat_map_app.
  assert (Z : flat_map removed_files d = []).
  { clear H. induction F as [|e d He _ IH]; [reflexivity|].
    destruct e; cbn in *; solve [exact IH | destruct He]. }
  rewrite Z. apply app_nil_r.
Qed.

Lemma session_removes env b result c hnas w tr0 trF :
  Post.should_cleanup b c = true ->
  (forall tr, fs_exists w tr (Post.snapshot_info_file env) = true) ->
  (forall tr, fs_remove_ok w tr (Post.snapshot_info_file env) = true) ->
  Post.session env b result c hnas w tr0 = (Ok tt, trF) ->
  flat_map removed_files trF
  = flat_map removed_files tr0 ++ [Post.snapshot_info_file env].
Proof.
  intros Hc Hex Hrm H. unfold Post.session in H. cbv zeta in H.
  rewrite Hc in H.
  apply bind_ok_inv in H as (u & tr1 & H1 & H).
  apply (keeps_run _ w) in H1; [|adds_all; exact I].
  apply bind_ok_inv in H as (created & tr2 & H2 & H).
  apply (keeps_run _ w) in H2; [|adds_all; exact I].
  apply bind_ok_inv in H as (n & tr3 & H3 & H).
  apply (keeps_run _ w) in H3;
    [|unfold Post.cleanup_session; adds_all; exact I].
  apply bind_ok_inv in H as ([] & tr4 & H4 & H).
  apply (keeps_run _ w) in H4; [|adds_all; exact I].
  apply bind_ok_inv in H as ([] & tr5 & H5 & H).
  rewrite remove_manifest_run, Hex, Hrm in H5. injection H5 as <-.
  apply (keeps_run _ w) in H; [|adds_all; exact I].
  rewrite H, flat_map_app. cbn. congruence.
Qed.

(** X23.  A post-backup run under a cleaning policy that ends normally
    removes the manifest when the file is on disk and can be removed,
    whatever the array answered to the deletes of the session: the
    removal does not wait for the snapshots of the manifest to be gone. *)
Theorem X23_manifest_removed_after_cleanup :
  forall (env : gmap string string) (w : world) (days : Z),
    PyStr.to_int (max_str_digits w) (environ_get env "HNAS_RETENTION_DAYS" "7")
    = Some days ->
    Post.should_cleanup (fst (Post.validate_backup_result env))
      (post_config env days) = true ->
    (forall tr, fs_exists w tr (Post.snapshot_info_file env) = true) ->
    (forall tr, fs_remove_ok w tr (Post.snapshot_info_file env) = true) ->
    fst (Post.main env w []) = Ok tt ->
    flat_map removed_files (snd (Post.main env w []))
    = [Post.snapshot_info_file env].
Proof.
  intros env w days Hdays Hc Hex Hrm Hok.
  rewrite post_main_run, post_startup_run, Hdays in *.
  destruct (Post.required_present _); cbn [negb] in *; [|discriminate Hok].
  cbv zeta in *. destruct (log_setup_ok w _ _); cbn [negb] in *;
    [|discriminate Hok].
  destruct (connected _); [|discriminate Hok].
  match goal with
  | |- context [Post.session ?e ?b ?r ?c ?h w ?t] =>
      destruct (Post.session e b r c h w t) as [[[]|x] trF] eqn:E;
        [|discriminate Hok]
  end.
  cbn [snd]. now rewrite (session_removes _ _ _ _ _ _ _ _ Hc Hex Hrm E).
Qed.

Lemma X23_manifest_removed_after_cleanup_witness :
  flat_map removed_files
    (snd (Post.main Examples.post_env_cleanup site_refusing_deletes []))
  = [Post.snapshot_info_file Examples.post_env_cleanup]
  /\ snapshot_deletes
       (snd (Post.main Examples.post_env_cleanup site_refusing_deletes []))
     <> [].
Proof.
  split.
  - apply (X23_manifest_removed_after_cleanup Examples.post_env_cleanup
             site_refusing_deletes 7);
      try (vm_compute; reflexivity); intros tr; reflexivity.
  - vm_compute. discriminate.
Defined.

(** ** The entry of a snapshot and its share *)

(** X24.  In the pre-backup loop with shares enabled, a snapshot the
    array confirmed with a non-empty object is recorded whether or not
    its share could be made: when [create_smb_share] returns nothing
    truthy the entry has the six keys of the snapshot and no key of a
    share; when it returns an object the entry has the three keys of the
    share as well, each empty when the object lacks it; when it returns a
    truthy value that is no object (the array answered with a list, a
    string or a number under [filesystemShare]) the step raises
    [AttributeError] and the snapshot is not recorded. *)
Theorem X24_share_outcome_in_entry :
  forall (self : HNAS.manager) (c : Pre.config) (ts : string)
         (created : list pyval) (r : string) (w : world) (tr : list event)
         (fid fname : pyval) (resolved made shared : list event)
         (snapshot : list (string * pyval)) (share : pyval),
    let s := PyStr.strip r in
    let started :=
      tr ++ [Logged INFO "Processing filesystem input: {}" [LVal (PStr s)]] in
    s <> "" ->
    Pre.resolve self s w started = (Ok (Some (fid, fname)), resolved) ->
    let name :=
      Pre.snapshot_name_of (Pre.app_search_id c) (label_text w fname) ts in
    Pre.create_snapshot self fid name (Pre.app_search_id c)
      (if 0 <? Pre.retention_interval c
       then Some (Pre.retention_interval c) else None) w
      (resolved
       ++ [Logged INFO "Creating snapshot for filesystem '{}' (ID: {})"
             [LVal fname; LVal fid]])
    = (Ok (PDict snapshot), made) ->
    snapshot <> [] ->
    Pre.cfg_create_smb_share c = true ->
    Pre.create_smb_share self fid name (Pre.smb_share_name c) w
      (made ++ [Logged INFO "Creating SMB share for snapshot access..." []])
    = (Ok share, shared) ->
    let entry := snapshot_entry fid fname name (Pre.app_search_id c) snapshot in
    fst (Pre.process_filesystem self c ts created r w tr)
    = if Py.truthy share then
        match share with
        | PDict smb_share =>
            Ok (created ++ [PDict (entry ++ share_entry smb_share)])
        | _ => Raise AttributeError
        end
      else Ok (created ++ [PDict entry]).
Proof.
  intros self c ts created r w tr fid fname resolved made shared snapshot share
    s started Hne Hres name Hcs Hsn Hcfg Hsh entry.
  assert (Hrun : Pre.process_filesystem self c ts created r w tr
                 = bind (Pre.resolve self s)
                     (fun resolved =>
                        match resolved with
                        | None => ret created
                        | Some (filesystem_id, filesystem_name) =>
                            bind (format filesystem_name)
                              (fun label =>
                                 let snapshot_name :=
                                   Pre.snapshot_name_of (Pre.app_search_id c)
                                     label ts in
                                 bind
                                   (log INFO
                                      "Creating snapshot for filesystem '{}' (ID: {})"
                                      [LVal filesystem_name; LVal filesystem_id])
                                   (fun _ =>
                                      bind
                                        (Pre.create_snapshot self filesystem_id
                                           snapshot_name (Pre.app_search_id c)
                                           (if 0 <? Pre.retention_interval c
                                            then Some (Pre.retention_interval c)
                                            else None))
                                        (fun snapshot =>
                                           if Py.truthy snapshot then
                                             bind (lift (Py.get snapshot "objectId" (PStr "")))
                                               (fun object_id =>
                                                  bind (lift (Py.get snapshot "creationTime" (PStr "")))
                                                    (fun creation_time =>
                                                       bind (Pre.share_keys self c filesystem_id snapshot_name)
                                                         (fun shared =>
                                                            ret (created ++
                                                                 [PDict
                                                                    ([("filesystem_id", filesystem_id);
                                                                      ("filesystem_name", filesystem_name);
                                                                      ("snapshot_name", PStr snapshot_name);
                                                                      ("snapshot_object_id", object_id);
                                                                      ("creation_time", creation_time);
                                                                      ("app_search_id", PStr (Pre.app_search_id c))]
                                                                     ++ shared)]))))
                                           else
                                             bind
                                               (log ERROR
                                                  "Failed to create snapshot for filesystem: {} ({})"
                                                  [LVal filesystem_name; LVal filesystem_id])
                                               (fun _ => ret created))))
                        end) w started).
  { unfold Pre.process_filesystem. cbv zeta. fold s.
    destruct (String.eqb_spec s ""); [contradiction|]. reflexivity. }
  rewrite Hrun. clear Hrun.
  rewrite (bind_ok _ _ w started _ _ Hres).
  assert (Hfmt : format fname w resolved = (Ok (label_text w fname), resolved))
    by (destruct fname; reflexivity).
  rewrite (bind_ok _ _ w resolved _ _ Hfmt). cbv zeta. fold name.
  rewrite (bind_ok _ _ w resolved tt _ eq_refl).
  rewrite (bind_ok _ _ w _ _ _ Hcs).
  assert (Ht : Py.truthy (PDict snapshot) = true)
    by (destruct snapshot; [contradiction | reflexivity]).
  rewrite Ht. cbn [Py.get].
  rewrite (bind_ok _ _ w made _ made eq_refl).
  rewrite (bind_ok _ _ w made _ made eq_refl).
  unfold Pre.share_keys. rewrite Hcfg.
  unfold bind at 1. unfold bind at 1. unfold log at 1. unfold emit at 1.
  unfold bind at 1. rewrite Hsh.
  destruct (Py.truthy share) eqn:Et.
  - destruct share; cbn [Py.get]; try reflexivity.
  - reflexivity.
Qed.

Lemma X24_share_outcome_in_entry_witness :
  fst (Pre.process_filesystem Examples.client (pre_config Examples.pre_env 0)
         "20240115_030000" [] "fs-alpha" site_without_shares [])
  = Ok ([] ++ [PDict (snapshot_entry (PStr Examples.id_alpha) (PStr "fs-alpha")
                        "veeam_fs-alpha_20240115_030000" "veeam"
                        [("objectId", PStr "veeam_fs-alpha_20240115_030000");
                         ("displayName", PStr "veeam_fs-alpha_20240115_030000");
                         ("creationTime", PInt 1705287600)])])
  /\ fst (Pre.process_filesystem Examples.client (pre_config Examples.pre_env 0)
            "20240115_030000" [] "fs-alpha" site_with_listed_share [])
     = Raise AttributeError.
Proof.
  pose (c := pre_config Examples.pre_env 0).
  pose (started :=
          [] ++ [Logged INFO "Processing filesystem input: {}"
                   [LVal (PStr "fs-alpha")]]).
  pose (asked := fun w =>
          snd (Pre.resolve Examples.client "fs-alpha" w started)
          ++ [Logged INFO "Creating snapshot for filesystem '{}' (ID: {})"
                [LVal (PStr "fs-alpha"); LVal (PStr Examples.id_alpha)]]).
  pose (made := fun w =>
          snd (Pre.create_snapshot Examples.client (PStr Examples.id_alpha)
                 "veeam_fs-alpha_20240115_030000" "veeam" None w (asked w))).
  pose (shared := fun w =>
          snd (Pre.create_smb_share Examples.client (PStr Examples.id_alpha)
                 "veeam_fs-alpha_20240115_030000" "VeeamNASBackup" w
                 (made w
                  ++ [Logged INFO "Creating SMB share for snapshot access..." []]))).
  split.
  - apply (X24_share_outcome_in_entry Examples.client c "20240115_030000" []
             "fs-alpha" site_without_shares [] (PStr Examples.id_alpha)
             (PStr "fs-alpha")
             (snd (Pre.resolve Examples.client "fs-alpha" site_without_shares
                     started))
             (made site_without_shares) (shared site_without_shares)
             [("objectId", PStr "veeam_fs-alpha_20240115_030000");
              ("displayName", PStr "veeam_fs-alpha_20240115_030000");
              ("creationTime", PInt 1705287600)]
             PNone);
      try (vm_compute; reflexivity); discriminate.
  - apply (X24_share_outcome_in_entry Examples.client c "20240115_030000" []
             "fs-alpha" site_with_listed_share [] (PStr Examples.id_alpha)
             (PStr "fs-alpha")
             (snd (Pre.resolve Examples.client "fs-alpha" site_with_listed_share
                     started))
             (made site_with_listed_share) (shared site_with_listed_share)
             [("objectId", PStr "veeam_fs-alpha_20240115_030000");
              ("displayName", PStr "veeam_fs-alpha_20240115_030000");
              ("creationTime", PInt 1705287600)]
             (PList [PStr "share"]));
      try (vm_compute; reflexivity); discriminate.
Defined.

(** ** What a reference resolves to *)

Lemma opens_send self t r :
  opens (Called (mkcall (HNAS.hnas_host self) (HNAS.verify_ssl self)
                   (HNAS.auth self) t r))
    (HNAS.send self t r).
Proof.
  intros w tr. unfold HNAS.send.
  destruct (respond w tr _); exists []; split; reflexivity || constructor.
Qed.

Lemma opens_bind {A B} e (m : M A) (k : A -> M B) :
  opens e m -> (forall a, adds no_call (k a)) -> opens e (bind m k).
Proof.
  intros Hm Hk w tr. unfold bind. destruct (Hm w tr) as [d [E F]].
  destruct (m w tr) as [[a|x] tr1]; cbn [snd] in E |- *.
  - destruct (Hk a w tr1) as [d' [E' F']]. rewrite E', E.
    exists (d ++ d'). rewrite <- app_assoc. split; [reflexivity|].
    apply Forall_app. auto.
  - exists d. auto.
Qed.

Lemma opens_try_except {A} e (m : M A) (h : exn -> M A) :
  opens e m -> (forall x, adds no_call (h x)) -> opens e (try_except m h).
Proof.
  intros Hm Hh w tr. unfold try_except. destruct (Hm w tr) as [d [E F]].
  destruct (m w tr) as [[a|x] tr1]; cbn [snd] in E |- *.
  - exists d. auto.
  - destruct (is_exception x); [|exists d; auto].
    destruct (Hh x w tr1) as [d' [E' F']]. rewrite E', E.
    exists (d ++ d'). rewrite <- app_assoc. split; [reflexivity|].
    apply Forall_app. auto.
Qed.

Ltac silent := adds_all; exact I.

Lemma get_filesystem_info_opens self fid :
  opens (Called (mkcall (HNAS.hnas_host self) (HNAS.verify_ssl self)
                   (HNAS.auth self) 30 (GetFilesystem fid)))
    (HNAS.get_filesystem_info self fid).
Proof.
  unfold HNAS.get_filesystem_info.
  apply opens_try_except; [|intros; silent].
  apply opens_bind; [apply opens_send | intros; silent].
Qed.

Lemma get_filesystem_by_name_opens self name :
  opens (Called (mkcall (HNAS.hnas_host self) (HNAS.verify_ssl self)
                   (HNAS.auth self) 30 GetFilesystems))
    (HNAS.get_filesystem_by_name self name).
Proof.
  unfold HNAS.get_filesystem_by_name.
  apply opens_try_except; [|intros; silent].
  apply opens_bind; [|intros; silent].
  unfold HNAS.get_all_filesystems.
  apply opens_try_except; [|intros; silent].
  apply opens_bind; [apply opens_send | intros; silent].
Qed.

(** The look-up of a reference: one request, answered at once, and the
    document it finds. *)
Lemma lookup_run self s w tr :
  exists d,
    (if looks_like_id s then HNAS.get_filesystem_info self (PStr s)
     else HNAS.get_filesystem_by_name self s) w tr
    = (Ok (found self s w tr), tr ++ Called (lookup_call self s) :: d)
    /\ Forall no_call d.
Proof.
  unfold found, lookup_call, lookup_request.
  destruct (looks_like_id s).
  - destruct (get_filesystem_info_opens self (PStr s) w tr) as [d [E F]].
    destruct (get_filesystem_info_query self (PStr s) w tr) as [V _].
    exists d. split; [|exact F].
    destruct (HNAS.get_filesystem_info self (PStr s) w tr) as [v t].
    cbn [fst snd] in *. now subst.
  - destruct (get_filesystem_by_name_opens self s w tr) as [d [E F]].
    destruct (get_filesystem_by_name_query self s w tr) as [V _].
    exists d. split; [|exact F].
    destruct (HNAS.get_filesystem_by_name self s w tr) as [v t].
    cbn [fst snd] in *. now subst.
Qed.

Lemma set_add_hashable s v :
  Py.hashable v = true -> Py.set_add s v = Ok (with_member s v).
Proof. unfold Py.set_add, with_member. now intros ->. Qed.

(** What the pre-backup loop makes of the document of a look-up. *)
Lemma pre_resolve_result self s w tr :
  fst (Pre.resolve self s w tr)
  = if negb (Py.truthy (found self s w tr)) then Ok None
    else if looks_like_id s then
      match Py.get (found self s w tr) "filesystem" (PDict []) with
      | Ok fs =>
          match Py.get fs "label" (PStr s) with
          | Ok label => Ok (Some (PStr s, label))
          | Raise e => Raise e
          end
      | Raise e => Raise e
      end
    else
      match Py.get (found self s w tr) "filesystemId" PNone,
            Py.get (found self s w tr) "label" (PStr s) with
      | Ok fid, Ok label =>
          if Py.truthy fid then Ok (Some (fid, label)) else Ok None
      | Raise e, _ => Raise e
      | _, Raise e => Raise e
      end.
Proof.
  destruct (lookup_run self s w tr) as [d [E _]].
  unfold Pre.resolve.
  destruct (looks_like_id s); cbv zeta; unfold bind at 1; rewrite E;
    destruct (Py.truthy (found self s w tr)); cbn [negb];
    try reflexivity.
  - unfold bind, lift, ret.
    destruct (Py.get (found self s w tr) "filesystem" (PDict []))
      as [fs|]; [|reflexivity].
    destruct (Py.get fs "label" (PStr s)); reflexivity.
  - unfold bind, lift, ret, log, emit.
    destruct (Py.get (found self s w tr) "filesystemId" PNone)
      as [fid|]; [|reflexivity].
    destruct (Py.get (found self s w tr) "label" (PStr s)); [|reflexivity].
    destruct (Py.truthy fid); reflexivity.
Qed.

(** What the fall-back of the post-backup sweep makes of the document of
    a look-up. *)
Lemma post_add_env_result self fss vss r w tr :
  let s := PyStr.strip r in
  s <> "" ->
  fst (Post.add_env_filesystem self (fss, vss) r w tr)
  = if looks_like_id s then
      if Py.truthy (found self s w tr) then
        match Py.get (found self s w tr) "filesystem" (PDict []) with
        | Ok fs =>
            match Py.get fs "virtualServerId" PNone with
            | Ok vs =>
                if Py.truthy vs then
                  match Py.set_add vss vs with
                  | Ok vss' => Ok (with_member fss (PStr s), vss')
                  | Raise e => Raise e
                  end
                else Ok (with_member fss (PStr s), vss)
            | Raise e => Raise e
            end
        | Raise e => Raise e
        end
      else Ok (with_member fss (PStr s), vss)
    else if Py.truthy (found self s w tr) then
      match Py.get (found self s w tr) "filesystemId" PNone,
            Py.get (found self s w tr) "virtualServerId" PNone with
      | Ok fid, Ok vs =>
          match (if Py.truthy fid then Py.set_add fss fid else Ok fss) with
          | Ok fss' =>
              match (if Py.truthy vs then Py.set_add vss vs else Ok vss) with
              | Ok vss' => Ok (fss', vss')
              | Raise e => Raise e
              end
          | Raise e => Raise e
          end
      | Raise e, _ => Raise e
      | _, Raise e => Raise e
      end
    else Ok (fss, vss).
Proof.
  intros s Hne. destruct (lookup_run self s w tr) as [d [E _]].
  unfold Post.add_env_filesystem. cbv zeta. fold s.
  destruct (String.eqb_spec s ""); [contradiction|].
  destruct (looks_like_id s).
  - unfold bind at 1. unfold lift at 1.
    rewrite (set_add_hashable fss (PStr s) eq_refl).
    unfold bind at 1. rewrite E.
    destruct (Py.truthy (found self s w tr)); [|reflexivity].
    unfold Post.add_virtual_server, bind, lift, ret.
    destruct (Py.get (found self s w tr) "filesystem" (PDict []))
      as [fs|]; [|reflexivity].
    destruct (Py.get fs "virtualServerId" PNone) as [vs|]; [|reflexivity].
    destruct (Py.truthy vs); [|reflexivity].
    destruct (Py.set_add vss vs); reflexivity.
  - unfold bind at 1. rewrite E.
    destruct (Py.truthy (found self s w tr)); [|reflexivity].
    unfold bind, lift, ret.
    destruct (Py.get (found self s w tr) "filesystemId" PNone)
      as [fid|]; [|reflexivity].
    destruct (Py.get (found self s w tr) "virtualServerId" PNone)
      as [vs|]; [|reflexivity].
    destruct (Py.truthy fid).
    + destruct (Py.set_add fss fid); [|reflexivity].
      destruct (Py.truthy vs); [|reflexivity].
      destruct (Py.set_add vss vs); reflexivity.
    + destruct (Py.truthy vs); [|reflexivity].
      destruct (Py.set_add vss vs); reflexivity.
Qed.

Lemma add_truthy_set_add s v :
  Py.hashable v = true ->
  (if Py.truthy v then Py.set_add s v else Ok s) = Ok (add_truthy s v).
Proof.
  intros H. unfold add_truthy. destruct (Py.truthy v); [|reflexivity].
  now apply set_add_hashable.
Qed.

(** C7.  A filesystem reference (the item of the list with the white
    space around it removed, when something is left) is taken for an
    identifier exactly when it has 32 characters that are all hexadecimal
    digits of either case.  Such a reference is resolved with one request
    for that filesystem and no request for the filesystem list; any other
    reference is resolved with one request for the filesystem list, whose
    items are scanned in order for a label equal to the reference: the
    first such item is the result, and none is found when no item has the
    label.  The pre-backup loop and the fall-back of the post-backup
    sweep send the same request for the same reference, and the body of
    the pre-backup loop sends it before any other.  What the request
    finds decides the resolution in both scripts.  When it finds nothing
    truthy, the pre-backup loop has no filesystem for the reference, and
    the fall-back sweeps the reference when it is an identifier and
    nothing otherwise.  An identifier whose look-up finds a document
    resolves to itself, with the label the document holds under
    [filesystem] (the identifier when there is none), and the fall-back
    adds it to the filesystems and the virtual server of the document to
    the virtual servers.  Any other reference resolves to the identifier
    and the label of the listed filesystem found (to nothing when that
    has no identifier), and the fall-back adds its identifier and its
    virtual server. *)
Theorem C7_reference_resolution :
  forall (self : HNAS.manager) (w : world) (tr : list event) (r : string),
    let s := PyStr.strip r in
    looks_like_id s
    = (Nat.eqb (String.length s) 32
       && forallb is_hex_digit (list_ascii_of_string s))
    /\ (s <> "" -> looks_like_id s = true ->
        calls (snd (Pre.resolve self s w tr))
        = calls tr ++ [GetFilesystem (PStr s)]
        /\ forall targets,
             calls (snd (Post.add_env_filesystem self targets r w tr))
             = calls tr ++ [GetFilesystem (PStr s)])
    /\ (s <> "" -> looks_like_id s = false ->
        calls (snd (Pre.resolve self s w tr)) = calls tr ++ [GetFilesystems]
        /\ forall targets,
             calls (snd (Post.add_env_filesystem self targets r w tr))
             = calls tr ++ [GetFilesystems])
    /\ (forall st tx data pre fs post,
           filesystems_answer self w tr = Response st tx (Some data) ->
           (400 <=? st) && (st <? 600) = false ->
           Py.get data "filesystems" (PList []) = Ok (PList (pre ++ fs :: post)) ->
           forallb (other_label s) pre = true ->
           has_label s fs = true ->
           fst (HNAS.get_filesystem_by_name self s w tr) = Ok fs)
    /\ (forall st tx data items,
           filesystems_answer self w tr = Response st tx (Some data) ->
           (400 <=? st) && (st <? 600) = false ->
           Py.get data "filesystems" (PList []) = Ok (PList items) ->
           forallb (other_label s) items = true ->
           fst (HNAS.get_filesystem_by_name self s w tr) = Ok PNone)
    /\ (s <> "" ->
        forall c timestamp created,
        exists rest,
          calls (snd (Pre.process_filesystem self c timestamp created r w tr))
          = calls tr
            ++ (if looks_like_id s then GetFilesystem (PStr s)
                else GetFilesystems) :: rest)
    /\ fst ((if looks_like_id s
             then HNAS.get_filesystem_info self (PStr s)
             else HNAS.get_filesystem_by_name self s) w tr)
       = Ok (found self s w tr)
    /\ (s <> "" -> Py.truthy (found self s w tr) = false ->
        fst (Pre.resolve self s w tr) = Ok None
        /\ forall fss vss,
             fst (Post.add_env_filesystem self (fss, vss) r w tr)
             = Ok (if looks_like_id s then with_member fss (PStr s) else fss,
                   vss))
    /\ (s <> "" -> looks_like_id s = true ->
        forall info fs,
          found self s w tr = PDict info ->
          info <> [] ->
          value_of "filesystem" (PDict []) info = PDict fs ->
          fst (Pre.resolve self s w tr)
          = Ok (Some (PStr s, value_of "label" (PStr s) fs))
          /\ forall fss vss,
               Py.hashable (value_of "virtualServerId" PNone fs) = true ->
               fst (Post.add_env_filesystem self (fss, vss) r w tr)
               = Ok (with_member fss (PStr s),
                     add_truthy vss (value_of "virtualServerId" PNone fs)))
    /\ (s <> "" -> looks_like_id s = false ->
        forall hit,
          found self s w tr = PDict hit ->
          hit <> [] ->
          let fid := value_of "filesystemId" PNone hit in
          let vs := value_of "virtualServerId" PNone hit in
          fst (Pre.resolve self s w tr)
          = Ok (if Py.truthy fid
                then Some (fid, value_of "label" (PStr s) hit)
                else None)
          /\ forall fss vss,
               Py.hashable fid = true ->
               Py.hashable vs = true ->
               fst (Post.add_env_filesystem self (fss, vss) r w tr)
               = Ok (add_truthy fss fid, add_truthy vss vs)).
Proof.
  intros self w tr r s.
  refine (conj _ (conj _ (conj _ (conj _ (conj _ (conj _
           (conj _ (conj _ (conj _ _))))))))).
  - apply looks_like_id_spec.
  - intros Hne Hid. split.
    + pose proof (pre_resolve_sends self s w tr) as H.
      now rewrite Hid in H.
    + intros targets.
      pose proof (post_add_env_filesystem_sends self targets r Hne w tr) as H.
      fold s in H. now rewrite Hid in H.
  - intros Hne Hid. split.
    + pose proof (pre_resolve_sends self s w tr) as H.
      now rewrite Hid in H.
    + intros targets.
      pose proof (post_add_env_filesystem_sends self targets r Hne w tr) as H.
      fold s in H. now rewrite Hid in H.
  - intros st tx data pre fs post Ha Hst Hd Hpre Hfs.
    rewrite (get_filesystem_by_name_result self s w tr st tx data _ Ha Hst Hd).
    now rewrite (first_with_label_hit s pre fs post Hpre Hfs).
  - intros st tx data items Ha Hst Hd Hitems.
    rewrite (get_filesystem_by_name_result self s w tr st tx data _ Ha Hst Hd).
    now rewrite (first_with_label_miss s items Hitems).
  - intros Hne c timestamp created.
    apply (process_filesystem_first_request self c timestamp created r w tr Hne).
  - destruct (lookup_run self s w tr) as [d [E _]]. now rewrite E.
  - intros Hne Hf. split.
    + rewrite pre_resolve_result, Hf. reflexivity.
    + intros fss vss.
      rewrite (post_add_env_result self fss vss r w tr Hne). fold s.
      rewrite Hf. now destruct (looks_like_id s).
  - intros Hne Hid info fs Hfound Hinfo Hfs.
    assert (Ht : Py.truthy (found self s w tr) = true)
      by (rewrite Hfound; destruct info; [contradiction | reflexivity]).
    split.
    + rewrite pre_resolve_result, Ht, Hid, Hfound. cbn [negb Py.get].
      fold (value_of "filesystem" (PDict []) info). rewrite Hfs.
      reflexivity.
    + intros fss vss Hh.
      rewrite (post_add_env_result self fss vss r w tr Hne). fold s.
      rewrite Hid, Ht, Hfound. cbn [Py.get].
      fold (value_of "filesystem" (PDict []) info). rewrite Hfs.
      cbn [Py.get]. fold (value_of "virtualServerId" PNone fs).
      unfold add_truthy.
      destruct (Py.truthy (value_of "virtualServerId" PNone fs));
        [|reflexivity].
      now rewrite (set_add_hashable vss _ Hh).
  - intros Hne Hid hit Hfound Hhit fid vs.
    assert (Ht : Py.truthy (found self s w tr) = true)
      by (rewrite Hfound; destruct hit; [contradiction | reflexivity]).
    split.
    + rewrite pre_resolve_result, Ht, Hid, Hfound. cbn [negb Py.get].
      fold (value_of "filesystemId" PNone hit). fold fid.
      now destruct (Py.truthy fid).
    + intros fss vss Hf Hv.
      rewrite (post_add_env_result self fss vss r w tr Hne). fold s.
      rewrite Hid, Ht, Hfound. cbn [Py.get].
      fold (value_of "filesystemId" PNone hit).
      fold (value_of "virtualServerId" PNone hit). fold fid vs.
      now rewrite (add_truthy_set_add fss fid Hf),
        (add_truthy_set_add vss vs Hv).
Qed.

Lemma C7_reference_resolution_witness :
  (calls (snd (Pre.resolve Examples.client Examples.id_alpha
                 (Examples.site [] []) []))
   = [GetFilesystem (PStr Examples.id_alpha)]
   /\ calls (snd (Post.add_env_filesystem Examples.client ([], [])
                    " 0123456789abcdef0123456789ABCDEF "
                    (Examples.site [] []) []))
      = [GetFilesystem (PStr Examples.id_alpha)])
  /\ (calls (snd (Pre.resolve Examples.client "fs-beta"
                    (Examples.site [] []) []))
      = [GetFilesystems]
      /\ calls (snd (Post.add_env_filesystem Examples.client ([], [])
                       "fs-beta" (Examples.site [] []) []))
         = [GetFilesystems])
  /\ fst (HNAS.get_filesystem_by_name Examples.client "fs-beta"
            (Examples.site [] []) [])
     = Ok (Examples.filesystem "fs-beta" Examples.id_beta)
  /\ fst (HNAS.get_filesystem_by_name Examples.client "FS-BETA"
            (Examples.site [] []) []) = Ok PNone
  /\ (fst (Pre.resolve Examples.client "fs-gamma" (Examples.site [] []) [])
      = Ok None
      /\ fst (Post.add_env_filesystem Examples.client ([], []) " fs-gamma"
                (Examples.site [] []) [])
         = Ok ([], []))
  /\ (fst (Pre.resolve Examples.client "00000000000000000000000000000000"
             (Examples.site [] []) [])
      = Ok None
      /\ fst (Post.add_env_filesystem Examples.client ([], [])
                "00000000000000000000000000000000" (Examples.site [] []) [])
         = Ok ([PStr "00000000000000000000000000000000"], []))
  /\ (fst (Pre.resolve Examples.client Examples.id_alpha
             (Examples.site [] []) [])
      = Ok (Some (PStr Examples.id_alpha, PStr "fs-alpha"))
      /\ fst (Post.add_env_filesystem Examples.client ([], [])
                " 0123456789abcdef0123456789ABCDEF " (Examples.site [] []) [])
         = Ok ([PStr Examples.id_alpha], [PStr "vs-1"]))
  /\ (fst (Pre.resolve Examples.client "fs-beta" (Examples.site [] []) [])
      = Ok (Some (PStr Examples.id_beta, PStr "fs-beta"))
      /\ fst (Post.add_env_filesystem Examples.client ([], []) "fs-beta"
                (Examples.site [] []) [])
         = Ok ([PStr Examples.id_beta], [PStr "vs-1"])).
Proof.
  pose (at_ref := C7_reference_resolution Examples.client
                    (Examples.site [] []) []).
  refine (conj _ (conj _ (conj _ (conj _ (conj _ (conj _ (conj _ _))))))).
  - destruct (proj1 (proj2 (at_ref " 0123456789abcdef0123456789ABCDEF "))
                ltac:(discriminate) eq_refl) as [H1 H2].
    split; [exact H1 | exact (H2 ([], []))].
  - destruct (proj1 (proj2 (proj2 (at_ref "fs-beta")))
                ltac:(discriminate) eq_refl) as [H1 H2].
    split; [exact H1 | exact (H2 ([], []))].
  - eapply (proj1 (proj2 (proj2 (proj2 (at_ref "fs-beta"))))
              200 "" _ [Examples.filesystem "fs-alpha" Examples.id_alpha]
              (Examples.filesystem "fs-beta" Examples.id_beta) []);
      reflexivity.
  - eapply (proj1 (proj2 (proj2 (proj2 (proj2 (at_ref "FS-BETA")))))
              200 "" _ [Examples.filesystem "fs-alpha" Examples.id_alpha;
                        Examples.filesystem "fs-beta" Examples.id_beta]);
      reflexivity.
  - destruct (proj1 (proj2 (proj2 (proj2 (proj2 (proj2 (proj2 (proj2
                (at_ref " fs-gamma"))))))))
                ltac:(discriminate) eq_refl) as [H1 H2].
    split; [exact H1 | exact (H2 [] [])].
  - destruct (proj1 (proj2 (proj2 (proj2 (proj2 (proj2 (proj2 (proj2
                (at_ref "00000000000000000000000000000000"))))))))
                ltac:(discriminate) eq_refl) as [H1 H2].
    split; [exact H1 | exact (H2 [] [])].
  - destruct (proj1 (proj2 (proj2 (proj2 (proj2 (proj2 (proj2 (proj2 (proj2
                (at_ref " 0123456789abcdef0123456789ABCDEF ")))))))))
                ltac:(discriminate) eq_refl
                [("filesystem", Examples.filesystem "fs-alpha" Examples.id_alpha)]
                [("label", PStr "fs-alpha");
                 ("filesystemId", PStr Examples.id_alpha);
                 ("virtualServerId", PStr "vs-1")]
                eq_refl ltac:(discriminate) eq_refl) as [H1 H2].
    split; [exact H1 | exact (H2 [] [] eq_refl)].
  - destruct (proj2 (proj2 (proj2 (proj2 (proj2 (proj2 (proj2 (proj2 (proj2
                (at_ref "fs-beta")))))))))
                ltac:(discriminate) eq_refl
                [("label", PStr "fs-beta");
                 ("filesystemId", PStr Examples.id_beta);
                 ("virtualServerId", PStr "vs-1")]
                eq_refl ltac:(discriminate)) as [H1 H2].
    split; [exact H1 | exact (H2 [] [] eq_refl eq_refl)].
Defined.

(** ** The label in the name of a snapshot *)

Lemma snapshot_names_viewed tr : snapshot_names tr = viewed name_of tr.
Proof.
  unfold viewed. induction tr as [|e tr IH]; [reflexivity|].
  destruct e as [| c | | | | |]; cbn [snapshot_names calls]; try exact IH.
  cbn [flat_map]. rewrite <- IH. unfold name_of.
  destruct (call_request c); try reflexivity.
  destruct (Py.get payload "displayName" PNone); reflexivity.
Qed.

Lemma create_snapshot_names self fid name tag interval :
  emits name_of [PStr name] (Pre.create_snapshot self fid name tag interval).
Proof.
  unfold Pre.create_snapshot.
  apply emits_try_except_quiet; [|intros e; destruct e; quiet].
  intros w tr. unfold bind at 1. unfold log at 1. unfold emit at 1.
  pose proof (emits_bind_quiet name_of
                (name_of (PostSnapshot (Pre.snapshot_data fid name tag interval)))
                (HNAS.send self 60
                   (PostSnapshot (Pre.snapshot_data fid name tag interval)))
                (fun r =>
                   bind (HNAS.raise_for_status r)
                     (fun _ =>
                        bind (HNAS.json r)
                          (fun snapshot_info =>
                             bind (lift (Py.get snapshot_info "snapshot" (PDict [])))
                               (fun snapshot =>
                                  bind (lift (Py.get snapshot "displayName"
                                                (PStr name)))
                                    (fun shown =>
                                       bind (log INFO
                                               "Successfully created snapshot: {}"
                                               [LVal shown])
                                         (fun _ => ret snapshot))))))
                (send_emits name_of self 60 _)) as H.
  rewrite H; [|intros; quiet].
  rewrite viewed_app. unfold viewed at 2. cbn [calls flat_map].
  now rewrite app_nil_r.
Qed.

Lemma pre_resolve_unnamed self s : adds (hidden name_of) (Pre.resolve self s).
Proof. quiet. Qed.

Lemma share_keys_unnamed self c fid name :
  adds (hidden name_of) (Pre.share_keys self c fid name).
Proof. quiet. Qed.

(** One step of the pre-backup loop asks for one snapshot when the
    reference is resolved, named after the label the resolution gave, and
    for none otherwise. *)
Lemma process_filesystem_asks self c ts created r w tr :
  let s := PyStr.strip r in
  let started :=
    tr ++ [Logged INFO "Processing filesystem input: {}" [LVal (PStr s)]] in
  s <> "" ->
  viewed name_of (snd (Pre.process_filesystem self c ts created r w tr))
  = viewed name_of tr
    ++ match fst (Pre.resolve self s w started) with
       | Ok (Some (_, label)) =>
           [PStr (display_name (prefix_of c) (label_text w label) ts)]
       | _ => []
       end.
Proof.
  intros s started Hne. unfold Pre.process_filesystem. cbv zeta. fold s.
  destruct (String.eqb_spec s ""); [contradiction|].
  unfold bind at 1. unfold log at 1. unfold emit at 1. fold started.
  assert (Hs : viewed name_of started = viewed name_of tr).
  { unfold started. rewrite viewed_app. apply app_nil_r. }
  pose proof (quiet_run name_of (Pre.resolve self s) w started
                (pre_resolve_unnamed self s)) as Hq.
  unfold bind at 1.
  destruct (Pre.resolve self s w started) as [[[[fid label]|]|e] t1];
    cbn [fst snd] in Hq |- *;
    try (unfold ret; cbn [snd]; rewrite Hq, Hs; now rewrite app_nil_r).
  unfold bind at 1.
  assert (Hf : format label w t1 = (Ok (label_text w label), t1))
    by (destruct label; reflexivity).
  rewrite Hf. unfold bind at 1. unfold log at 1. unfold emit at 1.
  rewrite <- Hs, <- Hq.
  match goal with
  | |- viewed name_of (snd (bind ?m ?k w ?t)) = _ =>
      rewrite (emits_bind_quiet name_of [PStr (Pre.snapshot_name_of
                                               (Pre.app_search_id c)
                                               (label_text w label) ts)]
                 m k (create_snapshot_names _ _ _ _ _))
  end.
  - rewrite viewed_app. unfold viewed at 2. cbn [calls flat_map].
    rewrite app_nil_r, snapshot_name_display. reflexivity.
  - intros snapshot. destruct (Py.truthy snapshot); [|quiet].
    apply adds_bind; [quiet|]. intros oid.
    apply adds_bind; [quiet|]. intros ct.
    apply adds_bind; [apply share_keys_unnamed | intros; quiet].
Qed.

(** What a step of the loop records is named like the snapshot it asked
    for. *)
Lemma process_filesystem_records self c ts created r w tr created' :
  let s := PyStr.strip r in
  let started :=
    tr ++ [Logged INFO "Processing filesystem input: {}" [LVal (PStr s)]] in
  s <> "" ->
  fst (Pre.process_filesystem self c ts created r w tr) = Ok created' ->
  created' = created
  \/ exists fid label entry,
       fst (Pre.resolve self s w started) = Ok (Some (fid, label))
       /\ created' = created ++ [entry]
       /\ Py.get entry "filesystem_id" PNone = Ok fid
       /\ Py.get entry "filesystem_name" PNone = Ok label
       /\ Py.get entry "snapshot_name" PNone
          = Ok (PStr (display_name (prefix_of c) (label_text w label) ts)).
Proof.
  intros s started Hne H.
  destruct (Pre.process_filesystem self c ts created r w tr) as [res tr']
    eqn:E. cbn [fst] in H. subst res.
  unfold Pre.process_filesystem in E. cbv zeta in E. fold s in E.
  destruct (String.eqb_spec s ""); [contradiction|].
  apply bind_ok_inv in E as (u & t0 & Hlog & E).
  unfold log, emit in Hlog. injection Hlog as _ <-. fold started in E.
  apply bind_ok_inv in E as (res & t1 & Hres & E). rewrite Hres. cbn [fst].
  destruct res as [[fid label]|].
  2:{ apply ret_ok_inv in E as [<- _]. now left. }
  apply bind_ok_inv in E as (text & t2 & Hf & E).
  apply format_ok_inv in Hf as [-> <-].
  apply bind_ok_inv in E as (u' & t3 & _ & E).
  apply bind_ok_inv in E as (snapshot & t4 & _ & E).
  destruct (Py.truthy snapshot).
  2:{ apply bind_ok_inv in E as (u'' & t5 & _ & E).
      apply ret_ok_inv in E as [<- _]. now left. }
  apply bind_ok_inv in E as (oid & t5 & _ & E).
  apply bind_ok_inv in E as (ct & t6 & _ & E).
  apply bind_ok_inv in E as (shared & t7 & _ & E).
  apply ret_ok_inv in E as [<- _]. right.
  eexists fid, label, _. split; [reflexivity|]. split; [reflexivity|].
  cbn [Py.get Py.assoc]. cbn. rewrite snapshot_name_display. auto.
Qed.

(** C8.  In every pre-backup run there is one time stamp such that every
    snapshot the run asks for is named [{prefix}_{label}_{timestamp}] and
    the manifest it writes carries that time stamp and, for every entry,
    the name made of the prefix, the label of the entry and that time
    stamp; the prefix is the configured tag, and [veeam] when no tag is
    configured.  For [fs-alpha] and [fs-beta] with the tag [veeam] at
    20240115_030000 the names are [veeam_fs-alpha_20240115_030000] and
    [veeam_fs-beta_20240115_030000], in the requests and in the two
    entries of the manifest.  The label in a name is the label of the
    filesystem as the array gives it when the reference is looked up: a
    step of the loop whose look-up finds nothing asks for no snapshot; a
    step for an identifier asks for one snapshot, named with the label the
    document of the filesystem holds (the identifier when it holds none);
    a step for any other reference asks for one snapshot, named with the
    label of the listed filesystem found, when that has an identifier;
    and what the step records carries that label and that name. *)
Theorem C8_snapshot_names_share_run_timestamp :
  (forall (env : gmap string string) (w : world),
      exists timestamp,
        Forall (fun name => exists label,
                    name = PStr (display_name (name_prefix env) label timestamp))
          (snapshot_names (snd (Pre.main env w [])))
        /\ Forall (fun '(path, doc) =>
                     well_named_manifest w (name_prefix env) timestamp doc)
             (written (snd (Pre.main env w []))))
  /\ (forall env first rest,
         name_prefix (delete "HNAS_APP_SEARCH_ID" env) = "veeam"
         /\ name_prefix (<["HNAS_APP_SEARCH_ID" := ""]> env) = "veeam"
         /\ name_prefix (<["HNAS_APP_SEARCH_ID" := String first rest]> env)
            = String first rest)
  /\ snapshot_names (snd (Pre.main Examples.pre_env (Examples.site [] []) []))
     = [PStr "veeam_fs-alpha_20240115_030000";
        PStr "veeam_fs-beta_20240115_030000"]
  /\ List.map (fun '(path, doc) => manifest_names doc)
       (written (snd (Pre.main Examples.pre_env (Examples.site [] []) [])))
     = [[PStr "veeam_fs-alpha_20240115_030000";
         PStr "veeam_fs-beta_20240115_030000"]]
  /\ (forall env n, prefix_of (pre_config env n) = name_prefix env)
  /\ (forall (self : HNAS.manager) (c : Pre.config) (ts : string)
             (created : list pyval) (r : string) (w : world) (tr : list event),
         let s := PyStr.strip r in
         let started :=
           tr ++ [Logged INFO "Processing filesystem input: {}"
                    [LVal (PStr s)]] in
         let step := Pre.process_filesystem self c ts created r w tr in
         let name label :=
           PStr (display_name (prefix_of c) (label_text w label) ts) in
         let records label :=
           forall created',
             fst step = Ok created' ->
             created' = created
             \/ exists entry,
                  created' = created ++ [entry]
                  /\ Py.get entry "filesystem_name" PNone = Ok label
                  /\ Py.get entry "snapshot_name" PNone = Ok (name label) in
         s <> "" ->
         (Py.truthy (found self s w started) = false ->
          snapshot_names (snd step) = snapshot_names tr)
         /\ (looks_like_id s = true ->
             forall info fs,
               found self s w started = PDict info ->
               info <> [] ->
               value_of "filesystem" (PDict []) info = PDict fs ->
               let label := value_of "label" (PStr s) fs in
               snapshot_names (snd step) = snapshot_names tr ++ [name label]
               /\ records label)
         /\ (looks_like_id s = false ->
             forall hit,
               found self s w started = PDict hit ->
               Py.truthy (value_of "filesystemId" PNone hit) = true ->
               let label := value_of "label" (PStr s) hit in
               snapshot_names (snd step) = snapshot_names tr ++ [name label]
               /\ records label)).
Proof.
  refine (conj _ (conj _ (conj _ (conj _ (conj _ _))))).
  - intros env w. rewrite pre_main_run.
    assert (Hw0 : Forall no_write (snd (Pre.startup env w []))).
    { apply adds_run; [apply (proj1 (no_write_names env)) | constructor]. }
    assert (Hn0 : forall ts,
               Forall (names_snapshots (name_prefix env) ts)
                 (snd (Pre.startup env w []))).
    { intros ts. apply adds_run; [apply startup_names | constructor]. }
    destruct (Pre.startup env w []) as [[[c hnas]|e] tr0] eqn:Es; cbn [snd] in *.
    + exists (now_stamp w tr0).
      assert (Hp : (if String.eqb (Pre.app_search_id c) "" then "veeam"
                    else Pre.app_search_id c) = name_prefix env).
      { rewrite (pre_startup_tag env w [] c hnas tr0 Es).
        apply name_prefix_tag. }
      split.
      * apply names_of_trace. apply adds_run; [|apply Hn0].
        apply adds_bind.
        -- unfold Pre.snapshot_all. apply adds_for_fold. intros s x.
           rewrite <- Hp. apply process_filesystem_names.
        -- intros created. apply finish_names.
      * unfold bind at 1. unfold Pre.snapshot_all.
        assert (Hw1 : Forall no_write
                        (snd (for_fold (Pre.filesystems c) []
                                (Pre.process_filesystem hnas c (now_stamp w tr0))
                                w tr0))).
        { apply adds_run; [|exact Hw0]. apply adds_for_fold. intros s x.
          apply (proj2 (no_write_names env)). }
        destruct (for_fold (Pre.filesystems c) []
                    (Pre.process_filesystem hnas c (now_stamp w tr0)) w tr0)
          as [[created|e] tr1] eqn:El; cbv beta iota; cbn [snd] in *.
        -- destruct (finish_written env c (now_stamp w tr0) created w tr1)
             as [d [E F]].
           rewrite E, written_app, (no_write_written tr1 Hw1). simpl.
           apply written_forall. eapply Forall_impl; [exact F|].
           intros [] He; try exact I. destruct He as [_ ->].
           split; [reflexivity|]. exists created. split; [reflexivity|].
           rewrite <- Hp.
           eapply (for_fold_invariant _ _ _ w); [| | exact El].
           ++ intros s x tr s' tr' Hs Hb.
              eapply process_filesystem_named; eassumption.
           ++ constructor.
        -- rewrite (no_write_written tr1 Hw1). constructor.
    + exists "". split.
      * apply names_of_trace. apply Hn0.
      * rewrite (no_write_written tr0 Hw0). constructor.
  - intros env first rest. unfold name_prefix.
    rewrite lookup_delete_eq, !lookup_insert_eq. auto.
  - vm_compute. reflexivity.
  - vm_compute. reflexivity.
  - intros env n. unfold prefix_of, pre_config. cbn [Pre.app_search_id].
    apply name_prefix_tag.
  - intros self c ts created r w tr s started step name records Hne.
    pose proof (process_filesystem_asks self c ts created r w tr Hne) as Ha.
    pose proof (pre_resolve_result self s w started) as Hr.
    fold s started in Ha. rewrite <- !snapshot_names_viewed in Ha.
    assert (Hrec : forall fid label,
               fst (Pre.resolve self s w started) = Ok (Some (fid, label)) ->
               records label).
    { intros fid label Hres created' Hc.
      destruct (process_filesystem_records self c ts created r w tr created'
                  Hne Hc) as [->|(fid' & label' & entry & Hres' & -> & _ & Hn & Hs)];
        [now left|].
      fold s started in Hres'. rewrite Hres in Hres'.
      injection Hres' as <- <-. right. exists entry. auto. }
    refine (conj _ (conj _ _)).
    + intros Hf. rewrite Hf in Hr. cbn [negb] in Hr.
      unfold step. rewrite Ha, Hr. apply app_nil_r.
    + intros Hid info fs Hfound Hinfo Hfs label.
      assert (Ht : Py.truthy (found self s w started) = true)
        by (rewrite Hfound; destruct info; [contradiction | reflexivity]).
      rewrite Ht, Hid, Hfound in Hr. cbn [negb Py.get] in Hr.
      fold (value_of "filesystem" (PDict []) info) in Hr. rewrite Hfs in Hr.
      cbn [Py.get] in Hr. fold (value_of "label" (PStr s) fs) in Hr.
      fold label in Hr.
      split; [unfold step; now rewrite Ha, Hr | exact (Hrec _ _ Hr)].
    + intros Hid hit Hfound Hfid label.
      assert (Ht : Py.truthy (found self s w started) = true).
      { rewrite Hfound. destruct hit; [discriminate Hfid | reflexivity]. }
      rewrite Ht, Hid, Hfound in Hr. cbn [negb Py.get] in Hr.
      fold (value_of "filesystemId" PNone hit) in Hr. rewrite Hfid in Hr.
      fold (value_of "label" (PStr s) hit) in Hr. fold label in Hr.
      split; [unfold step; now rewrite Ha, Hr | exact (Hrec _ _ Hr)].
Qed.

Lemma C8_snapshot_names_share_run_timestamp_witness :
  snapshot_names
    (snd (Pre.process_filesystem Examples.client
            (pre_config Examples.pre_env 0) "20240115_030000" [] " fs-gamma"
            (Examples.site [] []) []))
  = []
  /\ snapshot_names
       (snd (Pre.process_filesystem Examples.client
               (pre_config Examples.pre_env 0) "20240115_030000" []
               Examples.id_alpha (Examples.site [] []) []))
     = [] ++ [PStr "veeam_fs-alpha_20240115_030000"]
  /\ snapshot_names
       (snd (Pre.process_filesystem Examples.client
               (pre_config Examples.pre_env 0) "20240115_030000" []
               "fs-beta" (Examples.site [] []) []))
     = [] ++ [PStr "veeam_fs-beta_20240115_030000"].
Proof.
  pose (step := proj2 (proj2 (proj2 (proj2 (proj2
                  C8_snapshot_names_share_run_timestamp))))
                Examples.client (pre_config Examples.pre_env 0)
                "20240115_030000" []).
  refine (conj _ (conj _ _)).
  - apply (proj1 (step " fs-gamma" (Examples.site [] []) []
                    ltac:(discriminate))).
    reflexivity.
  - apply (proj1 (proj2 (step Examples.id_alpha (Examples.site [] []) []
                           ltac:(discriminate)))
             eq_refl
             [("filesystem", Examples.filesystem "fs-alpha" Examples.id_alpha)]
             [("label", PStr "fs-alpha");
              ("filesystemId", PStr Examples.id_alpha);
              ("virtualServerId", PStr "vs-1")]
             eq_refl ltac:(discriminate) eq_refl).
  - apply (proj2 (proj2 (step "fs-beta" (Examples.site [] []) []
                           ltac:(discriminate)))
             eq_refl
             [("label", PStr "fs-beta");
              ("filesystemId", PStr Examples.id_beta);
              ("virtualServerId", PStr "vs-1")]
             eq_refl eq_refl).
Defined.

(** ** The answers to the look-ups of a run *)

Lemma lookup_answers_from_app w a : forall past b,
  lookup_answers_from w past (a ++ b)
  = lookup_answers_from w past a ++ lookup_answers_from w (past ++ a) b.
Proof.
  induction a as [|e a IH]; intros past b; cbn [app lookup_answers_from].
  - now rewrite app_nil_r.
  - rewrite IH, <- !app_assoc. reflexivity.
Qed.

Lemma lookup_answers_app w tr d :
  lookup_answers w (tr ++ d)
  = lookup_answers w tr ++ lookup_answers_from w tr d.
Proof. unfold lookup_answers. now rewrite lookup_answers_from_app. Qed.

Lemma lookup_answers_none w d : forall past,
  Forall no_lookup d -> lookup_answers_from w past d = [].
Proof.
  induction d as [|e d IH]; intros past H; [reflexivity|].
  inversion H as [|? ? He Hd]; subst. cbn [lookup_answers_from].
  rewrite (IH _ Hd), app_nil_r.
  destruct e; try reflexivity. cbn in He. now rewrite He.
Qed.

Lemma no_call_no_lookup d : Forall no_call d -> Forall no_lookup d.
Proof.
  intros H. eapply Forall_impl; [exact H|].
  intros [] He; try exact I. destruct He.
Qed.

(** A computation that sends no look-up leaves the answers as they
    are. *)
Lemma no_lookup_run {A} (m : M A) w tr :
  adds no_lookup m ->
  lookup_answers w (snd (m w tr)) = lookup_answers w tr.
Proof.
  intros Hm. destruct (Hm w tr) as [d [E F]].
  now rewrite E, lookup_answers_app, (lookup_answers_none w d tr F), app_nil_r.
Qed.

Ltac no_lookup_leaf :=
  lazymatch goal with
  | H : call_request ?c = _ |- no_lookup (Called ?c) =>
      unfold no_lookup; rewrite H; reflexivity
  | |- no_lookup _ => exact I
  end.

Lemma found_found_in self s w tr :
  found self s w tr = found_in s (answer self 30 (lookup_request s) w tr).
Proof.
  unfold found, found_in, document, lookup_request.
  now destruct (looks_like_id s).
Qed.

(** The look-up of a reference adds one answer. *)
Lemma lookup_answered self s w tr d :
  Forall no_call d ->
  lookup_answers w (tr ++ Called (lookup_call self s) :: d)
  = lookup_answers w tr ++ [answer self 30 (lookup_request s) w tr].
Proof.
  intros F. rewrite lookup_answers_app. f_equal.
  cbn [lookup_answers_from].
  rewrite (lookup_answers_none w d _ (no_call_no_lookup d F)), app_nil_r.
  unfold lookup_call, answer. cbn [call_request].
  unfold lookup_request. now destruct (looks_like_id s).
Qed.

(** ** The steps that collect the targets *)

Lemma get_filesystem_info_run self fid w tr :
  exists d,
    HNAS.get_filesystem_info self fid w tr
    = (Ok (document (answer self 30 (GetFilesystem fid) w tr)),
       tr ++ Called (mkcall (HNAS.hnas_host self) (HNAS.verify_ssl self)
                       (HNAS.auth self) 30 (GetFilesystem fid)) :: d)
    /\ Forall no_call d.
Proof.
  destruct (get_filesystem_info_opens self fid w tr) as [d [E F]].
  destruct (get_filesystem_info_query self fid w tr) as [V _].
  exists d. split; [|exact F].
  destruct (HNAS.get_filesystem_info self fid w tr) as [v t].
  cbn [fst snd] in *. unfold document. now subst.
Qed.

Lemma get_ok_inv v k default x :
  Py.get v k default = Ok x ->
  exists entries, v = PDict entries /\ x = value_of k default entries.
Proof.
  destruct v; cbn; try discriminate. intros H. injection H as <-. eauto.
Qed.

Lemma set_add_member s v s' : Py.set_add s v = Ok s' -> s' = with_member s v.
Proof. intros H. apply set_add_ok_inv in H. exact H. Qed.

Lemma virtual_server_in_falsy doc :
  Py.truthy doc = false -> Py.truthy (virtual_server_in doc) = false.
Proof.
  destruct doc; try reflexivity. destruct entries; [reflexivity|].
  discriminate.
Qed.

(** What [add_virtual_server] adds. *)
Lemma add_virtual_server_ok doc vss w tr vss' tr' :
  Post.add_virtual_server doc vss w tr = (Ok vss', tr') ->
  vss' = add_truthy vss (virtual_server_in doc) /\ tr' = tr.
Proof.
  unfold Post.add_virtual_server. intros H.
  apply bind_ok_inv in H as (fs & t1 & Hf & H).
  apply lift_ok_inv in Hf as [Hf <-].
  apply bind_ok_inv in H as (vs & t2 & Hv & H).
  apply lift_ok_inv in Hv as [Hv <-].
  apply get_ok_inv in Hf as (info & -> & ->).
  apply get_ok_inv in Hv as (f & Ef & ->).
  unfold add_truthy, virtual_server_in. rewrite Ef.
  destruct (Py.truthy (value_of "virtualServerId" PNone f)).
  - apply lift_ok_inv in H as [H <-]. apply set_add_member in H. auto.
  - apply ret_ok_inv in H as [<- <-]. auto.
Qed.

(** One step of the loop over the filesystems of the manifest. *)
Lemma manifest_virtual_server_step self vss fid w tr vss' tr' :
  bind (HNAS.get_filesystem_info self fid)
    (fun fs_info =>
       if Py.truthy fs_info then Post.add_virtual_server fs_info vss
       else ret vss) w tr = (Ok vss', tr') ->
  vss' = add_truthy vss
           (virtual_server_in
              (document (answer self 30 (GetFilesystem fid) w tr)))
  /\ lookup_answers w tr'
     = lookup_answers w tr ++ [answer self 30 (GetFilesystem fid) w tr]
  /\ (forall X (view : request -> list X),
         viewed view tr' = viewed view tr ++ view (GetFilesystem fid)).
Proof.
  intros H. apply bind_ok_inv in H as (doc & t1 & Hg & H).
  destruct (get_filesystem_info_run self fid w tr) as [d [E F]].
  rewrite E in Hg. injection Hg as <- <-.
  assert (Ht : vss' = add_truthy vss
                        (virtual_server_in
                           (document (answer self 30 (GetFilesystem fid) w tr)))
               /\ tr' = tr ++ Called (mkcall (HNAS.hnas_host self)
                                        (HNAS.verify_ssl self) (HNAS.auth self)
                                        30 (GetFilesystem fid)) :: d).
  { destruct (Py.truthy _) eqn:T.
    - now apply add_virtual_server_ok in H.
    - apply ret_ok_inv in H as [<- <-]. split; [|reflexivity].
      unfold add_truthy. now rewrite (virtual_server_in_falsy _ T). }
  destruct Ht as [-> ->]. split; [reflexivity|]. split.
  - rewrite lookup_answers_app. f_equal. cbn [lookup_answers_from].
    now rewrite (lookup_answers_none w d _ (no_call_no_lookup d F)), app_nil_r.
  - intros X view. rewrite viewed_app. f_equal.
    unfold viewed. cbn [calls flat_map call_request].
    rewrite (calls_no_call d F). now rewrite app_nil_r.
Qed.

(** The loop over the filesystems of the manifest: one look-up each, and
    the virtual servers the answers resolve. *)
Lemma manifest_virtual_servers_loop self fss : forall vss w tr vss' tr',
  for_fold fss vss
    (fun virtual_servers filesystem_id =>
       bind (HNAS.get_filesystem_info self filesystem_id)
         (fun fs_info =>
            if Py.truthy fs_info
            then Post.add_virtual_server fs_info virtual_servers
            else ret virtual_servers)) w tr = (Ok vss', tr') ->
  exists new,
    lookup_answers w tr' = lookup_answers w tr ++ new
    /\ vss' = fold_left
                (fun vss o => add_truthy vss (virtual_server_in (document o)))
                new vss.
Proof.
  induction fss as [|fid fss IH]; intros vss w tr vss' tr' H;
    cbn [for_fold] in H.
  - apply ret_ok_inv in H as [<- <-]. exists []. now rewrite app_nil_r.
  - apply bind_ok_inv in H as (vss1 & tr1 & H1 & H2).
    apply manifest_virtual_server_step in H1 as (-> & A1 & _).
    apply IH in H2 as (new & A2 & ->).
    exists (answer self 30 (GetFilesystem fid) w tr :: new).
    rewrite A2, A1, <- app_assoc. auto.
Qed.

Lemma targets_from_manifest_resolved self created w tr fss vss tr' :
  Post.targets_from_manifest self created w tr = (Ok (fss, vss), tr') ->
  exists new,
    lookup_answers w tr' = lookup_answers w tr ++ new
    /\ vss = resolved_virtual_servers new.
Proof.
  unfold Post.targets_from_manifest. intros H.
  apply bind_ok_inv in H as (items & tr1 & Hi & H).
  apply lift_ok_inv in Hi as [Hi <-].
  apply bind_ok_inv in H as (fss0 & tr2 & Hf & H).
  apply manifest_filesystems_ok in Hf as [-> ->].
  apply bind_ok_inv in H as (vss0 & tr3 & Hv & H).
  apply ret_ok_inv in H as [H <-]. injection H as <- <-.
  apply manifest_virtual_servers_loop in Hv as (new & A & ->).
  exists new. auto.
Qed.

Lemma truthy_dict entries :
  Py.truthy (PDict entries) = false -> entries = [].
Proof. destruct entries; [reflexivity | discriminate]. Qed.

(** One step of the fall-back. *)
Lemma add_env_filesystem_step self fss vss r w tr t' tr' :
  Post.add_env_filesystem self (fss, vss) r w tr = (Ok t', tr') ->
  let s := PyStr.strip r in
  if String.eqb s "" then
    t' = (fss, vss) /\ tr' = tr
  else
    t' = fallback_step s (found self s w tr) (fss, vss)
    /\ lookup_answers w tr'
       = lookup_answers w tr ++ [answer self 30 (lookup_request s) w tr].
Proof.
  intros H s. unfold Post.add_env_filesystem in H. cbv zeta in H. fold s in H.
  destruct (String.eqb s "").
  { apply ret_ok_inv in H as [<- <-]. auto. }
  destruct (lookup_run self s w tr) as [d [E F]].
  unfold fallback_step.
  destruct (looks_like_id s).
  - apply bind_ok_inv in H as (fss1 & t1 & Hs & H).
    apply lift_ok_inv in Hs as [Hs <-]. apply set_add_member in Hs. subst fss1.
    apply bind_ok_inv in H as (doc & t2 & Hg & H).
    rewrite E in Hg. injection Hg as <- <-.
    destruct (Py.truthy (found self s w tr)) eqn:T.
    + apply bind_ok_inv in H as (vss1 & t3 & Hv & H).
      apply add_virtual_server_ok in Hv as [-> ->].
      apply ret_ok_inv in H as [<- <-].
      split; [reflexivity | now apply lookup_answered].
    + apply ret_ok_inv in H as [<- <-].
      unfold add_truthy. rewrite (virtual_server_in_falsy _ T).
      split; [reflexivity | now apply lookup_answered].
  - apply bind_ok_inv in H as (doc & t2 & Hg & H).
    rewrite E in Hg. injection Hg as <- <-.
    destruct (Py.truthy (found self s w tr)) eqn:T.
    + apply bind_ok_inv in H as (fid & t3 & Hf & H).
      apply lift_ok_inv in Hf as [Hf <-].
      apply get_ok_inv in Hf as (hit & Eh & ->). rewrite Eh in *.
      apply bind_ok_inv in H as (vs & t4 & Hv & H).
      apply lift_ok_inv in Hv as [Hv <-]. cbn [Py.get] in Hv.
      injection Hv as <-. fold (value_of "virtualServerId" PNone hit) in H.
      apply bind_ok_inv in H as (fss1 & t5 & Ha & H).
      apply bind_ok_inv in H as (vss1 & t6 & Hb & H).
      apply ret_ok_inv in H as [<- <-].
      unfold add_truthy.
      destruct (Py.truthy (value_of "filesystemId" PNone hit));
        destruct (Py.truthy (value_of "virtualServerId" PNone hit));
        repeat match goal with
          | K : lift _ _ _ = (Ok _, _) |- _ =>
              apply lift_ok_inv in K as [K <-]; apply set_add_member in K;
              subst
          | K : ret _ _ _ = (Ok _, _) |- _ =>
              apply ret_ok_inv in K as [<- <-]
          end;
        (split; [reflexivity | now apply lookup_answered]).
    + apply ret_ok_inv in H as [<- <-].
      split; [|now apply lookup_answered].
      destruct (found self s w tr); try reflexivity.
      apply truthy_dict in T. subst entries. reflexivity.
Qed.

(** The fall-back over the references: every reference that is not blank
    is looked up once, and the targets are those its answers give. *)
Lemma targets_from_environment_resolved self refs : forall t w tr t' tr',
  for_fold refs t (Post.add_env_filesystem self) w tr = (Ok t', tr') ->
  exists new,
    lookup_answers w tr' = lookup_answers w tr ++ new
    /\ t' = fallback_targets refs new t.
Proof.
  induction refs as [|r refs IH]; intros t w tr t' tr' H; cbn [for_fold] in H.
  - apply ret_ok_inv in H as [<- <-]. exists []. now rewrite app_nil_r.
  - apply bind_ok_inv in H as ([fss1 vss1] & tr1 & H1 & H2).
    destruct t as [fss vss].
    apply add_env_filesystem_step in H1. cbv zeta in H1.
    apply IH in H2 as (new & A2 & ->).
    cbn [fallback_targets].
    destruct (String.eqb (PyStr.strip r) "").
    + destruct H1 as [E ->]. injection E as -> ->. exists new. auto.
    + destruct H1 as [E A1].
      exists (answer self 30 (lookup_request (PyStr.strip r)) w tr :: new).
      rewrite A2, A1, <- app_assoc. split; [reflexivity|].
      now rewrite <- found_found_in, <- E.
Qed.

(** ** The sweep over the targets *)

Lemma cleanup_old_snapshots_no_lookup self fid app days :
  adds no_lookup (Post.cleanup_old_snapshots self fid app days).
Proof. adds_all; no_lookup_leaf. Qed.

Lemma cleanup_old_smb_shares_no_lookup self vs prefix days :
  adds no_lookup (Post.cleanup_old_smb_shares self vs prefix days).
Proof. adds_all; no_lookup_leaf. Qed.

(** The two loops of the sweep list the shares of every virtual server
    among the targets and look nothing up. *)
Lemma sweep_loops_listing self c fss vss w tr tr1 tr' :
  for_each fss
    (fun filesystem_id =>
       bind (Post.cleanup_old_snapshots self filesystem_id
               (Post.app_search_id c) (Post.retention_days c))
         (fun cleanup_count =>
            if 0 <? cleanup_count
            then log INFO "Cleaned up {} old snapshots from filesystem '{}'"
                   [LVal (PInt cleanup_count); LVal filesystem_id]
            else ret tt)) w tr = (Ok tt, tr1) ->
  for_each vss
    (fun virtual_server_id =>
       bind (Post.cleanup_old_smb_shares self virtual_server_id
               (Post.smb_share_name c) (Post.retention_days c))
         (fun cleanup_count =>
            if 0 <? cleanup_count
            then log INFO "Cleaned up {} old SMB shares from virtual server '{}'"
                   [LVal (PInt cleanup_count); LVal virtual_server_id]
            else ret tt)) w tr1 = (Ok tt, tr') ->
  viewed share_listing_of tr' = viewed share_listing_of tr ++ vss
  /\ lookup_answers w tr' = lookup_answers w tr.
Proof.
  intros H1 H2. split.
  - assert (Q1 : viewed share_listing_of tr1 = viewed share_listing_of tr).
    { match type of H1 with
      | ?m w tr = _ =>
          pose proof (quiet_run share_listing_of m w tr) as Hq
      end.
      rewrite H1 in Hq. apply Hq.
      apply adds_for_each. intros x. apply adds_bind.
      - now apply cleanup_old_snapshots_quiet.
      - intros a. destruct (0 <? a); [apply adds_emit; exact I | apply adds_ret]. }
    unfold for_each in H2.
    eapply (for_fold_emits share_listing_of (fun vs => [vs])) in H2.
    + now rewrite H2, Q1, flat_map_single.
    + intros s x. apply emits_bind_quiet.
      * apply cleanup_old_smb_shares_listing.
      * intros a. destruct (0 <? a); [apply adds_emit; exact I | apply adds_ret].
  - match type of H2 with
    | ?m w tr1 = _ => pose proof (no_lookup_run m w tr1) as L2
    end.
    rewrite H2 in L2. cbn [snd] in L2. rewrite L2.
    + match type of H1 with
      | ?m w tr = _ => pose proof (no_lookup_run m w tr) as L1
      end.
      rewrite H1 in L1. apply L1.
      apply adds_for_each. intros x. apply adds_bind.
      * apply cleanup_old_snapshots_no_lookup.
      * intros a. destruct (0 <? a); [apply adds_emit; exact I | apply adds_ret].
    + apply adds_for_each. intros x. apply adds_bind.
      * apply cleanup_old_smb_shares_no_lookup.
      * intros a. destruct (0 <? a); [apply adds_emit; exact I | apply adds_ret].
Qed.

Lemma add_env_filesystem_hidden {X} (view : request -> list X) self t r :
  (forall fid, view (GetFilesystem fid) = []) ->
  view GetFilesystems = [] ->
  adds (hidden view) (Post.add_env_filesystem self t r).
Proof.
  intros H1 H2. adds_all;
    lazymatch goal with
    | H : call_request ?c = _ |- hidden _ (Called ?c) =>
        unfold hidden; rewrite H; auto
    | |- hidden _ _ => exact I
    end.
Qed.

(** A retention sweep that returns has swept the filesystems and listed
    the shares of the virtual servers its look-ups gave: those of the
    manifest with entries from the manifest, those of the references of
    the environment otherwise. *)
Lemma retention_sweep_targets self env c created w tr tr' :
  Post.retention_sweep self env c created w tr = (Ok tt, tr') ->
  exists fss vss new,
    lookup_answers w tr' = lookup_answers w tr ++ new
    /\ viewed swept_of tr' = viewed swept_of tr ++ fss
    /\ viewed share_listing_of tr' = viewed share_listing_of tr ++ vss
    /\ (Py.truthy created = true -> vss = resolved_virtual_servers new)
    /\ (Py.truthy created = false ->
        (fss, vss)
        = fallback_targets
            (PyStr.split "," (environ_get env "HNAS_FILESYSTEMS" "")) new
            ([], [])).
Proof.
  unfold Post.retention_sweep. intros H.
  apply bind_ok_inv in H as (u & tr1 & Hlog & H).
  unfold log, emit in Hlog. injection Hlog as _ <-.
  apply bind_ok_inv in H as ([fss vss] & tr2 & Ht & H).
  apply bind_ok_inv in H as ([] & tr3 & H1 & H2).
  destruct (sweep_loops_ok self c fss vss w tr2 tr3 tr' H1 H2) as (S & _).
  destruct (sweep_loops_listing self c fss vss w tr2 tr3 tr' H1 H2) as (L & A).
  set (tr1 := tr ++ [Logged INFO
            "Performing retention-based cleanup (keeping snapshots newer than {} days)..."
            [LVal (PInt (Post.retention_days c))]]) in *.
  assert (A1 : lookup_answers w tr1 = lookup_answers w tr).
  { unfold tr1. rewrite lookup_answers_app. cbn. apply app_nil_r. }
  assert (V1 : forall X (view : request -> list X),
             viewed view tr1 = viewed view tr).
  { intros X view. unfold tr1. rewrite viewed_app. apply app_nil_r. }
  exists fss, vss.
  destruct (Py.truthy created) eqn:T.
  - pose proof Ht as Hr.
    apply targets_from_manifest_resolved in Hr as (new & An & ->).
    apply targets_from_manifest_ok in Ht as (_ & V).
    exists new. rewrite A, An, A1, S, L, !V, !V1.
    cbn [swept_of share_listing_of]. rewrite !flat_map_none, !app_nil_r.
    repeat split; auto. discriminate.
  - unfold Post.targets_from_environment in Ht. pose proof Ht as Hr.
    apply targets_from_environment_resolved in Hr as (new & An & E).
    exists new. rewrite A, An, A1, S, L.
    assert (Q : forall X (view : request -> list X),
               (forall fid, view (GetFilesystem fid) = []) ->
               view GetFilesystems = [] ->
               viewed view tr2 = viewed view tr).
    { intros X view Ha Hb. rewrite <- (V1 _ view).
      match type of Ht with
      | ?m w tr1 = _ => pose proof (quiet_run view m w tr1) as Hq
      end.
      rewrite Ht in Hq. apply Hq. apply adds_for_fold. intros s x.
      now apply add_env_filesystem_hidden. }
    rewrite (Q _ swept_of), (Q _ share_listing_of) by reflexivity.
    repeat split; auto. discriminate.
Qed.

(** ** When the sweep starts *)

Lemma load_created_snapshots_returns file w tr :
  exists created tr',
    Post.load_created_snapshots file w tr = (Ok created, tr').
Proof.
  unfold Post.load_created_snapshots, bind, ask, log, emit, ret.
  destruct (fs_exists w tr file); [|eauto].
  destruct (fs_load w tr file) as [doc|e]; [|eauto].
  destruct (Py.get doc "snapshots" (PList [])) as [created|e]; [|eauto].
  destruct (Py.len created); eauto.
Qed.

Lemma cleanup_session_returns self cleanup created w tr :
  cleanup = false \/ Py.truthy created = false
  \/ (exists items, created = PList (List.map PDict items)) ->
  exists n tr', Post.cleanup_session self cleanup created w tr = (Ok n, tr').
Proof.
  unfold Post.cleanup_session. intros [->|[->|[items ->]]].
  - cbn [andb]. unfold ret. eauto.
  - rewrite andb_false_r. unfold ret. eauto.
  - destruct (cleanup && Py.truthy (PList (List.map PDict items)));
      [|unfold ret; eauto].
    unfold bind at 1. unfold log at 1. unfold emit at 1.
    unfold bind at 1. unfold lift at 1. cbn [Py.iterate].
    match goal with
    | |- context [for_fold _ 0 _ w ?t] =>
        destruct (cleanup_entries_run self items 0 w t) as (n & d & E & _)
    end.
    rewrite E. eauto.
Qed.

Lemma sweep_started_app tr d :
  sweep_started (tr ++ d) = sweep_started tr || sweep_started d.
Proof. apply existsb_app. Qed.

Lemma not_started d :
  Forall (fun e => starts_sweep e = false) d -> sweep_started d = false.
Proof.
  unfold sweep_started. induction 1 as [|e d He _ IH]; [reflexivity|].
  cbn [existsb]. now rewrite He, IH.
Qed.

(** A session starts the sweep exactly when the window is positive, once
    the clean-up of the session is known to return. *)
Lemma session_sweep_start env b result c hnas w tr0 :
  sweep_started tr0 = false ->
  (forall created tr2,
      Post.load_created_snapshots (Post.snapshot_info_file env) w
        (tr0 ++ [Logged INFO "Backup job result: {}" [LVal (PStr result)]])
      = (Ok created, tr2) ->
      Post.should_cleanup b c = false \/ Py.truthy created = false
      \/ (exists items, created = PList (List.map PDict items))) ->
  sweep_started (snd (Post.session env b result c hnas w tr0))
  = (0 <? Post.retention_days c).
Proof.
  intros H0 Hc. destruct (0 <? Post.retention_days c) eqn:Hd.
  - unfold Post.session. rewrite Hd.
    rewrite (bind_ok _ _ w tr0 tt _ eq_refl).
    destruct (load_created_snapshots_returns (Post.snapshot_info_file env) w
                (tr0 ++ [Logged INFO "Backup job result: {}"
                           [LVal (PStr result)]]))
      as (created & tr2 & El).
    rewrite (bind_ok _ _ w _ _ _ El). cbv zeta.
    destruct (cleanup_session_returns hnas (Post.should_cleanup b c) created
                w tr2 (Hc created tr2 El)) as (n & tr3 & Ec).
    rewrite (bind_ok _ _ w _ _ _ Ec).
    unfold Post.retention_sweep.
    match goal with
    | |- sweep_started (snd (bind (bind (log ?l ?t ?a) ?k1) ?k2 w tr3)) = _ =>
        assert (E : bind (bind (log l t a) k1) k2 w tr3
                    = bind (k1 tt) k2 w (tr3 ++ [Logged l t a]))
          by reflexivity;
        assert (A : adds (fun _ => True) (bind (k1 tt) k2))
          by (adds_all; exact I);
        rewrite E;
        destruct (A w (tr3 ++ [Logged l t a])) as [d [Ed _]]; rewrite Ed
    end.
    rewrite !sweep_started_app. cbn. now rewrite orb_true_r.
  - assert (A : adds (fun e => starts_sweep e = false)
                  (Post.session env b result c hnas)).
    { unfold Post.session. rewrite Hd. adds_all; reflexivity. }
    destruct (A w tr0) as [d [E F]]. rewrite E, sweep_started_app, H0.
    now rewrite (not_started d F).
Qed.

(** The start of the sweep in a run, whatever its end. *)
Lemma post_main_sweep_start env w days :
  PyStr.to_int (max_str_digits w) (environ_get env "HNAS_RETENTION_DAYS" "7")
  = Some days ->
  Post.should_cleanup (fst (Post.validate_backup_result env))
    (post_config env days) = false
  \/ Py.truthy (manifest_entries env w) = false
  \/ (exists items, manifest_entries env w = PList (List.map PDict items)) ->
  sweep_started (snd (Post.main env w []))
  = post_starts env w days && (0 <? days).
Proof.
  intros Hdays Hc. unfold manifest_entries in Hc.
  rewrite post_main_run. rewrite post_startup_run, Hdays in *.
  unfold post_starts.
  destruct (Post.required_present _); cbn [negb andb] in *; [|reflexivity].
  cbv zeta in *.
  destruct (log_setup_ok w _ _); cbn [negb andb] in *; [|reflexivity].
  destruct (connected _); cbn [andb snd] in *; [|reflexivity].
  rewrite session_sweep_start; [reflexivity | reflexivity |].
  intros created tr2 El. rewrite El in Hc. exact Hc.
Qed.

(** ** The run around the sweep *)

Lemma outside_sweep_no_lookup e : outside_sweep e -> no_lookup e.
Proof.
  destruct e as [| c | | | | |]; try (intros; exact I).
  unfold outside_sweep, hidden, no_lookup.
  intros (_ & _ & H1 & H2). destruct (call_request c); try reflexivity;
    discriminate.
Qed.

Lemma outside_sweep_answers_from w past d :
  Forall outside_sweep d -> lookup_answers_from w past d = [].
Proof.
  intros H. apply lookup_answers_none.
  eapply Forall_impl; [exact H | apply outside_sweep_no_lookup].
Qed.

Lemma outside_sweep_answers w tr :
  Forall outside_sweep tr -> lookup_answers w tr = [].
Proof. apply outside_sweep_answers_from. Qed.

Ltac around_leaf := split; [outside_leaf | hidden_leaf].

Lemma around_sweep_trace w tr :
  Forall around_sweep_event tr ->
  Forall outside_sweep tr
  /\ viewed share_listing_of tr = []
  /\ lookup_answers w tr = [].
Proof.
  intros H.
  assert (O : Forall outside_sweep tr)
    by (eapply Forall_impl; [exact H | intros e He; apply He]).
  refine (conj O (conj _ _)).
  - apply viewed_hidden. eapply Forall_impl; [exact H|]. intros e He. apply He.
  - now apply outside_sweep_answers.
Qed.

Lemma post_startup_around env : adds around_sweep_event (Post.startup env).
Proof. adds_all; around_leaf. Qed.

Lemma load_created_snapshots_around file :
  adds around_sweep_event (Post.load_created_snapshots file).
Proof. adds_all; around_leaf. Qed.

Lemma cleanup_session_around self cleanup created :
  adds around_sweep_event (Post.cleanup_session self cleanup created).
Proof. adds_all; around_leaf. Qed.

(** A session that returns, with what surrounds its sweep. *)
Lemma session_around env b result c hnas w tr0 trF :
  Forall around_sweep_event tr0 ->
  Post.session env b result c hnas w tr0 = (Ok tt, trF) ->
  exists created tr3 tr4 d,
    fst (Post.load_created_snapshots (Post.snapshot_info_file env) w
           (tr0 ++ [Logged INFO "Backup job result: {}" [LVal (PStr result)]]))
    = Ok created
    /\ Forall around_sweep_event tr3
    /\ (if 0 <? Post.retention_days c
        then Post.retention_sweep hnas env c created
        else ret tt) w tr3 = (Ok tt, tr4)
    /\ trF = tr4 ++ d
    /\ Forall around_sweep_event d.
Proof.
  unfold Post.session. intros H0 H.
  apply bind_ok_inv in H as (u & tr1 & Hlog & H).
  unfold log, emit in Hlog. injection Hlog as _ <-.
  apply bind_ok_inv in H as (created & tr2 & Hload & H).
  cbv zeta in H.
  apply bind_ok_inv in H as (n & tr3 & Hclean & H).
  apply bind_ok_inv in H as ([] & tr4 & Hsweep & H).
  exists created, tr3, tr4.
  match type of H with
  | ?m w tr4 = _ =>
      assert (A : adds around_sweep_event m) by (adds_all; around_leaf);
      destruct (A w tr4) as [d [E F]]; rewrite H in E; simpl in E
  end.
  exists d. rewrite Hload. refine (conj eq_refl (conj _ (conj Hsweep (conj E F)))).
  pose proof (adds_run _ _ w tr2
                (cleanup_session_around hnas (Post.should_cleanup b c) created))
    as H3.
  rewrite Hclean in H3. apply H3.
  pose proof (adds_run _ _ w
                (tr0 ++ [Logged INFO "Backup job result: {}" [LVal (PStr result)]])
                (load_created_snapshots_around (Post.snapshot_info_file env)))
    as H2.
  rewrite Hload in H2. apply H2.
  apply Forall_app. split; [exact H0|]. repeat constructor.
Qed.

(** A run never starts the sweep when the window is not positive, nor
    when its start does not pass. *)
Lemma post_main_no_sweep env w days :
  PyStr.to_int (max_str_digits w) (environ_get env "HNAS_RETENTION_DAYS" "7")
  = Some days ->
  post_starts env w days && (0 <? days) = false ->
  sweep_started (snd (Post.main env w [])) = false.
Proof.
  intros Hdays Hno. rewrite post_main_run, post_startup_run, Hdays.
  unfold post_starts in Hno.
  destruct (Post.required_present _); cbn [negb andb] in *; [|reflexivity].
  cbv zeta in *.
  destruct (log_setup_ok w _ _); cbn [negb andb] in *; [|reflexivity].
  destruct (connected _); cbn [andb snd] in *; [|reflexivity].
  match goal with
  | |- sweep_started (snd (?m w ?t)) = false =>
      assert (A : adds (fun e => starts_sweep e = false) m)
        by (unfold Post.session; cbn [Post.retention_days post_config];
            rewrite Hno; adds_all; reflexivity);
      destruct (A w t) as [d [E F]]; rewrite E, sweep_started_app,
        (not_started d F)
  end.
  reflexivity.
Qed.

(** C5.  A post-backup run never starts the retention sweep when the
    retention window is not positive or when its start does not pass (a
    required setting is missing, the log cannot be set up, the probe
    fails).  When the clean-up of the session cannot raise (the decision
    is not to clean up, the manifest gave no entries, or every entry is an
    object), the sweep starts exactly when the start passes and the window
    is positive, whatever the outcome of the job, the clean-up policies
    and the manifest file.  In a run that ends normally the sweep starts
    exactly when the window is positive.  When the manifest supplied
    entries, the filesystems swept are those of the entries, each looked
    up by identifier, no label is scanned, and the virtual servers whose
    shares are listed are those the answers to these look-ups hold.
    Otherwise every reference of [HNAS_FILESYSTEMS] is looked up with the
    request its shape asks for (by identifier for 32 hexadecimal digits,
    by label scan for anything else), every identifier among the
    references is swept, and the filesystems swept and the virtual servers
    whose shares are listed are those the references and the answers to
    their look-ups give: an identifier itself with the virtual server of
    its document, any other reference the identifier and the virtual
    server of the listed filesystem with that label. *)
Theorem C5_retention_sweep_runs :
  forall (env : gmap string string) (w : world) (days : Z),
    PyStr.to_int (max_str_digits w) (environ_get env "HNAS_RETENTION_DAYS" "7")
    = Some days ->
    let run := Post.main env w [] in
    let entries := manifest_entries env w in
    let cleanup :=
      Post.should_cleanup (fst (Post.validate_backup_result env))
        (post_config env days) in
    (post_starts env w days && (0 <? days) = false ->
     sweep_started (snd run) = false)
    /\ (cleanup = false \/ Py.truthy entries = false
        \/ (exists items, entries = PList (List.map PDict items)) ->
        sweep_started (snd run) = post_starts env w days && (0 <? days))
    /\ (fst run = Ok tt -> sweep_started (snd run) = (0 <? days))
    /\ (fst run = Ok tt -> 0 < days -> Py.truthy entries = true ->
        exists items,
          Py.iterate entries = Ok items
          /\ Permutation (swept_filesystems (snd run)) (manifest_ids items)
          /\ Permutation (looked_up (snd run)) (manifest_ids items)
          /\ label_scans (snd run) = []
          /\ Permutation (viewed share_listing_of (snd run))
               (resolved_virtual_servers (lookup_answers w (snd run))))
    /\ (fst run = Ok tt -> 0 < days -> Py.truthy entries = false ->
        (forall r,
            In r (PyStr.split "," (environ_get env "HNAS_FILESYSTEMS" "")) ->
            PyStr.strip r <> "" ->
            In (lookup_request (PyStr.strip r)) (calls (snd run))
            /\ (looks_like_id (PyStr.strip r) = true ->
                In (PStr (PyStr.strip r)) (swept_filesystems (snd run))))
        /\ let targets :=
             fallback_targets
               (PyStr.split "," (environ_get env "HNAS_FILESYSTEMS" ""))
               (lookup_answers w (snd run)) ([], []) in
           Permutation (swept_filesystems (snd run)) (fst targets)
           /\ Permutation (viewed share_listing_of (snd run)) (snd targets)).
Proof.
  intros env w days Hdays run entries cleanup.
  split; [now apply post_main_no_sweep|].
  split; [now apply post_main_sweep_start|].
  assert (Hrun : fst run = Ok tt ->
            exists c hnas created tr3 tr4 d,
              Post.retention_days c = days
              /\ entries = created
              /\ Forall around_sweep_event tr3
              /\ (if 0 <? days
                  then Post.retention_sweep hnas env c created
                  else ret tt) w tr3 = (Ok tt, tr4)
              /\ snd run = tr4 ++ d
              /\ Forall around_sweep_event d).
  { intros Hok. subst run entries. clear cleanup. unfold manifest_entries.
    rewrite post_main_run in *.
    pose proof (adds_run _ _ w [] (post_startup_around env)
                  ltac:(constructor)) as Hout0.
    destruct (Post.startup env w []) as [[[[[b result] c] hnas]|e] tr0] eqn:Es;
      [|discriminate Hok].
    destruct (post_startup_ok env w [] b result c hnas tr0 Es) as (_ & <- & Hd).
    rewrite Hdays in Hd. injection Hd as Hd.
    cbn [snd] in Hout0 |- *.
    destruct (Post.session env b result c hnas w tr0) as [[[]|e] trF] eqn:Ess;
      [|discriminate Hok].
    destruct (session_around env b result c hnas w tr0 trF Hout0 Ess)
      as (created & tr3 & tr4 & d & Hload & H3 & Hsweep & -> & Hd').
    exists c, hnas, created, tr3, tr4, d.
    destruct (Post.load_created_snapshots _ w _) as [[x|x] t];
      cbn [fst] in Hload; [|discriminate Hload].
    injection Hload as ->. rewrite <- Hd in Hsweep.
    exact (conj (eq_sym Hd) (conj eq_refl (conj H3 (conj Hsweep
             (conj eq_refl Hd'))))). }
  refine (conj _ (conj _ _)).
  - intros Hok.
    destruct (Hrun Hok) as (c & hnas & created & tr3 & tr4 & d & Hc & _
                            & H3 & Hsweep & E & Hd).
    rewrite E.
    destruct (around_sweep_trace w tr3 H3) as (O3 & _ & _).
    destruct (around_sweep_trace w d Hd) as (Od & _ & _).
    destruct (outside_sweep_trace tr3 O3) as (N3 & _).
    destruct (outside_sweep_trace d Od) as (Nd & _).
    rewrite sweep_started_app, Nd, orb_false_r.
    destruct (0 <? days).
    + now apply retention_sweep_ok in Hsweep as (St & _).
    + now apply ret_ok_inv in Hsweep as [_ <-].
  - intros Hok Hpos Htruthy.
    destruct (Hrun Hok) as (c & hnas & created & tr3 & tr4 & d & Hc & He
                            & H3 & Hsweep & E & Hd).
    destruct (around_sweep_trace w tr3 H3) as (O3 & L3 & A3).
    destruct (around_sweep_trace w d Hd) as (Od & Ld & _).
    destruct (outside_sweep_trace tr3 O3) as (_ & S3 & K3 & G3).
    destruct (outside_sweep_trace d Od) as (_ & Sd & Kd & Gd).
    apply Z.ltb_lt in Hpos. rewrite Hpos in Hsweep.
    rewrite He in Htruthy |- *. rewrite E.
    pose proof Hsweep as Ht.
    apply retention_sweep_ok in Hsweep as (_ & _ & M & _).
    destruct (M Htruthy) as (items & Hi & Hs & Hl & Hg).
    apply retention_sweep_targets in Ht
      as (fss & vss & new & An & _ & Lv & Tm & _).
    exists items. unfold swept_filesystems, looked_up, label_scans.
    rewrite !viewed_app, Sd, Kd, Gd, Ld, !app_nil_r, Hs, Hl, Hg, S3, K3, G3.
    rewrite lookup_answers_app, (outside_sweep_answers_from w tr4 d Od),
      app_nil_r.
    rewrite Lv, L3, An, A3, (Tm Htruthy). cbn [app]. auto.
  - intros Hok Hpos Hfalsy.
    destruct (Hrun Hok) as (c & hnas & created & tr3 & tr4 & d & Hc & He
                            & H3 & Hsweep & E & Hd).
    destruct (around_sweep_trace w tr3 H3) as (O3 & L3 & A3).
    destruct (around_sweep_trace w d Hd) as (Od & Ld & _).
    destruct (outside_sweep_trace tr3 O3) as (_ & S3 & K3 & G3).
    destruct (outside_sweep_trace d Od) as (_ & Sd & Kd & Gd).
    apply Z.ltb_lt in Hpos. rewrite Hpos in Hsweep.
    rewrite He in Hfalsy.
    pose proof Hsweep as Ht.
    apply retention_sweep_ok in Hsweep as (_ & _ & _ & F).
    apply retention_sweep_targets in Ht
      as (fss & vss & new & An & Sv & Lv & _ & Te).
    rewrite E. unfold swept_filesystems.
    split.
    + intros r Hr Hne. destruct (F Hfalsy r Hr Hne) as [F1 F2]. split.
      * rewrite calls_app. apply in_or_app. now left.
      * intros Hid. specialize (F2 Hid). rewrite S3 in F2.
        rewrite viewed_app. apply in_or_app. now left.
    + rewrite !viewed_app, Sd, Ld, !app_nil_r, Sv, Lv, S3, L3.
      rewrite lookup_answers_app, (outside_sweep_answers_from w tr4 d Od),
        app_nil_r.
      rewrite An, A3. cbn [app]. rewrite <- (Te Hfalsy). cbn [fst snd]. auto.
Qed.

Lemma C5_retention_sweep_runs_witness :
  (sweep_started
     (snd (Post.main Examples.post_env
             (Examples.site [Examples.old_snapshot] [Examples.old_share]) []))
   = true
   /\ In (GetFilesystem (PStr Examples.id_alpha))
        (calls (snd (Post.main Examples.post_env
                       (Examples.site [Examples.old_snapshot]
                          [Examples.old_share]) [])))
   /\ In (PStr Examples.id_alpha)
        (swept_filesystems
           (snd (Post.main Examples.post_env
                   (Examples.site [Examples.old_snapshot]
                      [Examples.old_share]) [])))
   /\ In GetFilesystems
        (calls (snd (Post.main Examples.post_env
                       (Examples.site [Examples.old_snapshot]
                          [Examples.old_share]) [])))
   /\ Permutation
        (swept_filesystems
           (snd (Post.main Examples.post_env
                   (Examples.site [Examples.old_snapshot]
                      [Examples.old_share]) [])))
        [PStr Examples.id_alpha; PStr Examples.id_beta]
   /\ Permutation
        (viewed share_listing_of
           (snd (Post.main Examples.post_env
                   (Examples.site [Examples.old_snapshot]
                      [Examples.old_share]) [])))
        [PStr "vs-1"])
  /\ (Permutation
        (swept_filesystems
           (snd (Post.main Examples.post_env_cleanup
                   (Examples.with_manifest Examples.manifest
                      (Examples.site [] [])) [])))
        [PStr Examples.id_alpha; PStr Examples.id_beta]
      /\ Permutation
           (looked_up
              (snd (Post.main Examples.post_env_cleanup
                      (Examples.with_manifest Examples.manifest
                         (Examples.site [] [])) [])))
           [PStr Examples.id_alpha; PStr Examples.id_beta]
      /\ label_scans
           (snd (Post.main Examples.post_env_cleanup
                   (Examples.with_manifest Examples.manifest
                      (Examples.site [] [])) [])) = []
      /\ Permutation
           (viewed share_listing_of
              (snd (Post.main Examples.post_env_cleanup
                      (Examples.with_manifest Examples.manifest
                         (Examples.site [] [])) [])))
           [PStr "vs-1"])
  /\ sweep_started (snd (Post.main Examples.post_env Examples.unreachable []))
     = false.
Proof.
  refine (conj _ (conj _ _)).
  - destruct (C5_retention_sweep_runs Examples.post_env
                (Examples.site [Examples.old_snapshot] [Examples.old_share]) 7)
      as (_ & H2 & _ & _ & H5); [vm_compute; reflexivity |].
    assert (Hok : fst (Post.main Examples.post_env
                         (Examples.site [Examples.old_snapshot]
                            [Examples.old_share]) []) = Ok tt)
      by (vm_compute; reflexivity).
    assert (Hpos : 0 < 7) by lia.
    assert (Hnone : Py.truthy
                      (manifest_entries Examples.post_env
                         (Examples.site [Examples.old_snapshot]
                            [Examples.old_share])) = false)
      by (vm_compute; reflexivity).
    destruct (H5 Hok Hpos Hnone) as (Hr & Hs & Hv).
    destruct (Hr " 0123456789abcdef0123456789ABCDEF ")
      as [Ha Hb]; [vm_compute; auto | vm_compute; discriminate |].
    destruct (Hr "fs-beta")
      as [Hc _]; [vm_compute; auto | vm_compute; discriminate |].
    assert (E : fallback_targets
                  (PyStr.split ","
                     (environ_get Examples.post_env "HNAS_FILESYSTEMS" ""))
                  (lookup_answers
                     (Examples.site [Examples.old_snapshot] [Examples.old_share])
                     (snd (Post.main Examples.post_env
                             (Examples.site [Examples.old_snapshot]
                                [Examples.old_share]) [])))
                  ([], [])
                = ([PStr Examples.id_alpha; PStr Examples.id_beta],
                   [PStr "vs-1"]))
      by (vm_compute; reflexivity).
    rewrite E in Hs, Hv.
    refine (conj _ (conj Ha (conj (Hb eq_refl) (conj Hc (conj Hs Hv))))).
    rewrite H2; [vm_compute; reflexivity | left; vm_compute; reflexivity].
  - destruct (C5_retention_sweep_runs Examples.post_env_cleanup
                (Examples.with_manifest Examples.manifest (Examples.site [] []))
                7)
      as (_ & _ & _ & H4 & _); [vm_compute; reflexivity |].
    destruct H4 as (items & Hi & Hs & Hl & Hg & Hv);
      [vm_compute; reflexivity | lia | vm_compute; reflexivity |].
    assert (Ei : items = [Examples.entry "fs-alpha" Examples.id_alpha;
                          Examples.entry "fs-beta" Examples.id_beta]).
    { assert (Hi' : Py.iterate
                      (manifest_entries Examples.post_env_cleanup
                         (Examples.with_manifest Examples.manifest
                            (Examples.site [] [])))
                    = Ok [Examples.entry "fs-alpha" Examples.id_alpha;
                          Examples.entry "fs-beta" Examples.id_beta])
        by (vm_compute; reflexivity).
      rewrite Hi' in Hi. now injection Hi as <-. }
    subst items.
    assert (Ev : resolved_virtual_servers
                   (lookup_answers
                      (Examples.with_manifest Examples.manifest
                         (Examples.site [] []))
                      (snd (Post.main Examples.post_env_cleanup
                              (Examples.with_manifest Examples.manifest
                                 (Examples.site [] [])) [])))
                 = [PStr "vs-1"])
      by (vm_compute; reflexivity).
    rewrite Ev in Hv.
    exact (conj Hs (conj Hl (conj Hg Hv))).
  - apply (proj1 (C5_retention_sweep_runs Examples.post_env
                    Examples.unreachable 7 ltac:(vm_compute; reflexivity))).
    vm_compute. reflexivity.
Defined.

(** C5 as stated fails in two ways.  With a window of 7 days the sweep does
    not start on an array that cannot be reached: the run exits with
    status 1 after the probe.  And with a manifest whose entries are no
    objects the start of the sweep depends on the decision to clean up:
    after a successful job that cleans up on success the clean-up of the
    session raises [AttributeError] before the sweep, after a failed job
    that retains on failure the sweep starts. *)
Lemma C5_counterexample :
  (PyStr.to_int 4300 (environ_get Examples.post_env "HNAS_RETENTION_DAYS" "7")
   = Some 7
   /\ Post.main Examples.post_env Examples.unreachable []
      = (Raise (SystemExit 1),
         [SetupLogging "hnas_post_backup" (log_dir Examples.post_env);
          Called (probe Examples.post_env);
          Logged ERROR "Failed to connect to HNAS: {}" [LExn RequestException];
          Printed
            "ERROR: Failed to connect to HNAS. Check credentials and network connectivity."
            []])
   /\ sweep_started (snd (Post.main Examples.post_env Examples.unreachable []))
      = false)
  /\ (PyStr.to_int 4300
        (environ_get Examples.post_env_cleanup "HNAS_RETENTION_DAYS" "7")
      = Some 7
      /\ manifest_entries Examples.post_env_cleanup
           (Examples.with_manifest manifest_of_strings (Examples.site [] []))
         = PList [PStr "x"]
      /\ Post.should_cleanup
           (fst (Post.validate_backup_result Examples.post_env_cleanup))
           (post_config Examples.post_env_cleanup 7) = true
      /\ fst (Post.main Examples.post_env_cleanup
                (Examples.with_manifest manifest_of_strings
                   (Examples.site [] [])) [])
         = Raise AttributeError
      /\ sweep_started
           (snd (Post.main Examples.post_env_cleanup
                   (Examples.with_manifest manifest_of_strings
                      (Examples.site [] [])) []))
         = false
      /\ Post.should_cleanup
           (fst (Post.validate_backup_result Examples.post_env))
           (post_config Examples.post_env 7) = false
      /\ sweep_started
           (snd (Post.main Examples.post_env
                   (Examples.with_manifest manifest_of_strings
                      (Examples.site [] [])) []))
         = true).
Proof.
  split.
  - refine (conj _ (conj _ _)); vm_compute; reflexivity.
  - refine (conj _ (conj _ (conj _ (conj _ (conj _ (conj _ _))))));
      vm_compute; reflexivity.
Qed.
